(** * sundialy: SPA, SAMPA, SOLPOS and Bird over IEEE binary64

    A shallow embedding of [sundialy/tools/{spa,sampa,solpos,bird}.py] and of
    the computing methods of the class [Horizontal] of
    [sundialy/analemmatic.py].
    Python floats are IEEE-754 binary64 values, modelled by Rocq's primitive
    floats: [+ - * /], comparisons and [sqrt] are the very operations the
    interpreter performs.  Python exceptions are values of [exn] carried by
    an error monad.  The C library's elementary functions, which Python's
    [math] module wraps, are an interface ([Libm]); the wrappers' domain
    checks (the [ValueError] of [math.acos] and friends) are modelled on
    top of it. *)

From Stdlib Require Import ZArith Bool List Lia Floats String.
Import ListNotations.

Set Warnings "-inexact-float".

Local Open Scope float_scope.

(** ** Exceptions and the error monad *)

Inductive exn : Type :=
| ValueError
| ZeroDivisionError
| OverflowError
| TypeError
| IndexError
| OutOfFuel.  (* not a Python exception: a loop of the model ran out of fuel *)

Inductive result (A : Type) : Type :=
| Ok (a : A)
| Raise (e : exn).
Arguments Ok {A} a.
Arguments Raise {A} e.

Definition bind {A B : Type} (m : result A) (k : A -> result B) : result B :=
  match m with
  | Ok a => k a
  | Raise e => Raise e
  end.

Notation "x <- m ;; k" := (bind m (fun x => k))
  (at level 61, m at next level, right associativity).
Notation "' p <- m ;; k" := (bind m (fun x => match x with p => k end))
  (at level 61, p pattern, m at next level, right associativity).

Definition returns {A : Type} (m : result A) : bool :=
  match m with Ok _ => true | Raise _ => false end.

(** ** Python's numeric operations on floats *)

(** [float(n)] for a Python int: round to nearest even. *)
Definition of_Z (n : Z) : float := SF2Prim (binary_normalize prec emax n 0 false).

(** The integer [m * 2^e] truncated toward zero, for [m > 0]. *)
Definition shift_trunc (m : positive) (e : Z) : Z :=
  if (0 <=? e)%Z then Z.shiftl (Zpos m) e else Z.shiftr (Zpos m) (- e).

(** [int(x)]: truncation toward zero. *)
Definition py_int (x : float) : result Z :=
  match Prim2SF x with
  | S754_zero _ => Ok 0%Z
  | S754_finite s m e => Ok (if s then (- shift_trunc m e)%Z else shift_trunc m e)
  | S754_infinity _ => Raise OverflowError
  | S754_nan => Raise ValueError
  end.

(** The integer [ceil (m * 2^e)], for [m > 0]. *)
Definition shift_ceil (m : positive) (e : Z) : Z :=
  if (0 <=? e)%Z then Z.shiftl (Zpos m) e
  else (- Z.shiftr (- Zpos m) (- e))%Z.

(** [math.floor(x)]: the mathematical floor. *)
Definition py_floor (x : float) : result Z :=
  match Prim2SF x with
  | S754_zero _ => Ok 0%Z
  | S754_finite s m e => Ok (if s then (- shift_ceil m e)%Z else shift_trunc m e)
  | S754_infinity _ => Raise OverflowError
  | S754_nan => Raise ValueError
  end.

(** C's [fmod]: exact remainder with the sign of the dividend. *)
Definition fmod (x y : float) : float :=
  match Prim2SF x, Prim2SF y with
  | S754_nan, _ | _, S754_nan => nan
  | S754_infinity _, _ | _, S754_zero _ => nan
  | S754_zero _, _ => x
  | S754_finite _ _ _, S754_infinity _ => x
  | S754_finite sx mx ex, S754_finite _ my ey =>
      let e := Z.min ex ey in
      let r := ((Zpos mx * 2 ^ (ex - e)) mod (Zpos my * 2 ^ (ey - e)))%Z in
      if (r =? 0)%Z then (if sx then (-0) else 0)
      else SF2Prim (binary_normalize prec emax (if sx then (- r)%Z else r) e false)
  end.

(** [x % y] on floats ([float_rem] of CPython): the remainder takes the sign
    of the divisor. *)
Definition py_mod (x y : float) : result float :=
  if y =? 0 then Raise ZeroDivisionError
  else
    let m := fmod x y in
    if m =? 0 then Ok (if y <? 0 then (-0) else 0)
    else if is_nan m then Ok m
    else if xorb (y <? 0) (m <? 0) then Ok (m + y) else Ok m.

(** [x / y] on floats. *)
Definition py_div (x y : float) : result float :=
  if y =? 0 then Raise ZeroDivisionError else Ok (x / y).

(** [math.pi], [math.radians], [math.degrees]. *)
Definition pi : float := 3.141592653589793.
Definition radians (x : float) : float := x * (pi / 180).
Definition degrees (x : float) : float := x * (180 / pi).

(** [sum(xs)] of a list of floats: left to right from the int [0], each
    addition rounded, as CPython adds floats up to version 3.11 (later
    versions carry a compensation term; the results agree to a few units in
    the last place). *)
Definition fsum (xs : list float) : float := fold_left add xs 0.

(** [round(x, 3)] as an integer number of thousandths: the exact value of [x]
    times 1000, rounded half to even. *)
Definition round_half_even (num den : Z) : Z :=
  let q := (num / den)%Z in
  let r := (num mod den)%Z in
  if (2 * r <? den)%Z then q
  else if (den <? 2 * r)%Z then (q + 1)%Z
  else if Z.even q then q else (q + 1)%Z.

Definition round3 (x : float) : option Z :=
  match Prim2SF x with
  | S754_zero _ => Some 0%Z
  | S754_finite s m e =>
      let v := if (0 <=? e)%Z then round_half_even (Zpos m * 2 ^ e * 1000) 1
               else round_half_even (Zpos m * 1000) (2 ^ (- e)) in
      Some (if s then (- v)%Z else v)
  | _ => None
  end.

(** [x == floor(x)] for a finite float. *)
Definition is_integral (x : float) : bool :=
  match Prim2SF x with
  | S754_zero _ => true
  | S754_finite _ m e => (0 <=? e)%Z || (Zpos m mod 2 ^ (- e) =? 0)%Z
  | _ => false
  end.

(** [DOUBLE_IS_ODD_INTEGER(x)] of [floatobject.c]: [fmod(fabs(x), 2.0) == 1.0]. *)
Definition is_odd_integer (x : float) : bool := fmod (abs x) 2 =? 1.

(** ** Python's complex numbers

    A negative float raised to a fractional power is a complex number, and
    arithmetic with a complex operand is complex: the float operand is
    converted to a complex number with the imaginary part [0.0]
    ([complexobject.c], up to Python 3.13).  A complex number is a pair of
    floats, as [Py_complex] is. *)

Inductive number : Type :=
| Real (x : float)
| Complex (re im : float).

Definition to_complex (n : number) : float * float :=
  match n with
  | Real x => (x, 0)
  | Complex re im => (re, im)
  end.

Definition of_complex (p : float * float) : number := Complex (fst p) (snd p).

Definition _Py_c_sum (a b : float * float) : float * float :=
  (fst a + fst b, snd a + snd b).

Definition _Py_c_diff (a b : float * float) : float * float :=
  (fst a - fst b, snd a - snd b).

Definition _Py_c_neg (a : float * float) : float * float :=
  (- fst a, - snd a).

Definition _Py_c_prod (a b : float * float) : float * float :=
  (fst a * fst b - snd a * snd b, fst a * snd b + snd a * fst b).

(** [_Py_c_quot]; [None] stands for [errno = EDOM], which the callers turn
    into a [ZeroDivisionError]. *)
Definition _Py_c_quot (a b : float * float) : option (float * float) :=
  let abs_breal := if fst b <? 0 then - fst b else fst b in
  let abs_bimag := if snd b <? 0 then - snd b else snd b in
  if abs_bimag <=? abs_breal then
    if abs_breal =? 0 then None
    else
      let ratio := snd b / fst b in
      let denom := fst b + snd b * ratio in
      Some ((fst a + snd a * ratio) / denom, (snd a - fst a * ratio) / denom)
  else if abs_breal <=? abs_bimag then
    let ratio := fst b / snd b in
    let denom := fst b * ratio + snd b in
    Some ((fst a * ratio + snd a) / denom, (snd a * ratio - fst a) / denom)
  else Some (nan, nan).

(** [-a], [a + b], [a - b], [a * b] and [a / b] on numbers: the float
    operation on two floats, the complex one otherwise. *)
Definition n_neg (a : number) : number :=
  match a with
  | Real x => Real (- x)
  | Complex _ _ => of_complex (_Py_c_neg (to_complex a))
  end.

Definition n_add (a b : number) : number :=
  match a, b with
  | Real x, Real y => Real (x + y)
  | _, _ => of_complex (_Py_c_sum (to_complex a) (to_complex b))
  end.

Definition n_sub (a b : number) : number :=
  match a, b with
  | Real x, Real y => Real (x - y)
  | _, _ => of_complex (_Py_c_diff (to_complex a) (to_complex b))
  end.

Definition n_mul (a b : number) : number :=
  match a, b with
  | Real x, Real y => Real (x * y)
  | _, _ => of_complex (_Py_c_prod (to_complex a) (to_complex b))
  end.

Definition n_div (a b : number) : result number :=
  match a, b with
  | Real x, Real y => q <- py_div x y ;; Ok (Real q)
  | _, _ =>
      match _Py_c_quot (to_complex a) (to_complex b) with
      | Some q => Ok (of_complex q)
      | None => Raise ZeroDivisionError
      end
  end.

(** A number where Python wants a float, in [math.exp(x)] and in the order
    comparison [x < 0]: a complex number is a [TypeError]. *)
Definition n_float (a : number) : result float :=
  match a with
  | Real x => Ok x
  | Complex _ _ => Raise TypeError
  end.

Declare Scope number_scope.
Delimit Scope number_scope with num.
Bind Scope number_scope with number.
Notation "- a" := (n_neg a) : number_scope.
Notation "a + b" := (n_add a b) : number_scope.
Notation "a - b" := (n_sub a b) : number_scope.
Notation "a * b" := (n_mul a b) : number_scope.

(** ** The C library behind Python's [math] module *)

Class Libm : Type := {
  c_sin : float -> float;
  c_cos : float -> float;
  c_tan : float -> float;
  c_asin : float -> float;
  c_acos : float -> float;
  c_atan : float -> float;
  c_atan2 : float -> float -> float;
  c_exp : float -> float;
  c_pow : float -> float -> float
}.

Section Math.
Context {L : Libm}.

(** The wrappers of [mathmodule.c]: a NaN result on a non-NaN argument is a
    [ValueError], an infinite result on a finite argument an [OverflowError]. *)
Definition math_sin (x : float) : result float :=
  if is_infinity x then Raise ValueError else Ok (c_sin x).
Definition math_cos (x : float) : result float :=
  if is_infinity x then Raise ValueError else Ok (c_cos x).
Definition math_tan (x : float) : result float :=
  if is_infinity x then Raise ValueError else Ok (c_tan x).
Definition math_asin (x : float) : result float :=
  if is_nan x then Ok x
  else if abs x <=? 1 then Ok (c_asin x) else Raise ValueError.
Definition math_acos (x : float) : result float :=
  if is_nan x then Ok x
  else if abs x <=? 1 then Ok (c_acos x) else Raise ValueError.
Definition math_atan (x : float) : result float := Ok (c_atan x).
Definition math_atan2 (y x : float) : result float := Ok (c_atan2 y x).
Definition math_sqrt (x : float) : result float :=
  if is_nan x then Ok x
  else if x <? 0 then Raise ValueError else Ok (sqrt x).
Definition math_exp (x : float) : result float :=
  let r := c_exp x in
  if is_infinity r && is_finite x then Raise OverflowError else Ok r.

(** [x ** y] and [pow(x, y)] on floats: [float_pow] of [floatobject.c], its
    special cases in their order.  A finite negative base with a fractional
    exponent is handed to the complex power, [_Py_c_pow] on [(x, 0.0)] and
    [(y, 0.0)], whose overflow is an [OverflowError]. *)
Definition float_pow (x y : float) : result number :=
  if y =? 0 then Ok (Real 1)
  else if is_nan x then Ok (Real x)
  else if is_nan y then Ok (Real (if x =? 1 then 1 else y))
  else if is_infinity y then
    let v := abs x in
    if v =? 1 then Ok (Real 1)
    else if Bool.eqb (0 <? y) (1 <? v) then Ok (Real (abs y))
    else Ok (Real 0)
  else if is_infinity x then
    if 0 <? y then Ok (Real (if is_odd_integer y then x else abs x))
    else Ok (Real (if is_odd_integer y then (if x <? 0 then (-0) else 0) else 0))
  else if x =? 0 then
    if y <? 0 then Raise ZeroDivisionError
    else Ok (Real (if is_odd_integer y then x else 0))
  else if (x <? 0) && negb (is_integral y) then
    let len := c_pow (abs x) y in
    let phase := c_atan2 0 x * y in
    let re := len * c_cos phase in
    let im := len * c_sin phase in
    if is_infinity re || is_infinity im then Raise OverflowError
    else Ok (Complex re im)
  else
    let negate_result := (x <? 0) && is_odd_integer y in
    let v := if x <? 0 then - x else x in
    if v =? 1 then Ok (Real (if negate_result then (-1) else 1))
    else
      let ix := c_pow v y in
      if is_infinity ix then Raise OverflowError
      else Ok (Real (if negate_result then - ix else ix)).

(** [x ** y] where the source goes on with a float: the exponent is an
    integer or the base is not negative, and [float_pow] answers a float
    ([float_pow_real]). *)
Definition py_pow (x y : float) : result float :=
  n <- float_pow x y ;; n_float n.

(** [a ** -1] on numbers: [float_pow], or [complex_pow] with the small
    integer exponent -1, [c_powi(a, -1) = _Py_c_quot(c_1, _Py_c_prod(c_1, a))],
    whose [EDOM] is a [ZeroDivisionError] and whose overflow an
    [OverflowError]. *)
Definition n_reciprocal (a : number) : result number :=
  match a with
  | Real x => float_pow x (-1)
  | Complex re im =>
      match _Py_c_quot (1, 0) (_Py_c_prod (1, 0) (re, im)) with
      | None => Raise ZeroDivisionError
      | Some q =>
          if is_infinity (fst q) || is_infinity (snd q) then Raise OverflowError
          else Ok (of_complex q)
      end
  end.

(** [math.exp(a)] on a number. *)
Definition n_exp (a : number) : result float :=
  x <- n_float a ;; math_exp x.

(** The compositions the sources spell [math.sin(math.radians(x))] etc. *)
Definition sind (x : float) : result float := math_sin (radians x).
Definition cosd (x : float) : result float := math_cos (radians x).
Definition tand (x : float) : result float := math_tan (radians x).

End Math.

(** ** A concrete C library

    Argument reduction followed by a truncated power series, evaluated in
    binary64.  For arguments of the size met in these algorithms (angles in
    radians below about 1e7 in magnitude) each function is within a few units
    in the last place of the exact value, which is what the C standard leaves
    to a library.  For larger arguments the three-part reduction of
    [rem_pio2] loses accuracy, and beyond [2^51] its nearest integer is no
    longer one: there the model is still a function from floats to floats,
    but not a good sine or cosine.  It stands for one possible library, and
    the theorems that hold for every library are stated over the class
    [Libm]. *)

Module LibmModel.

(** Nearest integer of [x] for [|x| < 2^51]. *)
Definition rint (x : float) : float := (x + 6755399441055744) - 6755399441055744.

Definition pio2_1 : float := 0x1.921fb54000000p+0.
Definition pio2_2 : float := 0x1.10b4611800000p-30.
Definition pio2_3 : float := 0x1.313198a2e0370p-61.
Definition two_over_pi : float := 0x1.45f306dc9c883p-1.
Definition pio2 : float := 0x1.921fb54442d18p+0.

(** [horner x2 ds] is [1 - x2/d1 * (1 - x2/d2 * (...))]. *)
Fixpoint horner (x2 : float) (ds : list float) : float :=
  match ds with
  | [] => 1
  | d :: ds' => 1 - x2 / d * horner x2 ds'
  end.

Definition kernel_sin (r : float) : float :=
  r * horner (r * r) [6; 20; 42; 72; 110; 156; 210; 272; 342; 420].
Definition kernel_cos (r : float) : float :=
  horner (r * r) [2; 12; 30; 56; 90; 132; 182; 240; 306; 380; 462].

(** Quadrant and reduced argument, [x = k * pi/2 + r] with [|r| <= pi/4]. *)
Definition rem_pio2 (x : float) : Z * float :=
  let k := rint (x * two_over_pi) in
  let r := ((x - k * pio2_1) - k * pio2_2) - k * pio2_3 in
  let q := match Prim2SF k with
           | S754_finite s m e =>
               let n := shift_trunc m e in ((if s then - n else n) mod 4)%Z
           | _ => 0%Z
           end in
  (q, r).

Definition sin (x : float) : float :=
  if is_nan x || is_infinity x then nan
  else if abs x <? 0x1p-26 then x
  else
    let '(q, r) := rem_pio2 x in
    match q with
    | 0%Z => kernel_sin r
    | 1%Z => kernel_cos r
    | 2%Z => - kernel_sin r
    | _ => - kernel_cos r
    end.

Definition cos (x : float) : float :=
  if is_nan x || is_infinity x then nan
  else
    let '(q, r) := rem_pio2 x in
    match q with
    | 0%Z => kernel_cos r
    | 1%Z => - kernel_sin r
    | 2%Z => - kernel_cos r
    | _ => kernel_sin r
    end.

Definition tan (x : float) : float :=
  if is_nan x || is_infinity x then nan
  else if abs x <? 0x1p-26 then x
  else
    let '(q, r) := rem_pio2 x in
    if Z.even q then kernel_sin r / kernel_cos r
    else - (kernel_cos r / kernel_sin r).

(** [atan (i/8)] for [i = 0..8]. *)
Definition atan_tab (i : Z) : float :=
  match i with
  | 0%Z => 0
  | 1%Z => 0.12435499454676144
  | 2%Z => 0.24497866312686414
  | 3%Z => 0.35877067027057225
  | 4%Z => 0.4636476090008061
  | 5%Z => 0.5585993153435624
  | 6%Z => 0.6435011087932844
  | 7%Z => 0.7188299996216245
  | _ => 0.7853981633974483
  end.

(** [t - t^3/3 + t^5/5 - ...] up to [t^17]. *)
Definition atan_series (t : float) : float :=
  let z := t * t in
  t * (1 - z * (1/3 - z * (1/5 - z * (1/7 - z * (1/9 - z * (1/11 - z *
       (1/13 - z * (1/15 - z * (1/17))))))))).

(** [atan x] for [0 <= x <= 1]. *)
Definition atan01 (x : float) : float :=
  if x <? 0x1p-27 then x
  else
    let k := rint (x * 8) in
    let c := k / 8 in
    let t := (x - c) / (1 + x * c) in
    let i := match Prim2SF k with
             | S754_finite _ m e => shift_trunc m e
             | _ => 0%Z
             end in
    atan_tab i + atan_series t.

Definition atan_pos (x : float) : float :=
  if x <=? 1 then atan01 x
  else if is_infinity x then pio2
  else pio2 - atan01 (1 / x).

Definition atan (x : float) : float :=
  if is_nan x then nan
  else if x <? 0 then - atan_pos (- x)
  else if x =? 0 then x
  else atan_pos x.

Definition sign_bit (x : float) : bool :=
  match Prim2SF x with
  | S754_zero s | S754_infinity s | S754_finite s _ _ => s
  | S754_nan => false
  end.

Definition atan2 (y x : float) : float :=
  if is_nan x || is_nan y then nan
  else if x =? 0 then
    if y =? 0 then
      (if sign_bit x then (if sign_bit y then - pi else pi) else y)
    else if y <? 0 then - pio2 else pio2
  else if is_infinity x && is_infinity y then
    (let a := if sign_bit x then 3 * (pio2 / 2) else pio2 / 2 in
     if sign_bit y then - a else a)
  else if 0 <? x then atan (y / x)
  else if sign_bit y then atan (y / x) - pi
  else atan (y / x) + pi.

Definition asin (x : float) : float :=
  if abs x <=? 1 then atan2 x (sqrt ((1 - x) * (1 + x))) else nan.
Definition acos (x : float) : float :=
  if abs x <=? 1 then atan2 (sqrt ((1 - x) * (1 + x))) x else nan.

Definition ln2_hi : float := 0.6931471796706319.
Definition ln2_lo : float := 8.893134238886677e-10.
Definition inv_ln2 : float := 1.4426950408889634.
Definition ln2 : float := 0.6931471805599453.

(** [1 + r/1 * (1 + r/2 * (1 + r/3 * ...))]. *)
Fixpoint exp_series (r : float) (ds : list float) : float :=
  match ds with
  | [] => 1
  | d :: ds' => 1 + r / d * exp_series r ds'
  end.

Definition exp (x : float) : float :=
  if is_nan x then nan
  else if 710 <? x then infinity
  else if x <? (-746) then 0
  else
    let k := rint (x * inv_ln2) in
    let r := (x - k * ln2_hi) - k * ln2_lo in
    let e := match Prim2SF k with
             | S754_finite s m e =>
                 let n := shift_trunc m e in if s then (- n)%Z else n
             | _ => 0%Z
             end in
    Z.ldexp (exp_series r [1; 2; 3; 4; 5; 6; 7; 8; 9; 10; 11; 12; 13; 14; 15]) e.

(** [2 * (s + s^3/3 + s^5/5 + ...)] up to [s^25]. *)
Definition atanh_series (s : float) : float :=
  let z := s * s in
  2 * s * (1 + z * (1/3 + z * (1/5 + z * (1/7 + z * (1/9 + z * (1/11 + z *
       (1/13 + z * (1/15 + z * (1/17 + z * (1/19 + z * (1/21 + z *
       (1/23 + z * (1/25))))))))))))).

(** Natural logarithm of a positive finite float. *)
Definition log (x : float) : float :=
  let '(f, e) := Z.frexp x in
  let '(f, e) := if f <? 0.7071067811865476 then (2 * f, (e - 1)%Z) else (f, e) in
  of_Z e * ln2 + atanh_series ((f - 1) / (f + 1)).

(** [x^n] for a small natural [n], by repeated multiplication. *)
Fixpoint powi (x : float) (n : nat) : float :=
  match n with
  | O => 1
  | S O => x
  | S n' => powi x n' * x
  end.

Definition pow (x y : float) : float :=
  if is_nan x || is_nan y then nan
  else if is_integral y && (abs y <=? 16) then
    (let n := match Prim2SF (abs y) with
              | S754_finite _ m e => Z.to_nat (shift_trunc m e)
              | _ => O
              end in
     if y <? 0 then 1 / powi x n else powi x n)
  else if x =? 0 then (if y <? 0 then infinity else 0)
  else if x <? 0 then nan
  else exp (y * log x).

End LibmModel.

#[export] Instance libm_model : Libm := {|
  c_sin := LibmModel.sin;
  c_cos := LibmModel.cos;
  c_tan := LibmModel.tan;
  c_asin := LibmModel.asin;
  c_acos := LibmModel.acos;
  c_atan := LibmModel.atan;
  c_atan2 := LibmModel.atan2;
  c_exp := LibmModel.exp;
  c_pow := LibmModel.pow
|}.

(** ** [datetime] and [timedelta]

    The part of Python's [datetime] module that [spa] uses: construction of a
    date at midnight, subtraction of a [timedelta], and the fields of the
    result.  A moment is a day ordinal (1 = 0001-01-01, proleptic Gregorian)
    and a number of microseconds within the day. *)

Definition is_leap (y : Z) : bool :=
  ((y mod 4 =? 0) && (negb (y mod 100 =? 0) || (y mod 400 =? 0)))%Z.

Definition days_in_month (y m : Z) : Z :=
  match m with
  | 2%Z => if is_leap y then 29%Z else 28%Z
  | 4%Z | 6%Z | 9%Z | 11%Z => 30%Z
  | _ => 31%Z
  end.

Definition days_before_year (y : Z) : Z :=
  let p := (y - 1)%Z in (p * 365 + p / 4 - p / 100 + p / 400)%Z.

Fixpoint days_before_month_aux (y : Z) (n : nat) : Z :=
  match n with
  | O => 0%Z
  | S k => (days_before_month_aux y k + days_in_month y (Z.of_nat (S k)))%Z
  end.

Definition days_before_month (y m : Z) : Z :=
  days_before_month_aux y (Z.to_nat (m - 1)).

Definition MINYEAR : Z := 1.
Definition MAXYEAR : Z := 9999.

(** The values of a C [int]. *)
Definition c_int (n : Z) : bool := ((-2147483648 <=? n) && (n <=? 2147483647))%Z.

(** [datetime(year, month, day).toordinal()], with the constructor's checks:
    the C implementation of the module converts each argument to a C [int],
    an [OverflowError] when it does not fit, before it checks the ranges. *)
Definition ymd2ord (y m d : Z) : result Z :=
  if negb (c_int y && c_int m && c_int d) then Raise OverflowError
  else if (negb ((MINYEAR <=? y) && (y <=? MAXYEAR)))%Z then Raise ValueError
  else if (negb ((1 <=? m) && (m <=? 12)))%Z then Raise ValueError
  else if (negb ((1 <=? d) && (d <=? days_in_month y m)))%Z then Raise ValueError
  else Ok (days_before_year y + days_before_month y m + d)%Z.

Definition max_ordinal : Z := 3652059.

Fixpoint find_month (y : Z) (rem : Z) (m : Z) (fuel : nat) : Z * Z :=
  match fuel with
  | O => (m, rem)
  | S k =>
      let dim := days_in_month y m in
      if (rem <? dim)%Z then (m, rem) else find_month y (rem - dim)%Z (m + 1)%Z k
  end.

(** [ord2ymd]: year, month and day of an ordinal. *)
Definition ord2ymd (n : Z) : Z * Z * Z :=
  let n0 := (n - 1)%Z in
  let n400 := (n0 / 146097)%Z in
  let r400 := (n0 mod 146097)%Z in
  let n100 := (r400 / 36524)%Z in
  let r100 := (r400 mod 36524)%Z in
  let n4 := (r100 / 1461)%Z in
  let r4 := (r100 mod 1461)%Z in
  let n1 := (r4 / 365)%Z in
  let r1 := (r4 mod 365)%Z in
  let y := (n400 * 400 + n100 * 100 + n4 * 4 + n1 + 1)%Z in
  if ((n1 =? 4) || (n100 =? 4))%Z then ((y - 1)%Z, 12%Z, 31%Z)
  else
    let '(m, d) := find_month y r1 1%Z 12 in
    (y, m, (d + 1)%Z).

Definition us_per_day : Z := 86400000000.

(** A [timedelta] holds at most 999999999 days either way, an
    [OverflowError] otherwise. *)
Definition timedelta_days_ok (us : Z) : bool :=
  ((-999999999 <=? us / us_per_day) && (us / us_per_day <=? 999999999))%Z.

(** [timedelta(seconds=dt)] in microseconds: the whole seconds, plus the
    fraction's microseconds rounded half to even. *)
Definition timedelta_seconds (dt : float) : result Z :=
  whole <- py_int dt ;;
  let frac := (dt - of_Z whole) * 1000000 in
  total <-
    match Prim2SF frac with
    | S754_zero _ => Ok (whole * 1000000)%Z
    | S754_finite s m e =>
        let us := if (0 <=? e)%Z then Z.shiftl (Zpos m) e
                  else round_half_even (Zpos m) (2 ^ (- e)) in
        Ok (whole * 1000000 + (if s then - us else us))%Z
    | _ => Raise ValueError
    end ;;
  if timedelta_days_ok total then Ok total else Raise OverflowError.

Record datetime : Type := {
  dt_year : Z; dt_month : Z; dt_day : Z;
  dt_hour : Z; dt_minute : Z; dt_second : Z; dt_microsecond : Z
}.

(** The ordinals of the dates from 0001-01-01 to 9999-12-31; a sum or a
    difference of a [datetime] and a [timedelta] outside them is an
    [OverflowError]. *)
Definition date_in_range (o : Z) : bool := ((1 <=? o) && (o <=? max_ordinal))%Z.

(** [datetime(year, month, day) + timedelta(days=days) - timedelta(seconds=dt)],
    from left to right: the date, its shift by [days] and the range check of
    that, then [timedelta(seconds=dt)], the subtraction and its range check.
    With [days = 0] the source has no first shift, and the first check
    passes. *)
Definition datetime_shift (y m d : Z) (days : Z) (dt : float) : result datetime :=
  o <- ymd2ord y m d ;;
  if negb (date_in_range (o + days)) then Raise OverflowError
  else
    us <- timedelta_seconds dt ;;
    let t := ((o + days) * us_per_day - us)%Z in
    let o' := (t / us_per_day)%Z in
    let r := (t mod us_per_day)%Z in
    if negb (date_in_range o') then Raise OverflowError
    else
      let '(y', m', d') := ord2ymd o' in
      Ok {| dt_year := y'; dt_month := m'; dt_day := d';
            dt_hour := (r / 3600000000)%Z;
            dt_minute := (r / 60000000 mod 60)%Z;
            dt_second := (r / 1000000 mod 60)%Z;
            dt_microsecond := (r mod 1000000)%Z |}.

(** ** Coefficient tables

    Each table is written once; [spa], [_sideral_time], [_geocentric_ra_and_d],
    [sampa] and [_sun_distance] carry identical copies of the ones they use. *)

Definition coefficients_for_sin_terms : list (list float) :=
  [[0; 0; 0; 0; 1]; [(-2); 0; 0; 2; 2]; [0; 0; 0; 2; 2]; [0; 0; 0; 0; 2]; [0; 1; 0; 0; 0];
   [0; 0; 1; 0; 0]; [(-2); 1; 0; 2; 2]; [0; 0; 0; 2; 1]; [0; 0; 1; 2; 2]; [(-2); (-1); 0; 2; 2];
   [(-2); 0; 1; 0; 0]; [(-2); 0; 0; 2; 1]; [0; 0; (-1); 2; 2]; [2; 0; 0; 0; 0]; [0; 0; 1; 0; 1];
   [2; 0; (-1); 2; 2]; [0; 0; (-1); 0; 1]; [0; 0; 1; 2; 1]; [(-2); 0; 2; 0; 0];
   [0; 0; (-2); 2; 1]; [2; 0; 0; 2; 2]; [0; 0; 2; 2; 2]; [0; 0; 2; 0; 0]; [(-2); 0; 1; 2; 2];
   [0; 0; 0; 2; 0]; [(-2); 0; 0; 2; 0]; [0; 0; (-1); 2; 1]; [0; 2; 0; 0; 0]; [2; 0; (-1); 0; 1];
   [(-2); 2; 0; 2; 2]; [0; 1; 0; 0; 1]; [(-2); 0; 1; 0; 1]; [0; (-1); 0; 0; 1];
   [0; 0; 2; (-2); 0]; [2; 0; (-1); 2; 1]; [2; 0; 1; 2; 2]; [0; 1; 0; 2; 2]; [(-2); 1; 1; 0; 0];
   [0; (-1); 0; 2; 2]; [2; 0; 0; 2; 1]; [2; 0; 1; 0; 0]; [(-2); 0; 2; 2; 2]; [(-2); 0; 1; 2; 1];
   [2; 0; (-2); 0; 1]; [2; 0; 0; 0; 1]; [0; (-1); 1; 0; 0]; [(-2); (-1); 0; 2; 1];
   [(-2); 0; 0; 0; 1]; [0; 0; 2; 2; 1]; [(-2); 0; 2; 0; 1]; [(-2); 1; 0; 2; 1];
   [0; 0; 1; (-2); 0]; [(-1); 0; 1; 0; 0]; [(-2); 1; 0; 0; 0]; [1; 0; 0; 0; 0]; [0; 0; 1; 2; 0];
   [0; 0; (-2); 2; 2]; [(-1); (-1); 1; 0; 0]; [0; 1; 1; 0; 0]; [0; (-1); 1; 2; 2];
   [2; (-1); (-1); 2; 2]; [0; 0; 3; 2; 2]; [2; (-1); 0; 2; 2]].

Definition coefficients_for_dy : list (list (option float)) :=
  [[Some (-171996); Some (-174.2)]; [Some (-13187); Some (-1.6)]; [Some (-2274); Some (-0.2)];
   [Some 2062; Some 0.2]; [Some 1426; Some (-3.4)]; [Some 712; Some 0.1]; [Some (-517); Some 1.2];
   [Some (-386); Some (-0.4)]; [Some (-301); None]; [Some 217; Some (-0.5)]; [Some (-158); None];
   [Some 129; Some 0.1]; [Some 123; None]; [Some 63; None]; [Some 63; Some 0.1];
   [Some (-59); None]; [Some (-58); Some (-0.1)]; [Some (-51); None]; [Some 48; None];
   [Some 46; None]; [Some (-38); None]; [Some (-31); None]; [Some 29; None]; [Some 29; None];
   [Some 26; None]; [Some (-22); None]; [Some 21; None]; [Some 17; Some (-0.1)]; [Some 16; None];
   [Some (-16); Some 0.1]; [Some (-15); None]; [Some (-13); None]; [Some (-12); None];
   [Some 11; None]; [Some (-10); None]; [Some (-8); None]; [Some 7; None]; [Some (-7); None];
   [Some (-7); None]; [Some (-7); None]; [Some 6; None]; [Some 6; None]; [Some 6; None];
   [Some (-6); None]; [Some (-6); None]; [Some 5; None]; [Some (-5); None]; [Some (-5); None];
   [Some (-5); None]; [Some 4; None]; [Some 4; None]; [Some 4; None]; [Some (-4); None];
   [Some (-4); None]; [Some (-4); None]; [Some 3; None]; [Some (-3); None]; [Some (-3); None];
   [Some (-3); None]; [Some (-3); None]; [Some (-3); None]; [Some (-3); None]; [Some (-3); None]].

Definition coefficients_for_de : list (list (option float)) :=
  [[Some 92025; Some 8.9]; [Some 5736; Some (-3.1)]; [Some 977; Some (-0.5)];
   [Some (-895); Some 0.5]; [Some 54; Some (-0.1)]; [Some (-7); None]; [Some 224; Some (-0.6)];
   [Some 200; None]; [Some 129; Some (-0.1)]; [Some (-95); Some 0.3]; [None; None];
   [Some (-70); None]; [Some (-53); None]; [None; None]; [Some (-33); None]; [Some 26; None];
   [Some 32; None]; [Some 27; None]; [None; None]; [Some (-24); None]; [Some 16; None];
   [Some 13; None]; [None; None]; [Some (-12); None]; [None; None]; [None; None];
   [Some (-10); None]; [None; None]; [Some (-8); None]; [Some 7; None]; [Some 9; None];
   [Some 7; None]; [Some 6; None]; [None; None]; [Some 5; None]; [Some 3; None];
   [Some (-3); None]; [None; None]; [Some 3; None]; [Some 3; None]; [None; None];
   [Some (-3); None]; [Some (-3); None]; [Some 3; None]; [Some 3; None]; [None; None];
   [Some 3; None]; [Some 3; None]; [Some 3; None]; [None; None]; [None; None]; [None; None];
   [None; None]; [None; None]; [None; None]; [None; None]; [None; None]; [None; None];
   [None; None]; [None; None]; [None; None]; [None; None]; [None; None]].

Definition earth_periodic_terms_l0 : list (list float) :=
  [[175347046; 0; 0]; [3341656; 4.6692568; 6283.07585]; [34894; 4.6261; 12566.1517];
   [3497; 2.7441; 5753.3849]; [3418; 2.8289; 3.5231]; [3136; 3.6277; 77713.7715];
   [2676; 4.4181; 7860.4194]; [2343; 6.1352; 3930.2097]; [1324; 0.7425; 11506.7698];
   [1273; 2.0371; 529.691]; [1199; 1.1096; 1577.3435]; [990; 5.233; 5884.927];
   [902; 2.045; 26.298]; [857; 3.508; 398.149]; [780; 1.179; 5223.694]; [753; 2.533; 5507.553];
   [505; 4.583; 18849.228]; [492; 4.205; 775.523]; [357; 2.92; 0.067]; [317; 5.849; 11790.629];
   [284; 1.899; 796.298]; [271; 0.315; 10977.079]; [243; 0.345; 5486.778]; [206; 4.806; 2544.314];
   [205; 1.869; 5573.143]; [202; 2.458; 6069.777]; [156; 0.833; 213.299]; [132; 3.411; 2942.463];
   [126; 1.083; 20.775]; [115; 0.645; 0.98]; [103; 0.636; 4694.003]; [102; 0.976; 15720.839];
   [102; 4.267; 7.114]; [99; 6.21; 2146.17]; [98; 0.68; 155.42]; [86; 5.98; 161000.69];
   [85; 1.3; 6275.96]; [85; 3.67; 71430.7]; [80; 1.81; 17260.15]; [79; 3.04; 12036.46];
   [75; 1.76; 5088.63]; [74; 3.5; 3154.69]; [74; 4.68; 801.82]; [70; 0.83; 9437.76];
   [62; 3.98; 8827.39]; [61; 1.82; 7084.9]; [57; 2.78; 6286.6]; [56; 4.39; 14143.5];
   [56; 3.47; 6279.55]; [52; 0.19; 12139.55]; [52; 1.33; 1748.02]; [51; 0.28; 5856.48];
   [49; 0.49; 1194.45]; [41; 5.37; 8429.24]; [41; 2.4; 19651.05]; [39; 6.17; 10447.39];
   [37; 6.04; 10213.29]; [37; 2.57; 1059.38]; [36; 1.71; 2352.87]; [36; 1.78; 6812.77];
   [33; 0.59; 17789.85]; [30; 0.44; 83996.85]; [30; 2.74; 1349.87]; [25; 3.16; 4690.48]].

Definition earth_periodic_terms_l1 : list (list float) :=
  [[628331966747; 0; 0]; [206059; 2.678235; 6283.07585]; [4303; 2.6351; 12566.1517];
   [425; 1.59; 3.523]; [119; 5.796; 26.298]; [109; 2.966; 1577.344]; [93; 2.59; 18849.23];
   [72; 1.14; 529.69]; [68; 1.87; 398.15]; [67; 4.41; 5507.55]; [59; 2.89; 5223.69];
   [56; 2.17; 155.42]; [45; 0.4; 796.3]; [36; 0.47; 775.52]; [29; 2.65; 7.11]; [21; 5.34; 0.98];
   [19; 1.85; 5486.78]; [19; 4.97; 213.3]; [17; 2.99; 6275.96]; [16; 0.03; 2544.31];
   [16; 1.43; 2146.17]; [15; 1.21; 10977.08]; [12; 2.83; 1748.02]; [12; 3.26; 5088.63];
   [12; 5.27; 1194.45]; [12; 2.08; 4694]; [11; 0.77; 553.57]; [10; 1.3; 6286.6];
   [10; 4.24; 1349.87]; [9; 2.7; 242.73]; [9; 5.64; 951.72]; [8; 5.3; 2352.87];
   [6; 2.65; 9437.76]; [6; 4.67; 4690.48]].

Definition earth_periodic_terms_l2 : list (list float) :=
  [[52919; 0; 0]; [8720; 1.0721; 6283.0758]; [309; 0.867; 12566.152]; [27; 0.05; 3.52];
   [16; 5.19; 26.3]; [16; 3.68; 155.42]; [10; 0.76; 18849.23]; [9; 2.06; 77713.77];
   [7; 0.83; 775.52]; [5; 4.66; 1577.34]; [4; 1.03; 7.11]; [4; 3.44; 5573.14]; [3; 5.14; 796.3];
   [3; 6.05; 5507.55]; [3; 1.19; 242.73]; [3; 6.12; 529.69]; [3; 0.31; 398.15]; [3; 2.28; 553.57];
   [2; 4.38; 5223.69]; [2; 3.75; 0.98]].

Definition earth_periodic_terms_l3 : list (list float) :=
  [[289; 5.844; 6283.076]; [35; 0; 0]; [17; 5.49; 12566.15]; [3; 5.2; 155.42]; [1; 4.72; 3.52];
   [1; 5.3; 18849.23]; [1; 5.97; 242.73]].

Definition earth_periodic_terms_l4 : list (list float) :=
  [[114; 3.142; 0]; [8; 4.13; 6283.08]; [1; 3.84; 12566.15]].

Definition earth_periodic_terms_l5 : list (list float) :=
  [[1; 3.14; 0]].

Definition earth_periodic_terms_b0 : list (list float) :=
  [[280; 3.199; 84334.662]; [102; 5.422; 5507.553]; [80; 3.88; 5223.69]; [44; 3.7; 2352.87];
   [32; 4; 1577.34]].

Definition earth_periodic_terms_b1 : list (list float) :=
  [[9; 3.9; 5507.55]; [6; 1.73; 5223.69]].

Definition earth_periodic_terms_r0 : list (list float) :=
  [[100013989; 0; 0]; [1670700; 3.0984635; 6283.07585]; [13956; 3.05525; 12566.1517];
   [3084; 5.1985; 77713.7715]; [1628; 1.1739; 5753.3849]; [1576; 2.8469; 7860.4194];
   [925; 5.453; 11506.77]; [542; 4.564; 3930.21]; [472; 3.661; 5884.927]; [346; 0.964; 5507.553];
   [329; 5.9; 5223.694]; [307; 0.299; 5573.143]; [243; 4.273; 11790.629]; [212; 5.847; 1577.344];
   [186; 5.022; 10977.079]; [175; 3.012; 18849.228]; [110; 5.055; 5486.778]; [98; 0.89; 6069.78];
   [86; 5.69; 15720.84]; [86; 1.27; 161000.69]; [65; 0.27; 17260.15]; [63; 0.92; 529.69];
   [57; 2.01; 83996.85]; [56; 5.24; 71430.7]; [49; 3.25; 2544.31]; [47; 2.58; 775.52];
   [45; 5.54; 9437.76]; [43; 6.01; 6275.96]; [39; 5.36; 4694]; [38; 2.39; 8827.39];
   [37; 0.83; 19651.05]; [37; 4.9; 12139.55]; [36; 1.67; 12036.46]; [35; 1.84; 2942.46];
   [33; 0.24; 7084.9]; [32; 0.18; 5088.63]; [32; 1.78; 398.15]; [28; 1.21; 6286.6];
   [28; 1.9; 6279.55]; [26; 4.59; 10447.39]].

Definition earth_periodic_terms_r1 : list (list float) :=
  [[103019; 1.10749; 6283.07585]; [1721; 1.0644; 12566.1517]; [702; 3.142; 0];
   [32; 1.02; 18849.23]; [31; 2.84; 5507.55]; [25; 1.32; 5223.69]; [18; 1.42; 1577.34];
   [10; 5.91; 10977.08]; [9; 1.42; 6275.96]; [9; 0.27; 5486.78]].

Definition earth_periodic_terms_r2 : list (list float) :=
  [[4359; 5.7846; 6283.0758]; [124; 5.579; 12566.152]; [12; 3.14; 0]; [9; 3.63; 77713.77];
   [6; 1.87; 5573.14]; [3; 5.47; 18849.23]].

Definition earth_periodic_terms_r3 : list (list float) :=
  [[145; 4.273; 6283.076]; [7; 3.92; 12566.15]].

Definition earth_periodic_terms_r4 : list (list float) :=
  [[4; 2.56; 6283.08]].

Definition moon_periodic_terms : list (list (option float)) :=
  [[Some 0; Some 0; Some 1; Some 0; Some 6288774; Some (-20905355)];
   [Some 2; Some 0; Some (-1); Some 0; Some 1274027; Some (-3699111)];
   [Some 2; Some 0; Some 0; Some 0; Some 658314; Some (-2955968)];
   [Some 0; Some 0; Some 2; Some 0; Some 213618; Some (-569925)];
   [Some 0; Some 1; Some 0; Some 0; Some (-185116); Some 48888];
   [Some 0; Some 0; Some 0; Some 2; Some (-114332); Some (-3149)];
   [Some 2; Some 0; Some (-2); Some 0; Some 58793; Some 246158];
   [Some 2; Some (-1); Some (-1); Some 0; Some 57066; Some (-152138)];
   [Some 2; Some 0; Some 1; Some 0; Some 53322; Some (-170733)];
   [Some 2; Some (-1); Some 0; Some 0; Some 45758; Some (-204586)];
   [Some 0; Some 1; Some (-1); Some 0; Some (-40923); Some (-129620)];
   [Some 1; Some 0; Some 0; Some 0; Some (-34720); Some 108743];
   [Some 0; Some 1; Some 1; Some 0; Some (-30383); Some 104755];
   [Some 2; Some 0; Some 0; Some (-2); Some 15327; Some 10321];
   [Some 0; Some 0; Some 1; Some 2; Some (-12528); None];
   [Some 0; Some 0; Some 1; Some (-2); Some 10980; Some 79661];
   [Some 4; Some 0; Some (-1); Some 0; Some 10675; Some (-34782)];
   [Some 0; Some 0; Some 3; Some 0; Some 10034; Some (-23210)];
   [Some 4; Some 0; Some (-2); Some 0; Some 8548; Some (-21636)];
   [Some 2; Some 1; Some (-1); Some 0; Some (-7888); Some 24208];
   [Some 2; Some 1; Some 0; Some 0; Some (-6766); Some 30824];
   [Some 1; Some 0; Some (-1); Some 0; Some (-5163); Some (-8379)];
   [Some 1; Some 1; Some 0; Some 0; Some 4987; Some (-16675)];
   [Some 2; Some (-1); Some 1; Some 0; Some 4036; Some (-12831)];
   [Some 2; Some 0; Some 2; Some 0; Some 3994; Some (-10445)];
   [Some 4; Some 0; Some 0; Some 0; Some 3861; Some (-11650)];
   [Some 2; Some 0; Some (-3); Some 0; Some 3665; Some 14403];
   [Some 0; Some 1; Some (-2); Some 0; Some (-2689); Some (-7003)];
   [Some 2; Some 0; Some (-1); Some 2; Some (-2602); None];
   [Some 2; Some (-1); Some (-2); Some 0; Some 2390; Some 10056];
   [Some 1; Some 0; Some 1; Some 0; Some (-2348); Some 6322];
   [Some 2; Some (-2); Some 0; Some 0; Some 2236; Some (-9884)];
   [Some 0; Some 1; Some 2; Some 0; Some (-2120); Some 5751];
   [Some 0; Some 2; Some 0; Some 0; Some (-2069); None];
   [Some 2; Some (-2); Some (-1); Some 0; Some 2048; Some (-4950)];
   [Some 2; Some 0; Some 1; Some (-2); Some (-1773); Some 4130];
   [Some 2; Some 0; Some 0; Some 2; Some (-1595); None];
   [Some 4; Some (-1); Some (-1); Some 0; Some 1215; Some (-3958)];
   [Some 0; Some 0; Some 2; Some 2; Some (-1110); None];
   [Some 3; Some 0; Some (-1); Some 0; Some (-892); Some 3258];
   [Some 2; Some 1; Some 1; Some 0; Some (-810); Some 2616];
   [Some 4; Some (-1); Some (-2); Some 0; Some 759; Some (-1897)];
   [Some 0; Some 2; Some (-1); Some 0; Some (-713); Some (-2117)];
   [Some 2; Some 2; Some (-1); Some 0; Some (-700); Some 2354];
   [Some 2; Some 1; Some (-2); Some 0; Some 691; None];
   [Some 2; Some (-1); Some 0; Some (-2); Some 596; None];
   [Some 4; Some 0; Some 1; Some 0; Some 549; Some (-1423)];
   [Some 0; Some 0; Some 4; Some 0; Some 537; Some (-1117)];
   [Some 4; Some (-1); Some 0; Some 0; Some 520; Some (-1571)];
   [Some 1; Some 0; Some (-2); Some 0; Some (-487); Some (-1739)];
   [Some 2; Some 1; Some 0; Some (-2); Some (-399); None];
   [Some 0; Some 0; Some 2; Some (-2); Some (-381); Some (-4421)];
   [Some 1; Some 1; Some 1; Some 0; Some 351; None];
   [Some 3; Some 0; Some (-2); Some 0; Some (-340); None];
   [Some 4; Some 0; Some (-3); Some 0; Some 330; None];
   [Some 2; Some (-1); Some 2; Some 0; Some 327; None];
   [Some 0; Some 2; Some 1; Some 0; Some (-323); Some 1165];
   [Some 1; Some 1; Some (-1); Some 0; Some 299; None];
   [Some 2; Some 0; Some 3; Some 0; Some 294; None];
   [Some 2; Some 0; Some (-1); Some (-2); None; Some 8752]].

Definition periodic_terms_for_moon_latitude : list (list float) :=
  [[0; 0; 0; 1; 5128122]; [0; 0; 1; 1; 280602]; [0; 0; 1; (-1); 277693]; [2; 0; 0; (-1); 173237];
   [2; 0; (-1); 1; 55413]; [2; 0; (-1); (-1); 46271]; [2; 0; 0; 1; 32573]; [0; 0; 2; 1; 17198];
   [2; 0; 1; (-1); 9266]; [0; 0; 2; (-1); 8822]; [2; (-1); 0; (-1); 8216];
   [2; 0; (-2); (-1); 4324]; [2; 0; 1; 1; 4200]; [2; 1; 0; (-1); (-3359)];
   [2; (-1); (-1); 1; 2463]; [2; (-1); 0; 1; 2211]; [2; (-1); (-1); (-1); 2065];
   [0; 1; (-1); (-1); (-1870)]; [4; 0; (-1); (-1); 1828]; [0; 1; 0; 1; (-1794)];
   [0; 0; 0; 3; (-1749)]; [0; 1; (-1); 1; (-1565)]; [1; 0; 0; 1; (-1491)]; [0; 1; 1; 1; (-1475)];
   [0; 1; 1; (-1); (-1410)]; [0; 1; 0; (-1); (-1344)]; [1; 0; 0; (-1); (-1335)];
   [0; 0; 3; 1; 1107]; [4; 0; 0; (-1); 1021]; [4; 0; (-1); 1; 833]; [0; 0; 1; (-3); 777];
   [4; 0; (-2); 1; 671]; [2; 0; 0; (-3); 607]; [2; 0; 2; (-1); 596]; [2; (-1); 1; (-1); 491];
   [2; 0; (-2); 1; (-451)]; [0; 0; 3; (-1); 439]; [2; 0; 2; 1; 422]; [2; 0; (-3); (-1); 421];
   [2; 1; (-1); 1; (-366)]; [2; 1; 0; 1; (-351)]; [4; 0; 0; 1; 331]; [2; (-1); 1; 1; 315];
   [2; (-2); 0; (-1); 302]; [0; 0; 1; 3; (-283)]; [2; 1; 1; (-1); (-229)]; [1; 1; 0; (-1); 223];
   [1; 1; 0; 1; 223]; [0; 1; (-2); (-1); (-220)]; [2; 1; (-1); (-1); (-220)];
   [1; 0; 1; 1; (-185)]; [2; (-1); (-2); (-1); 181]; [0; 1; 2; 1; (-177)];
   [4; 0; (-2); (-1); 176]; [4; (-1); (-1); (-1); 166]; [1; 0; 1; (-1); (-164)];
   [4; 0; 1; (-1); 132]; [1; 0; (-1); (-1); (-119)]; [4; (-1); 0; (-1); 115];
   [2; (-2); 0; 1; 107]].

(** ** Shared pieces of [spa.py] and [sampa.py] *)

Fixpoint mapM {A B : Type} (f : A -> result B) (xs : list A) : result (list B) :=
  match xs with
  | [] => Ok []
  | x :: xs' => y <- f x ;; ys <- mapM f xs' ;; Ok (y :: ys)
  end.

(** [row[i]] of a table row. *)
Definition at_ (row : list float) (i : nat) : float := nth i row 0.

(** [0 if value is None else value], over a whole table. *)
Definition replace_none (t : list (list (option float))) : list (list float) :=
  map (map (fun value => match value with None => 0 | Some v => v end)) t.

Definition cfst : list (list float) := coefficients_for_sin_terms.
Definition cfdy : list (list float) := replace_none coefficients_for_dy.
Definition cfde : list (list float) := replace_none coefficients_for_de.

Record julian : Type := {
  jd : float; jde : float; jc : float; jce : float; jme : float
}.

(** Python's [int(n / d)] on ints: true division, then truncation. *)
Definition int_div (n d : Z) : result Z := py_int (of_Z n / of_Z d).

(** The integer parts of the Julian Day, after January and February were
    folded into months 13 and 14 of the year before. *)
Definition fold_month (year month : Z) : Z * Z :=
  if (month <=? 2)%Z then ((year - 1)%Z, (month + 12)%Z) else (year, month).

Definition b_for_jd (year : Z) : result Z :=
  a <- int_div year 100 ;;
  a4 <- int_div a 4 ;;
  Ok (2 - a + a4)%Z.

Definition fold_day (day hour minute second microsecond : float) : float :=
  let second := second + microsecond / 1000000 in
  let minute := minute + second / 60 in
  let hour := hour + minute / 60 in
  day + hour / 24.

(** [jd = int(365.25 * (year + 4716)) + int(30.6001 * (month + 1)) + day
          + b_for_jd - 1524.5] *)
Definition julian_day (year month : Z) (day hour minute second microsecond : float)
  : result float :=
  let '(year, month) := fold_month year month in
  let day := fold_day day hour minute second microsecond in
  b <- b_for_jd year ;;
  i1 <- py_int (365.25 * of_Z (year + 4716)) ;;
  i2 <- py_int (30.6001 * of_Z (month + 1)) ;;
  Ok (of_Z (i1 + i2) + day + of_Z b - 1524.5).

Definition julian_clock (year month : Z) (day hour minute second microsecond dt : float)
  : result julian :=
  jd <- julian_day year month day hour minute second microsecond ;;
  let jde := jd + dt / 86400 in
  let jc := (jd - 2451545) / 36525 in
  let jce := (jde - 2451545) / 36525 in
  Ok {| jd := jd; jde := jde; jc := jc; jce := jce; jme := jce / 10 |}.

Section Engines.
Context {L : Libm}.

(** The five fundamental arguments, in radians. *)
Definition fundamental_arguments (jce : float) : result (list float) :=
  p2 <- py_pow jce 2 ;;
  p3 <- py_pow jce 3 ;;
  Ok (map radians
    [297.85036 + 445267.111480 * jce - 0.0019142 * p2 + p3 / 189474;
     357.52772 + 35999.050340 * jce - 0.0001603 * p2 - p3 / 300000;
     134.96298 + 477198.867398 * jce + 0.0086972 * p2 + p3 / 56250;
     93.27191 + 483202.017538 * jce - 0.0036825 * p2 + p3 / 327270;
     125.04452 - 1934.136261 * jce + 0.0020708 * p2 + p3 / 450000]).

(** [sum(x_i)] with [x_i = [x[j] * cfst[i][j] for j in range(5)]]. *)
Definition sin_term_argument (x : list float) (row : list float) : float :=
  fsum (map (fun j => at_ x j * at_ row j) [0; 1; 2; 3; 4]%nat).

(** Nutation in longitude and obliquity, [(dy, de)]. *)
Definition nutation (jce : float) : result (float * float) :=
  x <- fundamental_arguments jce ;;
  dy_i <- mapM (fun rows : list float * list float =>
                  s <- math_sin (sin_term_argument x (fst rows)) ;;
                  Ok ((at_ (snd rows) 0 + at_ (snd rows) 1 * jce) * s))
               (combine cfst cfdy) ;;
  de_i <- mapM (fun rows : list float * list float =>
                  c <- math_cos (sin_term_argument x (fst rows)) ;;
                  Ok ((at_ (snd rows) 0 + at_ (snd rows) 1 * jce) * c))
               (combine cfst cfde) ;;
  Ok (fsum dy_i / 36000000, fsum de_i / 36000000).

(** Mean obliquity [e0_2], in arc seconds. *)
Definition mean_obliquity (jme : float) : result float :=
  let u := jme / 10 in
  u2 <- py_pow u 2 ;; u3 <- py_pow u 3 ;; u4 <- py_pow u 4 ;;
  u5 <- py_pow u 5 ;; u6 <- py_pow u 6 ;; u7 <- py_pow u 7 ;;
  u8 <- py_pow u 8 ;; u9 <- py_pow u 9 ;; u10 <- py_pow u 10 ;;
  Ok (84381.448 - 4680.93 * u - 1.55 * u2 + 1999.25 * u3 - 51.38 * u4
      - 249.67 * u5 - 39.05 * u6 + 7.12 * u7 + 27.87 * u8 + 5.79 * u9
      + 2.45 * u10).

(** [sum(ept[i][0] * cos(ept[i][1] + ept[i][2] * jme))]. *)
Definition periodic_sum (ept : list (list float)) (jme : float) : result float :=
  terms <- mapM (fun row =>
                   c <- math_cos (at_ row 1 + at_ row 2 * jme) ;;
                   Ok (at_ row 0 * c)) ept ;;
  Ok (fsum terms).

(** Earth radius vector [r], in astronomical units. *)
Definition earth_radius (jme : float) : result float :=
  r0 <- periodic_sum earth_periodic_terms_r0 jme ;;
  r1 <- periodic_sum earth_periodic_terms_r1 jme ;;
  r2 <- periodic_sum earth_periodic_terms_r2 jme ;;
  r3 <- periodic_sum earth_periodic_terms_r3 jme ;;
  r4 <- periodic_sum earth_periodic_terms_r4 jme ;;
  j2 <- py_pow jme 2 ;; j3 <- py_pow jme 3 ;; j4 <- py_pow jme 4 ;;
  Ok ((r0 + r1 * jme + r2 * j2 + r3 * j3 + r4 * j4) / 100000000).

Record heliocentric : Type := {
  hc_theta2 : float;  (* geocentric longitude, degrees in [0, 360] *)
  hc_b : float;       (* geocentric latitude, degrees *)
  hc_r : float        (* radius vector *)
}.

Definition earth_heliocentric (jme : float) : result heliocentric :=
  l0 <- periodic_sum earth_periodic_terms_l0 jme ;;
  l1 <- periodic_sum earth_periodic_terms_l1 jme ;;
  l2 <- periodic_sum earth_periodic_terms_l2 jme ;;
  l3 <- periodic_sum earth_periodic_terms_l3 jme ;;
  l4 <- periodic_sum earth_periodic_terms_l4 jme ;;
  l5 <- periodic_sum earth_periodic_terms_l5 jme ;;
  b0 <- periodic_sum earth_periodic_terms_b0 jme ;;
  b1 <- periodic_sum earth_periodic_terms_b1 jme ;;
  r0 <- periodic_sum earth_periodic_terms_r0 jme ;;
  r1 <- periodic_sum earth_periodic_terms_r1 jme ;;
  r2 <- periodic_sum earth_periodic_terms_r2 jme ;;
  r3 <- periodic_sum earth_periodic_terms_r3 jme ;;
  r4 <- periodic_sum earth_periodic_terms_r4 jme ;;
  j2 <- py_pow jme 2 ;; j3 <- py_pow jme 3 ;;
  j4 <- py_pow jme 4 ;; j5 <- py_pow jme 5 ;;
  let l := (l0 + l1 * jme + l2 * j2 + l3 * j3 + l4 * j4 + l5 * j5) / 100000000 in
  let B := degrees ((b0 + b1 * jme) / 100000000) in
  let r := (r0 + r1 * jme + r2 * j2 + r3 * j3 + r4 * j4) / 100000000 in
  l <- py_mod (degrees l) 360 ;;
  theta2 <- py_mod (l + 180) 360 ;;
  Ok {| hc_theta2 := theta2; hc_b := - B; hc_r := r |}.

Record geocentric : Type := {
  gc_a2 : float;   (* right ascension, degrees, reduced by [% 360] *)
  gc_d : float;    (* declination, degrees *)
  gc_dy : float;   (* nutation in longitude *)
  gc_e_2 : float;  (* true obliquity, degrees *)
  gc_r : float
}.

(** Apparent geocentric right ascension and declination of the sun. *)
Definition sun_geocentric (jce jme : float) : result geocentric :=
  hc <- earth_heliocentric jme ;;
  '(dy, de) <- nutation jce ;;
  e0_2 <- mean_obliquity jme ;;
  let e_2 := e0_2 / 3600 + de in
  q <- py_div 20.4898 (3600 * hc_r hc) ;;
  let dt_2 := - q in
  let l := hc_theta2 hc + dy + dt_2 in
  let b := hc_b hc in
  sl <- sind l ;; ce <- cosd e_2 ;; tb <- tand b ;; se <- sind e_2 ;;
  cl <- cosd l ;;
  a2 <- math_atan2 (sl * ce - tb * se) cl ;;
  a2 <- py_mod (degrees a2) 360 ;;
  sb <- sind b ;; ce' <- cosd e_2 ;; cb <- cosd b ;; se' <- sind e_2 ;;
  sl' <- sind l ;;
  d <- math_asin (sb * ce' + cb * se' * sl') ;;
  Ok {| gc_a2 := a2; gc_d := degrees d; gc_dy := dy; gc_e_2 := e_2;
        gc_r := hc_r hc |}.

(** [n0 = 280.46061837 + 360.98564736629 * (jd - 2451545)
          + 0.000387933 * jc ** 2 - jc ** 3 / 38710000], then [n0 % 360]. *)
Definition sidereal_polynomial (j : julian) : result float :=
  c2 <- py_pow (jc j) 2 ;;
  c3 <- py_pow (jc j) 3 ;;
  Ok (280.46061837 + 360.98564736629 * (jd j - 2451545) + 0.000387933 * c2
      - c3 / 38710000).

Definition mean_sidereal (j : julian) : result float :=
  n0 <- sidereal_polynomial j ;;
  py_mod n0 360.

(** [_sideral_time]: apparent sidereal time at Greenwich, degrees. *)
Definition _sideral_time (year month : Z)
    (day hour minute second microsecond dt : float) : result float :=
  j <- julian_clock year month day hour minute second microsecond dt ;;
  '(dy, de) <- nutation (jce j) ;;
  e0_2 <- mean_obliquity (jme j) ;;
  let e_2 := e0_2 / 3600 + de in
  n0 <- mean_sidereal j ;;
  c <- cosd e_2 ;;
  Ok (n0 + dy * c).

(** [_geocentric_ra_and_d]: declination and right ascension, [(d, a2)]. *)
Definition _geocentric_ra_and_d (year month : Z)
    (day hour minute second microsecond dt : float) : result (float * float) :=
  j <- julian_clock year month day hour minute second microsecond dt ;;
  g <- sun_geocentric (jce j) (jme j) ;;
  Ok (gc_d g, gc_a2 g).

End Engines.

(** ** [spa.py]: the Solar Position Algorithm *)

Section Spa.
Context {L : Libm}.

(** Atmospheric refraction correction [de2] of the topocentric elevation [e0]:
    applied only when [e0 >= -1 * (0.26667 + 0.5667)]. *)
Definition refraction (pressure temperature e0 : float) : result float :=
  if (-1) * (0.26667 + 0.5667) <=? e0 then
    a <- py_div 10.3 (e0 + 5.11) ;;
    t <- tand (e0 + a) ;;
    d1 <- py_div 283 (273 + temperature) ;;
    d2 <- py_div 1.02 (60 * t) ;;
    Ok (pressure / 1010 * d1 * d2)
  else Ok 0.

(** The topocentric elevation angle without refraction, [e0], of a body of
    topocentric declination [d_prime] and local hour angle [h_prime]: the
    expression of [spa.py] 799-800 and of [sampa.py] 432-433. *)
Definition elevation_angle (latitude d_prime h_prime : float) : result float :=
  sl <- sind latitude ;; sdp <- sind d_prime ;;
  cl <- cosd latitude ;; cdp <- cosd d_prime ;; chp <- cosd h_prime ;;
  e0 <- math_asin (sl * sdp + cl * cdp * chp) ;;
  Ok (degrees e0).

Record topocentric : Type := {
  tp_da : float;        (* parallax in right ascension *)
  tp_a_prime : float;   (* topocentric right ascension *)
  tp_d_prime : float;   (* topocentric declination *)
  tp_h_prime : float;   (* topocentric local hour angle *)
  tp_e0 : float;        (* elevation without refraction *)
  tp_de2 : float;       (* refraction correction *)
  tp_e : float;         (* elevation *)
  tp_theta : float;     (* zenith *)
  tp_gamma2 : float;    (* astronomers' azimuth *)
  tp_f : float          (* azimuth *)
}.

(** From geocentric right ascension [a2], declination [d], local hour angle
    [h] and horizontal parallax [xi] to the observer's sky.  The same lines
    serve the sun in [spa] and the moon in [sampa]. *)
Definition to_topocentric (a2 d h xi latitude elevation pressure temperature : float)
  : result topocentric :=
  tl <- tand latitude ;;
  u2 <- math_atan (0.99664719 * tl) ;;
  let u2 := degrees u2 in
  cu <- cosd u2 ;; cl <- cosd latitude ;;
  let x2 := cu + elevation / 6378140 * cl in
  su <- sind u2 ;; sl <- sind latitude ;;
  let y := 0.99664719 * su + elevation / 6378140 * sl in
  sxi <- sind xi ;; sh <- sind h ;; cd <- cosd d ;; ch <- cosd h ;;
  da <- math_atan2 (- x2 * sxi * sh) (cd - x2 * sxi * ch) ;;
  let da := degrees da in
  let a_prime := a2 + da in
  sd <- sind d ;; cda <- cosd da ;;
  d_prime <- math_atan2 ((sd - y * sxi) * cda) (cd - x2 * sxi * ch) ;;
  let d_prime := degrees d_prime in
  let h_prime := h - da in
  sdp <- sind d_prime ;; cdp <- cosd d_prime ;; chp <- cosd h_prime ;;
  e0 <- math_asin (sl * sdp + cl * cdp * chp) ;;
  let e0 := degrees e0 in
  de2 <- refraction pressure temperature e0 ;;
  let e := e0 + de2 in
  let theta := 90 - e in
  shp <- sind h_prime ;; tdp <- tand d_prime ;;
  gamma2 <- math_atan2 shp (chp * sl - tdp * cl) ;;
  gamma2 <- py_mod (degrees gamma2) 360 ;;
  f <- py_mod (gamma2 + 180) 360 ;;
  Ok {| tp_da := da; tp_a_prime := a_prime; tp_d_prime := d_prime;
        tp_h_prime := h_prime; tp_e0 := e0; tp_de2 := de2; tp_e := e;
        tp_theta := theta; tp_gamma2 := gamma2; tp_f := f |}.

Record position : Type := {
  ps_jul : julian;
  ps_geo : geocentric;
  ps_h : float;            (* local hour angle, reduced by [% 360] *)
  ps_top : topocentric;
  ps_i : float             (* incidence angle *)
}.

(** The main report: everything up to the incidence angle. *)
Definition spa_position (year month : Z)
    (day hour minute second microsecond
     latitude longitude elevation pressure temperature omega gamma dt : float)
  : result position :=
  j <- julian_clock year month day hour minute second microsecond dt ;;
  g <- sun_geocentric (jce j) (jme j) ;;
  n0 <- mean_sidereal j ;;
  ce <- cosd (gc_e_2 g) ;;
  let n := n0 + gc_dy g * ce in
  h <- py_mod (n + longitude - gc_a2 g) 360 ;;
  xi <- py_div 8.794 (3600 * gc_r g) ;;
  t <- to_topocentric (gc_a2 g) (gc_d g) h xi latitude elevation pressure temperature ;;
  ct <- cosd (tp_theta t) ;; co <- cosd omega ;; so <- sind omega ;;
  st <- sind (tp_theta t) ;; cg <- cosd (tp_gamma2 t - gamma) ;;
  i <- math_acos (ct * co + so * st * cg) ;;
  Ok {| ps_jul := j; ps_geo := g; ps_h := h; ps_top := t; ps_i := degrees i |}.

(** The equation of time before its wraparound, in minutes. *)
Definition eot_raw (p : position) : result float :=
  let jme := jme (ps_jul p) in
  j2 <- py_pow jme 2 ;; j3 <- py_pow jme 3 ;;
  j4 <- py_pow jme 4 ;; j5 <- py_pow jme 5 ;;
  m <- py_mod (280.4664567 + 360007.6982779 * jme + 0.03032028 * j2
               + j3 / 49931 - j4 / 15300 - j5 / 2000000) 360 ;;
  ce <- cosd (gc_e_2 (ps_geo p)) ;;
  let eot := m - 0.0057183 - gc_a2 (ps_geo p) + gc_dy (ps_geo p) * ce in
  Ok (eot * 4).

(** [if eot_minutes > 20: eot_minutes -= 1440
     elif eot_minutes < -20: eot_minutes += 1440] *)
Definition eot_wrap (eot_minutes : float) : float :=
  if 20 <? eot_minutes then eot_minutes - 1440
  else if eot_minutes <? (-20) then eot_minutes + 1440
  else eot_minutes.

Definition sun_always : string :=
  "Sun is always above or below the horizon for that day".

(** The three days [spa] interpolates between, and the [acos] argument of the
    hour-angle half-range. *)
Record sun_day : Type := {
  sd_n : float;                 (* sidereal time at 0 UT *)
  sd_d_m1 : float; sd_a_m1 : float;
  sd_d_0 : float; sd_a_0 : float;
  sd_d_p1 : float; sd_a_p1 : float;
  sd_m_0 : float;
  sd_acos_arguement : float
}.

Definition h_prime_0 : float := (-1) * (0.26667 + 0.5667).

Definition ra_and_d_at (t : datetime) (dt : float) : result (float * float) :=
  _geocentric_ra_and_d (dt_year t) (dt_month t) (of_Z (dt_day t)) (of_Z (dt_hour t))
    (of_Z (dt_minute t)) (of_Z (dt_second t)) (of_Z (dt_microsecond t)) dt.

Definition spa_sun_day (year month : Z) (day latitude longitude dt : float)
  : result sun_day :=
  iday <- py_int day ;;
  n <- _sideral_time year month (of_Z iday) 0 0 0 0 dt ;;
  day_m1 <- datetime_shift year month iday (-1) dt ;;
  day_0 <- datetime_shift year month iday 0 dt ;;
  day_p1 <- datetime_shift year month iday 1 dt ;;
  '(d_m1, a_m1) <- ra_and_d_at day_m1 dt ;;
  '(d_0, a_0) <- ra_and_d_at day_0 dt ;;
  '(d_p1, a_p1) <- ra_and_d_at day_p1 dt ;;
  let m_0 := (a_0 - longitude - n) / 360 in
  sh <- sind h_prime_0 ;; sl <- sind latitude ;; sd0 <- sind d_0 ;;
  cl <- cosd latitude ;; cd0 <- cosd d_0 ;;
  acos_arguement <- py_div (sh - sl * sd0) (cl * cd0) ;;
  Ok {| sd_n := n; sd_d_m1 := d_m1; sd_a_m1 := a_m1; sd_d_0 := d_0;
        sd_a_0 := a_0; sd_d_p1 := d_p1; sd_a_p1 := a_p1; sd_m_0 := m_0;
        sd_acos_arguement := acos_arguement |}.

(** Both branches of [if abs(acos_arguement) <= 1] compute
    [math.degrees(math.acos(acos_arguement)) % 180]; they differ in the note. *)
Definition half_range (acos_arguement : float) : result (float * string) :=
  if abs acos_arguement <=? 1 then
    H_0 <- math_acos acos_arguement ;;
    H_0 <- py_mod (degrees H_0) 180 ;;
    Ok (H_0, EmptyString)
  else
    H_0 <- math_acos acos_arguement ;;
    H_0 <- py_mod (degrees H_0) 180 ;;
    Ok (H_0, sun_always).

(** [if abs(p) > 2: p = p % 1] *)
Definition limit_parameter (p : float) : result float :=
  if 2 <? abs p then py_mod p 1 else Ok p.

(** [360 * (x / 360 - math.floor(x / 360))] *)
Definition limit_360 (x : float) : result float :=
  let q := x / 360 in
  k <- py_floor q ;;
  Ok (360 * (q - of_Z k)).

(** Altitude of the sun for declination [d_prime] and hour angle [H_prime]. *)
Definition sun_altitude (latitude d_prime H_prime : float) : result float :=
  sl <- sind latitude ;; sd <- sind d_prime ;; cl <- cosd latitude ;;
  cd <- cosd d_prime ;; cH <- cosd H_prime ;;
  h <- math_asin (sl * sd + cl * cd * cH) ;;
  Ok (degrees h).

(** Sun transit, sunrise and sunset, in hours, and the note. *)
Definition spa_sun_times (s : sun_day) (latitude longitude dt : float)
  : result (float * float * float * string) :=
  '(H_0, sun_time_notes) <- half_range (sd_acos_arguement s) ;;
  let m_0 := sd_m_0 s in
  let m_1 := m_0 - H_0 / 360 in
  let m_2 := m_0 + H_0 / 360 in
  m_0 <- py_mod m_0 1 ;;
  m_1 <- py_mod m_1 1 ;;
  m_2 <- py_mod m_2 1 ;;
  let n := sd_n s in
  let n_0 := n + 360.985647 * m_0 in
  let n_1 := n + 360.985647 * m_1 in
  let n_2 := n + 360.985647 * m_2 in
  let n_english_0 := m_0 + dt / 86400 in
  let n_english_1 := m_1 + dt / 86400 in
  let n_english_2 := m_2 + dt / 86400 in
  let a_0 := sd_a_0 s in
  let d_0 := sd_d_0 s in
  a_parameter <- limit_parameter (a_0 - sd_a_m1 s) ;;
  a_prime_parameter <- limit_parameter (d_0 - sd_d_m1 s) ;;
  b_parameter <- limit_parameter (sd_a_p1 s - a_0) ;;
  b_prime_parameter <- limit_parameter (sd_d_p1 s - d_0) ;;
  let c_parameter := b_parameter - a_parameter in
  let c_prime_parameter := b_prime_parameter - a_prime_parameter in
  let interp x0 a b c n := x0 + (n * (a + b + c * n)) / 2 in
  let a_prime_0 := interp a_0 a_parameter b_parameter c_parameter n_english_0 in
  let a_prime_1 := interp a_0 a_parameter b_parameter c_parameter n_english_1 in
  let a_prime_2 := interp a_0 a_parameter b_parameter c_parameter n_english_2 in
  let d_prime_0 :=
    interp d_0 a_prime_parameter b_prime_parameter c_prime_parameter n_english_0 in
  let d_prime_1 :=
    interp d_0 a_prime_parameter b_prime_parameter c_prime_parameter n_english_1 in
  let d_prime_2 :=
    interp d_0 a_prime_parameter b_prime_parameter c_prime_parameter n_english_2 in
  H_prime_0 <- limit_360 (n_0 + longitude - a_prime_0) ;;
  H_prime_1 <- limit_360 (n_1 + longitude - a_prime_1) ;;
  H_prime_2 <- limit_360 (n_2 + longitude - a_prime_2) ;;
  h_0 <- sun_altitude latitude d_prime_0 H_prime_0 ;;
  h_1 <- sun_altitude latitude d_prime_1 H_prime_1 ;;
  h_2 <- sun_altitude latitude d_prime_2 H_prime_2 ;;
  let T := m_0 - H_prime_0 / 360 in
  cd1 <- cosd d_prime_1 ;; cl1 <- cosd latitude ;; sH1 <- sind H_prime_1 ;;
  q1 <- py_div (h_1 - h_prime_0) (360 * cd1 * cl1 * sH1) ;;
  let R := m_1 + q1 in
  cd2 <- cosd d_prime_2 ;; cl2 <- cosd latitude ;; sH2 <- sind H_prime_2 ;;
  q2 <- py_div (h_2 - h_prime_0) (360 * cd2 * cl2 * sH2) ;;
  let S' := m_2 + q2 in
  T <- py_mod T 1 ;;
  R <- py_mod R 1 ;;
  S' <- py_mod S' 1 ;;
  Ok (T * 24, R * 24, S' * 24, sun_time_notes).

(** Appendix A.3: the calendar date of a Julian Day. *)
Definition date_from_jd (jd : float) : result (Z * Z * float) :=
  let jd_plus_5 := jd + 0.5 in
  z_capital <- py_int jd_plus_5 ;;
  let f_capital := jd_plus_5 - of_Z z_capital in
  a_capital <-
    (if (z_capital <? 2299161)%Z then Ok z_capital
     else
       b_capital <- py_int ((of_Z z_capital - 1867216.25) / 36524.25) ;;
       b4 <- int_div b_capital 4 ;;
       Ok (z_capital + 1 + b_capital - b4)%Z) ;;
  let c_capital := (a_capital + 1524)%Z in
  d_capital <- py_int ((of_Z c_capital - 122.1) / 365.25) ;;
  g_capital <- py_int (365.25 * of_Z d_capital) ;;
  i_capital <- py_int (of_Z (c_capital - g_capital) / 30.6001) ;;
  k <- py_int (30.6001 * of_Z i_capital) ;;
  let day_from_jd := of_Z (c_capital - g_capital - k) + f_capital in
  let month_from_jd :=
    if (i_capital <? 14)%Z then (i_capital - 1)%Z else (i_capital - 13)%Z in
  let year_from_jd :=
    if (2 <? month_from_jd)%Z then (d_capital - 4716)%Z else (d_capital - 4715)%Z in
  Ok (year_from_jd, month_from_jd, day_from_jd).

(** What [spa] returns:
    [((i, theta, f, d_prime, h_prime, a_prime, e),
      (eot_minutes, T, R, S, sun_time_notes),
      (year_from_jd, month_from_jd, day_from_jd))]. *)
Record spa_result : Type := {
  sr_i : float; sr_theta : float; sr_f : float; sr_d_prime : float;
  sr_h_prime : float; sr_a_prime : float; sr_e : float;
  sr_eot_minutes : float; sr_T : float; sr_R : float; sr_S : float;
  sr_sun_time_notes : string;
  sr_year_from_jd : Z; sr_month_from_jd : Z; sr_day_from_jd : float
}.

Definition spa (year month : Z)
    (day hour minute second microsecond
     latitude longitude elevation pressure temperature omega gamma dt : float)
  : result spa_result :=
  p <- spa_position year month day hour minute second microsecond
         latitude longitude elevation pressure temperature omega gamma dt ;;
  raw <- eot_raw p ;;
  let eot_minutes := eot_wrap raw in
  s <- spa_sun_day year month day latitude longitude dt ;;
  '(T, R, S', sun_time_notes) <- spa_sun_times s latitude longitude dt ;;
  '(year_from_jd, month_from_jd, day_from_jd) <- date_from_jd (jd (ps_jul p)) ;;
  let t := ps_top p in
  Ok {| sr_i := ps_i p; sr_theta := tp_theta t; sr_f := tp_f t;
        sr_d_prime := tp_d_prime t; sr_h_prime := tp_h_prime t;
        sr_a_prime := tp_a_prime t; sr_e := tp_e t;
        sr_eot_minutes := eot_minutes; sr_T := T; sr_R := R; sr_S := S';
        sr_sun_time_notes := sun_time_notes;
        sr_year_from_jd := year_from_jd; sr_month_from_jd := month_from_jd;
        sr_day_from_jd := day_from_jd |}.

End Spa.

(** ** [bird.py]: the Bird clear sky model *)

Section Bird.
Context {L : Libm}.

(** What [bird] returns:
    [(m, direct_normal, it, diffuse_horizontal,
      direct_normal_mod, it_mod, diffuse_horizontal_mod)]. *)
Record bird_result : Type := {
  br_m : float; br_direct_normal : float; br_it : float;
  br_diffuse_horizontal : float; br_direct_normal_mod : float;
  br_it_mod : float; br_diffuse_horizontal_mod : float
}.

Definition bird_zero : bird_result :=
  {| br_m := 0; br_direct_normal := 0; br_it := 0; br_diffuse_horizontal := 0;
     br_direct_normal_mod := 0; br_it_mod := 0; br_diffuse_horizontal_mod := 0 |}.

(** [0 <= zenith < 90 and r > 0] *)
Definition bird_domain (r zenith : float) : bool :=
  (0 <=? zenith) && (zenith <? 90) && (0 <? r).

(** Relative optical air mass.  Inside the domain the base
    [96.07995 - zenith] is above 6, so that its power is a float
    ([air_mass_base]). *)
Definition air_mass (zenith : float) : result float :=
  cz <- cosd zenith ;;
  k <- py_pow (96.07995 - zenith) (-1.6364) ;;
  py_pow (cz + 0.50572 * k) (-1).

(** The quantities of the valid branch that the returned tuple is built
    from, as the numbers that lines 54 to 73 compute. *)
Record bird_numbers : Type := {
  bn_m : float; bn_id2 : number; bn_ias : number; bn_rs : number;
  bn_direct_normal : number
}.

Definition bird_transmittances (r zenith pressure ozone water aerosol ba k1 : float)
  : result bird_numbers :=
  m <- air_mass zenith ;;
  let m_prime := m * pressure / 1013 in
  let xo := ozone * m in
  let xw := water * m in
  p1 <- float_pow m_prime 0.84 ;; p2 <- float_pow m_prime 1.01 ;;
  tr <- n_exp (Real (-0.0903) * p1 * (Real (1 + m_prime) - p2))%num ;;
  p3 <- float_pow (1 + 139.48 * xo) (-0.3034) ;;
  xo2 <- py_pow xo 2 ;;
  p4 <- py_pow (1 + 0.044 * xo + 0.0003 * xo2) (-1) ;;
  let to := (Real 1 - Real (0.1611 * xo) * p3 - Real (0.002715 * xo * p4))%num in
  p5 <- float_pow m_prime 0.26 ;;
  tum <- n_exp (Real (-0.0127) * p5)%num ;;
  p6 <- float_pow (1 + 79.034 * xw) 0.6828 ;;
  p7 <- n_reciprocal (p6 + Real (6.385 * xw))%num ;;
  let tw := (Real 1 - Real (2.4959 * xw) * p7)%num in
  p8 <- float_pow aerosol 0.873 ;; p9 <- float_pow aerosol 0.7088 ;;
  p10 <- float_pow m 0.9108 ;;
  ta <- n_exp (- p8 * (Real (1 + aerosol) - p9) * p10)%num ;;
  p11 <- float_pow m 1.06 ;;
  let taa := (Real 1 - Real k1 * (Real (1 - m) + p11) * Real (1 - ta))%num in
  tas <- n_div (Real ta) taa ;;
  let rs := (Real 0.0685 + Real (1 - ba) * (Real 1 - tas))%num in
  r2 <- py_pow r 2 ;;
  io <- py_div 1367 r2 ;;
  cz <- cosd zenith ;;
  let id2 := (Real (io * cz * 0.9662 * tr) * to * Real tum * tw * Real ta)%num in
  cz' <- cosd zenith ;;
  p12 <- float_pow m 1.02 ;;
  ias <- n_div (Real (io * cz' * 0.79) * to * tw * Real tum * taa
                * (Real (0.5 * (1 - tr)) + Real ba * (Real 1 - tas)))%num
               (Real (1 - m) + p12)%num ;;
  Ok {| bn_m := m; bn_id2 := id2; bn_ias := ias; bn_rs := rs;
        bn_direct_normal :=
          (Real (0.9662 * io * tr) * to * Real tum * tw * Real ta)%num |}.

(** The same quantities once [if direct_normal < 0] has been passed: the
    comparison raises a [TypeError] on a complex number, and when
    [direct_normal] is a float so are the others ([bird_numbers_are_floats]). *)
Record bird_terms : Type := {
  bt_m : float; bt_id2 : float; bt_ias : float; bt_rs : float;
  bt_it : float; bt_raw_direct_normal : float
}.

(** Lines 54 to 74: everything that does not depend on [dni_mod]. *)
Definition bird_unattenuated
    (r zenith pressure ozone water aerosol albedo ba k1 : float)
  : result bird_terms :=
  n <- bird_transmittances r zenith pressure ozone water aerosol ba k1 ;;
  it <- n_div (bn_id2 n + bn_ias n)%num (Real 1 - Real albedo * bn_rs n)%num ;;
  raw <- n_float (bn_direct_normal n) ;;
  id2 <- n_float (bn_id2 n) ;;
  ias <- n_float (bn_ias n) ;;
  rs <- n_float (bn_rs n) ;;
  it <- n_float it ;;
  Ok {| bt_m := bn_m n; bt_id2 := id2; bt_ias := ias; bt_rs := rs;
        bt_it := it; bt_raw_direct_normal := raw |}.

Definition bird (r zenith pressure ozone water aerosol albedo dni_mod ba k1 : float)
  : result bird_result :=
  if bird_domain r zenith then
    t <- bird_unattenuated r zenith pressure ozone water aerosol albedo ba k1 ;;
    let it := bt_it t in
    let direct_normal :=
      if bt_raw_direct_normal t <? 0 then 0 else bt_raw_direct_normal t in
    cz <- cosd zenith ;;
    let direct_horizontal := direct_normal * cz in
    let diffuse_horizontal := it - direct_horizontal in
    if 0 <=? dni_mod then
      let direct_normal_mod := direct_normal * dni_mod in
      cz' <- cosd zenith ;;
      let direct_horizontal_mod := direct_normal_mod * cz' in
      it_mod <- py_div (direct_horizontal_mod + bt_ias t) (1 - albedo * bt_rs t) ;;
      let diffuse_horizontal_mod := it_mod - direct_horizontal_mod in
      Ok {| br_m := bt_m t; br_direct_normal := direct_normal; br_it := it;
            br_diffuse_horizontal := diffuse_horizontal;
            br_direct_normal_mod := direct_normal_mod; br_it_mod := it_mod;
            br_diffuse_horizontal_mod := diffuse_horizontal_mod |}
    else
      Ok {| br_m := bt_m t; br_direct_normal := direct_normal; br_it := it;
            br_diffuse_horizontal := diffuse_horizontal;
            br_direct_normal_mod := 0; br_it_mod := 0;
            br_diffuse_horizontal_mod := 0 |}
  else Ok bird_zero.

End Bird.

(** ** [sampa.py]: the Solar and Moon Position Algorithm *)

Section Sampa.
Context {L : Libm}.

Definition mpt : list (list float) := replace_none moon_periodic_terms.
Definition ptml : list (list float) := periodic_terms_for_moon_latitude.

(** [_sun_distance]: the sun's distance in astronomical units. *)
Definition _sun_distance (year month : Z)
    (day hour minute second microsecond dt : float) : result float :=
  j <- julian_clock year month day hour minute second microsecond dt ;;
  earth_radius (jme j).

(** [multiply_l_i]: [e] to the power [abs(row[1])]. *)
Definition multiply_l_i (e : float) (row : list float) : result float :=
  if abs (at_ row 1) =? 1 then Ok e
  else if abs (at_ row 1) =? 2 then py_pow e 2
  else Ok 1.

Definition moon_argument (d m m_prime f : float) (row : list float) : float :=
  radians (at_ row 0 * d + at_ row 1 * m + at_ row 2 * m_prime + at_ row 3 * f).

(** [sum(row[k] * multiply_l_i * trig(argument))] over a lunar table. *)
Definition moon_sum (trig : float -> result float) (k : nat)
    (table : list (list float)) (e d m m_prime f : float) : result float :=
  terms <- mapM (fun row =>
                   mult <- multiply_l_i e row ;;
                   t <- trig (moon_argument d m m_prime f row) ;;
                   Ok (at_ row k * mult * t)) table ;;
  Ok (fsum terms).

Record moon_geocentric : Type := {
  mg_a2 : float;     (* right ascension, reduced by [% 360] *)
  mg_d : float;      (* declination *)
  mg_h : float;      (* local hour angle, reduced by [% 360] *)
  mg_p : float;      (* equatorial horizontal parallax *)
  mg_delta : float   (* distance from the earth, km *)
}.

Definition sampa_moon_geocentric (j : julian) (longitude : float)
  : result moon_geocentric :=
  let jce := jce j in
  c2 <- py_pow jce 2 ;; c3 <- py_pow jce 3 ;; c4 <- py_pow jce 4 ;;
  let l_prime := 218.3164477 + 481267.88123421 * jce - 0.0015786 * c2
                 + c3 / 538841 - c4 / 65194000 in
  let d := 297.8501921 + 445267.1114034 * jce - 0.0018819 * c2
           + c3 / 545868 - c4 / 113065000 in
  let m := 357.5291092 + 35999.0502909 * jce - 0.0001536 * c2 + c3 / 24490000 in
  let m_prime := 134.9633964 + 477198.8675055 * jce + 0.0087414 * c2
                 + c3 / 69699 - c4 / 14712000 in
  let f := 93.2720950 + 483202.0175233 * jce - 0.0036539 * c2
           - c3 / 3526000 + c4 / 863310000 in
  let e := 1 - 0.002516 * jce - 0.0000074 * c2 in
  d <- py_mod d 360 ;;
  m <- py_mod m 360 ;;
  m_prime <- py_mod m_prime 360 ;;
  f <- py_mod f 360 ;;
  l_prime <- py_mod l_prime 360 ;;
  l <- moon_sum math_sin 4 mpt e d m m_prime f ;;
  r <- moon_sum math_cos 5 mpt e d m m_prime f ;;
  b <- moon_sum math_sin 4 ptml e d m m_prime f ;;
  let a1 := 119.75 + 131.849 * jce in
  let a2 := 53.09 + 479264.29 * jce in
  let a3 := 313.45 + 481266.484 * jce in
  s1 <- sind a1 ;; s2 <- sind (l_prime - f) ;; s3 <- sind a2 ;;
  let dl := 3958 * s1 + 1962 * s2 + 318 * s3 in
  t1 <- sind l_prime ;; t2 <- sind a3 ;; t3 <- sind (a1 - f) ;;
  t4 <- sind (a1 + f) ;; t5 <- sind (l_prime - m_prime) ;;
  t6 <- sind (l_prime + m_prime) ;;
  let db := (-2235) * t1 + 382 * t2 + 175 * t3 + 175 * t4 + 127 * t5 - 115 * t6 in
  l_small_prime <- py_mod (l_prime + (l + dl) / 1000000) 360 ;;
  beta <- py_mod ((b + db) / 1000000) 360 ;;
  let delta := 385000.56 + r / 1000 in
  q <- py_div 6378.14 delta ;;
  p <- math_asin q ;;
  let p := degrees p in
  '(dy, de) <- nutation jce ;;
  e0 <- mean_obliquity (jme j) ;;
  let e := e0 / 3600 + de in
  let l_small := l_small_prime + dy in
  n0 <- sidereal_polynomial j ;;
  ce <- cosd e ;;
  n <- py_mod (n0 + dy * ce) 360 ;;
  sl <- sind l_small ;; ce1 <- cosd e ;; tb <- tand beta ;; se1 <- sind e ;;
  cl <- cosd l_small ;;
  a2 <- math_atan2 (sl * ce1 - tb * se1) cl ;;
  a2 <- py_mod (degrees a2) 360 ;;
  sb <- sind beta ;; ce2 <- cosd e ;; cb <- cosd beta ;; se2 <- sind e ;;
  sl2 <- sind l_small ;;
  d <- math_asin (sb * ce2 + cb * se2 * sl2) ;;
  let d := degrees d in
  h <- py_mod (n + longitude - a2) 360 ;;
  Ok {| mg_a2 := a2; mg_d := d; mg_h := h; mg_p := p; mg_delta := delta |}.

(** The lunar refraction correction, as [sampa] has it:
    [if e0 >= -1 * (0.26667 + 0.5667): de2 = ... else: de2 = 0]. *)
Definition moon_refraction (pressure temperature e0 : float) : result float :=
  if (-1) * (0.26667 + 0.5667) <=? e0 then
    a <- py_div 10.3 (e0 + 5.11) ;;
    t <- tand (e0 + a) ;;
    d1 <- py_div 283 (273 + temperature) ;;
    d2 <- py_div 1.02 (60 * t) ;;
    Ok (pressure / 1010 * d1 * d2)
  else Ok 0.

(** The refraction formula alone, without the gate on [e0]. *)
Definition refraction_formula (pressure temperature e0 : float) : result float :=
  a <- py_div 10.3 (e0 + 5.11) ;;
  t <- tand (e0 + a) ;;
  d1 <- py_div 283 (273 + temperature) ;;
  d2 <- py_div 1.02 (60 * t) ;;
  Ok (pressure / 1010 * d1 * d2).

Record moon_topocentric : Type := {
  mt_a_prime : float; mt_d_prime : float; mt_h_prime : float;
  mt_e0 : float;      (* elevation without refraction *)
  mt_de2 : float;     (* refraction correction *)
  mt_e : float;       (* elevation *)
  mt_theta_m : float; (* zenith *)
  mt_f_m : float      (* azimuth *)
}.

Definition sampa_moon_topocentric (g : moon_geocentric)
    (latitude elevation pressure temperature : float) : result moon_topocentric :=
  let a2 := mg_a2 g in
  let d := mg_d g in
  let h := mg_h g in
  let p := mg_p g in
  tl <- tand latitude ;;
  u2 <- math_atan (0.99664719 * tl) ;;
  let u2 := degrees u2 in
  cu <- cosd u2 ;; cl <- cosd latitude ;;
  let x2 := cu + elevation / 6378140 * cl in
  su <- sind u2 ;; sl <- sind latitude ;;
  let y := 0.99664719 * su + elevation / 6378140 * sl in
  sp <- sind p ;; sh <- sind h ;; cd <- cosd d ;; ch <- cosd h ;;
  da <- math_atan2 (- x2 * sp * sh) (cd - x2 * sp * ch) ;;
  let da := degrees da in
  let a_prime := a2 + da in
  sd <- sind d ;; cda <- cosd da ;;
  d_prime <- math_atan2 ((sd - y * sp) * cda) (cd - x2 * sp * ch) ;;
  let d_prime := degrees d_prime in
  let h_prime := h - da in
  sdp <- sind d_prime ;; cdp <- cosd d_prime ;; chp <- cosd h_prime ;;
  e0 <- math_asin (sl * sdp + cl * cdp * chp) ;;
  let e0 := degrees e0 in
  de2 <- moon_refraction pressure temperature e0 ;;
  let e := e0 + de2 in
  let theta_m := 90 - e in
  shp <- sind h_prime ;; tdp <- tand d_prime ;;
  gamma <- math_atan2 shp (chp * sl - tdp * cl) ;;
  gamma <- py_mod (degrees gamma) 360 ;;
  f_m <- py_mod (gamma + 180) 360 ;;
  Ok {| mt_a_prime := a_prime; mt_d_prime := d_prime; mt_h_prime := h_prime;
        mt_e0 := e0; mt_de2 := de2; mt_e := e; mt_theta_m := theta_m;
        mt_f_m := f_m |}.

(** The moon as [sampa] sees it from the observer. *)
Definition sampa_moon (year month : Z)
    (day hour minute second microsecond
     latitude longitude elevation pressure temperature dt : float)
  : result (moon_geocentric * moon_topocentric) :=
  j <- julian_clock year month day hour minute second microsecond dt ;;
  g <- sampa_moon_geocentric j longitude ;;
  t <- sampa_moon_topocentric g latitude elevation pressure temperature ;;
  Ok (g, t).

Inductive eclipse_note : Type :=
| NoEclipse           (* 'No Eclipse' *)
| StartOrEnd          (* 'Start or End of Eclipse' *)
| SolarEclipse        (* 'Solar Eclipse' *)
| TotalSolarEclipse   (* 'Total Solar Eclipse' *)
| PartialSolarEclipse (* 'Partial Solar Eclipse' *).

Definition note_string (n : eclipse_note) : string :=
  match n with
  | NoEclipse => "No Eclipse"
  | StartOrEnd => "Start or End of Eclipse"
  | SolarEclipse => "Solar Eclipse"
  | TotalSolarEclipse => "Total Solar Eclipse"
  | PartialSolarEclipse => "Partial Solar Eclipse"
  end.

(** The area of the lens two discs of radii [r_s] and [r_m] share when their
    centres are [ems] apart. *)
Definition lens_area (ems r_m r_s : float) : result float :=
  e2 <- py_pow ems 2 ;; s2 <- py_pow r_s 2 ;; m2 <- py_pow r_m 2 ;;
  s <- py_div (e2 + s2 - m2) (2 * ems) ;;
  e2' <- py_pow ems 2 ;; s2' <- py_pow r_s 2 ;; m2' <- py_pow r_m 2 ;;
  m <- py_div (e2' - s2' + m2') (2 * ems) ;;
  e2a <- py_pow ems 2 ;; s2a <- py_pow r_s 2 ;;
  e2b <- py_pow ems 2 ;; s2b <- py_pow r_s 2 ;; m2b <- py_pow r_m 2 ;;
  sq <- py_pow (e2b + s2b - m2b) 2 ;;
  root <- math_sqrt (4 * e2a * s2a - sq) ;;
  h <- py_div root (2 * ems) ;;
  let t_s := h * s in
  let t_m := h * m in
  rs2 <- py_pow r_s 2 ;;
  qs <- py_div s r_s ;;
  acs <- math_acos qs ;;
  let a_s := rs2 * acs in
  let a_capital_1 := a_s - t_s in
  rm2 <- py_pow r_m 2 ;;
  qm <- py_div m r_m ;;
  acm <- math_acos qm ;;
  let a_m := rm2 * acm in
  let a_capital_2 := a_m - t_m in
  Ok (a_capital_1 + a_capital_2).

Record eclipse : Type := {
  ec_note : eclipse_note;
  ec_a_i : float;           (* overlap area *)
  ec_a_sul : float;         (* area of the sun's unshaded lune *)
  ec_a_sul_percent : float
}.

Definition first_note (ems r_m r_s : float) : eclipse_note :=
  if r_m + r_s <? ems then NoEclipse
  else if ems =? r_m + r_s then StartOrEnd
  else SolarEclipse.

Definition sampa_eclipse (ems r_m r_s : float) : result eclipse :=
  let solar_eclipse := first_note ems r_m r_s in
  '(solar_eclipse, a_i) <-
    (if ems <? r_m + r_s then
       if ems <=? abs (r_m - r_s) then
         rm2 <- py_pow r_m 2 ;;
         Ok (TotalSolarEclipse, pi * rm2)
       else
         a_i <- lens_area ems r_m r_s ;;
         Ok (PartialSolarEclipse, a_i)
     else Ok (solar_eclipse, 0)) ;;
  rs2 <- py_pow r_s 2 ;;
  let a_sul := pi * rs2 - a_i in
  let a_sul := if a_sul <? 0 then 0 else a_sul in
  rs2' <- py_pow r_s 2 ;;
  a_sul_percent <- py_div (a_sul * 100) (pi * rs2') ;;
  Ok {| ec_note := solar_eclipse; ec_a_i := a_i; ec_a_sul := a_sul;
        ec_a_sul_percent := a_sul_percent |}.

(** The angular distance [ems] between the sun at zenith [theta_s] and
    azimuth [f_s] and the moon at zenith [theta_m] and azimuth [f_m]. *)
Definition separation (theta_s f_s theta_m f_m : float) : result float :=
  cs <- cosd theta_s ;; cm <- cosd theta_m ;; ss <- sind theta_s ;;
  sm <- sind theta_m ;; cf <- cosd (f_s - f_m) ;;
  ems <- math_acos (cs * cm + ss * sm * cf) ;;
  Ok (degrees ems).

(** What the eclipse module is fed: separation and the two angular radii. *)
Record eclipse_inputs : Type := {
  ei_ems : float; ei_r_capital_s : float; ei_r_s : float; ei_r_m : float
}.

Definition sampa_eclipse_inputs (year month : Z)
    (day hour minute second microsecond dt : float)
    (theta_s f_s : float) (g : moon_geocentric) (t : moon_topocentric)
  : result eclipse_inputs :=
  ems <- separation theta_s f_s (mt_theta_m t) (mt_f_m t) ;;
  r_capital_s <- _sun_distance year month day hour minute second microsecond dt ;;
  r_s <- py_div 959.63 (3600 * r_capital_s) ;;
  se <- sind (mt_e t) ;; sp <- sind (mg_p g) ;;
  r_m <- py_div (358473400 * (1 + se * sp)) (3600 * mg_delta g) ;;
  Ok {| ei_ems := ems; ei_r_capital_s := r_capital_s; ei_r_s := r_s;
        ei_r_m := r_m |}.

(** What [sampa] returns:
    [((theta_s, f_s, theta_m, f_m, d_prime, h_prime, a_prime, e),
      (r_s, r_m, a_sul, a_sul_percent, I_e, solar_eclipse))] with
    [I_e = (irradiance[1], irradiance[4], irradiance[2], irradiance[5],
            irradiance[3], irradiance[6])]. *)
Record sampa_result : Type := {
  sa_theta_s : float; sa_f_s : float; sa_theta_m : float; sa_f_m : float;
  sa_d_prime : float; sa_h_prime : float; sa_a_prime : float; sa_e : float;
  sa_r_s : float; sa_r_m : float; sa_a_sul : float; sa_a_sul_percent : float;
  sa_direct_normal : float; sa_direct_normal_mod : float;
  sa_it : float; sa_it_mod : float;
  sa_diffuse_horizontal : float; sa_diffuse_horizontal_mod : float;
  sa_solar_eclipse : eclipse_note
}.

Definition sampa (year month : Z)
    (day hour minute second microsecond
     latitude longitude elevation pressure temperature
     ozone water aerosol albedo ba k1 dt : float)
  : result sampa_result :=
  '(g, t) <- sampa_moon year month day hour minute second microsecond
               latitude longitude elevation pressure temperature dt ;;
  spa_results <- spa year month day hour minute second microsecond
                   latitude longitude elevation pressure temperature 0 0 dt ;;
  let theta_s := sr_theta spa_results in
  let f_s := sr_f spa_results in
  i <- sampa_eclipse_inputs year month day hour minute second microsecond dt
         theta_s f_s g t ;;
  ec <- sampa_eclipse (ei_ems i) (ei_r_m i) (ei_r_s i) ;;
  irradiance <- bird (ei_r_capital_s i) theta_s pressure ozone water aerosol albedo
                  (ec_a_sul_percent ec / 100) ba k1 ;;
  Ok {| sa_theta_s := theta_s; sa_f_s := f_s; sa_theta_m := mt_theta_m t;
        sa_f_m := mt_f_m t; sa_d_prime := mt_d_prime t;
        sa_h_prime := mt_h_prime t; sa_a_prime := mt_a_prime t;
        sa_e := mt_e t;
        sa_r_s := ei_r_s i; sa_r_m := ei_r_m i; sa_a_sul := ec_a_sul ec;
        sa_a_sul_percent := ec_a_sul_percent ec;
        sa_direct_normal := br_direct_normal irradiance;
        sa_direct_normal_mod := br_direct_normal_mod irradiance;
        sa_it := br_it irradiance; sa_it_mod := br_it_mod irradiance;
        sa_diffuse_horizontal := br_diffuse_horizontal irradiance;
        sa_diffuse_horizontal_mod := br_diffuse_horizontal_mod irradiance;
        sa_solar_eclipse := ec_note ec |}.

End Sampa.

(** ** [solpos.py]: Solar Position and Intensity *)

Section Solpos.
Context {L : Libm}.

Definition month_days : list (list Z) :=
  [[0; 0; 31; 59; 90; 120; 151; 181; 212; 243; 273; 304; 334];
   [0; 0; 31; 60; 91; 121; 152; 182; 213; 244; 274; 305; 335]]%Z.

(** [row[i]] for a Python list of 13 ints: negative indices count from the
    end, anything else out of range is an [IndexError]. *)
Definition index13 (row : list Z) (i : Z) : result Z :=
  if ((-13 <=? i) && (i <? 13))%Z then Ok (nth (Z.to_nat (i mod 13)) row 0%Z)
  else Raise IndexError.

Definition leap_year (year : Z) : bool :=
  ((year mod 4 =? 0) && (negb (year mod 100 =? 0) || (year mod 400 =? 0)))%Z.

(** [while daynum <= month_days[leap][month]: month -= 1] *)
Fixpoint month_loop (fuel : nat) (leap : nat) (daynum month : Z) : result Z :=
  match fuel with
  | O => Raise OutOfFuel
  | S k =>
      v <- index13 (nth leap month_days []) month ;;
      if (daynum <=? v)%Z then month_loop k leap daynum (month - 1)%Z
      else Ok month
  end.

(** [while tstfix > 720: tstfix -= 1440] *)
Fixpoint above_720 (fuel : nat) (tstfix : float) : result float :=
  match fuel with
  | O => Raise OutOfFuel
  | S k => if 720 <? tstfix then above_720 k (tstfix - 1440) else Ok tstfix
  end.

(** [while tstfix < -720: tstfix += 1440] *)
Fixpoint below_720 (fuel : nat) (tstfix : float) : result float :=
  match fuel with
  | O => Raise OutOfFuel
  | S k => if tstfix <? (-720) then below_720 k (tstfix + 1440) else Ok tstfix
  end.

(** [if hrang < -180: hrang += 360 elif hrang > 180: hrang -= 360] *)
Definition hrang_wrap (hrang : float) : float :=
  if hrang <? (-180) then hrang + 360
  else if 180 <? hrang then hrang - 360
  else hrang.

Record solpos_sun : Type := {
  sp_daynum : Z; sp_day_angle : float; sp_erv : float; sp_utime : float;
  sp_declin : float; sp_rascen : float; sp_lmst : float; sp_hrang : float
}.

(** Day number, day angle and the geocentric position of the sun. *)
Definition solpos_sun_position (fuel : nat) (year month day : Z)
    (hour minute second timezone longitude interval : float) : result solpos_sun :=
  d0 <- index13 (nth 0 month_days []) month ;;
  let daynum := (day + d0)%Z in
  let daynum := if leap_year year && (2 <? month)%Z then (daynum + 1)%Z else daynum in
  let leap := if leap_year year then 1%nat else 0%nat in
  _ <- month_loop fuel leap daynum 12 ;;
  let day_angle := 360 * of_Z (daynum - 1) / 365 in
  sd <- sind day_angle ;; cd <- cosd day_angle ;;
  let d2 := 2 * day_angle in
  c2 <- cosd d2 ;; s2 <- sind d2 ;;
  let erv := 1.000110 + 0.034221 * cd + 0.001280 * sd in
  let erv := erv + (0.000719 * c2 + 0.000077 * s2) in
  let utime := hour * 3600 + minute * 60 + second - interval / 2 in
  let utime := utime / 3600 - timezone in
  let delta := (year - 1949)%Z in
  leap <- int_div delta 4 ;;
  let julday := 32916.5 + of_Z delta * 365 + of_Z leap + of_Z daynum + utime / 24 in
  let ectime := julday - 51545 in
  mnlong <- py_mod (280.460 + 0.9856474 * ectime) 360 ;;
  mnanom <- py_mod (357.528 + 0.9856003 * ectime) 360 ;;
  s1 <- sind mnanom ;; s2' <- sind (2.0 * mnanom) ;;
  eclong <- py_mod (mnlong + 1.915 * s1 + 0.020 * s2') 360 ;;
  let ecobli := 23.439 - 4.0e-07 * ectime in
  so <- sind ecobli ;; sl <- sind eclong ;;
  declin <- math_asin (so * sl) ;;
  let declin := degrees declin in
  co <- cosd ecobli ;; sl' <- sind eclong ;;
  let top := co * sl' in
  bottom <- cosd eclong ;;
  rascen <- math_atan2 top bottom ;;
  rascen <- py_mod (degrees rascen) 360 ;;
  gmst <- py_mod (6.697375 + 0.0657098242 * ectime + utime) 24 ;;
  lmst <- py_mod (gmst * 15 + longitude) 360 ;;
  let hrang := hrang_wrap (lmst - rascen) in
  Ok {| sp_daynum := daynum; sp_day_angle := day_angle; sp_erv := erv;
        sp_utime := utime; sp_declin := declin; sp_rascen := rascen;
        sp_lmst := lmst; sp_hrang := hrang |}.

(** The arc cosine behind the azimuth: [math.acos(ca)], with [ca] brought
    back into [-1, 1]. *)
Definition solpos_azim_acos (se cecl tdat_sl tdat_sd : float) : result float :=
  ca <- py_div (se * tdat_sl - tdat_sd) cecl ;;
  let ca := if 1 <? ca then 1 else if ca <? (-1) then (-1.0) else ca in
  math_acos ca.

(** Azimuth from the elevation and the hour angle. *)
Definition solpos_azim (elevetr tdat_cl tdat_sl tdat_sd hrang : float) : result float :=
  ce <- cosd elevetr ;;
  se <- sind elevetr ;;
  let cecl := ce * tdat_cl in
  if 0.001 <=? abs cecl then
    a <- solpos_azim_acos se cecl tdat_sl tdat_sd ;;
    let azim := 180.0 - degrees a in
    Ok (if 0 <? hrang then 360 - azim else azim)
  else Ok 180.

(** What [solpos] returns:
    [(amass, ampress, zenref, azim, elevetr, elevref, etr, etrn, etrtilt,
      sretr, ssetr, sbcf, prime, unprime, day_angle, declin, eqntim, rascen)]. *)
Record solpos_result : Type := {
  so_amass : float; so_ampress : float; so_zenref : float; so_azim : float;
  so_elevetr : float; so_elevref : float; so_etr : float; so_etrn : float;
  so_etrtilt : float; so_sretr : float; so_ssetr : float; so_sbcf : float;
  so_prime : float; so_unprime : float; so_day_angle : float;
  so_declin : float; so_eqntim : float; so_rascen : float
}.

Definition solpos (fuel : nat) (year month day : Z)
    (hour minute second timezone latitude longitude pressure temperature
     aspect tilt sb_width sb_radius sb_sky interval : float)
  : result solpos_result :=
  s <- solpos_sun_position fuel year month day hour minute second timezone
         longitude interval ;;
  let declin := sp_declin s in
  let hrang := sp_hrang s in
  tdat_cd <- cosd declin ;;
  tdat_ch <- cosd hrang ;;
  tdat_cl <- cosd latitude ;;
  tdat_sd <- sind declin ;;
  tdat_sl <- sind latitude ;;
  let cz := tdat_sd * tdat_sl + tdat_cd * tdat_cl * tdat_ch in
  let cz := if 1 <? abs cz then (if 0 <=? cz then 1 else (-1)) else cz in
  zenetr <- math_acos cz ;;
  let zenetr := degrees zenetr in
  let zenetr := if 99 <? zenetr then 99 else zenetr in
  let elevetr := 90 - zenetr in
  let cdcl := tdat_cd * tdat_cl in
  ssha <-
    (if 0.001 <=? abs cdcl then
       cssha <- py_div (- tdat_sl * tdat_sd) cdcl ;;
       if cssha <? (-1) then Ok 180
       else if 1 <? cssha then Ok 0
       else a <- math_acos cssha ;; Ok (degrees a)
     else if ((0 <=? declin) && (0 <? latitude)) || ((declin <? 0) && (latitude <? 0))
     then Ok 180
     else Ok 0) ;;
  cd3 <- py_pow tdat_cd 3 ;;
  q <- py_div (0.6366198 * sb_width) sb_radius ;;
  let p := q * cd3 in
  let t1 := radians (tdat_sl * tdat_sd * ssha) in
  ss <- sind ssha ;;
  let t2 := tdat_cl * tdat_cd * ss in
  q1 <- py_div 1 (1 - p * (t1 + t2)) ;;
  let sbcf := sb_sky + q1 in
  let tst := (180 + hrang) * 4 in
  let tstfix := tst - hour * 60 - minute - second / 60 + interval / 120 in
  tstfix <- above_720 fuel tstfix ;;
  tstfix <- below_720 fuel tstfix ;;
  let eqntim := tstfix + 60 * timezone - 4 * longitude in
  let '(sretr, ssetr) :=
    if ssha <=? 1 then (2999, -2999)
    else if 179 <=? ssha then (-2999, 2999)
    else (720 - 4 * ssha - tstfix, 720 + 4 * ssha - tstfix) in
  azim <- solpos_azim elevetr tdat_cl tdat_sl tdat_sd hrang ;;
  refcor <-
    (if 85 <? elevetr then Ok 0
     else
       tanelev <- tand elevetr ;;
       refcor <-
         (if 5 <=? elevetr then
            a <- py_div 58.1 tanelev ;;
            t3 <- py_pow tanelev 3 ;;
            b <- py_div 0.07 t3 ;;
            t5 <- py_pow tanelev 5 ;;
            c <- py_div 0.000086 t5 ;;
            Ok (a - b + c)
          else if (-0.575) <=? elevetr then
            Ok (1735 + elevetr * (-518.2 + elevetr * (103.4 + elevetr *
                 (-12.79 + elevetr * 0.711))))
          else
            a <- py_div (-20.774) tanelev ;; Ok a) ;;
       prestemp <- py_div (pressure * 283) (1013 * (273 + temperature)) ;;
       Ok (refcor * (prestemp / 3600.0))) ;;
  let elevref := elevetr + refcor in
  let elevref := if elevref <? (-9) then (-9) else elevref in
  let zenref := 90 - elevref in
  coszen <- cosd zenref ;;
  '(amass, ampress) <-
    (if 93 <? zenref then Ok (-1, -1.0)
     else
       c <- cosd zenref ;;
       k <- py_pow (96.07995 - zenref) (-1.6364) ;;
       amass <- py_div 1 (c + 0.50572 * k) ;;
       Ok (amass, amass * pressure / 1013)) ;;
  q2 <- py_div 9.4 amass ;;
  q3 <- py_div (-1.4) (0.9 + q2) ;;
  ex <- math_exp q3 ;;
  let unprime := 1.031 * ex + 0.1 in
  prime <- py_div 1 unprime ;;
  let solcon := 1367 in
  let '(etrn, etr) :=
    if 0 <? coszen then (solcon * sp_erv s, solcon * sp_erv s * coszen)
    else (0, 0) in
  ca <- cosd azim ;; cp <- cosd aspect ;; ct <- cosd tilt ;;
  sa <- sind azim ;; sp <- sind aspect ;; st <- sind tilt ;;
  sz <- sind zenref ;;
  let cosinc := coszen * ct + sz * st * (ca * cp + sa * sp) in
  let etrtilt := if 0 <? cosinc then etrn * cosinc else 0 in
  Ok {| so_amass := amass; so_ampress := ampress; so_zenref := zenref;
        so_azim := azim; so_elevetr := elevetr; so_elevref := elevref;
        so_etr := etr; so_etrn := etrn; so_etrtilt := etrtilt;
        so_sretr := sretr; so_ssetr := ssetr; so_sbcf := sbcf;
        so_prime := prime; so_unprime := unprime;
        so_day_angle := sp_day_angle s; so_declin := declin;
        so_eqntim := eqntim; so_rascen := sp_rascen s |}.

End Solpos.

(** ** The default [dt] and the specification's Julian Day *)

(** Modelled from the spec: the default of [dt] (section 6).  The module
    [constants.py] that binds [DT] is not among the sources; 69.3 seconds is
    the value under which the expected results of [test_tools.py] are
    reproduced (they leave room for 69.298 to 69.300 only). *)
Definition DT : float := 69.3.

(** The Julian Day of the specification's section 4.1, where the brackets
    are the mathematical floor of the exact quantities:
    [b = 2 - floor(year/100) + floor(floor(year/100)/4)] and
    [JD = floor(365.25(year+4716)) + floor(30.6001(month+1)) + day + b - 1524.5],
    after the folding of the month and of the time of day. *)
Definition b_spec (year : Z) : Z := (2 - year / 100 + year / 100 / 4)%Z.

Definition julian_day_spec (year month : Z)
    (day hour minute second microsecond : float) : float :=
  let '(year, month) := fold_month year month in
  let day := fold_day day hour minute second microsecond in
  of_Z (1461 * (year + 4716) / 4 + 306001 * (month + 1) / 10000)
  + day + of_Z (b_spec year) - 1524.5.

(** The integer parts of [julian_day] agree with the specification's. *)
Definition year_parts_agree (year : Z) : bool :=
  match b_for_jd year, py_int (365.25 * of_Z (year + 4716)) with
  | Ok b, Ok i1 => (b =? b_spec year)%Z && (i1 =? 1461 * (year + 4716) / 4)%Z
  | _, _ => false
  end.

Definition month_part_agrees (month : Z) : bool :=
  match py_int (30.6001 * of_Z (month + 1)) with
  | Ok i2 => (i2 =? 306001 * (month + 1) / 10000)%Z
  | _ => false
  end.

(** [f lo && f (lo+1) && ... && f (lo+n-1)] *)
Fixpoint all_from (f : Z -> bool) (lo : Z) (n : nat) : bool :=
  match n with
  | O => true
  | S k => f lo && all_from f (lo + 1)%Z k
  end.

(** All outputs of [sampa] and of [solpos], in thousandths, in the order of
    the returned tuples. *)
Definition sampa_rounded (r : sampa_result) : list (option Z) :=
  map round3 [sa_theta_s r; sa_f_s r; sa_theta_m r; sa_f_m r; sa_d_prime r;
              sa_h_prime r; sa_a_prime r; sa_e r; sa_r_s r; sa_r_m r;
              sa_a_sul r; sa_a_sul_percent r; sa_direct_normal r;
              sa_direct_normal_mod r; sa_it r; sa_it_mod r;
              sa_diffuse_horizontal r; sa_diffuse_horizontal_mod r].

Definition solpos_rounded (r : solpos_result) : list (option Z) :=
  map round3 [so_amass r; so_ampress r; so_zenref r; so_azim r; so_elevetr r;
              so_elevref r; so_etr r; so_etrn r; so_etrtilt r; so_sretr r;
              so_ssetr r; so_sbcf r; so_prime r; so_unprime r; so_day_angle r;
              so_declin r; so_eqntim r; so_rascen r].

(** The outputs of [spa] that the regression vector names, in thousandths. *)
Definition spa_rounded (r : spa_result) : list (option Z) :=
  map round3 [sr_theta r; sr_f r; sr_eot_minutes r; sr_T r; sr_R r; sr_S r;
              sr_day_from_jd r].

(** A float is not negative when [x < 0] is false: it is a zero, a positive
    number, plus infinity or a NaN. *)
Definition sf_not_negative (s : spec_float) : Prop :=
  match s with
  | S754_finite true _ _ | S754_infinity true => False
  | _ => True
  end.

(** ** [analemmatic.py]: the class [Horizontal]

    The attributes that [__init__] sets and the methods that compute with
    them.  Numbers are floats, [years] is a list of ints.  The drawing
    ([matplotlib]) and the intersection of the ellipse with a ray
    ([shapely], in [_hour_location]) are outside this development. *)

Record Horizontal : Type := {
  hz_latitude : float; hz_longitude : float; hz_width : float;
  hz_height : float; hz_timezone : float; hz_correct_for_longitude : bool;
  hz_years : list Z; hz_elevation : float
}.

Section Analemmatic.
Context {L : Libm}.

(** [__init__]: [latitude if latitude else 1e-9], and
    [height = sin(radians(abs(latitude))) * width]. *)
Definition Horizontal_init (latitude longitude width timezone : float)
    (correct_for_longitude : bool) (years : list Z) (elevation : float)
  : result Horizontal :=
  let latitude := if latitude =? 0 then 1e-9 else latitude in
  s <- sind (abs latitude) ;;
  Ok {| hz_latitude := latitude; hz_longitude := longitude; hz_width := width;
        hz_height := s * width; hz_timezone := timezone;
        hz_correct_for_longitude := correct_for_longitude;
        hz_years := years; hz_elevation := elevation |}.

(** [timedelta(hours=h)] in microseconds: the whole hours, plus the
    fraction's microseconds rounded half to even. *)
Definition timedelta_hours (h : float) : result Z :=
  whole <- py_int h ;;
  let frac := (h - of_Z whole) * 3600000000 in
  match Prim2SF frac with
  | S754_zero _ => Ok (whole * 3600000000)%Z
  | S754_finite s m e =>
      let us := if (0 <=? e)%Z then Z.shiftl (Zpos m) e
                else round_half_even (Zpos m) (2 ^ (- e)) in
      Ok (whole * 3600000000 + (if s then - us else us))%Z
  | _ => Raise ValueError
  end.

(** [datetime(2, month_number, day, 0) - timedelta(hours=timezone)] *)
Definition time_with_offset (timezone : float) (month_number day : Z)
  : result datetime :=
  o <- ymd2ord 2 month_number day ;;
  us <- timedelta_hours timezone ;;
  if negb (timedelta_days_ok us) then Raise OverflowError
  else
    let t := (o * us_per_day - us)%Z in
    let o' := (t / us_per_day)%Z in
    let r := (t mod us_per_day)%Z in
    if negb (date_in_range o') then Raise OverflowError
    else
      let '(y', m', d') := ord2ymd o' in
      Ok {| dt_year := y'; dt_month := m'; dt_day := d';
            dt_hour := (r / 3600000000)%Z;
            dt_minute := (r / 60000000 mod 60)%Z;
            dt_second := (r / 1000000 mod 60)%Z;
            dt_microsecond := (r mod 1000000)%Z |}.

(** The declination that [_move] asks of [SPA], for one year. *)
Definition move_declination (self : Horizontal) (t : datetime) (year : Z)
  : result float :=
  let year_difference := (2 - dt_year t)%Z in
  r <- spa (year - year_difference) (dt_month t) (of_Z (dt_day t))
         (of_Z (dt_hour t)) 0 0 0 (hz_latitude self) (hz_longitude self)
         (hz_elevation self) 0 0 0 0 DT ;;
  Ok (sr_d_prime r).

(** [_move]: how far north of the centre the gnomon stands on a date. *)
Definition _move (self : Horizontal) (month_number day : Z) : result float :=
  t <- time_with_offset (hz_timezone self) month_number day ;;
  declinations <- mapM (move_declination self t) (hz_years self) ;;
  mean <- py_div (fsum declinations) (of_Z (Z.of_nat (List.length declinations))) ;;
  let declination := mean * (if 0 <=? hz_latitude self then 1 else -1) in
  c <- cosd (hz_latitude self) ;;
  tn <- tand declination ;;
  Ok (hz_width self / 2 * c * tn).

(** [_foci] *)
Definition _foci (self : Horizontal) : result (float * float) :=
  a <- py_pow (hz_width self / 2) 2 ;;
  b <- py_pow (hz_height self / 2) 2 ;;
  foci_loc <- math_sqrt (a - b) ;;
  Ok (- foci_loc, foci_loc).

(** [_longitude_correction], in minutes. *)
Definition _longitude_correction (self : Horizontal) : float :=
  let angle_correction := hz_longitude self - hz_timezone self * 15 in
  angle_correction * 4.

(** [if arc < -180: arc += 360 elif arc > 180: arc -= 360] *)
Definition arc_wrap (arc : float) : float :=
  if arc <? -180 then arc + 360
  else if 180 <? arc then arc - 360 else arc.

(** [_angle]: the angle of an hour mark, 0 at north, positive to the east. *)
Definition _angle (self : Horizontal) (hour : float) : result float :=
  let hour :=
    if hz_correct_for_longitude self
    then hour + _longitude_correction self / 60 else hour in
  let '(adj_hour, flip) :=
    if hour <=? 6 then (hour + 12, (-1)%Z)
    else if 18 <? hour then (hour - 12, 1%Z)
    else (hour, 0%Z) in
  let hour_12 := adj_hour - 12 in
  let for_tan := radians (15 * hour_12) in
  tan <- math_tan for_tan ;;
  sin <- sind (hz_latitude self) ;;
  tan_theta <- py_div tan sin ;;
  arc_tan <- math_atan tan_theta ;;
  let arc := degrees arc_tan in
  let arc := if (flip =? -1)%Z then arc - 180
             else if (flip =? 1)%Z then arc + 180 else arc in
  Ok (arc_wrap arc).

End Analemmatic.

(** The dates of the years 1 to 3, which are no leap years: ordinals 1 to
    1095 come back as a year from 1 to 3 and never as the 29th of February,
    and the ordinals of the year 2 are those of its dates. *)
Definition plain_date (o : Z) : bool :=
  let '(y, m, d) := ord2ymd o in
  ((1 <=? y) && (y <=? 3) && (1 <=? m) && (m <=? 12) && (1 <=? d)
   && (d <=? days_in_month y m) && negb ((m =? 2) && (d =? 29)))%Z
  && match ymd2ord y m d with Ok o' => (o' =? o)%Z | Raise _ => false end.


Definition year_2_date (m d : Z) : bool :=
  match ymd2ord 2 m d with
  | Ok o => let '(y', m', d') := ord2ymd o in
            ((y' =? 2) && (m' =? m) && (d' =? d))%Z
  | Raise _ => true
  end.


(** After [n] shifts of a mantissa [z >= 0]: the quotient by [2^n]; and no
    flag is raised when the division is exact. *)
Definition shifted (z : Z) (n : Z) (mrs : shr_record) : Prop :=
  shr_m mrs = (z / 2 ^ n)%Z
  /\ ((z mod 2 ^ n = 0)%Z -> shr_r mrs = false /\ shr_s mrs = false).


(** ** The exact values of binary64 numbers

    Used to state how sums, differences and products of floats are
    ordered. *)

(** The value of a zero or of a finite float, in units of [2^-1074]. *)
Definition scaled (s : spec_float) : option Z :=
  match s with
  | S754_zero _ => Some 0%Z
  | S754_finite sg m e => Some (cond_Zopp sg (Zpos m * 2 ^ (e + 1074)))%Z
  | _ => None
  end.

(** The float of mantissa [p] and exponent [g], or the infinity when the
    exponent is beyond the largest one. *)
Definition sf_false_finite_or_inf (p : positive) (g : Z) : spec_float :=
  if (g <=? 971)%Z then S754_finite false p g else S754_infinity false.

(** The exact value of a float that is zero or finite, in units of
    [2^-1074]. *)
Definition value (x : float) : option Z := scaled (Prim2SF x).

(** [a + b <= c], [a - b <= c] and, for [a] and [b] not negative,
    [a * b <= c] for the exact values, and the converse inequalities;
    [false] if one of the three is infinite or no number. *)
Definition values3 (rel : Z -> Z -> Z -> bool) (a b c : float) : bool :=
  match value a, value b, value c with
  | Some va, Some vb, Some vc => rel va vb vc
  | _, _, _ => false
  end.
Definition sum_le : float -> float -> float -> bool :=
  values3 (fun a b c => a + b <=? c)%Z.
Definition sum_ge : float -> float -> float -> bool :=
  values3 (fun a b c => c <=? a + b)%Z.
Definition difference_le : float -> float -> float -> bool :=
  values3 (fun a b c => a - b <=? c)%Z.
Definition difference_ge : float -> float -> float -> bool :=
  values3 (fun a b c => c <=? a - b)%Z.
Definition product_le : float -> float -> float -> bool :=
  values3 (fun a b c => (0 <=? a) && (0 <=? b) && (a * b <=? c * 2 ^ 1074))%Z.

(** [a <= b] for the exact values. *)
Definition value_le (a b : float) : bool :=
  match value a, value b with
  | Some va, Some vb => (va <=? vb)%Z
  | _, _ => false
  end.

(** The angles of the 24 hour marks, in thousandths of a degree. *)
Definition angles_rounded (self : Horizontal) : list (option Z) :=
  map (fun h => match _angle self (of_Z h) with
                | Ok a => round3 a
                | Raise _ => None
                end)
      [0; 1; 2; 3; 4; 5; 6; 7; 8; 9; 10; 11; 12; 13; 14; 15; 16; 17; 18; 19;
       20; 21; 22; 23]%Z.

(** * Properties *)

(** ** Comparisons of binary64 values *)

Lemma SFcompare_antisym (x y : spec_float) :
  SFcompare y x = option_map CompOpp (SFcompare x y).
Proof.
  destruct x as [sx|sx| |sx mx ex], y as [sy|sy| |sy my ey]; simpl;
    try reflexivity;
    try (destruct sx; reflexivity); try (destruct sy; reflexivity);
    try (destruct sx, sy; reflexivity).
  destruct sx, sy; simpl; try reflexivity;
    rewrite (Z.compare_antisym ex ey);
    destruct (ex ?= ey)%Z; simpl; try reflexivity;
    rewrite !Pos.compare_cont_spec, (Pos.compare_antisym mx my);
    destruct (mx ?= my)%positive; reflexivity.
Qed.

(** [x < y] excludes [y <= x]. *)
Lemma ltb_leb_false (x y : float) : (x <? y) = true -> (y <=? x) = false.
Proof.
  rewrite FloatAxioms.ltb_spec, FloatAxioms.leb_spec. unfold SFltb, SFleb.
  rewrite (SFcompare_antisym (Prim2SF x) (Prim2SF y)).
  destruct (SFcompare (Prim2SF x) (Prim2SF y)) as [[| |]|]; simpl; congruence.
Qed.

(** [x <= y] excludes [y < x]. *)
Lemma leb_ltb_false (x y : float) : (x <=? y) = true -> (y <? x) = false.
Proof.
  rewrite FloatAxioms.ltb_spec, FloatAxioms.leb_spec. unfold SFltb, SFleb.
  rewrite (SFcompare_antisym (Prim2SF x) (Prim2SF y)).
  destruct (SFcompare (Prim2SF x) (Prim2SF y)) as [[| |]|]; simpl; congruence.
Qed.

Lemma SFcompare_nan_r (x : spec_float) : SFcompare x S754_nan = None.
Proof. destruct x; reflexivity. Qed.

Lemma SFcompare_refl (x : spec_float) :
  x <> S754_nan -> SFcompare x x = Some Eq.
Proof.
  destruct x as [s|s| |s m e]; simpl; try congruence; intros _.
  - destruct s; reflexivity.
  - destruct s; rewrite Z.compare_refl, Pos.compare_cont_spec, Pos.compare_refl;
      reflexivity.
Qed.

Lemma is_nan_false (x : float) : Prim2SF x <> S754_nan -> is_nan x = false.
Proof.
  intros H. unfold is_nan. rewrite FloatAxioms.eqb_spec. unfold SFeqb.
  rewrite (SFcompare_refl _ H). reflexivity.
Qed.

(** A float whose magnitude compares above another is not a NaN. *)
Lemma ltb_abs_not_nan (b x : float) : (b <? abs x) = true -> is_nan x = false.
Proof.
  intros H. apply is_nan_false. intros Hn.
  rewrite FloatAxioms.ltb_spec, FloatAxioms.abs_spec, Hn in H. simpl in H.
  unfold SFltb in H. rewrite SFcompare_nan_r in H. discriminate.
Qed.

(** A NaN is below nothing, and a magnitude is not below zero. *)
Lemma ltb_nan (x y : float) : is_nan x = true -> (x <? y) = false.
Proof.
  intros H. rewrite FloatAxioms.ltb_spec. unfold SFltb.
  destruct (Prim2SF x) eqn:E; try reflexivity;
    rewrite is_nan_false in H by (rewrite E; discriminate); discriminate.
Qed.

Lemma abs_not_negative (x : float) : (abs x <? 0) = false.
Proof.
  rewrite FloatAxioms.ltb_spec, FloatAxioms.abs_spec.
  change (Prim2SF 0) with (S754_zero false).
  destruct (Prim2SF x) as [[|]|[|]| |[|] m e]; reflexivity.
Qed.

(** ** Reasoning about the error monad *)

Lemma bind_ok {A B : Type} (m : result A) (k : A -> result B) (b : B) :
  bind m k = Ok b -> exists a, m = Ok a /\ k a = Ok b.
Proof. destruct m as [a|e]; simpl; [eauto | discriminate]. Qed.

(** Peel one [bind] of a hypothesis [bind m k = Ok b]. *)
Ltac peel H x Hx :=
  apply bind_ok in H; destruct H as [x [Hx H]].

Lemma all_from_spec (f : Z -> bool) (n : nat) :
  forall lo, all_from f lo n = true ->
  forall z, (lo <= z < lo + Z.of_nat n)%Z -> f z = true.
Proof.
  induction n as [|k IH]; intros lo H z Hz.
  - simpl in Hz. lia.
  - simpl in H. apply andb_true_iff in H. destruct H as [H0 H1].
    destruct (Z.eq_dec z lo) as [->|Hne]; [exact H0|].
    apply (IH (lo + 1)%Z H1). lia.
Qed.

Lemma all_from_Z (f : Z -> bool) (lo n : Z) :
  (0 <= n)%Z -> all_from f lo (Z.to_nat n) = true ->
  forall z, (lo <= z < lo + n)%Z -> f z = true.
Proof.
  intros Hn H z Hz. apply (all_from_spec f (Z.to_nat n) lo H).
  rewrite Z2Nat.id by exact Hn. exact Hz.
Qed.

(** ** The hour-angle half-range of [spa] (C1) *)

Section HalfRange.
Context {L : Libm}.

(** Outside [[-1, 1]] the wrapper of [acos] raises. *)
Lemma math_acos_outside (x : float) :
  (1 <? abs x) = true -> math_acos x = Raise ValueError.
Proof.
  intros H. unfold math_acos.
  rewrite (ltb_abs_not_nan _ _ H), (ltb_leb_false _ _ H). reflexivity.
Qed.

Lemma half_range_outside (x : float) :
  (1 <? abs x) = true -> half_range x = Raise ValueError.
Proof.
  intros H. unfold half_range.
  rewrite (ltb_leb_false _ _ H), (math_acos_outside _ H). reflexivity.
Qed.

Lemma spa_sun_times_outside (s : sun_day) (latitude longitude dt : float) :
  (1 <? abs (sd_acos_arguement s)) = true ->
  spa_sun_times s latitude longitude dt = Raise ValueError.
Proof.
  intros H. unfold spa_sun_times. rewrite (half_range_outside _ H). reflexivity.
Qed.

End HalfRange.

(** C1 (what the code does instead): whenever the [acos] argument of the
    hour-angle half-range exceeds 1 in magnitude, [spa] returns nothing: the
    branch that would attach the note calls [math.acos] on that argument and
    the call raises.  Whatever the C library, [spa] ends in an exception. *)
Theorem spa_always_above_or_below_raises
    (L : Libm) (year month : Z)
    (day hour minute second microsecond
     latitude longitude elevation pressure temperature omega gamma dt : float)
    (s : sun_day) :
  spa_sun_day year month day latitude longitude dt = Ok s ->
  (1 <? abs (sd_acos_arguement s)) = true ->
  returns (spa year month day hour minute second microsecond
             latitude longitude elevation pressure temperature omega gamma dt)
  = false.
Proof.
  intros Hs Hout. unfold spa.
  destruct (spa_position _ _ _ _ _ _ _ _ _ _ _ _ _ _ _) as [p|e]; [|reflexivity].
  simpl. destruct (eot_raw p) as [raw|e]; [|reflexivity].
  simpl. rewrite Hs. simpl.
  rewrite (spa_sun_times_outside _ _ _ _ Hout). reflexivity.
Qed.

(** Midsummer at 80 degrees north: the sun does not set, and [spa] raises. *)
Lemma spa_always_above_or_below_raises_witness :
  returns (spa 2020 6 21 12 0 0 0 80 0 0 1010 10 0 0 DT) = false.
Proof.
  eapply (spa_always_above_or_below_raises libm_model 2020 6 21 12 0 0 0 80 0 0
            1010 10 0 0 DT).
  - vm_compute. reflexivity.
  - vm_compute. reflexivity.
Defined.

(** The exception is the [ValueError] of [math.acos]; the argument there is
    about -2.55: far outside [[-1, 1]]. *)
Lemma spa_midnight_sun_value_error :
  spa 2020 6 21 12 0 0 0 80 0 0 1010 10 0 0 DT = Raise ValueError
  /\ match spa_sun_day 2020 6 21 80 0 DT with
     | Ok s => round3 (sd_acos_arguement s) = Some (-2550)%Z
     | Raise _ => False
     end.
Proof. split; vm_compute; reflexivity. Qed.

(** ** The Julian Day against the specification's formula (C4) *)

(** C4 (counterexample): for the first of March of the year -100 the code's
    Julian Day is 1684595.5 and the specification's formula gives 1684594.5:
    [int(-1 / 4)] is 0 where the floor is -1. *)
Lemma julian_day_differs_for_year_minus_100 :
  julian_day (-100) 3 1 0 0 0 0 = Ok 1684595.5
  /\ julian_day_spec (-100) 3 1 0 0 0 0 = 1684594.5
  /\ julian_day (-100) 3 1 0 0 0 0 <> Ok (julian_day_spec (-100) 3 1 0 0 0 0).
Proof.
  split; [vm_compute; reflexivity|].
  split; [vm_compute; reflexivity|].
  intros H.
  apply (f_equal (fun r => match r with
                           | Ok v => v =? 1684595.5
                           | Raise _ => false
                           end)) in H.
  vm_compute in H. discriminate.
Qed.

Lemma years_checked : all_from year_parts_agree 0 (Z.to_nat 10000) = true.
Proof. vm_compute. reflexivity. Qed.

Lemma months_checked : all_from month_part_agrees 3 (Z.to_nat 12) = true.
Proof. vm_compute. reflexivity. Qed.

Lemma year_parts_agree_spec (year : Z) :
  year_parts_agree year = true ->
  b_for_jd year = Ok (b_spec year)
  /\ py_int (365.25 * of_Z (year + 4716)) = Ok (1461 * (year + 4716) / 4)%Z.
Proof.
  unfold year_parts_agree.
  destruct (b_for_jd year) as [b|]; [|discriminate].
  destruct (py_int (365.25 * of_Z (year + 4716))) as [i1|]; [|discriminate].
  intros H. apply andb_true_iff in H. destruct H as [Hb Hi].
  apply Z.eqb_eq in Hb, Hi. subst. split; reflexivity.
Qed.

Lemma month_part_agrees_spec (month : Z) :
  month_part_agrees month = true ->
  py_int (30.6001 * of_Z (month + 1)) = Ok (306001 * (month + 1) / 10000)%Z.
Proof.
  unfold month_part_agrees.
  destruct (py_int (30.6001 * of_Z (month + 1))) as [i2|]; [|discriminate].
  intros H. apply Z.eqb_eq in H. subst. reflexivity.
Qed.

(** After the fold, a date of the years 1 to 9999 has a year in 0..9999 and
    a month in 3..14. *)
Lemma fold_month_range (year month : Z) :
  (1 <= year <= 9999)%Z -> (1 <= month <= 12)%Z ->
  (0 <= fst (fold_month year month) < 0 + 10000)%Z
  /\ (3 <= snd (fold_month year month) < 3 + 12)%Z.
Proof.
  intros Hy Hm. unfold fold_month.
  destruct (month <=? 2)%Z eqn:E; cbn [fst snd];
    [apply Z.leb_le in E | apply Z.leb_gt in E]; lia.
Qed.

(** C4 (amended): for every date that [datetime] accepts, years 1 to 9999 and
    months 1 to 12, with any day and time of day, the Julian Day computed by
    the code is the one of the specification's formula with the mathematical
    floor. *)
Theorem julian_day_is_spec_for_datetime_years
    (year month : Z) (day hour minute second microsecond : float) :
  (1 <= year <= 9999)%Z -> (1 <= month <= 12)%Z ->
  julian_day year month day hour minute second microsecond
  = Ok (julian_day_spec year month day hour minute second microsecond).
Proof.
  intros Hy Hm.
  destruct (fold_month_range year month Hy Hm) as [Ry Rm].
  unfold julian_day, julian_day_spec.
  destruct (fold_month year month) as [y m]; cbn [fst snd] in Ry, Rm.
  destruct (year_parts_agree_spec y
              (all_from_Z _ _ 10000 ltac:(lia) years_checked y Ry)) as [Hb Hi1].
  pose proof (month_part_agrees_spec m
                (all_from_Z _ _ 12 ltac:(lia) months_checked m Rm)) as Hi2.
  rewrite Hb. simpl. rewrite Hi1. simpl. rewrite Hi2. reflexivity.
Qed.

Lemma julian_day_is_spec_for_datetime_years_witness :
  julian_day 2020 2 29 12 30 15 500000
  = Ok (julian_day_spec 2020 2 29 12 30 15 500000).
Proof.
  apply (julian_day_is_spec_for_datetime_years 2020 2 29 12 30 15 500000); lia.
Defined.

(** ** The expected values of [test_tools.py]

    The embedding, with [DT] and the C library of this file, reproduces the
    expected values of [test_sampa] and [test_solpos] to three decimals. *)

Lemma test_sampa_total :
  match sampa 2016 3 9 1 58 19 0 10.1 148.8 100 1000 25
              0.3 1.5 0.04 0.2 0.85 0.1 DT with
  | Ok r =>
      sampa_rounded r
      = map Some [15082; 163508; 15080; 163488; -4377; 355746; 349829; 74920;
                  268; 281; 0; 0; 1001167; 0; 1062697; 81056; 96013; 81056]%Z
      /\ sa_solar_eclipse r = TotalSolarEclipse
  | Raise _ => False
  end.
Proof. vm_compute. split; reflexivity. Qed.

Lemma test_sampa_partial :
  match sampa 2020 12 14 16 19 0 0 (-40.3) (-67.9) 0 10 0
              0.3 1.5 0.04 0.2 0.85 0.1 DT with
  | Ok r =>
      sampa_rounded r
      = map Some [17116; 5897; 17110; 6010; -23267; 358078; 262564; 72890;
                  271; 278; 13; 5582; 1123668; 62718; 1132799; 103132; 58894;
                  43191]%Z
      /\ sa_solar_eclipse r = PartialSolarEclipse
  | Raise _ => False
  end.
Proof. vm_compute. split; reflexivity. Qed.

Lemma test_sampa_no_eclipse :
  match sampa 2019 1 2 3 5 55 0 (-23.923) (-130.741) (-100) 2000 (-10)
              0.3 1.5 0.04 0.2 0.85 0.1 DT with
  | Ok r =>
      sampa_rounded r
      = map Some [84636; 247099; 126629; 227878; -14482; 142065; 235143;
                  -36629; 271; 252; 231; 100000; 409514; 409514; 61040; 61040;
                  22755; 22755]%Z
      /\ sa_solar_eclipse r = NoEclipse
  | Raise _ => False
  end.
Proof. vm_compute. split; reflexivity. Qed.

Lemma test_solpos :
  option_map solpos_rounded
    (match solpos 64 1990 3 14 12 3 4 0 20 3 1000 15 180 0 7.6 31.7 0.04 0 with
     | Ok r => Some r | Raise _ => None end)
  = Some (map Some [1082; 1068; 22561; 183763; 67432; 67439; 1277451; 1383314;
                    1277451; 360963; 1073612; 1202; 1009; 991; 71014; -2523;
                    -9288; 354167]%Z)
  /\ option_map solpos_rounded
    (match solpos 64 2016 8 30 15 0 0 0 (-70) (-160) 780 5 70 30 8 32 0.05 2 with
     | Ok r => Some r | Raise _ => None end)
  = Some (map Some [-1000; -1000; 98971; 89295; -9000; -8971; 0; 0; 0; 1099814;
                    1621077; 1073; 760; 1316; 238685; 8694; -446; 159345]%Z)
  /\ option_map solpos_rounded
    (match solpos 64 2100 5 9 9 5 0 0 23 48 10 30 120 150 7.6 31.7 0.04 0 with
     | Ok r => Some r | Raise _ => None end)
  = Some (map Some [1008; 10; 7351; 221590; 82649; 82649; 1329488; 1340506; 0;
                    133950; 915192; 1205; 1001; 999; 126247; 17423; 3429;
                    46416]%Z)
  /\ option_map solpos_rounded
    (match solpos 64 1999 7 22 9 45 37 (-5) 33.65 (-84.43) 1006 27 135 33.65
                  7.6 31.7 0.04 0 with
     | Ok r => Some r | Raise _ => None end)
  = Some (map Some [1336; 1327; 41590; 97033; 48396; 48410; 989666; 1323240;
                    1207549; 347175; 1181110; 1202; 1037; 964; 199233; 20284;
                    -6422; 121519]%Z).
Proof. repeat split; vm_compute; reflexivity. Qed.

(** ** The regression vector of [test_spa] (C3) *)

(** C3 (counterexample): at the regression input the sunrise that [spa]
    returns is 1.027 h; 6.164 h is the sun transit. *)
Lemma regression_sunrise_is_not_6164 :
  match spa 100 1 5 7 0 0 0 30 90 (-1000) 30 (-20) 359 1 DT with
  | Ok r => round3 (sr_R r) = Some 1027%Z /\ round3 (sr_R r) <> Some 6164%Z
            /\ round3 (sr_T r) = Some 6164%Z
  | Raise _ => False
  end.
Proof. vm_compute. repeat split; try reflexivity. discriminate. Qed.

(** C3 (amended): [SPA(100,1,5,7,0,0,0,30,90,-1000,30,-20,359,1)] gives, to
    three decimals, zenith 54.116, azimuth 194.299, equation of time -9.977
    minutes, sun transit 6.164 h, sunrise 1.027 h, sunset 11.304 h, no note,
    and the date (100, 1, 7.292). *)
Theorem regression_vector_spa :
  match spa 100 1 5 7 0 0 0 30 90 (-1000) 30 (-20) 359 1 DT with
  | Ok r =>
      spa_rounded r
      = map Some [54116; 194299; -9977; 6164; 1027; 11304; 7292]%Z
      /\ sr_sun_time_notes r = EmptyString
      /\ sr_year_from_jd r = 100%Z /\ sr_month_from_jd r = 1%Z
  | Raise _ => False
  end.
Proof. vm_compute. repeat split; reflexivity. Qed.

Lemma Ok_inj {A : Type} (a b : A) : Ok a = Ok b -> a = b.
Proof. intros H. inversion H. reflexivity. Qed.

(** ** The equation of time *)

Lemma eot_wrap_fixed (x : float) :
  (-20 <=? x) = true -> (x <=? 20) = true -> eot_wrap x = x.
Proof.
  intros H1 H2. unfold eot_wrap.
  rewrite (leb_ltb_false _ _ H2), (leb_ltb_false _ _ H1). reflexivity.
Qed.

(** The time of day is a number that [spa] does not check: an hour of 10^9,
    114 millennia after the first of January 2000, is accepted, and the
    equation of time returned is -242.061 minutes. *)
Lemma equation_of_time_outside_interval :
  match spa 2000 1 1 1000000000 0 0 0 30 90 0 1010 10 0 0 DT with
  | Ok r => round3 (sr_eot_minutes r) = Some (-242061)%Z
            /\ (sr_eot_minutes r <? -20) = true
  | Raise _ => False
  end.
Proof. vm_compute. split; reflexivity. Qed.

(** ** The sun of [sampa] is the sun of [spa] (C9) *)

(** C9: whenever [sampa] returns, its sun zenith and sun azimuth are the
    topocentric zenith and azimuth that [spa] returns for the same date, time,
    observer, pressure, temperature and [dt], with [omega = 0] and
    [gamma = 0]. *)
Theorem sampa_sun_is_spa
    (L : Libm) (year month : Z)
    (day hour minute second microsecond
     latitude longitude elevation pressure temperature
     ozone water aerosol albedo ba k1 dt : float)
    (r : sampa_result) :
  sampa year month day hour minute second microsecond
        latitude longitude elevation pressure temperature
        ozone water aerosol albedo ba k1 dt = Ok r ->
  exists s,
    spa year month day hour minute second microsecond
        latitude longitude elevation pressure temperature 0 0 dt = Ok s
    /\ sa_theta_s r = sr_theta s
    /\ sa_f_s r = sr_f s.
Proof.
  intros H. unfold sampa in H.
  peel H moon Hm. destruct moon as [g t].
  peel H s Hs. peel H i Hi. peel H ec He. peel H irr Hb.
  apply Ok_inj in H. subst r. exists s. auto.
Qed.

Lemma sampa_sun_is_spa_witness :
  exists r s,
    sampa 2019 1 2 3 5 55 0 (-23.923) (-130.741) (-100) 2000 (-10)
          0.3 1.5 0.04 0.2 0.85 0.1 DT = Ok r
    /\ spa 2019 1 2 3 5 55 0 (-23.923) (-130.741) (-100) 2000 (-10) 0 0 DT = Ok s
    /\ sa_theta_s r = sr_theta s
    /\ sa_f_s r = sr_f s.
Proof.
  assert (H : exists r, sampa 2019 1 2 3 5 55 0 (-23.923) (-130.741) (-100) 2000
                          (-10) 0.3 1.5 0.04 0.2 0.85 0.1 DT = Ok r)
    by (eexists; vm_compute; reflexivity).
  destruct H as [r Hr].
  destruct (sampa_sun_is_spa libm_model 2019 1 2 3 5 55 0 (-23.923) (-130.741)
              (-100) 2000 (-10) 0.3 1.5 0.04 0.2 0.85 0.1 DT r Hr) as [s Hs].
  exists r, s. tauto.
Defined.

(** ** Angles and their reduction (C8) *)

(** Peel every [bind] of a hypothesis, keeping the equations. *)
Ltac peel_all H :=
  repeat (let x := fresh "v" in let Hx := fresh "E" in
          apply bind_ok in H; destruct H as [x [Hx H]]).

Section Angles.
Context {L : Libm}.

(** What [to_topocentric] does with the angles it is given: the right
    ascension and the hour angle receive the parallax [da] and nothing more;
    the azimuth comes out of a [% 360]. *)
Lemma to_topocentric_angles
    (a2 d h xi latitude elevation pressure temperature : float) (t : topocentric) :
  to_topocentric a2 d h xi latitude elevation pressure temperature = Ok t ->
  tp_a_prime t = a2 + tp_da t
  /\ tp_h_prime t = h - tp_da t
  /\ py_mod (tp_gamma2 t + 180) 360 = Ok (tp_f t)
  /\ (exists x, py_mod x 360 = Ok (tp_gamma2 t)).
Proof.
  intros H. unfold to_topocentric in H. peel_all H.
  apply Ok_inj in H. subst t. cbn [tp_da tp_a_prime tp_h_prime tp_gamma2 tp_f].
  repeat apply conj; eauto.
Qed.

Lemma sun_geocentric_reduced (jce jme : float) (g : geocentric) :
  sun_geocentric jce jme = Ok g -> exists x, py_mod x 360 = Ok (gc_a2 g).
Proof.
  intros H. unfold sun_geocentric in H.
  peel H hc Hhc. peel H nut Hn. destruct nut as [dy de].
  peel_all H. apply Ok_inj in H. subst g. cbn [gc_a2]. eauto.
Qed.

Lemma spa_position_angles (year month : Z)
    (day hour minute second microsecond
     latitude longitude elevation pressure temperature omega gamma dt : float)
    (p : position) :
  spa_position year month day hour minute second microsecond
    latitude longitude elevation pressure temperature omega gamma dt = Ok p ->
  (exists x, py_mod x 360 = Ok (gc_a2 (ps_geo p)))
  /\ (exists x, py_mod x 360 = Ok (ps_h p))
  /\ tp_a_prime (ps_top p) = gc_a2 (ps_geo p) + tp_da (ps_top p)
  /\ tp_h_prime (ps_top p) = ps_h p - tp_da (ps_top p)
  /\ py_mod (tp_gamma2 (ps_top p) + 180) 360 = Ok (tp_f (ps_top p)).
Proof.
  intros H. unfold spa_position in H.
  peel H j Hj. peel H g Hg. peel H n0 Hn0. peel H ce Hce. peel H h Hh.
  peel H xi Hxi. peel H t Ht. peel_all H.
  apply Ok_inj in H. subst p. cbn [ps_geo ps_h ps_top].
  destruct (to_topocentric_angles _ _ _ _ _ _ _ _ _ Ht) as [Ha [Hh' [Hf _]]].
  repeat apply conj; eauto using sun_geocentric_reduced.
Qed.

(** In [solpos] the right ascension comes out of a [% 360], and the hour
    angle is the difference of two reduced angles wrapped once. *)
Lemma solpos_angles (fuel : nat) (year month day : Z)
    (hour minute second timezone longitude interval : float) (s : solpos_sun) :
  solpos_sun_position fuel year month day hour minute second timezone
    longitude interval = Ok s ->
  (exists x, py_mod x 360 = Ok (sp_rascen s))
  /\ (exists x, py_mod x 360 = Ok (sp_lmst s))
  /\ sp_hrang s = hrang_wrap (sp_lmst s - sp_rascen s).
Proof.
  intros H. unfold solpos_sun_position in H. peel_all H.
  apply Ok_inj in H. subst s. cbn [sp_rascen sp_lmst sp_hrang].
  repeat apply conj; eauto.
Qed.

End Angles.

(** C8 (counterexample): two minutes before the equinox of March 2020, seen
    from the equator at 30 degrees east in the morning, the topocentric right
    ascension that [spa] returns is 360.001: the reduced geocentric right
    ascension 359.999 plus the parallax 0.002. *)
Lemma topocentric_right_ascension_above_360 :
  match spa 2020 3 20 3 48 0 0 0 30 0 1010 10 0 0 DT with
  | Ok r => round3 (sr_a_prime r) = Some 360001%Z
            /\ (360 <=? sr_a_prime r) = true
            /\ (sr_a_prime r <? 360) = false
  | Raise _ => False
  end.
Proof. vm_compute. repeat split; reflexivity. Qed.

(** ** More on comparisons *)

Lemma ltb_antisym (x y : float) : (x <? y) = true -> (y <? x) = false.
Proof.
  rewrite !FloatAxioms.ltb_spec. unfold SFltb.
  rewrite (SFcompare_antisym (Prim2SF x) (Prim2SF y)).
  destruct (SFcompare (Prim2SF x) (Prim2SF y)) as [[| |]|]; simpl; congruence.
Qed.

Lemma eqb_ltb_false (x y : float) :
  (x =? y) = true -> (x <? y) = false /\ (y <? x) = false.
Proof.
  rewrite !FloatAxioms.ltb_spec, FloatAxioms.eqb_spec. unfold SFltb, SFeqb.
  rewrite (SFcompare_antisym (Prim2SF x) (Prim2SF y)).
  destruct (SFcompare (Prim2SF x) (Prim2SF y)) as [[| |]|]; simpl;
    split; congruence.
Qed.

(** ** Signs of binary64 products and quotients *)

Lemma not_negative_spec (x : float) :
  (x <? 0) = false <-> sf_not_negative (Prim2SF x).
Proof.
  rewrite FloatAxioms.ltb_spec. change (Prim2SF 0) with (S754_zero false).
  destruct (Prim2SF x) as [[|]|[|]| |[|] m e]; simpl; split;
    intros H; try reflexivity; try exact I; try discriminate; try contradiction.
Qed.

Lemma binary_round_aux_not_negative (m e : Z) (l : location) :
  sf_not_negative (binary_round_aux prec emax false m e l).
Proof.
  unfold binary_round_aux.
  destruct (shr_fexp prec emax m e l) as [mrs e'].
  destruct (shr_fexp prec emax _ e' loc_Exact) as [mrs' e''].
  destruct (shr_m mrs'); simpl; auto.
  destruct (e'' <=? 971)%Z; simpl; auto.
Qed.

Lemma SFmul_not_negative (a b : spec_float) :
  sf_not_negative a -> sf_not_negative b ->
  sf_not_negative (SFmul prec emax a b).
Proof.
  destruct a as [[|]|[|]| |[|] ma ea], b as [[|]|[|]| |[|] mb eb];
    intros Ha Hb; try (exfalso; exact Ha); try (exfalso; exact Hb);
    try exact I.
  apply (binary_round_aux_not_negative (Zpos (ma * mb)) (ea + eb) loc_Exact).
Qed.

Lemma SFmul_square_not_negative (a : spec_float) :
  sf_not_negative (SFmul prec emax a a).
Proof.
  destruct a as [[|]|[|]| |[|] ma ea]; try exact I;
    apply (binary_round_aux_not_negative (Zpos (ma * ma)) (ea + ea) loc_Exact).
Qed.

Lemma SFdiv_not_negative (a b : spec_float) :
  sf_not_negative a -> sf_not_negative b -> (forall s, b <> S754_zero s) ->
  sf_not_negative (SFdiv prec emax a b).
Proof.
  destruct a as [[|]|[|]| |[|] ma ea], b as [[|]|[|]| |[|] mb eb];
    intros Ha Hb Hz; try (exfalso; exact Ha); try (exfalso; exact Hb);
    try exact I;
    try (exfalso; eapply Hz; reflexivity).
  unfold SFdiv.
  destruct (SFdiv_core_binary prec emax (Z.pos ma) ea (Z.pos mb) eb)
    as [[mz ez] lz].
  apply binary_round_aux_not_negative.
Qed.

Lemma mul_not_negative (x y : float) :
  (x <? 0) = false -> (y <? 0) = false -> (x * y <? 0) = false.
Proof.
  rewrite !not_negative_spec, FloatAxioms.mul_spec.
  apply SFmul_not_negative.
Qed.

Lemma square_not_negative (x : float) : (x * x <? 0) = false.
Proof.
  rewrite not_negative_spec, FloatAxioms.mul_spec.
  apply SFmul_square_not_negative.
Qed.

Lemma div_not_negative (x y : float) :
  (x <? 0) = false -> (y <? 0) = false -> (y =? 0) = false ->
  (x / y <? 0) = false.
Proof.
  rewrite !not_negative_spec, FloatAxioms.div_spec, FloatAxioms.eqb_spec.
  change (Prim2SF 0) with (S754_zero false).
  intros Hx Hy Hz. apply SFdiv_not_negative; auto.
  intros s E. rewrite E in Hz. destruct s; discriminate.
Qed.

(** The C library of this file squares without a sign. *)
Lemma libm_model_square_not_negative (x : float) :
  (c_pow (Libm := libm_model) x 2 <? 0) = false.
Proof.
  cbn [c_pow libm_model]. unfold LibmModel.pow.
  destruct (is_nan x); [reflexivity|].
  change (is_nan 2) with false. cbn [orb].
  change (is_integral 2 && (abs 2 <=? 16)) with true. cbv iota.
  change (2 <? 0) with false. cbv iota.
  change (Prim2SF (abs 2)) with (S754_finite false 4503599627370496 (-51)).
  cbv iota.
  change (Z.to_nat (shift_trunc 4503599627370496 (-51))) with 2%nat.
  cbn [LibmModel.powi]. apply square_not_negative.
Qed.

(** ** The lunar refraction of [sampa] (C2) *)

Section MoonRefraction.
Context {L : Libm}.

(** The lunar gate is the solar one, line for line. *)
Lemma moon_refraction_is_refraction (pressure temperature e0 : float) :
  moon_refraction pressure temperature e0 = refraction pressure temperature e0.
Proof. reflexivity. Qed.

Lemma moon_refraction_gate (pressure temperature e0 de2 : float) :
  moon_refraction pressure temperature e0 = Ok de2 ->
  ((h_prime_0 <=? e0) = true -> refraction_formula pressure temperature e0 = Ok de2)
  /\ ((h_prime_0 <=? e0) = false -> de2 = 0).
Proof.
  unfold moon_refraction, refraction_formula.
  change ((-1) * (0.26667 + 0.5667)) with h_prime_0.
  destruct (h_prime_0 <=? e0); intros H; split; intros E;
    try discriminate; auto.
  apply Ok_inj in H. auto.
Qed.

(** The lunar elevation of [sampa]: the elevation angle of the topocentric
    declination and hour angle, plus the gated refraction. *)
Lemma moon_topocentric_refraction (g : moon_geocentric)
    (latitude elevation pressure temperature : float) (t : moon_topocentric) :
  sampa_moon_topocentric g latitude elevation pressure temperature = Ok t ->
  elevation_angle latitude (mt_d_prime t) (mt_h_prime t) = Ok (mt_e0 t)
  /\ moon_refraction pressure temperature (mt_e0 t) = Ok (mt_de2 t)
  /\ mt_e t = mt_e0 t + mt_de2 t
  /\ mt_theta_m t = 90 - mt_e t.
Proof.
  intros H. unfold sampa_moon_topocentric in H.
  peel H x1 Htl. peel H x2 Hu2. peel H x3 Hcu. peel H x4 Hcl. peel H x5 Hsu.
  peel H x6 Hsl. peel H x7 Hsp. peel H x8 Hsh. peel H x9 Hcd. peel H x10 Hch.
  peel H x11 Hda. peel H x12 Hsd. peel H x13 Hcda. peel H x14 Hdp.
  peel H x15 Hsdp. peel H x16 Hcdp. peel H x17 Hchp. peel H x18 He0.
  peel H x19 Hde2. peel_all H.
  apply Ok_inj in H. subst t.
  cbn [mt_d_prime mt_h_prime mt_e0 mt_de2 mt_e mt_theta_m].
  repeat apply conj; auto.
  unfold elevation_angle. rewrite Hsl. cbn [bind]. rewrite Hsdp. cbn [bind].
  rewrite Hcl. cbn [bind]. rewrite Hcdp. cbn [bind]. rewrite Hchp. cbn [bind].
  rewrite He0. reflexivity.
Qed.

(** The solar elevation of [spa], likewise. *)
Lemma to_topocentric_refraction
    (a2 d h xi latitude elevation pressure temperature : float) (t : topocentric) :
  to_topocentric a2 d h xi latitude elevation pressure temperature = Ok t ->
  elevation_angle latitude (tp_d_prime t) (tp_h_prime t) = Ok (tp_e0 t)
  /\ refraction pressure temperature (tp_e0 t) = Ok (tp_de2 t)
  /\ tp_e t = tp_e0 t + tp_de2 t
  /\ tp_theta t = 90 - tp_e t.
Proof.
  intros H. unfold to_topocentric in H.
  peel H x1 Htl. peel H x2 Hu2. peel H x3 Hcu. peel H x4 Hcl. peel H x5 Hsu.
  peel H x6 Hsl. peel H x7 Hsp. peel H x8 Hsh. peel H x9 Hcd. peel H x10 Hch.
  peel H x11 Hda. peel H x12 Hsd. peel H x13 Hcda. peel H x14 Hdp.
  peel H x15 Hsdp. peel H x16 Hcdp. peel H x17 Hchp. peel H x18 He0.
  peel H x19 Hde2. peel_all H.
  apply Ok_inj in H. subst t.
  cbn [tp_d_prime tp_h_prime tp_e0 tp_de2 tp_e tp_theta].
  repeat apply conj; auto.
  unfold elevation_angle. rewrite Hsl. cbn [bind]. rewrite Hsdp. cbn [bind].
  rewrite Hcl. cbn [bind]. rewrite Hcdp. cbn [bind]. rewrite Hchp. cbn [bind].
  rewrite He0. reflexivity.
Qed.

End MoonRefraction.

(** C2 (counterexample): on the 2nd of January 2019 the moon stands 36.6
    degrees below the horizon of the third test's observer; [sampa] adds no
    refraction to its elevation, where the formula applied without the gate
    would give -0.048 degrees. *)
Lemma moon_below_horizon_not_refracted :
  match sampa_moon 2019 1 2 3 5 55 0 (-23.923) (-130.741) (-100) 2000 (-10) DT with
  | Ok (g, t) =>
      round3 (mt_e0 t) = Some (-36629)%Z
      /\ (mt_de2 t =? 0) = true
      /\ match refraction_formula 2000 (-10) (mt_e0 t) with
         | Ok d => round3 d = Some (-48)%Z /\ (d =? mt_de2 t) = false
         | Raise _ => False
         end
  | Raise _ => False
  end.
Proof. vm_compute. repeat split; reflexivity. Qed.

(** C2 (amended): in [sampa]'s lunar branch the refraction correction is
    gated exactly as on the solar side.  With [e0] the elevation angle of the
    moon's returned topocentric declination and hour angle, the returned
    lunar elevation is [e0 + de2] and the returned lunar zenith 90 less that,
    where [de2] is what the gate gives at [e0]: the pressure and temperature
    formula when [e0 >= -(0.26667 + 0.5667)], and 0 otherwise.  The sun of
    the same call, which is [spa]'s, has its elevation built in the same way
    from its own [e0], by the same gate. *)
Theorem sampa_moon_refraction_gated
    (L : Libm) (year month : Z)
    (day hour minute second microsecond
     latitude longitude elevation pressure temperature
     ozone water aerosol albedo ba k1 dt : float)
    (r : sampa_result) :
  sampa year month day hour minute second microsecond
        latitude longitude elevation pressure temperature
        ozone water aerosol albedo ba k1 dt = Ok r ->
  (exists e0 de2,
     elevation_angle latitude (sa_d_prime r) (sa_h_prime r) = Ok e0
     /\ moon_refraction pressure temperature e0 = Ok de2
     /\ sa_e r = e0 + de2
     /\ sa_theta_m r = 90 - sa_e r
     /\ ((h_prime_0 <=? e0) = true ->
         refraction_formula pressure temperature e0 = Ok de2)
     /\ ((h_prime_0 <=? e0) = false -> de2 = 0))
  /\ (exists s e0 de2,
        spa year month day hour minute second microsecond
            latitude longitude elevation pressure temperature 0 0 dt = Ok s
        /\ elevation_angle latitude (sr_d_prime s) (sr_h_prime s) = Ok e0
        /\ refraction pressure temperature e0 = Ok de2
        /\ sr_e s = e0 + de2
        /\ sa_theta_s r = 90 - sr_e s
        /\ ((h_prime_0 <=? e0) = true ->
            refraction_formula pressure temperature e0 = Ok de2)
        /\ ((h_prime_0 <=? e0) = false -> de2 = 0)).
Proof.
  intros H. unfold sampa in H.
  peel H moon Hm. destruct moon as [g t].
  peel H s Hs. peel H i Hi. peel H ec He. peel H irr Hb.
  apply Ok_inj in H. subst r. cbn [sa_e sa_theta_m sa_theta_s sa_d_prime sa_h_prime].
  split.
  - unfold sampa_moon in Hm. peel Hm j Hj. peel Hm g' Hg. peel Hm t' Ht.
    apply Ok_inj in Hm. injection Hm as -> ->.
    destruct (moon_topocentric_refraction _ _ _ _ _ _ Ht) as [Hel [Hr [He0 Hth]]].
    destruct (moon_refraction_gate _ _ _ _ Hr) as [Hin Hout].
    exists (mt_e0 t), (mt_de2 t). repeat apply conj; auto.
  - pose proof Hs as Hs'. unfold spa in Hs'.
    peel Hs' p Hp. peel Hs' raw Hraw. peel Hs' sday Hsd. peel Hs' times Ht.
    destruct times as [[[T R] S'] notes]. peel Hs' date Hd.
    destruct date as [[yj mj] dj]. apply Ok_inj in Hs'.
    unfold spa_position in Hp. peel Hp j Hj. peel Hp gs Hgs. peel Hp n0 Hn0.
    peel Hp ce Hce. peel Hp h Hh. peel Hp xi Hxi. peel Hp tp Htp. peel_all Hp.
    apply Ok_inj in Hp. subst p. cbn [ps_top ps_i ps_jul] in Hs'.
    destruct (to_topocentric_refraction _ _ _ _ _ _ _ _ _ Htp)
      as [Hel [Hr [He0 Hth]]].
    destruct (moon_refraction_gate _ _ _ _ Hr) as [Hin Hout].
    exists s, (tp_e0 tp), (tp_de2 tp). subst s.
    cbn [sr_d_prime sr_h_prime sr_e sr_theta]. repeat apply conj; auto.
Qed.

Lemma sampa_moon_refraction_gated_witness :
  exists r e0 de2,
    sampa 2019 1 2 3 5 55 0 (-23.923) (-130.741) (-100) 2000 (-10)
          0.3 1.5 0.04 0.2 0.85 0.1 DT = Ok r
    /\ elevation_angle (-23.923) (sa_d_prime r) (sa_h_prime r) = Ok e0
    /\ moon_refraction 2000 (-10) e0 = Ok de2
    /\ sa_e r = e0 + de2
    /\ ((h_prime_0 <=? e0) = false -> de2 = 0).
Proof.
  assert (H : exists r, sampa 2019 1 2 3 5 55 0 (-23.923) (-130.741) (-100) 2000
                          (-10) 0.3 1.5 0.04 0.2 0.85 0.1 DT = Ok r)
    by (eexists; vm_compute; reflexivity).
  destruct H as [r Hr].
  destruct (sampa_moon_refraction_gated libm_model 2019 1 2 3 5 55 0 (-23.923)
              (-130.741) (-100) 2000 (-10) 0.3 1.5 0.04 0.2 0.85 0.1 DT r Hr)
    as [[e0 [de2 Hall]] _].
  exists r, e0, de2. tauto.
Defined.

(** ** The eclipse geometry of [sampa] (C6, C10) *)

(** Subtracting the float zero changes nothing. *)
Lemma sub_zero_r (x : float) : x - 0 = x.
Proof.
  apply Prim2SF_inj. rewrite FloatAxioms.sub_spec.
  change (Prim2SF 0) with (S754_zero false).
  destruct (Prim2SF x) as [[|]|[|]| |[|] m e]; reflexivity.
Qed.

Section Eclipse.
Context {L : Libm}.

Lemma py_pow_functional (x y a b : float) :
  py_pow x y = Ok a -> py_pow x y = Ok b -> a = b.
Proof. intros Ha Hb. rewrite Ha in Hb. apply Ok_inj in Hb. exact Hb. Qed.

(** A square computed by [**] is not negative, if the C library's is not. *)
Lemma py_pow_2_not_negative (x v : float) :
  (forall z, (c_pow z 2 <? 0) = false) ->
  py_pow x 2 = Ok v -> (v <? 0) = false.
Proof.
  intros Hsq H. unfold py_pow in H. peel H n Hn.
  unfold float_pow in Hn.
  change (2 =? 0) with false in Hn. change (is_nan 2) with false in Hn.
  change (is_infinity 2) with false in Hn. change (0 <? 2) with true in Hn.
  change (2 <? 0) with false in Hn. change (is_odd_integer 2) with false in Hn.
  change (is_integral 2) with true in Hn.
  cbv zeta in Hn. rewrite !andb_false_r in Hn. cbv iota in Hn.
  destruct (is_nan x) eqn:En.
  { apply Ok_inj in Hn. subst n. apply Ok_inj in H. subst v.
    exact (ltb_nan _ _ En). }
  destruct (is_infinity x).
  { apply Ok_inj in Hn. subst n. apply Ok_inj in H. subst v.
    apply abs_not_negative. }
  destruct (x =? 0).
  { apply Ok_inj in Hn. subst n. apply Ok_inj in H. subst v. reflexivity. }
  cbn [negb andb] in Hn.
  destruct ((if x <? 0 then - x else x) =? 1).
  { apply Ok_inj in Hn. subst n. apply Ok_inj in H. subst v. reflexivity. }
  destruct (is_infinity (c_pow (if x <? 0 then - x else x) 2)); [discriminate|].
  apply Ok_inj in Hn. subst n. apply Ok_inj in H. subst v. apply Hsq.
Qed.

(** [if a_sul < 0: a_sul = 0] leaves a value that is not below zero. *)
Lemma clamp_not_negative (x : float) : ((if x <? 0 then 0 else x) <? 0) = false.
Proof. destruct (x <? 0) eqn:E; [reflexivity | exact E]. Qed.

Lemma sampa_eclipse_cases (ems r_m r_s : float) (ec : eclipse) :
  sampa_eclipse ems r_m r_s = Ok ec ->
  ((r_m + r_s <? ems) = true -> ec_note ec = NoEclipse /\ ec_a_i ec = 0)
  /\ ((ems =? r_m + r_s) = true -> ec_note ec = StartOrEnd /\ ec_a_i ec = 0)
  /\ ((ems <? r_m + r_s) = true -> (ems <=? abs (r_m - r_s)) = true ->
      ec_note ec = TotalSolarEclipse
      /\ exists rm2, py_pow r_m 2 = Ok rm2 /\ ec_a_i ec = pi * rm2)
  /\ ((ems <? r_m + r_s) = true -> (ems <=? abs (r_m - r_s)) = false ->
      ec_note ec = PartialSolarEclipse
      /\ lens_area ems r_m r_s = Ok (ec_a_i ec))
  /\ ((r_m + r_s <? ems) = false -> (ems =? r_m + r_s) = false ->
      (ems <? r_m + r_s) = false ->
      ec_note ec = SolarEclipse /\ ec_a_i ec = 0)
  /\ (ec_note ec = NoEclipse -> ec_a_i ec = 0)
  /\ exists rs2,
       py_pow r_s 2 = Ok rs2
       /\ ec_a_sul ec = (if pi * rs2 - ec_a_i ec <? 0 then 0
                         else pi * rs2 - ec_a_i ec)
       /\ (ec_a_sul ec <? 0) = false
       /\ ec_a_sul_percent ec = ec_a_sul ec * 100 / (pi * rs2)
       /\ ((forall z, (c_pow z 2 <? 0) = false) ->
           (pi * rs2 <? 0) = false /\ (ec_a_sul_percent ec <? 0) = false).
Proof.
  intros H. unfold sampa_eclipse in H.
  peel H na Hna. destruct na as [note a_i].
  peel H rs2 Hrs2. peel H rs2' Hrs2'. peel H pct Hpct.
  apply Ok_inj in H. subst ec.
  cbn [ec_note ec_a_i ec_a_sul ec_a_sul_percent].
  pose proof (py_pow_functional _ _ _ _ Hrs2 Hrs2') as <-.
  assert (Hp : (pi * rs2 =? 0) = false
               /\ pct = (if pi * rs2 - a_i <? 0 then 0 else pi * rs2 - a_i) * 100
                        / (pi * rs2)).
  { unfold py_div in Hpct. destruct (pi * rs2 =? 0); [discriminate|].
    apply Ok_inj in Hpct. auto. }
  destruct Hp as [Hnz Hp].
  assert (Hcases :
    ((ems <? r_m + r_s) = false /\ note = first_note ems r_m r_s /\ a_i = 0)
    \/ ((ems <? r_m + r_s) = true /\ (ems <=? abs (r_m - r_s)) = true
        /\ note = TotalSolarEclipse
        /\ exists rm2, py_pow r_m 2 = Ok rm2 /\ a_i = pi * rm2)
    \/ ((ems <? r_m + r_s) = true /\ (ems <=? abs (r_m - r_s)) = false
        /\ note = PartialSolarEclipse /\ lens_area ems r_m r_s = Ok a_i)).
  { destruct (ems <? r_m + r_s) eqn:Elt.
    - destruct (ems <=? abs (r_m - r_s)) eqn:Ele.
      + peel Hna rm2 Hrm2. apply Ok_inj in Hna. injection Hna as <- <-.
        right; left. eauto 10.
      + peel Hna a Ha. apply Ok_inj in Hna. injection Hna as <- <-.
        right; right. auto.
    - apply Ok_inj in Hna. injection Hna as <- <-. left. auto. }
  repeat apply conj.
  - intros Hgt. pose proof (ltb_antisym _ _ Hgt) as Hn.
    destruct Hcases as [[_ [-> ->]]|[[E _]|[E _]]]; try congruence.
    unfold first_note. rewrite Hgt. auto.
  - intros Heq. destruct (eqb_ltb_false _ _ Heq) as [Hn1 Hn2].
    destruct Hcases as [[_ [-> ->]]|[[E _]|[E _]]]; try congruence.
    unfold first_note. rewrite Hn2, Heq. auto.
  - intros Hlt Hle.
    destruct Hcases as [[E _]|[[_ [_ [-> Hx]]]|[_ [E _]]]]; try congruence. auto.
  - intros Hlt Hle.
    destruct Hcases as [[E _]|[[_ [E _]]|[_ [_ [-> Hx]]]]]; try congruence. auto.
  - intros Hgt Heq Hlt.
    destruct Hcases as [[_ [-> ->]]|[[E _]|[E _]]]; try congruence.
    unfold first_note. rewrite Hgt, Heq. auto.
  - intros Hno.
    destruct Hcases as [[_ [_ ->]]|[[_ [_ [E _]]]|[_ [_ [E _]]]]];
      try congruence; try reflexivity.
  - exists rs2. repeat apply conj; auto using clamp_not_negative.
    intros Hsq.
    assert (Hden : (pi * rs2 <? 0) = false).
    { apply mul_not_negative; [reflexivity|].
      exact (py_pow_2_not_negative _ _ Hsq Hrs2). }
    split; [exact Hden|].
    rewrite Hp. apply div_not_negative; auto.
    apply mul_not_negative; [apply clamp_not_negative | reflexivity].
Qed.

(** *** Numbers that are floats *)

Lemma n_float_ok (a : number) (x : float) : n_float a = Ok x -> a = Real x.
Proof. destruct a; simpl; intros H; [apply Ok_inj in H; subst; auto | discriminate]. Qed.

Lemma n_exp_ok (a : number) (v : float) :
  n_exp a = Ok v -> exists x, a = Real x /\ math_exp x = Ok v.
Proof.
  unfold n_exp. intros H. peel H x Hx. apply n_float_ok in Hx. eauto.
Qed.

Lemma n_neg_real (a : number) (x : float) :
  n_neg a = Real x -> exists u, a = Real u /\ x = - u.
Proof. destruct a; simpl; intros H; [injection H as <-; eauto | discriminate]. Qed.

Lemma n_add_real (a b : number) (x : float) :
  n_add a b = Real x -> exists u v, a = Real u /\ b = Real v /\ x = u + v.
Proof.
  destruct a, b; simpl; intros H; try discriminate.
  injection H as <-. eauto.
Qed.

Lemma n_sub_real (a b : number) (x : float) :
  n_sub a b = Real x -> exists u v, a = Real u /\ b = Real v /\ x = u - v.
Proof.
  destruct a, b; simpl; intros H; try discriminate.
  injection H as <-. eauto.
Qed.

Lemma n_mul_real (a b : number) (x : float) :
  n_mul a b = Real x -> exists u v, a = Real u /\ b = Real v /\ x = u * v.
Proof.
  destruct a, b; simpl; intros H; try discriminate.
  injection H as <-. eauto.
Qed.

Lemma n_div_real (a b : number) (q : float) :
  n_div a b = Ok (Real q) ->
  exists u v, a = Real u /\ b = Real v /\ py_div u v = Ok q.
Proof.
  destruct a as [u|ar ai], b as [v|br bi]; simpl; intros H.
  - peel H q' Hq. apply Ok_inj in H. injection H as <-. eauto.
  - destruct (_Py_c_quot _ _); [apply Ok_inj in H|]; discriminate.
  - destruct (_Py_c_quot _ _); [apply Ok_inj in H|]; discriminate.
  - destruct (_Py_c_quot _ _); [apply Ok_inj in H|]; discriminate.
Qed.

Lemma n_div_floats (u v : float) (c : number) :
  n_div (Real u) (Real v) = Ok c ->
  (v =? 0) = false /\ c = Real (u / v).
Proof.
  simpl. intros H. peel H q Hq. apply Ok_inj in H. subst c.
  unfold py_div in Hq. destruct (v =? 0); [discriminate|].
  apply Ok_inj in Hq. subst q. auto.
Qed.

(** [float_pow] answers a complex number only for a finite negative base
    and an exponent that is not an integer. *)
Lemma float_pow_complex (x y re im : float) :
  float_pow x y = Ok (Complex re im) ->
  is_nan x = false /\ is_infinity x = false /\ (x =? 0) = false
  /\ (x <? 0) = true /\ is_integral y = false.
Proof.
  unfold float_pow.
  destruct (y =? 0); [intros H; apply Ok_inj in H; discriminate|].
  destruct (is_nan x); [intros H; apply Ok_inj in H; discriminate|].
  destruct (is_nan y); [intros H; apply Ok_inj in H; discriminate|].
  destruct (is_infinity y).
  { cbv zeta. destruct (abs x =? 1); [intros H; apply Ok_inj in H; discriminate|].
    destruct (Bool.eqb _ _); intros H; apply Ok_inj in H; discriminate. }
  destruct (is_infinity x).
  { destruct (0 <? y); intros H; apply Ok_inj in H; discriminate. }
  destruct (x =? 0).
  { destruct (y <? 0); intros H; [|apply Ok_inj in H]; discriminate. }
  destruct (x <? 0); cbn [andb].
  - destruct (is_integral y); cbn [negb]; [|auto 6].
    cbv zeta. destruct (_ =? 1); [intros H; apply Ok_inj in H; discriminate|].
    destruct (is_infinity _); intros H; [|apply Ok_inj in H]; discriminate.
  - cbv zeta. destruct (_ =? 1); [intros H; apply Ok_inj in H; discriminate|].
    destruct (is_infinity _); intros H; [|apply Ok_inj in H]; discriminate.
Qed.

(** With an integral exponent, or a base that is not negative, [float_pow]
    answers a float: [py_pow] loses nothing there. *)
Lemma float_pow_real (x y : float) (n : number) :
  is_integral y = true \/ (x <? 0) = false ->
  float_pow x y = Ok n -> exists v, n = Real v /\ py_pow x y = Ok v.
Proof.
  intros Hc H. destruct n as [v|re im].
  - exists v. split; [reflexivity|]. unfold py_pow. rewrite H. reflexivity.
  - destruct (float_pow_complex _ _ _ _ H) as [_ [_ [_ [Hx Hy]]]].
    destruct Hc; congruence.
Qed.

(** Two fractional powers of one base are floats together. *)
Lemma float_pow_same_base (x y y' v : float) (n : number) :
  (y =? 0) = false -> is_nan y = false -> is_infinity y = false ->
  is_integral y = false ->
  float_pow x y = Ok (Real v) -> float_pow x y' = Ok n ->
  exists w, n = Real w.
Proof.
  intros Y0 Yn Yi Yt H H'. destruct n as [w|re im]; [eauto|].
  destruct (float_pow_complex _ _ _ _ H') as [Xn [Xi [X0 [Xl _]]]].
  unfold float_pow in H. rewrite Y0, Xn, Yn, Yi, Xi, X0, Xl, Yt in H.
  cbn [andb negb] in H. cbv zeta in H.
  destruct (is_infinity _ || is_infinity _); [|apply Ok_inj in H]; discriminate.
Qed.

(** When [direct_normal] is a float, so are [id2], [ias] and [rs]: a product
    with a complex factor is complex, the transmittances out of [math.exp]
    are floats, and [m ** 1.06] and [m ** 1.02] are floats where
    [m ** 0.9108] is. *)
Lemma bird_numbers_are_floats
    (r zenith pressure ozone water aerosol ba k1 : float) (n : bird_numbers)
    (raw : float) :
  bird_transmittances r zenith pressure ozone water aerosol ba k1 = Ok n ->
  bn_direct_normal n = Real raw ->
  exists id2 ias rs,
    bn_id2 n = Real id2 /\ bn_ias n = Real ias /\ bn_rs n = Real rs.
Proof.
  intros H Hraw. unfold bird_transmittances in H.
  peel H m Hm. peel H p1 Hp1. peel H p2 Hp2. peel H tr Htr. peel H p3 Hp3.
  peel H xo2 Hxo2. peel H p4 Hp4. peel H p5 Hp5. peel H tum Htum.
  peel H p6 Hp6. peel H p7 Hp7. peel H p8 Hp8. peel H p9 Hp9.
  peel H p10 Hp10. peel H ta Hta. peel H p11 Hp11. peel H tas Htas.
  peel H r2 Hr2. peel H io Hio. peel H cz Hcz. peel H cz' Hcz'.
  peel H p12 Hp12. peel H ias Hias.
  apply Ok_inj in H. subst n. cbn [bn_direct_normal bn_id2 bn_ias bn_rs] in *.
  destruct (n_exp_ok _ _ Hta) as [xa [Ha _]].
  apply n_mul_real in Ha. destruct Ha as [u [v10 [_ [E10 _]]]]. subst p10.
  destruct (float_pow_same_base m 0.9108 1.06 v10 p11 eq_refl eq_refl eq_refl eq_refl
              Hp10 Hp11) as [v11 ->].
  destruct (float_pow_same_base m 0.9108 1.02 v10 p12 eq_refl eq_refl eq_refl eq_refl
              Hp10 Hp12) as [v12 ->].
  apply n_mul_real in Hraw. destruct Hraw as [a1 [b1 [Hraw _]]].
  apply n_mul_real in Hraw. destruct Hraw as [a2 [b2 [Hraw [Htw _]]]].
  apply n_mul_real in Hraw. destruct Hraw as [a3 [b3 [Hraw _]]].
  apply n_mul_real in Hraw. destruct Hraw as [a4 [b4 [_ [Hto _]]]].
  apply n_sub_real in Htw. destruct Htw as [a5 [b5 [_ [Htw _]]]].
  apply n_mul_real in Htw. destruct Htw as [a6 [v7 [_ [-> _]]]].
  apply n_sub_real in Hto. destruct Hto as [a7 [b7 [Hto _]]].
  apply n_sub_real in Hto. destruct Hto as [a8 [b8 [_ [Hto _]]]].
  apply n_mul_real in Hto. destruct Hto as [a9 [v3 [_ [-> _]]]].
  cbn [n_mul n_add n_sub n_neg] in Htas, Hias |- *.
  apply n_div_floats in Htas. destruct Htas as [_ ->].
  cbn [n_mul n_add n_sub n_neg] in Hias |- *.
  apply n_div_floats in Hias. destruct Hias as [_ ->].
  eauto 6.
Qed.

(** What [bird_unattenuated] returns: the floats behind the numbers of
    [bird_transmittances], and the global irradiance of line 72. *)
Lemma bird_unattenuated_ok
    (r zenith pressure ozone water aerosol albedo ba k1 : float) (t : bird_terms) :
  bird_unattenuated r zenith pressure ozone water aerosol albedo ba k1 = Ok t ->
  exists n,
    bird_transmittances r zenith pressure ozone water aerosol ba k1 = Ok n
    /\ bn_m n = bt_m t
    /\ bn_id2 n = Real (bt_id2 t) /\ bn_ias n = Real (bt_ias t)
    /\ bn_rs n = Real (bt_rs t)
    /\ bn_direct_normal n = Real (bt_raw_direct_normal t)
    /\ (1 - albedo * bt_rs t =? 0) = false
    /\ bt_it t = (bt_id2 t + bt_ias t) / (1 - albedo * bt_rs t).
Proof.
  intros H. unfold bird_unattenuated in H.
  peel H n Hn. peel H it Hit. peel H raw Hraw. peel H id2 Hid2.
  peel H ias Hias. peel H rs Hrs. peel H it' Hit'.
  apply Ok_inj in H. subst t.
  cbn [bt_m bt_id2 bt_ias bt_rs bt_it bt_raw_direct_normal].
  apply n_float_ok in Hraw, Hid2, Hias, Hrs, Hit'. subst it.
  rewrite Hid2, Hias, Hrs in Hit. cbn [n_mul n_add n_sub] in Hit.
  apply n_div_floats in Hit. destruct Hit as [Hnz Hq].
  injection Hq as ->.
  exists n. repeat apply conj; auto.
Qed.

(** Past [if direct_normal < 0] nothing in [bird_unattenuated] raises: the
    conversions of the other numbers to floats succeed. *)
Lemma bird_unattenuated_returns
    (r zenith pressure ozone water aerosol albedo ba k1 : float)
    (n : bird_numbers) (it : number) (raw : float) :
  bird_transmittances r zenith pressure ozone water aerosol ba k1 = Ok n ->
  n_div (bn_id2 n + bn_ias n)%num (Real 1 - Real albedo * bn_rs n)%num = Ok it ->
  n_float (bn_direct_normal n) = Ok raw ->
  exists t,
    bird_unattenuated r zenith pressure ozone water aerosol albedo ba k1 = Ok t.
Proof.
  intros Hn Hit Hraw. apply n_float_ok in Hraw.
  destruct (bird_numbers_are_floats _ _ _ _ _ _ _ _ _ _ Hn Hraw)
    as [id2 [ias [rs [E1 [E2 E3]]]]].
  unfold bird_unattenuated. rewrite Hn. cbn [bind]. rewrite Hit. cbn [bind].
  rewrite Hraw, E1, E2, E3. cbn [n_float bind].
  rewrite E1, E2, E3 in Hit. cbn [n_mul n_add n_sub] in Hit.
  apply n_div_floats in Hit. destruct Hit as [_ ->]. cbn [n_float bind].
  eauto.
Qed.


(** What [bird] makes of [dni_mod] inside its domain. *)
Lemma bird_attenuated
    (r zenith pressure ozone water aerosol albedo dni_mod ba k1 : float)
    (b : bird_result) :
  bird r zenith pressure ozone water aerosol albedo dni_mod ba k1 = Ok b ->
  bird_domain r zenith = true -> (0 <=? dni_mod) = true ->
  exists t cz,
    bird_unattenuated r zenith pressure ozone water aerosol albedo ba k1 = Ok t
    /\ cosd zenith = Ok cz
    /\ br_direct_normal b = (if bt_raw_direct_normal t <? 0 then 0
                             else bt_raw_direct_normal t)
    /\ br_direct_normal_mod b = br_direct_normal b * dni_mod
    /\ br_it b = (bt_id2 t + bt_ias t) / (1 - albedo * bt_rs t)
    /\ br_it_mod b = (br_direct_normal_mod b * cz + bt_ias t)
                     / (1 - albedo * bt_rs t)
    /\ br_diffuse_horizontal b = br_it b - br_direct_normal b * cz
    /\ br_diffuse_horizontal_mod b = br_it_mod b - br_direct_normal_mod b * cz.
Proof.
  intros H Hd Hm. unfold bird in H. rewrite Hd in H.
  peel H t Ht. peel H cz Hcz. rewrite Hm in H.
  peel H cz' Hcz'. peel H it_mod Himod.
  assert (cz' = cz) as -> by (rewrite Hcz in Hcz'; apply Ok_inj in Hcz'; auto).
  apply Ok_inj in H. subst b.
  cbn [br_direct_normal br_direct_normal_mod br_it br_it_mod
       br_diffuse_horizontal br_diffuse_horizontal_mod].
  destruct (bird_unattenuated_ok _ _ _ _ _ _ _ _ _ _ Ht)
    as [n [_ [_ [_ [_ [_ [_ [Hnz Hit]]]]]]]].
  unfold py_div in Himod. rewrite Hnz in Himod.
  apply Ok_inj in Himod. subst it_mod.
  exists t, cz. repeat apply conj; auto.
Qed.
End Eclipse.

(** What [sampa] hands on from its stages. *)
Lemma sampa_stages
    (L : Libm) (year month : Z)
    (day hour minute second microsecond
     latitude longitude elevation pressure temperature
     ozone water aerosol albedo ba k1 dt : float)
    (r : sampa_result) :
  sampa year month day hour minute second microsecond
        latitude longitude elevation pressure temperature
        ozone water aerosol albedo ba k1 dt = Ok r ->
  exists i ec b,
    sampa_eclipse (ei_ems i) (sa_r_m r) (sa_r_s r) = Ok ec
    /\ bird (ei_r_capital_s i) (sa_theta_s r) pressure ozone water aerosol albedo
            (sa_a_sul_percent r / 100) ba k1 = Ok b
    /\ sa_solar_eclipse r = ec_note ec
    /\ sa_a_sul r = ec_a_sul ec
    /\ sa_a_sul_percent r = ec_a_sul_percent ec
    /\ sa_direct_normal r = br_direct_normal b
    /\ sa_direct_normal_mod r = br_direct_normal_mod b
    /\ sa_it r = br_it b
    /\ sa_it_mod r = br_it_mod b
    /\ sa_diffuse_horizontal r = br_diffuse_horizontal b
    /\ sa_diffuse_horizontal_mod r = br_diffuse_horizontal_mod b.
Proof.
  intros H. unfold sampa in H.
  peel H moon Hm. destruct moon as [g t].
  peel H s Hs. peel H i Hi. peel H ec He. peel H irr Hb.
  apply Ok_inj in H. subst r.
  cbn [sa_r_m sa_r_s sa_theta_s sa_a_sul sa_a_sul_percent sa_solar_eclipse
       sa_direct_normal sa_direct_normal_mod sa_it sa_it_mod
       sa_diffuse_horizontal sa_diffuse_horizontal_mod].
  exists i, ec, irr. repeat apply conj; auto.
Qed.

(** The stages of [sampa] past the two positions, in terms of what it
    returns: the separation of the returned positions, the sun's distance,
    the eclipse geometry and the call of [bird]. *)
Lemma sampa_eclipse_stages
    (L : Libm) (year month : Z)
    (day hour minute second microsecond
     latitude longitude elevation pressure temperature
     ozone water aerosol albedo ba k1 dt : float)
    (r : sampa_result) :
  sampa year month day hour minute second microsecond
        latitude longitude elevation pressure temperature
        ozone water aerosol albedo ba k1 dt = Ok r ->
  exists ems r_capital_s ec b,
    separation (sa_theta_s r) (sa_f_s r) (sa_theta_m r) (sa_f_m r) = Ok ems
    /\ _sun_distance year month day hour minute second microsecond dt
       = Ok r_capital_s
    /\ py_div 959.63 (3600 * r_capital_s) = Ok (sa_r_s r)
    /\ sampa_eclipse ems (sa_r_m r) (sa_r_s r) = Ok ec
    /\ bird r_capital_s (sa_theta_s r) pressure ozone water aerosol albedo
            (sa_a_sul_percent r / 100) ba k1 = Ok b
    /\ sa_solar_eclipse r = ec_note ec
    /\ sa_a_sul r = ec_a_sul ec
    /\ sa_a_sul_percent r = ec_a_sul_percent ec
    /\ sa_direct_normal r = br_direct_normal b
    /\ sa_direct_normal_mod r = br_direct_normal_mod b
    /\ sa_it r = br_it b
    /\ sa_it_mod r = br_it_mod b
    /\ sa_diffuse_horizontal r = br_diffuse_horizontal b
    /\ sa_diffuse_horizontal_mod r = br_diffuse_horizontal_mod b.
Proof.
  intros H. unfold sampa in H.
  peel H moon Hm. destruct moon as [g t].
  peel H s Hs. peel H i Hi. peel H ec He. peel H irr Hb.
  apply Ok_inj in H. subst r.
  cbn [sa_r_m sa_r_s sa_theta_s sa_f_s sa_theta_m sa_f_m sa_a_sul
       sa_a_sul_percent sa_solar_eclipse
       sa_direct_normal sa_direct_normal_mod sa_it sa_it_mod
       sa_diffuse_horizontal sa_diffuse_horizontal_mod].
  unfold sampa_eclipse_inputs in Hi.
  peel Hi ems Hems. peel Hi rcs Hrcs. peel Hi r_s Hrs. peel_all Hi.
  apply Ok_inj in Hi. subst i. cbn [ei_ems ei_r_capital_s ei_r_s ei_r_m] in *.
  exists ems, rcs, ec, irr. repeat apply conj; auto.
Qed.




(** * Further properties of the code

    Beyond the claims above: what the sources show of their own error
    behaviour, ranges and compositions. *)

(** ** Binary64 values that need no rounding *)

(** [2^(d-1) <= p < 2^d] for the number [d] of binary digits of [p]. *)
Lemma digits2_pos_bounds (p : positive) :
  (2 ^ (Zpos (digits2_pos p) - 1) <= Zpos p < 2 ^ Zpos (digits2_pos p))%Z.
Proof.
  induction p as [p IH|p IH|].
  - cbn [digits2_pos]. rewrite Pos2Z.inj_succ.
    replace (Z.succ (Zpos (digits2_pos p)) - 1)%Z
      with (Z.succ (Zpos (digits2_pos p) - 1))%Z by lia.
    rewrite !Z.pow_succ_r by lia. lia.
  - cbn [digits2_pos]. rewrite Pos2Z.inj_succ.
    replace (Z.succ (Zpos (digits2_pos p)) - 1)%Z
      with (Z.succ (Zpos (digits2_pos p) - 1))%Z by lia.
    rewrite !Z.pow_succ_r by lia. lia.
  - cbn. lia.
Qed.

Lemma digits2_pos_le (p : positive) (n : Z) :
  (Zpos p < 2 ^ n)%Z -> (Zpos (digits2_pos p) <= n)%Z.
Proof.
  intros H. destruct (Z_lt_le_dec n (Zpos (digits2_pos p))) as [Hlt|]; [|lia].
  pose proof (digits2_pos_bounds p) as [Hlo _].
  destruct (Z_lt_le_dec n 0) as [Hn|Hn].
  - rewrite Z.pow_neg_r in H by lia. lia.
  - assert (2 ^ n <= 2 ^ (Zpos (digits2_pos p) - 1))%Z
      by (apply Z.pow_le_mono_r; lia).
    lia.
Qed.

Lemma iter_xO_value (d m : positive) :
  Zpos (Pos.iter xO m d) = (Zpos m * 2 ^ Zpos d)%Z.
Proof.
  revert m. induction d as [|d IH] using Pos.peano_ind; intros m.
  - cbn. lia.
  - rewrite Pos.iter_succ, Pos2Z.inj_succ, Z.pow_succ_r by lia.
    rewrite Pos2Z.inj_xO, IH. lia.
Qed.

Lemma iter_xO_digits (d m : positive) :
  digits2_pos (Pos.iter xO m d) = (digits2_pos m + d)%positive.
Proof.
  revert m. induction d as [|d IH] using Pos.peano_ind; intros m.
  - cbn. lia.
  - rewrite Pos.iter_succ. cbn [digits2_pos]. rewrite IH. lia.
Qed.

(** The mantissa and exponent of a valid finite float. *)
Lemma bounded_spec (m : positive) (e : Z) :
  bounded prec emax m e = true ->
  fexp prec emax (Zpos (digits2_pos m) + e) = e
  /\ (Zpos (digits2_pos m) <= 53)%Z /\ (-1074 <= e <= 971)%Z.
Proof.
  unfold bounded, canonical_mantissa. intros H.
  apply andb_true_iff in H. destruct H as [Hc He].
  apply Z.eqb_eq in Hc. apply Z.leb_le in He.
  split; [exact Hc|].
  unfold fexp, SpecFloat.emin, prec, emax in *. lia.
Qed.

(** A number [m * 2^e] of at most 53 digits within the exponent range is
    a float as it stands: [binary_round] only moves it to its canonical
    exponent. *)
Lemma binary_round_exact (s : bool) (m : positive) (e : Z) :
  (Zpos (digits2_pos m) <= 53)%Z -> (-1074 <= e <= 971)%Z ->
  exists m' e',
    binary_round prec emax s m e = S754_finite s m' e'
    /\ bounded prec emax m' e' = true
    /\ (e' <= e)%Z
    /\ Zpos m' = (Zpos m * 2 ^ (e - e'))%Z.
Proof.
  intros Hd He. unfold binary_round.
  set (f := fexp prec emax (Zpos (digits2_pos m) + e)).
  assert (Hf : (f <= e)%Z /\ (-1074 <= f)%Z
               /\ f = Z.max (Zpos (digits2_pos m) + e - 53) (-1074)).
  { unfold f, fexp, SpecFloat.emin, prec, emax. lia. }
  destruct Hf as [Hfe [Hf0 Hfv]].
  unfold shl_align.
  destruct (f - e)%Z as [|d|d] eqn:Ed; try lia.
  - (* the exponent is canonical already *)
    assert (f = e) by lia.
    exists m, e. unfold binary_round_aux, shr_fexp.
    cbn [Zdigits2 shr_record_of_loc].
    fold f. replace (f - e)%Z with 0%Z by lia. cbn [shr shr_m loc_of_shr_record
      round_nearest_even Zdigits2 shr_record_of_loc].
    fold f. replace (f - e)%Z with 0%Z by lia. cbn [shr shr_m].
    replace (e <=? emax - prec)%Z with true
      by (symmetry; apply Z.leb_le; unfold emax, prec; lia).
    repeat apply conj; try reflexivity; try lia.
    + unfold bounded, canonical_mantissa. fold f.
      apply andb_true_iff. split; [apply Z.eqb_eq; lia|].
      apply Z.leb_le. unfold emax, prec. lia.
    + rewrite Z.sub_diag. lia.
  - (* shifted to the left by [d] *)
    assert (Hed : (e - f = Zpos d)%Z) by lia.
    exists (Pos.iter xO m d), f.
    assert (Hdig : (Zpos (digits2_pos (Pos.iter xO m d)) + f
                    = Zpos (digits2_pos m) + e)%Z).
    { rewrite iter_xO_digits. lia. }
    unfold binary_round_aux, shr_fexp.
    cbn [Zdigits2 shr_record_of_loc].
    rewrite Hdig. fold f. rewrite Z.sub_diag.
    cbn [shr shr_m loc_of_shr_record round_nearest_even Zdigits2
         shr_record_of_loc].
    rewrite Hdig. fold f. rewrite Z.sub_diag. cbn [shr shr_m].
    replace (f <=? emax - prec)%Z with true
      by (symmetry; apply Z.leb_le; unfold emax, prec; lia).
    repeat apply conj; try reflexivity; try lia.
    + unfold bounded, canonical_mantissa. rewrite Hdig. fold f.
      apply andb_true_iff. split; [apply Z.eqb_eq; lia|].
      apply Z.leb_le. unfold emax, prec. lia.
    + rewrite iter_xO_value, Hed. reflexivity.
Qed.

Lemma binary_round_not_negative (m : positive) (e : Z) :
  sf_not_negative (binary_round prec emax false m e).
Proof.
  unfold binary_round.
  destruct (shl_align m e (fexp prec emax (Zpos (digits2_pos m) + e))) as [mz ez].
  apply binary_round_aux_not_negative.
Qed.

Lemma binary_normalize_not_negative (z e : Z) :
  (0 <= z)%Z -> sf_not_negative (binary_normalize prec emax z e false).
Proof.
  intros Hz. destruct z as [|p|p]; [exact I | | lia].
  apply binary_round_not_negative.
Qed.

Lemma shl_align_value (m : positive) (e e' : Z) :
  (e' <= e)%Z -> Zpos (fst (shl_align m e e')) = (Zpos m * 2 ^ (e - e'))%Z.
Proof.
  intros H. unfold shl_align.
  destruct (e' - e)%Z as [|d|d] eqn:E; try lia.
  - cbn [fst]. replace (e - e')%Z with 0%Z by lia. lia.
  - cbn [fst]. rewrite iter_xO_value. f_equal. f_equal. lia.
Qed.

(** [fmod] of two finite numbers: a float with the sign of the dividend and
    the exact remainder of the magnitudes. *)
Lemma fmod_finite (x y : float) (sx sy : bool) (mx my : positive) (ex ey : Z) :
  Prim2SF x = S754_finite sx mx ex -> Prim2SF y = S754_finite sy my ey ->
  let e := Z.min ex ey in
  let r := ((Zpos mx * 2 ^ (ex - e)) mod (Zpos my * 2 ^ (ey - e)))%Z in
  (r = 0%Z /\ fmod x y = (if sx then (-0) else 0))
  \/ (exists m' e',
        Prim2SF (fmod x y) = S754_finite sx m' e'
        /\ (e' <= e)%Z
        /\ Zpos m' = (r * 2 ^ (e - e'))%Z
        /\ (0 < r < Zpos my * 2 ^ (ey - e))%Z).
Proof.
  intros Hx Hy e r.
  pose proof (FloatAxioms.Prim2SF_valid x) as Vx. rewrite Hx in Vx.
  pose proof (FloatAxioms.Prim2SF_valid y) as Vy. rewrite Hy in Vy.
  cbn [valid_binary] in Vx, Vy.
  destruct (bounded_spec _ _ Vx) as [_ [Dx Ex]].
  destruct (bounded_spec _ _ Vy) as [_ [Dy Ey]].
  assert (Hpx : (0 < 2 ^ (ex - e))%Z) by (apply Z.pow_pos_nonneg; lia).
  assert (Hpy : (0 < 2 ^ (ey - e))%Z) by (apply Z.pow_pos_nonneg; lia).
  assert (Hb : (0 < Zpos my * 2 ^ (ey - e))%Z) by lia.
  assert (Hr : (0 <= r < Zpos my * 2 ^ (ey - e))%Z)
    by (apply Z.mod_pos_bound; exact Hb).
  unfold fmod. rewrite Hx, Hy. fold e. fold r.
  destruct (r =? 0)%Z eqn:Er.
  - apply Z.eqb_eq in Er. left. auto.
  - apply Z.eqb_neq in Er. right.
    assert (Hr53 : (r < 2 ^ 53)%Z).
    { pose proof (digits2_pos_bounds mx) as [_ Bx].
      pose proof (digits2_pos_bounds my) as [_ By].
      assert (Zpos mx < 2 ^ 53)%Z
        by (eapply Z.lt_le_trans; [exact Bx | apply Z.pow_le_mono_r; lia]).
      assert (Zpos my < 2 ^ 53)%Z
        by (eapply Z.lt_le_trans; [exact By | apply Z.pow_le_mono_r; lia]).
      destruct (Z_le_gt_dec ex ey) as [Hle|Hgt].
      - assert (e = ex) by lia.
        assert (r <= Zpos mx * 2 ^ (ex - e))%Z by (apply Z.mod_le; lia).
        replace (ex - e)%Z with 0%Z in * by lia. lia.
      - assert (e = ey) by lia.
        replace (ey - e)%Z with 0%Z in * by lia. lia. }
    destruct r as [|p|p] eqn:Ep; try lia.
    assert (Hdp : (Zpos (digits2_pos p) <= 53)%Z)
      by (apply digits2_pos_le; exact Hr53).
    destruct (binary_round_exact sx p e Hdp) as [m' [e' [Hb' [Hv [He' Hm']]]]];
      [lia|].
    exists m', e'.
    assert (Hn : binary_normalize prec emax
                   (if sx then (- Zpos p)%Z else Zpos p) e false
                 = S754_finite sx m' e').
    { destruct sx; cbn [binary_normalize Z.opp]; exact Hb'. }
    rewrite Hn, FloatAxioms.Prim2SF_SF2Prim by exact Hv.
    repeat apply conj; auto; lia.
Qed.

(** [x % y] for a positive [y] is never negative. *)
Lemma py_mod_not_negative (x y r : float) :
  (0 <? y) = true -> py_mod x y = Ok r -> (r <? 0) = false.
Proof.
  intros Hy. unfold py_mod.
  destruct (y =? 0); [discriminate|].
  rewrite (ltb_antisym _ _ Hy). cbn [xorb].
  destruct (fmod x y =? 0) eqn:Ez.
  { intros H. apply Ok_inj in H. subst r. reflexivity. }
  destruct (is_nan (fmod x y)) eqn:En.
  { intros H. apply Ok_inj in H. subst r.
    unfold is_nan in En. rewrite FloatAxioms.eqb_spec in En.
    rewrite FloatAxioms.ltb_spec. unfold SFeqb in En. unfold SFltb.
    destruct (Prim2SF (fmod x y)) as [[|]|[|]| |[|] m e]; simpl in *;
      try discriminate; try reflexivity;
      rewrite Z.compare_refl, Pos.compare_cont_spec, Pos.compare_refl in En;
      discriminate. }
  destruct (fmod x y <? 0) eqn:Em.
  2:{ intros H. apply Ok_inj in H. subst r. exact Em. }
  intros H. apply Ok_inj in H. subst r.
  apply not_negative_spec. rewrite FloatAxioms.add_spec.
  rewrite FloatAxioms.ltb_spec in Hy. change (Prim2SF 0) with (S754_zero false) in Hy.
  rewrite FloatAxioms.ltb_spec in Em. change (Prim2SF 0) with (S754_zero false) in Em.
  destruct (Prim2SF y) as [sy|sy| |sy my ey] eqn:Py;
    try (destruct sy; discriminate); try discriminate.
  - (* y is infinite *)
    destruct sy; [discriminate|].
    destruct (Prim2SF (fmod x y)) as [s|s| |s m e]; try discriminate;
      destruct s; try discriminate; exact I.
  - destruct sy; [discriminate|].
    destruct (Prim2SF x) as [sx|sx| |sx mx ex] eqn:Px.
    + unfold fmod in Em. rewrite Px, Py in Em. rewrite Px in Em.
      destruct sx; discriminate.
    + unfold fmod in Em. rewrite Px, Py in Em. discriminate.
    + unfold fmod in Em. rewrite Px in Em. discriminate.
    + destruct (fmod_finite x y sx false mx my ex ey Px Py)
        as [[_ E0]|[m' [e' [Pm [He' [Hm' Hr]]]]]].
      * rewrite E0 in Em. destruct sx; discriminate.
      * rewrite Pm in Em |- *. destruct sx; [|discriminate].
        unfold SF64add, SFadd.
        assert (Emin : Z.min e' ey = e') by lia.
        rewrite Emin. cbn [cond_Zopp].
        apply binary_normalize_not_negative.
        rewrite (shl_align_value m' e' e') by lia.
        rewrite (shl_align_value my ey e') by lia.
        rewrite Z.sub_diag, Z.pow_0_r, Z.mul_1_r.
        set (e := Z.min ex ey) in *.
        assert (H2 : (0 < 2 ^ (e - e'))%Z) by (apply Z.pow_pos_nonneg; lia).
        replace (ey - e')%Z with ((ey - e) + (e - e'))%Z by lia.
        rewrite Z.pow_add_r by lia. nia.
Qed.

(** ** The order of canonical binary64 values *)

(** Of two valid positive floats, the one of the smaller value does not
    compare above the other. *)
Lemma finite_le_not_ltb (m1 m2 : positive) (e1 e2 : Z) :
  bounded prec emax m1 e1 = true -> bounded prec emax m2 e2 = true ->
  (Zpos m1 * 2 ^ (e1 + 1074) <= Zpos m2 * 2 ^ (e2 + 1074))%Z ->
  SFltb (S754_finite false m2 e2) (S754_finite false m1 e1) = false.
Proof.
  intros B1 B2 Hv.
  destruct (bounded_spec _ _ B1) as [C1 [D1 E1]].
  destruct (bounded_spec _ _ B2) as [C2 [D2 E2]].
  unfold SFltb, SFcompare.
  destruct (e2 ?= e1)%Z eqn:Ec.
  - apply Z.compare_eq in Ec. subst e2.
    rewrite Pos.compare_cont_spec. cbn [Pos.switch_Eq].
    destruct (m2 ?= m1)%positive eqn:Em; try reflexivity.
    exfalso. apply Pos.compare_lt_iff in Em.
    assert (0 < 2 ^ (e1 + 1074))%Z by (apply Z.pow_pos_nonneg; lia).
    assert (Zpos m2 * 2 ^ (e1 + 1074) < Zpos m1 * 2 ^ (e1 + 1074))%Z
      by (apply Z.mul_lt_mono_pos_r; [lia | apply Pos2Z.pos_lt_pos; exact Em]).
    lia.
  - exfalso. rewrite Z.compare_lt_iff in Ec.
    assert (Hd1 : Zpos (digits2_pos m1) = 53%Z).
    { unfold fexp, SpecFloat.emin, prec, emax in C1. lia. }
    pose proof (digits2_pos_bounds m1) as [L1 _]. rewrite Hd1 in L1.
    pose proof (digits2_pos_bounds m2) as [_ U2].
    assert (Zpos m2 < 2 ^ 53)%Z
      by (eapply Z.lt_le_trans; [exact U2 | apply Z.pow_le_mono_r; lia]).
    replace (e1 + 1074)%Z with ((e1 - e2 - 1) + 1 + (e2 + 1074))%Z in Hv by lia.
    rewrite !Z.pow_add_r in Hv by lia.
    assert (0 < 2 ^ (e2 + 1074))%Z by (apply Z.pow_pos_nonneg; lia).
    assert (0 < 2 ^ (e1 - e2 - 1))%Z by (apply Z.pow_pos_nonneg; lia).
    change (2 ^ (53 - 1))%Z with 4503599627370496%Z in L1.
    change (2 ^ 53)%Z with 9007199254740992%Z in *.
    change (2 ^ 1)%Z with 2%Z in Hv.
    set (A := (2 ^ (e1 - e2 - 1))%Z) in *. set (B := (2 ^ (e2 + 1074))%Z) in *.
    assert (H3 : (Zpos m2 * B < 9007199254740992 * B)%Z)
      by (apply Z.mul_lt_mono_pos_r; lia).
    assert (H4 : (9007199254740992 * B <= Zpos m1 * 2 * B)%Z)
      by (apply Z.mul_le_mono_nonneg_r; lia).
    assert (H5 : (Zpos m1 * 2 * B * 1 <= Zpos m1 * 2 * B * A)%Z)
      by (apply Z.mul_le_mono_nonneg_l; [|lia];
          apply Z.mul_nonneg_nonneg; lia).
    replace (Zpos m1 * (A * 2 * B))%Z with (Zpos m1 * 2 * B * A)%Z in Hv by ring.
    lia.
  - reflexivity.
Qed.

(** ** Shifting a mantissa to the right *)

Lemma iter_pos_iter {A : Type} (f : A -> A) (n : positive) :
  forall x, iter_pos f n x = Pos.iter f x n.
Proof.
  induction n as [n IH|n IH|]; intros x; cbn [iter_pos Pos.iter].
  - rewrite !IH, <- !Pos.iter_swap. reflexivity.
  - rewrite !IH. reflexivity.
  - reflexivity.
Qed.

Lemma shr_1_shifted (z n : Z) (mrs : shr_record) :
  (0 <= z)%Z -> (0 <= n)%Z -> shifted z n mrs -> shifted z (n + 1) (shr_1 mrs).
Proof.
  intros Hz Hn [Hm Hf].
  assert (Hp : (0 < 2 ^ n)%Z) by (apply Z.pow_pos_nonneg; lia).
  assert (Hq : (0 <= z / 2 ^ n)%Z) by (apply Z.div_pos; lia).
  assert (Hdiv : (z / 2 ^ (n + 1) = z / 2 ^ n / 2)%Z).
  { rewrite Z.pow_add_r, Z.pow_1_r by lia. rewrite Z.div_div by lia.
    reflexivity. }
  assert (Hmod : (z mod 2 ^ (n + 1) = 0 ->
                  z mod 2 ^ n = 0 /\ (z / 2 ^ n) mod 2 = 0)%Z).
  { intros H0. rewrite Z.pow_add_r, Z.pow_1_r in H0 by lia.
    rewrite Z.rem_mul_r in H0 by lia.
    pose proof (Z.mod_pos_bound z (2 ^ n) Hp).
    pose proof (Z.mod_pos_bound (z / 2 ^ n) 2 ltac:(lia)).
    nia. }
  destruct mrs as [m r s]. cbn [shr_m shr_r shr_s] in *.
  unfold shifted. rewrite Hdiv, <- Hm.
  destruct m as [|[p|p|]|p]; cbn [shr_1 shr_m shr_r shr_s]; try lia.
  - split; [reflexivity|]. intros H0. destruct (Hmod H0) as [H1 _].
    destruct (Hf H1) as [-> ->]. auto.
  - split; [rewrite Pos2Z.inj_xI; apply Z.div_unique with 1%Z; lia|].
    intros H0. destruct (Hmod H0) as [_ H2]. rewrite <- Hm in H2.
    rewrite Pos2Z.inj_xI in H2.
    replace (2 * Zpos p + 1)%Z with (1 + Zpos p * 2)%Z in H2 by lia.
    rewrite Z.mod_add in H2 by lia. discriminate.
  - split; [rewrite Pos2Z.inj_xO; apply Z.div_unique with 0%Z; lia|].
    intros H0. destruct (Hmod H0) as [H1 _].
    destruct (Hf H1) as [-> ->]. auto.
  - split; [reflexivity|].
    intros H0. destruct (Hmod H0) as [_ H2]. rewrite <- Hm in H2. discriminate.
Qed.

Lemma iter_shr_1_shifted (z : Z) (n : positive) :
  (0 <= z)%Z ->
  shifted z (Zpos n) (Pos.iter shr_1 (Build_shr_record z false false) n).
Proof.
  intros Hz. induction n as [|n IH] using Pos.peano_ind.
  - cbn [Pos.iter]. apply (shr_1_shifted z 0); [lia | lia |].
    split; cbn; [rewrite Z.div_1_r; reflexivity | auto].
  - rewrite Pos.iter_succ, Pos2Z.inj_succ.
    apply (shr_1_shifted z (Zpos n)); [lia | lia | exact IH].
Qed.

Lemma round_nearest_even_le (mrs : shr_record) :
  (shr_m mrs <= round_nearest_even (shr_m mrs) (loc_of_shr_record mrs)
   <= shr_m mrs + 1)%Z
  /\ (shr_r mrs = false -> shr_s mrs = false ->
      round_nearest_even (shr_m mrs) (loc_of_shr_record mrs) = shr_m mrs).
Proof.
  destruct mrs as [m [|] [|]]; cbn; try (destruct (Z.even m)); repeat split;
    try lia; try discriminate.
Qed.

Lemma digits2_pos_eq (p : positive) (n : Z) :
  (2 ^ (n - 1) <= Zpos p < 2 ^ n)%Z -> Zpos (digits2_pos p) = n.
Proof.
  intros [Hlo Hhi].
  pose proof (digits2_pos_le p n Hhi) as Hle.
  pose proof (digits2_pos_bounds p) as [_ Hup].
  destruct (Z_lt_le_dec (Zpos (digits2_pos p)) n) as [Hlt|]; [|lia].
  assert (2 ^ Zpos (digits2_pos p) <= 2 ^ (n - 1))%Z
    by (apply Z.pow_le_mono_r; lia).
  lia.
Qed.

(** Rounding a value below a float [y] does not go above [y]. *)
Lemma binary_round_below (S : positive) (e : Z) (my : positive) (ey : Z) :
  bounded prec emax my ey = true ->
  (-1074 <= e <= ey)%Z ->
  (Zpos S < Zpos my * 2 ^ (ey - e))%Z ->
  SFltb (S754_finite false my ey) (binary_round prec emax false S e) = false.
Proof.
  intros B Hrange Hlt.
  destruct (bounded_spec _ _ B) as [Cy [Dy Ey]].
  assert (Hpe : (0 < 2 ^ (e + 1074))%Z) by (apply Z.pow_pos_nonneg; lia).
  assert (Hpy : (0 < 2 ^ (ey - e))%Z) by (apply Z.pow_pos_nonneg; lia).
  assert (Hsplit : (2 ^ (ey + 1074) = 2 ^ (ey - e) * 2 ^ (e + 1074))%Z).
  { rewrite <- Z.pow_add_r by lia. f_equal. lia. }
  pose proof (digits2_pos_bounds my) as [_ Umy].
  assert (Hmy : (Zpos my < 2 ^ 53)%Z)
    by (eapply Z.lt_le_trans; [exact Umy | apply Z.pow_le_mono_r; lia]).
  destruct (Z_le_gt_dec (Zpos (digits2_pos S)) 53) as [Hd|Hd].
  - (* no rounding *)
    destruct (binary_round_exact false S e Hd) as [m' [e' [Hb [Hv [He' Hm']]]]];
      [lia|].
    rewrite Hb. apply finite_le_not_ltb; auto.
    destruct (bounded_spec _ _ Hv) as [_ [_ Ee']].
    rewrite Hm', Hsplit.
    replace (e + 1074)%Z with ((e - e') + (e' + 1074))%Z by lia.
    rewrite (Z.pow_add_r 2 (e - e') (e' + 1074)) by lia.
    assert (0 < 2 ^ (e - e'))%Z by (apply Z.pow_pos_nonneg; lia).
    assert (0 < 2 ^ (e' + 1074))%Z by (apply Z.pow_pos_nonneg; lia).
    set (P := (2 ^ (e - e') * 2 ^ (e' + 1074))%Z).
    assert (0 < P)%Z by (apply Z.mul_pos_pos; lia).
    replace (Zpos S * 2 ^ (e - e') * 2 ^ (e' + 1074))%Z with (Zpos S * P)%Z
      by (unfold P; ring).
    replace (Zpos my * (2 ^ (ey - e) * P))%Z with (Zpos my * 2 ^ (ey - e) * P)%Z
      by ring.
    apply Z.mul_le_mono_nonneg_r; lia.
  - (* the low [n] bits are rounded away *)
    pose proof (digits2_pos_bounds S) as [LS US].
    set (d := Zpos (digits2_pos S)) in *.
    set (n := Z.to_pos (d - 53)).
    assert (Hn : (Zpos n = d - 53)%Z) by (unfold n; rewrite Z2Pos.id; lia).
    assert (Hf : fexp prec emax (d + e) = (e + Zpos n)%Z)
      by (unfold fexp, SpecFloat.emin, prec, emax; lia).
    (* [n <= ey - e], since the value is below [y] *)
    assert (Hney : (Zpos n <= ey - e)%Z).
    { destruct (Z_le_gt_dec (Zpos n) (ey - e)) as [|Hgt]; [assumption|exfalso].
      assert (2 ^ (53 + (ey - e)) <= 2 ^ (d - 1))%Z
        by (apply Z.pow_le_mono_r; lia).
      rewrite Z.pow_add_r in * by lia.
      assert (Zpos my * 2 ^ (ey - e) < 2 ^ 53 * 2 ^ (ey - e))%Z
        by (apply Z.mul_lt_mono_pos_r; lia).
      lia. }
    assert (Hpn : (0 < 2 ^ Zpos n)%Z) by (apply Z.pow_pos_nonneg; lia).
    (* the quotient and its rounding *)
    pose proof (iter_shr_1_shifted (Zpos S) n ltac:(lia)) as [Hq Hex].
    set (mrs := Pos.iter shr_1 (Build_shr_record (Zpos S) false false) n) in *.
    pose proof (round_nearest_even_le mrs) as [Hrne Hrex].
    set (q' := round_nearest_even (shr_m mrs) (loc_of_shr_record mrs)) in *.
    assert (Hqlo : (2 ^ 52 <= shr_m mrs)%Z).
    { rewrite Hq. apply Z.div_le_lower_bound; [lia|].
      rewrite <- Z.pow_add_r by lia.
      replace (Zpos n + 52)%Z with (d - 1)%Z by lia. exact LS. }
    assert (Hqhi : (shr_m mrs < 2 ^ 53)%Z).
    { rewrite Hq. apply Z.div_lt_upper_bound; [lia|].
      rewrite <- Z.pow_add_r by lia.
      replace (Zpos n + 53)%Z with d by lia. exact US. }
    (* [y] in units of [2^n] *)
    set (k := (Zpos my * 2 ^ (ey - e - Zpos n))%Z).
    assert (Hk : (Zpos my * 2 ^ (ey - e) = k * 2 ^ Zpos n)%Z).
    { unfold k. rewrite <- Z.mul_assoc, <- Z.pow_add_r by lia.
      f_equal. f_equal. lia. }
    assert (Hq'k : (q' <= k)%Z).
    { assert (Hqk : (shr_m mrs < k)%Z).
      { rewrite Hq. apply Z.div_lt_upper_bound; [lia|]. rewrite Z.mul_comm.
        rewrite <- Hk. exact Hlt. }
      lia. }
    assert (Hk53 : (k < 2 ^ 53 * 2 ^ (ey - e - Zpos n))%Z).
    { unfold k. apply Z.mul_lt_mono_pos_r; [apply Z.pow_pos_nonneg; lia | lia]. }
    (* evaluate [binary_round] *)
    unfold binary_round. fold d. rewrite Hf.
    unfold shl_align. replace (e + Zpos n - e)%Z with (Zpos n) by lia.
    cbv iota.
    unfold binary_round_aux, shr_fexp. cbn [Zdigits2]. fold d. rewrite Hf.
    replace (e + Zpos n - e)%Z with (Zpos n) by lia.
    cbn [shr shr_record_of_loc]. rewrite iter_pos_iter. fold mrs. fold q'.
    destruct q' as [|p|p] eqn:Eq'; try lia.
    cbn [Zdigits2].
    destruct (Z_lt_le_dec (Zpos p) (2 ^ 53)) as [Hp|Hp].
    + (* 53 digits *)
      assert (Hdp : Zpos (digits2_pos p) = 53%Z)
        by (apply digits2_pos_eq; change (53 - 1)%Z with 52%Z; lia).
      rewrite Hdp.
      assert (Hf2 : fexp prec emax (53 + (e + Zpos n)) = (e + Zpos n)%Z)
        by (unfold fexp, SpecFloat.emin, prec, emax; lia).
      rewrite Hf2, Z.sub_diag. cbn [shr shr_m].
      replace (e + Zpos n <=? emax - prec)%Z with true
        by (symmetry; apply Z.leb_le; unfold emax, prec; lia).
      apply finite_le_not_ltb; auto.
      * unfold bounded, canonical_mantissa. rewrite Hdp, Hf2.
        apply andb_true_iff. split; [apply Z.eqb_eq; reflexivity|].
        apply Z.leb_le. unfold emax, prec. lia.
      * rewrite Hsplit, Z.mul_assoc, Hk.
        replace (e + Zpos n + 1074)%Z with (Zpos n + (e + 1074))%Z by lia.
        rewrite (Z.pow_add_r 2 (Zpos n) (e + 1074)), Z.mul_assoc by lia.
        apply Z.mul_le_mono_nonneg_r; [lia|].
        apply Z.mul_le_mono_nonneg_r; lia.
    + (* the rounding carried into a 54th digit *)
      assert (Ep : Zpos p = (2 ^ 53)%Z) by lia.
      assert (Hp' : p = 9007199254740992%positive) by (apply Pos2Z.inj; exact Ep).
      subst p.
      change (Zpos (digits2_pos 9007199254740992)) with 54%Z.
      assert (Hf2 : fexp prec emax (54 + (e + Zpos n)) = (e + Zpos n + 1)%Z)
        by (unfold fexp, SpecFloat.emin, prec, emax; lia).
      rewrite Hf2. replace (e + Zpos n + 1 - (e + Zpos n))%Z with 1%Z by lia.
      cbn [shr shr_m iter_pos shr_1].
      assert (Hn1 : (Zpos n + 1 <= ey - e)%Z).
      { destruct (Z_le_gt_dec (Zpos n + 1) (ey - e)) as [|Hgt]; [assumption|].
        exfalso. assert (ey - e - Zpos n = 0)%Z by lia.
        replace (ey - e - Zpos n)%Z with 0%Z in Hk53 by lia.
        change (2 ^ 0)%Z with 1%Z in Hk53. lia. }
      replace (e + Zpos n + 1 <=? emax - prec)%Z with true
        by (symmetry; apply Z.leb_le; unfold emax, prec; lia).
      apply finite_le_not_ltb; auto.
      * unfold bounded, canonical_mantissa.
        change (Zpos (digits2_pos 4503599627370496)) with 53%Z.
        replace (fexp prec emax (53 + (e + Zpos n + 1))) with (e + Zpos n + 1)%Z
          by (unfold fexp, SpecFloat.emin, prec, emax; lia).
        apply andb_true_iff. split; [apply Z.eqb_eq; reflexivity|].
        apply Z.leb_le. unfold emax, prec. lia.
      * rewrite Hsplit, Z.mul_assoc, Hk.
        replace (e + Zpos n + 1 + 1074)%Z with (1 + (Zpos n + (e + 1074)))%Z by lia.
        rewrite (Z.pow_add_r 2 1 (Zpos n + (e + 1074))) by lia.
        rewrite (Z.pow_add_r 2 (Zpos n) (e + 1074)) by lia.
        rewrite !Z.mul_assoc.
        apply Z.mul_le_mono_nonneg_r; [lia|].
        apply Z.mul_le_mono_nonneg_r; [lia|].
        change (Zpos 4503599627370496 * 2 ^ 1)%Z with (2 ^ 53)%Z. lia.
Qed.

(** [x % y] for a positive [y] is never above [y]. *)
Lemma py_mod_not_above (x y r : float) :
  (0 <? y) = true -> py_mod x y = Ok r -> (y <? r) = false.
Proof.
  intros Hy. unfold py_mod.
  destruct (y =? 0); [discriminate|].
  rewrite (ltb_antisym _ _ Hy). cbn [xorb].
  destruct (fmod x y =? 0) eqn:Ez.
  { intros H. apply Ok_inj in H. subst r. exact (ltb_antisym _ _ Hy). }
  assert (Hnan : forall z, Prim2SF z = S754_nan -> (y <? z) = false).
  { intros z Hz. rewrite FloatAxioms.ltb_spec, Hz. unfold SFltb.
    rewrite SFcompare_nan_r. reflexivity. }
  pose proof (FloatAxioms.Prim2SF_valid y) as Vy.
  pose proof (FloatAxioms.Prim2SF_valid (fmod x y)) as Vm.
  rewrite FloatAxioms.ltb_spec in Hy. change (Prim2SF 0) with (S754_zero false) in Hy.
  destruct (is_nan (fmod x y)) eqn:En.
  { intros H. apply Ok_inj in H. subst r. apply Hnan.
    unfold is_nan in En. rewrite FloatAxioms.eqb_spec in En. unfold SFeqb in En.
    destruct (Prim2SF (fmod x y)) as [[|]|[|]| |[|] m e]; simpl in En;
      try discriminate; try reflexivity;
      rewrite Z.compare_refl, Pos.compare_cont_spec, Pos.compare_refl in En;
      discriminate. }
  destruct (Prim2SF y) as [sy|sy| |sy my ey] eqn:Py;
    try (destruct sy; discriminate); try discriminate.
  - (* y is infinite *)
    destruct sy; [discriminate|].
    destruct (fmod x y <? 0); intros H; apply Ok_inj in H; subst r;
      rewrite FloatAxioms.ltb_spec, ?FloatAxioms.add_spec, Py.
    + destruct (Prim2SF (fmod x y)) as [[|]|[|]| |[|] m e]; reflexivity.
    + destruct (Prim2SF (fmod x y)) as [[|]|[|]| |[|] m e]; reflexivity.
  - destruct sy; [discriminate|]. cbn [valid_binary] in Vy.
    assert (Hfin : forall sx mx ex, Prim2SF x = S754_finite sx mx ex ->
              exists m' e',
                Prim2SF (fmod x y) = S754_finite sx m' e'
                /\ (-1074 <= e' <= ey)%Z
                /\ (Zpos m' < Zpos my * 2 ^ (ey - e'))%Z).
    { intros sx mx ex Px.
      destruct (fmod_finite x y sx false mx my ex ey Px Py)
        as [[_ E0]|[m' [e' [Pm [He' [Hm' Hr]]]]]].
      - rewrite E0 in Ez. destruct sx; discriminate.
      - exists m', e'. split; [exact Pm|].
        rewrite Pm in Vm. cbn [valid_binary] in Vm.
        destruct (bounded_spec _ _ Vm) as [_ [_ Ee']].
        set (e := Z.min ex ey) in *.
        split; [lia|].
        replace (ey - e')%Z with ((ey - e) + (e - e'))%Z by lia.
        rewrite Z.pow_add_r, Z.mul_assoc, Hm' by lia.
        apply Z.mul_lt_mono_pos_r; [apply Z.pow_pos_nonneg; lia | lia]. }
    destruct (Prim2SF x) as [sx|sx| |sx mx ex] eqn:Px.
    + (* x is a zero *)
      assert (E : fmod x y = x) by (unfold fmod; rewrite Px, Py; reflexivity).
      rewrite E in Ez. rewrite FloatAxioms.eqb_spec, Px in Ez.
      destruct sx; discriminate.
    + assert (E : fmod x y = nan) by (unfold fmod; rewrite Px, Py; reflexivity).
      rewrite E in En. discriminate.
    + assert (E : fmod x y = nan) by (unfold fmod; rewrite Px; reflexivity).
      rewrite E in En. discriminate.
    + destruct (Hfin sx mx ex eq_refl) as [m' [e' [Pm [He' Hlt]]]].
      rewrite Pm in Vm. cbn [valid_binary] in Vm.
      destruct (fmod x y <? 0) eqn:Em; intros H; apply Ok_inj in H; subst r.
      * (* a negative remainder, moved up by y *)
        rewrite FloatAxioms.ltb_spec, Pm in Em. destruct sx; [|discriminate].
        rewrite FloatAxioms.ltb_spec, FloatAxioms.add_spec, Py, Pm.
        unfold SF64add, SFadd.
        replace (Z.min e' ey) with e' by lia. cbn [cond_Zopp].
        pose proof (shl_align_value m' e' e' ltac:(lia)) as A1.
        pose proof (shl_align_value my ey e' ltac:(lia)) as A2.
        rewrite Z.sub_diag, Z.pow_0_r, Z.mul_1_r in A1.
        rewrite A1, A2.
        destruct (- Zpos m' + Zpos my * 2 ^ (ey - e'))%Z as [|S|S] eqn:ES; try lia.
        cbn [binary_normalize].
        apply binary_round_below; auto; lia.
      * (* the remainder itself *)
        rewrite FloatAxioms.ltb_spec, Py, Pm.
        destruct sx; [reflexivity|].
        apply finite_le_not_ltb; auto.
        replace (ey + 1074)%Z with ((ey - e') + (e' + 1074))%Z by lia.
        rewrite (Z.pow_add_r 2 (ey - e') (e' + 1074)), Z.mul_assoc by lia.
        apply Z.mul_le_mono_nonneg_r; [|lia].
        apply Z.lt_le_incl, Z.pow_pos_nonneg; lia.
Qed.

Lemma py_mod_range (x y r : float) :
  (0 <? y) = true -> py_mod x y = Ok r ->
  (r <? 0) = false /\ (y <? r) = false.
Proof.
  intros Hy H. split; [exact (py_mod_not_negative _ _ _ Hy H)
                      | exact (py_mod_not_above _ _ _ Hy H)].
Qed.

(** Multiplying by the float one changes nothing. *)
Lemma mul_one_r (x : float) : x * 1 = x.
Proof.
  apply Prim2SF_inj. rewrite FloatAxioms.mul_spec.
  change (Prim2SF 1) with (S754_finite false 4503599627370496 (-52)).
  pose proof (FloatAxioms.Prim2SF_valid x) as V.
  destruct (Prim2SF x) as [[|]|[|]| |s m e]; try reflexivity.
  cbn [valid_binary] in V. destruct (bounded_spec _ _ V) as [C [D E]].
  unfold SF64mul, SFmul. rewrite xorb_false_r.
  assert (Hm : (m * 4503599627370496)%positive = Pos.iter xO m 52).
  { apply Pos2Z.inj. rewrite iter_xO_value, Pos2Z.inj_mul. reflexivity. }
  rewrite Hm.
  unfold binary_round_aux, shr_fexp. cbn [Zdigits2].
  rewrite iter_xO_digits.
  replace (Zpos (digits2_pos m + 52) + (e + -52))%Z
    with (Zpos (digits2_pos m) + e)%Z by lia.
  rewrite C. replace (e - (e + -52))%Z with 52%Z by lia.
  cbn [shr shr_record_of_loc]. rewrite iter_pos_iter.
  pose proof (iter_shr_1_shifted (Zpos (Pos.iter xO m 52)) 52 ltac:(lia))
    as [Hq Hex].
  set (mrs := Pos.iter shr_1 _ 52) in *.
  rewrite iter_xO_value in Hq, Hex.
  rewrite Z.div_mul in Hq by (apply Z.pow_nonzero; lia).
  rewrite Z.mod_mul in Hex by (apply Z.pow_nonzero; lia).
  destruct (Hex eq_refl) as [Hr Hs].
  destruct (round_nearest_even_le mrs) as [_ Hrne].
  rewrite (Hrne Hr Hs), Hq. cbn [Zdigits2].
  replace (Zpos (digits2_pos m) + (e + -52 + 52))%Z
    with (Zpos (digits2_pos m) + e)%Z by lia.
  rewrite C. replace (e - (e + -52 + 52))%Z with 0%Z by lia.
  cbn [shr shr_m].
  replace (e + -52 + 52)%Z with e by lia.
  replace (e <=? emax - prec)%Z with true
    by (symmetry; apply Z.leb_le; unfold emax, prec; lia).
  reflexivity.
Qed.

(** ** Dates that [spa] and [sampa] accept *)

Lemma ymd2ord_ok (y m d o : Z) :
  ymd2ord y m d = Ok o ->
  (1 <= y <= 9999)%Z /\ (1 <= m <= 12)%Z /\ (1 <= d <= days_in_month y m)%Z.
Proof.
  unfold ymd2ord, MINYEAR, MAXYEAR.
  destruct (c_int y && c_int m && c_int d); [|discriminate]. cbn [negb].
  destruct ((1 <=? y) && (y <=? 9999))%Z eqn:Ey; [|discriminate].
  destruct ((1 <=? m) && (m <=? 12))%Z eqn:Em; [|discriminate].
  destruct ((1 <=? d) && (d <=? days_in_month y m))%Z eqn:Ed; [|discriminate].
  intros _.
  apply andb_true_iff in Ey, Em, Ed.
  rewrite !Z.leb_le in Ey, Em, Ed. lia.
Qed.

Lemma datetime_shift_ok (y m d days : Z) (dt : float) (t : datetime) :
  datetime_shift y m d days dt = Ok t ->
  (1 <= y <= 9999)%Z /\ (1 <= m <= 12)%Z /\ (1 <= d <= days_in_month y m)%Z.
Proof.
  unfold datetime_shift. intros H. peel H o Ho. exact (ymd2ord_ok _ _ _ _ Ho).
Qed.

Section Dates.
Context {L : Libm}.

Lemma spa_sun_day_date (year month : Z) (day latitude longitude dt : float)
    (s : sun_day) :
  spa_sun_day year month day latitude longitude dt = Ok s ->
  exists d, py_int day = Ok d
    /\ (1 <= year <= 9999)%Z /\ (1 <= month <= 12)%Z
    /\ (1 <= d <= days_in_month year month)%Z.
Proof.
  unfold spa_sun_day. intros H.
  peel H iday Hi. peel H n Hn. peel H day_m1 Hm1.
  exists iday. split; [exact Hi|]. exact (datetime_shift_ok _ _ _ _ _ _ Hm1).
Qed.

End Dates.

(** X1: [spa], and [sampa] through it, return a result only for a date that
    [datetime(year, month, int(day))] accepts: a year from 1 to 9999, a month
    from 1 to 12, and a day of that month.  Every other date ends in an
    exception, the years before 1 of the docstrings' range included. *)
Theorem spa_accepts_only_datetime_dates
    (L : Libm) (year month : Z)
    (day hour minute second microsecond
     latitude longitude elevation pressure temperature omega gamma
     ozone water aerosol albedo ba k1 dt : float) :
  (forall r,
     spa year month day hour minute second microsecond
         latitude longitude elevation pressure temperature omega gamma dt = Ok r ->
     exists d, py_int day = Ok d
       /\ (1 <= year <= 9999)%Z /\ (1 <= month <= 12)%Z
       /\ (1 <= d <= days_in_month year month)%Z)
  /\ (forall r,
        sampa year month day hour minute second microsecond
              latitude longitude elevation pressure temperature
              ozone water aerosol albedo ba k1 dt = Ok r ->
        exists d, py_int day = Ok d
          /\ (1 <= year <= 9999)%Z /\ (1 <= month <= 12)%Z
          /\ (1 <= d <= days_in_month year month)%Z).
Proof.
  assert (Hspa : forall omega' gamma' r,
    spa year month day hour minute second microsecond
        latitude longitude elevation pressure temperature omega' gamma' dt = Ok r ->
    exists d, py_int day = Ok d
       /\ (1 <= year <= 9999)%Z /\ (1 <= month <= 12)%Z
       /\ (1 <= d <= days_in_month year month)%Z).
  { intros omega' gamma' r H. unfold spa in H.
    peel H p Hp. peel H raw Hraw. peel H s Hs.
    exact (spa_sun_day_date _ _ _ _ _ _ _ Hs). }
  split.
  - intros r H. exact (Hspa _ _ _ H).
  - intros r H. unfold sampa in H.
    peel H moon Hm. destruct moon as [g t]. peel H s Hs.
    exact (Hspa _ _ _ Hs).
Qed.

Lemma spa_accepts_only_datetime_dates_witness :
  exists r d,
    spa 100 1 5 7 0 0 0 30 90 (-1000) 30 (-20) 359 1 DT = Ok r
    /\ py_int 5 = Ok d
    /\ (1 <= d <= days_in_month 100 1)%Z.
Proof.
  assert (H : exists r, spa 100 1 5 7 0 0 0 30 90 (-1000) 30 (-20) 359 1 DT = Ok r)
    by (eexists; vm_compute; reflexivity).
  destruct H as [r Hr].
  destruct (proj1 (spa_accepts_only_datetime_dates libm_model 100%Z 1%Z 5 7 0 0 0
                     30 90 (-1000) 30 (-20) 359 1 0.3 1.5 0.04 0.2 0.85 0.1 DT)
                  r Hr) as [d [Hd [_ [_ Hr']]]].
  exists r, d. auto.
Defined.

(** ** [bird]: signs and the role of [dni_mod] *)

Lemma py_div_ok (x y v : float) :
  py_div x y = Ok v -> (y =? 0) = false /\ v = x / y.
Proof.
  unfold py_div. destruct (y =? 0); [discriminate|].
  intros H. apply Ok_inj in H. auto.
Qed.

Lemma py_div_defined (x y : float) : (y =? 0) = false -> py_div x y = Ok (x / y).
Proof. unfold py_div. intros ->. reflexivity. Qed.

(** X4: the direct normal irradiance that [bird] returns is never negative,
    and neither is the attenuated one: the first is clamped at 0, the second
    is the first times a [dni_mod] that is at least 0, or 0 itself. *)
Theorem bird_direct_normal_not_negative
    (L : Libm)
    (r zenith pressure ozone water aerosol albedo dni_mod ba k1 : float)
    (b : bird_result) :
  bird r zenith pressure ozone water aerosol albedo dni_mod ba k1 = Ok b ->
  (br_direct_normal b <? 0) = false /\ (br_direct_normal_mod b <? 0) = false.
Proof.
  unfold bird. destruct (bird_domain r zenith).
  - intros H. peel H t Ht. peel H cz Hcz.
    destruct (0 <=? dni_mod) eqn:Em.
    + peel H cz' Hcz'. peel H it_mod Himod. apply Ok_inj in H. subst b.
      cbn [br_direct_normal br_direct_normal_mod]. split.
      * apply clamp_not_negative.
      * apply mul_not_negative; [apply clamp_not_negative|].
        exact (leb_ltb_false _ _ Em).
    + apply Ok_inj in H. subst b. cbn [br_direct_normal br_direct_normal_mod].
      split; [apply clamp_not_negative | reflexivity].
  - intros H. apply Ok_inj in H. subst b. split; reflexivity.
Qed.

Lemma bird_direct_normal_not_negative_witness :
  exists b,
    bird 1 30 1013 1000 1.5 0.04 0.2 1 0.85 0.1 = Ok b
    /\ (br_direct_normal b <? 0) = false
    /\ (br_it b <? 0) = true.
Proof.
  assert (H : exists b, bird 1 30 1013 1000 1.5 0.04 0.2 1 0.85 0.1 = Ok b
                        /\ (br_it b <? 0) = true)
    by (eexists; vm_compute; split; reflexivity).
  destruct H as [b [Hb Hit]].
  exists b. split; [exact Hb|]. split; [|exact Hit].
  exact (proj1 (bird_direct_normal_not_negative libm_model 1 30 1013 1000 1.5
                  0.04 0.2 1 0.85 0.1 b Hb)).
Defined.

(** X5: [dni_mod] reaches the three attenuated outputs of [bird] only.  When
    [bird] returns for one [dni_mod] it returns for every other, with the same
    air mass, direct normal, global and diffuse irradiance; and a [dni_mod]
    that is not at least 0 (a negative number or a NaN) leaves the three
    attenuated outputs at 0. *)
Theorem bird_dni_mod_only_attenuates
    (L : Libm)
    (r zenith pressure ozone water aerosol albedo dni_mod dni_mod' ba k1 : float)
    (b : bird_result) :
  bird r zenith pressure ozone water aerosol albedo dni_mod ba k1 = Ok b ->
  ((0 <=? dni_mod) = false ->
     br_direct_normal_mod b = 0 /\ br_it_mod b = 0
     /\ br_diffuse_horizontal_mod b = 0)
  /\ exists b',
       bird r zenith pressure ozone water aerosol albedo dni_mod' ba k1 = Ok b'
       /\ br_m b' = br_m b
       /\ br_direct_normal b' = br_direct_normal b
       /\ br_it b' = br_it b
       /\ br_diffuse_horizontal b' = br_diffuse_horizontal b.
Proof.
  unfold bird. destruct (bird_domain r zenith).
  - intros H. peel H t Ht. peel H cz Hcz.
    rewrite Ht. cbn [bind]. rewrite Hcz. cbn [bind].
    destruct (bird_unattenuated_ok _ _ _ _ _ _ _ _ _ _ Ht)
      as [n [_ [_ [_ [_ [_ [_ [Hnz _]]]]]]]].
    split.
    + intros Em. rewrite Em in H. apply Ok_inj in H. subst b. cbn. auto.
    + destruct (0 <=? dni_mod').
      * cbn [bind]. rewrite (py_div_defined _ _ Hnz). cbn [bind].
        eexists. split; [reflexivity|].
        destruct (0 <=? dni_mod).
        -- peel H cz' Hcz'. peel H it_mod Himod. apply Ok_inj in H. subst b.
           cbn. auto.
        -- apply Ok_inj in H. subst b. cbn. auto.
      * eexists. split; [reflexivity|].
        destruct (0 <=? dni_mod).
        -- peel H cz' Hcz'. peel H it_mod Himod. apply Ok_inj in H. subst b.
           cbn. auto.
        -- apply Ok_inj in H. subst b. cbn. auto.
  - intros H. apply Ok_inj in H. subst b. split.
    + intros _. cbn. auto.
    + exists bird_zero. auto.
Qed.

(** ** [sampa] when the sun is below the horizon *)

(** X7: when the sun's topocentric zenith angle is not below 90 degrees, the
    six irradiances that [sampa] returns are all 0: [bird] is called outside
    its domain. *)
Theorem sampa_no_irradiance_below_horizon
    (L : Libm) (year month : Z)
    (day hour minute second microsecond
     latitude longitude elevation pressure temperature
     ozone water aerosol albedo ba k1 dt : float)
    (r : sampa_result) :
  sampa year month day hour minute second microsecond
        latitude longitude elevation pressure temperature
        ozone water aerosol albedo ba k1 dt = Ok r ->
  (sa_theta_s r <? 90) = false ->
  sa_direct_normal r = 0 /\ sa_direct_normal_mod r = 0
  /\ sa_it r = 0 /\ sa_it_mod r = 0
  /\ sa_diffuse_horizontal r = 0 /\ sa_diffuse_horizontal_mod r = 0.
Proof.
  intros H Hz.
  destruct (sampa_stages _ _ _ _ _ _ _ _ _ _ _ _ _ _ _ _ _ _ _ _ _ H)
    as [i [ec [b [_ [Hb [_ [_ [_ [-> [-> [-> [-> [-> ->]]]]]]]]]]]]].
  unfold bird, bird_domain in Hb. rewrite Hz, andb_false_r in Hb.
  cbn [andb] in Hb. apply Ok_inj in Hb. subst b. cbn. auto 6.
Qed.

Lemma sampa_no_irradiance_below_horizon_witness :
  exists r,
    sampa 2019 1 2 12 5 55 0 (-23.923) (-130.741) (-100) 2000 (-10)
          0.3 1.5 0.04 0.2 0.85 0.1 DT = Ok r
    /\ (sa_theta_s r <? 90) = false
    /\ sa_direct_normal r = 0 /\ sa_it r = 0 /\ sa_diffuse_horizontal r = 0.
Proof.
  assert (H : exists r, sampa 2019 1 2 12 5 55 0 (-23.923) (-130.741) (-100) 2000
                          (-10) 0.3 1.5 0.04 0.2 0.85 0.1 DT = Ok r
                        /\ (sa_theta_s r <? 90) = false)
    by (eexists; vm_compute; split; reflexivity).
  destruct H as [r [Hr Hz]].
  pose proof (sampa_no_irradiance_below_horizon libm_model 2019 1 2 12 5 55 0
                (-23.923) (-130.741) (-100) 2000 (-10) 0.3 1.5 0.04 0.2 0.85 0.1
                DT r Hr Hz) as Hall.
  exists r. tauto.
Defined.

(** ** [solpos]: the day number and the month loop *)

Lemma index13_ok (row : list Z) (i v : Z) :
  index13 row i = Ok v -> (-13 <= i < 13)%Z.
Proof.
  unfold index13. destruct ((-13 <=? i) && (i <? 13))%Z eqn:E; [|discriminate].
  intros _. apply andb_true_iff in E. rewrite Z.leb_le, Z.ltb_lt in E. exact E.
Qed.

Lemma index13_outside (row : list Z) (i : Z) :
  (i < -13 \/ 13 <= i)%Z -> index13 row i = Raise IndexError.
Proof.
  intros H. unfold index13.
  destruct ((-13 <=? i) && (i <? 13))%Z eqn:E; [|reflexivity].
  apply andb_true_iff in E. rewrite Z.leb_le, Z.ltb_lt in E. lia.
Qed.

(** Every entry of [month_days] is at least 0. *)
Lemma month_days_not_negative (leap : nat) (i v : Z) :
  index13 (nth leap month_days []) i = Ok v -> (0 <= v)%Z.
Proof.
  intros H. pose proof (index13_ok _ _ _ H) as Hi.
  unfold index13 in H.
  destruct ((-13 <=? i) && (i <? 13))%Z; [|discriminate].
  apply Ok_inj in H. subst v.
  assert (Hm : (0 <= i mod 13 < 13)%Z) by (apply Z.mod_pos_bound; lia).
  destruct leap as [|[|leap]].
  - assert (E : (i mod 13 = 0 \/ i mod 13 = 1 \/ i mod 13 = 2 \/ i mod 13 = 3
                 \/ i mod 13 = 4 \/ i mod 13 = 5 \/ i mod 13 = 6 \/ i mod 13 = 7
                 \/ i mod 13 = 8 \/ i mod 13 = 9 \/ i mod 13 = 10
                 \/ i mod 13 = 11 \/ i mod 13 = 12)%Z) by lia.
    repeat (destruct E as [->|E]; [vm_compute; discriminate|]).
    rewrite E. vm_compute. discriminate.
  - assert (E : (i mod 13 = 0 \/ i mod 13 = 1 \/ i mod 13 = 2 \/ i mod 13 = 3
                 \/ i mod 13 = 4 \/ i mod 13 = 5 \/ i mod 13 = 6 \/ i mod 13 = 7
                 \/ i mod 13 = 8 \/ i mod 13 = 9 \/ i mod 13 = 10
                 \/ i mod 13 = 11 \/ i mod 13 = 12)%Z) by lia.
    repeat (destruct E as [->|E]; [vm_compute; discriminate|]).
    rewrite E. vm_compute. discriminate.
  - replace (nth (S (S leap)) month_days []) with (@nil Z)
      by (unfold month_days; cbn [nth]; destruct leap; reflexivity).
    destruct (Z.to_nat (i mod 13)); cbn [nth]; lia.
Qed.

(** With a day number below 1 the loop runs down to month -14, which is no
    index of the table. *)
Lemma month_loop_below_1 (leap : nat) (daynum : Z) :
  (daynum <= 0)%Z ->
  forall (fuel : nat) (month : Z),
    (-14 <= month < 13)%Z -> (Z.to_nat (month + 15) <= fuel)%nat ->
    month_loop fuel leap daynum month = Raise IndexError.
Proof.
  intros Hd. induction fuel as [|k IH]; intros month Hm Hf.
  - lia.
  - cbn [month_loop].
    destruct (Z.eq_dec month (-14)) as [->|Hne].
    + rewrite index13_outside by lia. reflexivity.
    + destruct (index13 (nth leap month_days []) month) as [v|e] eqn:E.
      * cbn [bind]. pose proof (month_days_not_negative _ _ _ E) as Hv.
        replace (daynum <=? v)%Z with true by (symmetry; apply Z.leb_le; lia).
        apply IH; lia.
      * unfold index13 in E.
        destruct ((-13 <=? month) && (month <? 13))%Z eqn:B; [discriminate|].
        apply andb_false_iff in B. rewrite Z.leb_gt, Z.ltb_ge in B. lia.
Qed.

Lemma month_loop_returns (leap : nat) (daynum : Z) (fuel : nat) :
  forall (month m : Z),
    month_loop fuel leap daynum month = Ok m -> (1 <= daynum)%Z.
Proof.
  induction fuel as [|k IH]; intros month m H.
  - discriminate.
  - cbn [month_loop] in H. peel H v Hv.
    pose proof (month_days_not_negative _ _ _ Hv) as Hv0.
    destruct (daynum <=? v)%Z eqn:E.
    + exact (IH _ _ H).
    + apply Z.leb_gt in E. lia.
Qed.

(** In a month from 1 to 12 and from the first day on, the loop ends within
    twelve rounds. *)
Lemma month_loop_ends (leap : nat) (daynum : Z) :
  (leap <= 1)%nat -> (1 <= daynum)%Z ->
  exists m, month_loop 12 leap daynum 12 = Ok m /\ (1 <= m <= 12)%Z.
Proof.
  intros Hl Hd.
  assert (Hleap : leap = 0%nat \/ leap = 1%nat) by lia.
  destruct Hleap as [-> | ->].
  - cbn [month_loop nth month_days index13].
    repeat match goal with
    | |- context [index13 ?row ?i] =>
        let v := eval vm_compute in (index13 row i) in
        change (index13 row i) with v; cbn [bind]
    | |- context [(daynum <=? ?v)%Z] =>
        destruct (daynum <=? v)%Z eqn:?; [|eexists; split; [reflexivity|lia]]
    end.
    apply Z.leb_le in Heqb10. lia.
  - cbn [month_loop nth month_days index13].
    repeat match goal with
    | |- context [index13 ?row ?i] =>
        let v := eval vm_compute in (index13 row i) in
        change (index13 row i) with v; cbn [bind]
    | |- context [(daynum <=? ?v)%Z] =>
        destruct (daynum <=? v)%Z eqn:?; [|eexists; split; [reflexivity|lia]]
    end.
    apply Z.leb_le in Heqb10. lia.
Qed.

(** X8: [solpos] indexes [month_days] with the month as given.  A month
    outside -13..12 is an [IndexError]; so is a day number below 1 (the days
    before the month plus [day], plus 1 after February of a leap year), once
    the month loop has run down to index -14; and when [solpos] returns, the
    month is within -13..12 and the day number is at least 1. *)
Theorem solpos_index_errors
    (L : Libm) (fuel : nat) (year month day : Z)
    (hour minute second timezone latitude longitude pressure temperature
     aspect tilt sb_width sb_radius sb_sky interval : float) :
  ((month < -13 \/ 13 <= month)%Z ->
     solpos fuel year month day hour minute second timezone latitude longitude
       pressure temperature aspect tilt sb_width sb_radius sb_sky interval
     = Raise IndexError)
  /\ (forall d0,
        index13 (nth 0 month_days []) month = Ok d0 ->
        ((if leap_year year && (2 <? month)%Z then day + d0 + 1 else day + d0)
         <= 0)%Z ->
        (27 <= fuel)%nat ->
        solpos fuel year month day hour minute second timezone latitude longitude
          pressure temperature aspect tilt sb_width sb_radius sb_sky interval
        = Raise IndexError)
  /\ (forall r,
        solpos fuel year month day hour minute second timezone latitude longitude
          pressure temperature aspect tilt sb_width sb_radius sb_sky interval
        = Ok r ->
        exists d0,
          index13 (nth 0 month_days []) month = Ok d0
          /\ (-13 <= month < 13)%Z
          /\ (1 <= (if leap_year year && (2 <? month)%Z then day + d0 + 1
                    else day + d0))%Z).
Proof.
  repeat apply conj.
  - intros Hm. unfold solpos, solpos_sun_position.
    rewrite index13_outside by exact Hm. reflexivity.
  - intros d0 Hd0 Hd Hf. unfold solpos, solpos_sun_position.
    rewrite Hd0. cbn [bind]. cbv zeta.
    rewrite month_loop_below_1; [reflexivity | exact Hd | lia |].
    change (Z.to_nat (12 + 15)) with 27%nat. exact Hf.
  - intros r H. unfold solpos in H. peel H s Hs.
    unfold solpos_sun_position in Hs. peel Hs d0 Hd0. cbv zeta in Hs.
    peel Hs m Hm. exists d0. repeat apply conj.
    + exact Hd0.
    + exact (proj1 (index13_ok _ _ _ Hd0)).
    + exact (proj2 (index13_ok _ _ _ Hd0)).
    + exact (month_loop_returns _ _ _ _ _ Hm).
Qed.

Lemma solpos_index_errors_witness :
  solpos 100 2016 13 1 12 0 0 0 20 3 1000 15 180 0 7.6 31.7 0.04 0
  = Raise IndexError
  /\ solpos 100 2016 1 0 12 0 0 0 20 3 1000 15 180 0 7.6 31.7 0.04 0
     = Raise IndexError
  /\ exists r d0,
       solpos 100 1990 3 14 12 3 4 0 20 3 1000 15 180 0 7.6 31.7 0.04 0 = Ok r
       /\ index13 (nth 0 month_days []) 3 = Ok d0
       /\ (1 <= 14 + d0)%Z.
Proof.
  repeat apply conj.
  - apply (proj1 (solpos_index_errors libm_model 100 2016 13 1 12 0 0 0 20 3
                    1000 15 180 0 7.6 31.7 0.04 0)). lia.
  - apply (proj1 (proj2 (solpos_index_errors libm_model 100 2016 1 0 12 0 0 0
                           20 3 1000 15 180 0 7.6 31.7 0.04 0)) 0%Z).
    + reflexivity.
    + vm_compute. discriminate.
    + lia.
  - assert (H : exists r, solpos 100 1990 3 14 12 3 4 0 20 3 1000 15 180 0 7.6
                            31.7 0.04 0 = Ok r)
      by (eexists; vm_compute; reflexivity).
    destruct H as [r Hr].
    destruct (proj2 (proj2 (solpos_index_errors libm_model 100 1990 3 14 12 3 4
                              0 20 3 1000 15 180 0 7.6 31.7 0.04 0)) r Hr)
      as [d0 [Hd0 [_ Hd]]].
    exists r, d0. repeat apply conj; [exact Hr | exact Hd0 | exact Hd].
Defined.

(** ** [solpos]: the loops on [tstfix] *)

(** A [tstfix] that absorbs 1440 never leaves the loop. *)

Lemma above_720_absorbed (x : float) :
  (720 <? x) = true -> x - 1440 = x ->
  forall fuel, above_720 fuel x = Raise OutOfFuel.
Proof.
  intros Hx Ha. induction fuel as [|k IH]; [reflexivity|].
  cbn [above_720]. rewrite Hx, Ha. exact IH.
Qed.

Lemma below_720_absorbed (x : float) :
  (x <? -720) = true -> x + 1440 = x ->
  forall fuel, below_720 fuel x = Raise OutOfFuel.
Proof.
  intros Hx Ha. induction fuel as [|k IH]; [reflexivity|].
  cbn [below_720]. rewrite Hx, Ha. exact IH.
Qed.

Lemma above_720_exit (fuel : nat) :
  forall x t, above_720 fuel x = Ok t -> (720 <? t) = false.
Proof.
  induction fuel as [|k IH]; intros x t H; [discriminate|].
  cbn [above_720] in H. destruct (720 <? x) eqn:E.
  - exact (IH _ _ H).
  - apply Ok_inj in H. subst t. exact E.
Qed.

Lemma below_720_exit (fuel : nat) :
  forall x t, below_720 fuel x = Ok t -> (t <? -720) = false.
Proof.
  induction fuel as [|k IH]; intros x t H; [discriminate|].
  cbn [below_720] in H. destruct (x <? -720) eqn:E.
  - exact (IH _ _ H).
  - apply Ok_inj in H. subst t. exact E.
Qed.

(** ** Azimuths and right ascensions out of [% 360] *)

(** X2: the topocentric azimuth that [spa] returns, and the azimuths of the
    sun and of the moon that [sampa] returns, come out of [% 360]: they are
    never below 0 and never above 360. *)
Theorem azimuths_within_0_and_360
    (L : Libm) (year month : Z)
    (day hour minute second microsecond
     latitude longitude elevation pressure temperature omega gamma
     ozone water aerosol albedo ba k1 dt : float) :
  (forall r,
     spa year month day hour minute second microsecond
         latitude longitude elevation pressure temperature omega gamma dt = Ok r ->
     (sr_f r <? 0) = false /\ (360 <? sr_f r) = false)
  /\ (forall r,
        sampa year month day hour minute second microsecond
              latitude longitude elevation pressure temperature
              ozone water aerosol albedo ba k1 dt = Ok r ->
        (sa_f_s r <? 0) = false /\ (360 <? sa_f_s r) = false
        /\ (sa_f_m r <? 0) = false /\ (360 <? sa_f_m r) = false).
Proof.
  assert (Hspa : forall omega' gamma' r,
    spa year month day hour minute second microsecond
        latitude longitude elevation pressure temperature omega' gamma' dt = Ok r ->
    (sr_f r <? 0) = false /\ (360 <? sr_f r) = false).
  { intros omega' gamma' r H. unfold spa in H.
    peel H p Hp. peel H raw Hraw. peel H s Hs.
    peel H times Ht. destruct times as [[[T R] S'] notes].
    peel H date Hd. destruct date as [[y m] d].
    apply Ok_inj in H. subst r. cbn [sr_f].
    destruct (spa_position_angles _ _ _ _ _ _ _ _ _ _ _ _ _ _ _ _ Hp)
      as [_ [_ [_ [_ Hf]]]].
    exact (py_mod_range _ 360 _ eq_refl Hf). }
  split.
  - intros r H. exact (Hspa _ _ _ H).
  - intros r H. unfold sampa in H.
    peel H moon Hm. destruct moon as [g t]. peel H s Hs.
    peel H i Hi. peel H ec He. peel H irr Hb.
    apply Ok_inj in H. subst r. cbn [sa_f_s sa_f_m].
    destruct (Hspa _ _ _ Hs) as [H1 H2].
    unfold sampa_moon in Hm. peel Hm j Hj. peel Hm g' Hg. peel Hm t' Ht.
    apply Ok_inj in Hm. injection Hm as -> ->.
    unfold sampa_moon_topocentric in Ht. peel_all Ht.
    apply Ok_inj in Ht. subst t. cbn [mt_f_m].
    match goal with
    | E : py_mod (_ + 180) 360 = Ok ?f |- _ =>
        destruct (py_mod_range _ 360 _ eq_refl E) as [H3 H4]
    end.
    auto.
Qed.

Lemma azimuths_within_0_and_360_witness :
  exists r,
    spa 100 1 5 7 0 0 0 30 90 (-1000) 30 (-20) 359 1 DT = Ok r
    /\ (sr_f r <? 0) = false /\ (360 <? sr_f r) = false.
Proof.
  assert (H : exists r, spa 100 1 5 7 0 0 0 30 90 (-1000) 30 (-20) 359 1 DT = Ok r)
    by (eexists; vm_compute; reflexivity).
  destruct H as [r Hr]. exists r. split; [exact Hr|].
  exact (proj1 (azimuths_within_0_and_360 libm_model 100%Z 1%Z 5 7 0 0 0 30 90
                  (-1000) 30 (-20) 359 1 0.3 1.5 0.04 0.2 0.85 0.1 DT) r Hr).
Defined.

(** X10: the right ascension that [solpos] returns comes out of [% 360]: it
    is never below 0 and never above 360. *)
Theorem solpos_right_ascension_within_0_and_360
    (L : Libm) (fuel : nat) (year month day : Z)
    (hour minute second timezone latitude longitude pressure temperature
     aspect tilt sb_width sb_radius sb_sky interval : float)
    (r : solpos_result) :
  solpos fuel year month day hour minute second timezone latitude longitude
    pressure temperature aspect tilt sb_width sb_radius sb_sky interval = Ok r ->
  (so_rascen r <? 0) = false /\ (360 <? so_rascen r) = false.
Proof.
  intros H. unfold solpos in H. peel H s Hs.
  destruct (solpos_angles _ _ _ _ _ _ _ _ _ _ _ Hs) as [[x Hx] _].
  assert (E : so_rascen r = sp_rascen s).
  { repeat (peel_all H;
            match type of H with
            | (let '(_, _) := ?c in _) = _ => destruct c
            end).
    peel_all H. apply Ok_inj in H. subst r. reflexivity. }
  rewrite E. exact (py_mod_range _ 360 _ eq_refl Hx).
Qed.

Lemma solpos_right_ascension_within_0_and_360_witness :
  exists r,
    solpos 100 1990 3 14 12 3 4 0 20 3 1000 15 180 0 7.6 31.7 0.04 0 = Ok r
    /\ (so_rascen r <? 0) = false /\ (360 <? so_rascen r) = false.
Proof.
  assert (H : exists r, solpos 100 1990 3 14 12 3 4 0 20 3 1000 15 180 0 7.6
                          31.7 0.04 0 = Ok r)
    by (eexists; vm_compute; reflexivity).
  destruct H as [r Hr]. exists r. split; [exact Hr|].
  exact (solpos_right_ascension_within_0_and_360 libm_model 100 1990 3 14 12 3 4
           0 20 3 1000 15 180 0 7.6 31.7 0.04 0 r Hr).
Defined.

(** X9: the loops [while tstfix > 720: tstfix -= 1440] and
    [while tstfix < -720: tstfix += 1440] of [solpos] never end on a [tstfix]
    so large that adding or subtracting 1440 leaves it unchanged (6e19, say):
    no amount of fuel suffices.  When a loop ends, its result is on the right
    side of its bound. *)
Theorem solpos_tstfix_loops (fuel : nat) (x : float) :
  ((720 <? x) = true -> x - 1440 = x -> above_720 fuel x = Raise OutOfFuel)
  /\ ((x <? -720) = true -> x + 1440 = x -> below_720 fuel x = Raise OutOfFuel)
  /\ (forall t, above_720 fuel x = Ok t -> (720 <? t) = false)
  /\ (forall t, below_720 fuel x = Ok t -> (t <? -720) = false).
Proof.
  repeat apply conj.
  - intros H1 H2. exact (above_720_absorbed x H1 H2 fuel).
  - intros H1 H2. exact (below_720_absorbed x H1 H2 fuel).
  - intros t H. exact (above_720_exit fuel x t H).
  - intros t H. exact (below_720_exit fuel x t H).
Qed.

Lemma solpos_tstfix_loops_witness :
  above_720 1000 6e19 = Raise OutOfFuel
  /\ below_720 1000 (-6e19) = Raise OutOfFuel
  /\ (forall t, above_720 3 2000 = Ok t -> (720 <? t) = false).
Proof.
  repeat apply conj.
  - apply (proj1 (solpos_tstfix_loops 1000 6e19)); reflexivity.
  - apply (proj1 (proj2 (solpos_tstfix_loops 1000 (-6e19)))); reflexivity.
  - exact (proj1 (proj2 (proj2 (solpos_tstfix_loops 3 2000)))).
Defined.

(** For every amount of fuel: with [hour = -1e18] the first loop of [solpos]
    starts from [tstfix = 6e19] and cannot leave it. *)
Lemma solpos_never_returns_for_hour_minus_1e18 (fuel : nat) :
  solpos fuel 2016 12 31 (-1e18) 0 0 0 (-70) (-160) 780 5 70 30 8 32 0.05 2
  = Raise OutOfFuel.
Proof.
  destruct fuel as [|k]; [vm_compute; reflexivity|].
  assert (E : above_720 k 6e19 = Raise OutOfFuel).
  { apply above_720_absorbed; vm_compute; reflexivity. }
  vm_compute in E. vm_compute. rewrite E. reflexivity.
Qed.

(** ** [bird] with [dni_mod = 1] *)

(** X6: with [dni_mod = 1] the attenuated direct normal irradiance of [bird]
    is the unattenuated one, bit for bit. *)
Theorem bird_direct_normal_unattenuated_by_1
    (L : Libm) (r zenith pressure ozone water aerosol albedo ba k1 : float)
    (b : bird_result) :
  bird r zenith pressure ozone water aerosol albedo 1 ba k1 = Ok b ->
  br_direct_normal_mod b = br_direct_normal b.
Proof.
  unfold bird. destruct (bird_domain r zenith).
  - intros H. peel H t Ht. peel H cz Hcz.
    change (0 <=? 1) with true in H. cbv iota in H.
    peel H cz' Hcz'. peel H it_mod Himod. apply Ok_inj in H. subst b.
    cbn [br_direct_normal br_direct_normal_mod]. apply mul_one_r.
  - intros H. apply Ok_inj in H. subst b. reflexivity.
Qed.

Lemma bird_direct_normal_unattenuated_by_1_witness :
  exists b,
    bird 1 30 1013 0.3 1.5 0.04 0.2 1 0.85 0.1 = Ok b
    /\ br_direct_normal_mod b = br_direct_normal b.
Proof.
  assert (H : exists b, bird 1 30 1013 0.3 1.5 0.04 0.2 1 0.85 0.1 = Ok b)
    by (eexists; vm_compute; reflexivity).
  destruct H as [b Hb]. exists b. split; [exact Hb|].
  exact (bird_direct_normal_unattenuated_by_1 libm_model 1 30 1013 0.3 1.5 0.04
           0.2 0.85 0.1 b Hb).
Defined.

Lemma bird_dni_mod_only_attenuates_witness :
  exists b b',
    bird 1 30 1013 0.3 1.5 0.04 0.2 (-1) 0.85 0.1 = Ok b
    /\ br_direct_normal_mod b = 0 /\ br_it_mod b = 0
    /\ br_diffuse_horizontal_mod b = 0
    /\ bird 1 30 1013 0.3 1.5 0.04 0.2 0.5 0.85 0.1 = Ok b'
    /\ br_direct_normal b' = br_direct_normal b
    /\ br_it b' = br_it b.
Proof.
  assert (H : exists b, bird 1 30 1013 0.3 1.5 0.04 0.2 (-1) 0.85 0.1 = Ok b)
    by (eexists; vm_compute; reflexivity).
  destruct H as [b Hb].
  destruct (bird_dni_mod_only_attenuates libm_model 1 30 1013 0.3 1.5 0.04 0.2
              (-1) 0.5 0.85 0.1 b Hb) as [Hz [b' [Hb' [_ [E1 [E2 _]]]]]].
  destruct (Hz eq_refl) as [Z1 [Z2 Z3]].
  exists b, b'. repeat apply conj; auto.
Defined.

(** ** [analemmatic.py]: [Horizontal._move] and [Horizontal._angle] *)

Lemma ymd2ord_invalid (y m d : Z) :
  c_int y && c_int m && c_int d = true ->
  ~ ((1 <= y <= 9999)%Z /\ (1 <= m <= 12)%Z /\ (1 <= d <= days_in_month y m)%Z) ->
  ymd2ord y m d = Raise ValueError.
Proof.
  intros Hc H. unfold ymd2ord, MINYEAR, MAXYEAR. rewrite Hc. cbn [negb].
  destruct ((1 <=? y) && (y <=? 9999))%Z eqn:Ey; [|reflexivity].
  destruct ((1 <=? m) && (m <=? 12))%Z eqn:Em; [|reflexivity].
  destruct ((1 <=? d) && (d <=? days_in_month y m))%Z eqn:Ed; [|reflexivity].
  apply andb_true_iff in Ey, Em, Ed. rewrite !Z.leb_le in Ey, Em, Ed.
  exfalso. apply H. lia.
Qed.

Lemma ymd2ord_overflow (y m d : Z) :
  c_int y && c_int m && c_int d = false ->
  ymd2ord y m d = Raise OverflowError.
Proof. intros Hc. unfold ymd2ord. rewrite Hc. reflexivity. Qed.

Lemma plain_dates_checked : all_from plain_date 1 1095 = true.
Proof. vm_compute. reflexivity. Qed.

Ltac year_2_month Hd :=
  match type of Hd with
  | (_ <= _ <= days_in_month 2 ?m)%Z =>
      let v := eval vm_compute in (days_in_month 2 m) in
      change (days_in_month 2 m) with v in Hd;
      let w := eval vm_compute in (days_before_year 2 + days_before_month 2 m)%Z in
      change (days_before_year 2 + days_before_month 2 m)%Z with w;
      lia
  end.

Lemma ymd2ord_year_2 (m d o : Z) :
  ymd2ord 2 m d = Ok o -> (366 <= o <= 730)%Z.
Proof.
  intros H. destruct (ymd2ord_ok _ _ _ _ H) as [_ [Hm Hd]].
  unfold ymd2ord in H.
  destruct (negb (c_int 2 && c_int m && c_int d)); [discriminate|].
  destruct (negb ((MINYEAR <=? 2) && (2 <=? MAXYEAR)))%Z; [discriminate|].
  destruct (negb ((1 <=? m) && (m <=? 12)))%Z; [discriminate|].
  destruct (negb ((1 <=? d) && (d <=? days_in_month 2 m)))%Z; [discriminate|].
  apply Ok_inj in H. subst o.
  assert (E : (m = 1 \/ m = 2 \/ m = 3 \/ m = 4 \/ m = 5 \/ m = 6 \/ m = 7
               \/ m = 8 \/ m = 9 \/ m = 10 \/ m = 11 \/ m = 12)%Z) by lia.
  repeat (destruct E as [->|E]; [year_2_month Hd|]).
  subst m. year_2_month Hd.
Qed.

Lemma year_2_dates_checked :
  all_from (fun m => all_from (year_2_date m) 1 31) 1 12 = true.
Proof. vm_compute. reflexivity. Qed.

Lemma ord2ymd_year_2 (m d o : Z) :
  ymd2ord 2 m d = Ok o -> ord2ymd o = (2, m, d)%Z.
Proof.
  intros H. destruct (ymd2ord_ok _ _ _ _ H) as [_ [Hm Hd]].
  assert (Hd' : (1 <= d < 1 + 31)%Z).
  { assert (days_in_month 2 m <= 31)%Z; [|lia].
    unfold days_in_month.
    destruct m as [|[[[|[]|]|[[]|[]|]|]|[[|[]|]|[[]|[]|]|]|]|]; cbn; lia. }
  pose proof (all_from_spec _ _ _ year_2_dates_checked m) as Hc.
  cbv beta in Hc. specialize (Hc ltac:(cbn; lia)).
  pose proof (all_from_spec _ _ _ Hc d) as Hc'.
  specialize (Hc' ltac:(cbn; lia)).
  unfold year_2_date in Hc'. rewrite H in Hc'.
  destruct (ord2ymd o) as [[y' m'] d'].
  apply andb_true_iff in Hc'. destruct Hc' as [Hc' E3].
  apply andb_true_iff in Hc'. destruct Hc' as [E1 E2].
  apply Z.eqb_eq in E1, E2, E3. congruence.
Qed.

(** X11: [Horizontal._move] builds [datetime(2, month_number, day, 0)]: a
    month or a day that does not fit a C [int] is an [OverflowError]; one
    that fits but is no date of the year 2, the 29th of February among them,
    is a [ValueError]; and with no years to average over, the mean
    declination [sum(declinations) / len(declinations)] is a
    [ZeroDivisionError]. *)
Theorem move_errors
    (L : Libm) (self : Horizontal) (month_number day : Z) :
  (c_int month_number && c_int day = false ->
   _move self month_number day = Raise OverflowError)
  /\ (c_int month_number && c_int day = true ->
      ~ ((1 <= month_number <= 12)%Z
         /\ (1 <= day <= days_in_month 2 month_number)%Z) ->
      _move self month_number day = Raise ValueError)
  /\ (forall t,
        time_with_offset (hz_timezone self) month_number day = Ok t ->
        hz_years self = [] ->
        _move self month_number day = Raise ZeroDivisionError).
Proof.
  repeat apply conj.
  - intros Hc. unfold _move, time_with_offset.
    rewrite ymd2ord_overflow; [reflexivity|exact Hc].
  - intros Hc H. unfold _move, time_with_offset.
    rewrite ymd2ord_invalid; [reflexivity|exact Hc|]. lia.
  - intros t Ht Hy. unfold _move. rewrite Ht, Hy. reflexivity.
Qed.

Lemma move_errors_witness :
  _move {| hz_latitude := 34; hz_longitude := -118; hz_width := 5;
           hz_height := 2.796; hz_timezone := -7;
           hz_correct_for_longitude := false; hz_years := [2024%Z];
           hz_elevation := 0 |} 2147483648 1 = Raise OverflowError
  /\ _move {| hz_latitude := 34; hz_longitude := -118; hz_width := 5;
              hz_height := 2.796; hz_timezone := -7;
              hz_correct_for_longitude := false; hz_years := [2024%Z];
              hz_elevation := 0 |} 2 29 = Raise ValueError
  /\ _move {| hz_latitude := 34; hz_longitude := -118; hz_width := 5;
              hz_height := 2.796; hz_timezone := -7;
              hz_correct_for_longitude := false; hz_years := [];
              hz_elevation := 0 |} 6 21 = Raise ZeroDivisionError.
Proof.
  repeat apply conj.
  - apply (proj1 (move_errors libm_model _ 2147483648 1)). reflexivity.
  - apply (proj1 (proj2 (move_errors libm_model _ 2 29))); [reflexivity|].
    vm_compute. intros [_ [_ H]]. apply H. reflexivity.
  - assert (H : exists t, time_with_offset (-7) 6 21 = Ok t)
      by (eexists; vm_compute; reflexivity).
    destruct H as [t Ht].
    apply (proj2 (proj2 (move_errors libm_model _ 6 21)) t);
      [exact Ht | reflexivity].
Defined.

(** X12: the date [Horizontal._move] asks [SPA] about is taken in the years
    1 to 3, which are no leap years, whenever the time zone shifts it by a
    year at most: it is a valid date of its year and never the 29th of
    February; without a shift it is the date given, at 0 h. *)
Theorem move_dates
    (timezone : float) (month_number day us : Z) (t : datetime) :
  timedelta_hours timezone = Ok us ->
  (Z.abs us <= 365 * us_per_day)%Z ->
  time_with_offset timezone month_number day = Ok t ->
  (1 <= dt_year t <= 3)%Z
  /\ (1 <= dt_month t <= 12)%Z
  /\ (1 <= dt_day t <= days_in_month (dt_year t) (dt_month t))%Z
  /\ ~ (dt_month t = 2 /\ dt_day t = 29)%Z
  /\ (us = 0%Z ->
      t = {| dt_year := 2; dt_month := month_number; dt_day := day;
             dt_hour := 0; dt_minute := 0; dt_second := 0;
             dt_microsecond := 0 |}).
Proof.
  intros Hus Hb H. unfold time_with_offset in H.
  peel H o Ho. peel H us' Hus'. rewrite Hus in Hus'. apply Ok_inj in Hus'.
  subst us'.
  destruct (negb (timedelta_days_ok us)); [discriminate|].
  cbv zeta in H.
  destruct (negb (date_in_range ((o * us_per_day - us) / us_per_day)));
    [discriminate|].
  pose proof (ymd2ord_year_2 _ _ _ Ho) as Hr.
  assert (Hq : (1 <= (o * us_per_day - us) / us_per_day < 1 + 1095)%Z).
  { unfold us_per_day in *. split.
    - apply Z.div_le_lower_bound; lia.
    - apply Z.div_lt_upper_bound; lia. }
  pose proof (all_from_spec _ _ _ plain_dates_checked _ Hq) as Hp.
  unfold plain_date in Hp.
  destruct (ord2ymd ((o * us_per_day - us) / us_per_day)) as [[y' m'] d'] eqn:Eo.
  apply Ok_inj in H.
  apply andb_true_iff in Hp. destruct Hp as [Hp _].
  repeat (apply andb_true_iff in Hp; let H' := fresh "B" in destruct Hp as [Hp H']).
  rewrite ?Z.leb_le in *.
  apply negb_true_iff, andb_false_iff in B. rewrite !Z.eqb_neq in B.
  subst t. cbn [dt_year dt_month dt_day].
  repeat apply conj; try lia.
  intros ->. rewrite Z.sub_0_r in Eo |- *.
  rewrite Z.div_mul in Eo by (unfold us_per_day; lia).
  rewrite (ord2ymd_year_2 _ _ _ Ho) in Eo. injection Eo as <- <- <-.
  rewrite Z.mod_mul by (unfold us_per_day; lia). reflexivity.
Qed.

Lemma move_dates_witness :
  exists t,
    time_with_offset 7 3 1 = Ok t
    /\ dt_year t = 2%Z /\ dt_month t = 2%Z /\ dt_day t = 28%Z
    /\ dt_hour t = 17%Z
    /\ ~ (dt_month t = 2 /\ dt_day t = 29)%Z.
Proof.
  assert (H : exists t, time_with_offset 7 3 1 = Ok t
                        /\ dt_year t = 2%Z /\ dt_month t = 2%Z
                        /\ dt_day t = 28%Z /\ dt_hour t = 17%Z)
    by (eexists; vm_compute; repeat split; reflexivity).
  destruct H as [t [Ht Hall]].
  assert (Hus : timedelta_hours 7 = Ok 25200000000%Z) by (vm_compute; reflexivity).
  pose proof (move_dates 7 3 1 _ t Hus ltac:(vm_compute; discriminate) Ht)
    as [_ [_ [_ [Hn _]]]].
  exists t. tauto.
Defined.

(** X13: without the longitude correction, the mark of an hour up to 6 is the
    mark of the hour twelve later turned by 180 degrees: [_angle] takes the
    arc tangent of the later hour, subtracts 180 and wraps by 360. *)
Theorem angle_half_turn
    (L : Libm) (self : Horizontal) (hour a : float) :
  hz_correct_for_longitude self = false ->
  (hour <=? 6) = true -> (hour + 12 <=? 6) = false -> (18 <? hour + 12) = false ->
  _angle self hour = Ok a ->
  exists arc,
    a = arc_wrap (arc - 180)
    /\ _angle self (hour + 12) = Ok (arc_wrap arc).
Proof.
  intros Hc H6 H6' H18 H. unfold _angle in *. rewrite Hc in *.
  rewrite H6 in H. rewrite H6', H18.
  peel H tn Ht. peel H sn Hs. peel H q Htt. peel H at' Ha.
  apply Ok_inj in H. subst a.
  rewrite Ht. cbn [bind]. rewrite Hs. cbn [bind]. rewrite Htt. cbn [bind].
  rewrite Ha. cbn [bind].
  exists (degrees at'). split; reflexivity.
Qed.

Lemma angle_half_turn_witness :
  exists a arc,
    _angle {| hz_latitude := 34; hz_longitude := -118; hz_width := 5;
              hz_height := 2.796; hz_timezone := -7;
              hz_correct_for_longitude := false; hz_years := [2024%Z];
              hz_elevation := 0 |} 1 = Ok a
    /\ a = arc_wrap (arc - 180)
    /\ _angle {| hz_latitude := 34; hz_longitude := -118; hz_width := 5;
                 hz_height := 2.796; hz_timezone := -7;
                 hz_correct_for_longitude := false; hz_years := [2024%Z];
                 hz_elevation := 0 |} (1 + 12) = Ok (arc_wrap arc).
Proof.
  assert (H : exists a,
            _angle {| hz_latitude := 34; hz_longitude := -118; hz_width := 5;
                      hz_height := 2.796; hz_timezone := -7;
                      hz_correct_for_longitude := false; hz_years := [2024%Z];
                      hz_elevation := 0 |} 1 = Ok a)
    by (eexists; vm_compute; reflexivity).
  destruct H as [a Ha].
  destruct (angle_half_turn libm_model
              {| hz_latitude := 34; hz_longitude := -118; hz_width := 5;
                 hz_height := 2.796; hz_timezone := -7;
                 hz_correct_for_longitude := false; hz_years := [2024%Z];
                 hz_elevation := 0 |} 1 a eq_refl eq_refl eq_refl eq_refl Ha)
    as [arc [E1 E2]].
  exists a, arc. auto.
Defined.

(** ** The expected values of [test_sundialy.py]

    The heights and the angles of the 24 hour marks of the test's three
    sundials, and three gnomon movements of the second one, whose years are
    given: Jun 21 is -0.898, Jan 1 is 0.882, Mar 1 is 0.287. *)

Lemma test_sundial_first :
  match Horizontal_init 34 (-118) 5 (-7) false [] 0 with
  | Ok s =>
      round3 (hz_height s) = Some 2796%Z
      /\ angles_rounded s =
         map Some [-180000; -154398; -134085; -119214; -107893; -98522; -90000;
                   -81478; -72107; -60786; -45915; -25602; 0; 25602; 45915;
                   60786; 72107; 81478; 90000; 98522; 107893; 119214; 134085;
                   154398]%Z
  | Raise _ => False
  end.
Proof. vm_compute. split; reflexivity. Qed.

Lemma test_sundial_second :
  match Horizontal_init (-34) 118 5 7 true [2022; 2023; 2024]%Z 0 with
  | Ok s =>
      round3 (hz_height s) = Some 2796%Z
      /\ angles_rounded s =
         map Some [157566; 136443; 120949; 109261; 99702; 91119; 82644; 73441;
                   62460; 48175; 28667; 3573; -22434; -43557; -59051; -70739;
                   -80298; -88881; -97356; -106559; -117540; -131825; -151333;
                   -176427]%Z
      /\ match _move s 6 21, _move s 1 1, _move s 3 1 with
         | Ok a, Ok b, Ok c =>
             round3 a = Some (-898)%Z /\ round3 b = Some 882%Z
             /\ round3 c = Some 287%Z
         | _, _, _ => False
         end
  | Raise _ => False
  end.
Proof. vm_compute. repeat split; reflexivity. Qed.

Lemma test_sundial_third :
  match Horizontal_init 0 0 5 0 true [] 0 with
  | Ok s =>
      round3 (hz_height s) = Some 0%Z
      /\ angles_rounded s =
         map Some [-180000; -90000; -90000; -90000; -90000; -90000; -90000;
                   -90000; -90000; -90000; -90000; -90000; 0; 90000; 90000;
                   90000; 90000; 90000; 90000; 90000; 90000; 90000; 90000;
                   90000]%Z
  | Raise _ => False
  end.
Proof. vm_compute. split; reflexivity. Qed.

(** ** [solpos]: the day number *)

Lemma leap_year_is_leap (year : Z) : leap_year year = is_leap year.
Proof. reflexivity. Qed.

Ltac day_of_year year :=
  eexists; split; [reflexivity|];
  change (leap_year year) with (is_leap year);
  match goal with
  | |- context [nth ?i (nth 0 month_days []) 0%Z] =>
      let v := eval vm_compute in (nth i (nth 0 month_days []) 0%Z) in
      change (nth i (nth 0 month_days []) 0%Z) with v
  end;
  match goal with
  | |- context [(2 <? ?m)%Z] =>
      let v := eval vm_compute in (2 <? m)%Z in change (2 <? m)%Z with v
  end;
  unfold days_before_month;
  match goal with
  | |- context [Z.to_nat ?m] =>
      let v := eval vm_compute in (Z.to_nat m) in change (Z.to_nat m) with v
  end;
  cbn [days_before_month_aux Z.of_nat Pos.of_succ_nat Pos.succ];
  unfold days_in_month;
  destruct (is_leap year); cbn [andb]; lia.

Lemma solpos_day_of_year (year month day : Z) :
  (1 <= month <= 12)%Z ->
  exists d0,
    index13 (nth 0 month_days []) month = Ok d0
    /\ (if leap_year year && (2 <? month)%Z then day + d0 + 1 else day + d0)%Z
       = (days_before_month year month + day)%Z.
Proof.
  intros Hm.
  assert (E : (month = 1 \/ month = 2 \/ month = 3 \/ month = 4 \/ month = 5
               \/ month = 6 \/ month = 7 \/ month = 8 \/ month = 9
               \/ month = 10 \/ month = 11 \/ month = 12)%Z) by lia.
  repeat (destruct E as [->|E]; [day_of_year year|]).
  subst month. day_of_year year.
Qed.

(** X14: for a month from 1 to 12, the day angle that [solpos] returns is
    [360 * (n - 1) / 365] where [n] is the calendar's day of the year of
    [year]-[month]-[day]: the table [month_days] and the leap-year rule of
    [solpos] agree with the calendar of [datetime]. *)
Theorem solpos_day_angle_of_the_calendar
    (L : Libm) (fuel : nat) (year month day : Z)
    (hour minute second timezone latitude longitude pressure temperature
     aspect tilt sb_width sb_radius sb_sky interval : float)
    (r : solpos_result) :
  (1 <= month <= 12)%Z ->
  solpos fuel year month day hour minute second timezone latitude longitude
    pressure temperature aspect tilt sb_width sb_radius sb_sky interval = Ok r ->
  so_day_angle r
  = 360 * of_Z (days_before_month year month + day - 1) / 365.
Proof.
  intros Hm H. unfold solpos in H. peel H s Hs.
  assert (E : so_day_angle r = sp_day_angle s).
  { repeat (peel_all H;
            match type of H with
            | (let '(_, _) := ?c in _) = _ => destruct c
            end).
    peel_all H. apply Ok_inj in H. subst r. reflexivity. }
  rewrite E. clear E H.
  destruct (solpos_day_of_year year month day Hm) as [d0 [Hd0 Hd]].
  unfold solpos_sun_position in Hs. rewrite Hd0 in Hs. cbn [bind] in Hs.
  cbv zeta in Hs. peel_all Hs. apply Ok_inj in Hs. subst s.
  cbn [sp_day_angle]. rewrite <- Hd.
  destruct (leap_year year && (2 <? month)%Z); reflexivity.
Qed.

Lemma solpos_day_angle_of_the_calendar_witness :
  exists r,
    solpos 100 2016 8 30 15 0 0 0 (-70) (-160) 780 5 70 30 8 32 0.05 2 = Ok r
    /\ so_day_angle r = 360 * of_Z (days_before_month 2016 8 + 30 - 1) / 365
    /\ (days_before_month 2016 8 + 30 = 243)%Z.
Proof.
  assert (H : exists r, solpos 100 2016 8 30 15 0 0 0 (-70) (-160) 780 5 70 30 8
                          32 0.05 2 = Ok r)
    by (eexists; vm_compute; reflexivity).
  destruct H as [r Hr]. exists r. repeat apply conj; [exact Hr | | reflexivity].
  apply (solpos_day_angle_of_the_calendar libm_model 100 2016 8 30 15 0 0 0
           (-70) (-160) 780 5 70 30 8 32 0.05 2 r); [lia | exact Hr].
Defined.

(** ** The helpers of [spa] *)

(** X15: the right ascension that [_geocentric_ra_and_d] returns, the
    second component of its pair, is never below 0 and never above 360. *)
Theorem geocentric_right_ascension_within_0_and_360
    (L : Libm) (year month : Z)
    (day hour minute second microsecond dt d a2 : float) :
  _geocentric_ra_and_d year month day hour minute second microsecond dt
  = Ok (d, a2) ->
  (a2 <? 0) = false /\ (360 <? a2) = false.
Proof.
  intros H. unfold _geocentric_ra_and_d in H. peel H j Hj. peel H g Hg.
  apply Ok_inj in H. injection H as _ <-.
  destruct (sun_geocentric_reduced _ _ _ Hg) as [x Hx].
  exact (py_mod_range _ 360 _ eq_refl Hx).
Qed.

Lemma geocentric_right_ascension_within_0_and_360_witness :
  exists d a2,
    _geocentric_ra_and_d 2020 6 21 12 0 0 0 DT = Ok (d, a2)
    /\ (a2 <? 0) = false /\ (360 <? a2) = false.
Proof.
  assert (H : exists p, _geocentric_ra_and_d 2020 6 21 12 0 0 0 DT = Ok p)
    by (eexists; vm_compute; reflexivity).
  destruct H as [[d a2] Hp]. exists d, a2. split; [exact Hp|].
  exact (geocentric_right_ascension_within_0_and_360 libm_model 2020 6 21 12 0
           0 0 DT d a2 Hp).
Defined.

(** ** The order of sums, differences and products of floats *)

(** ** The order of floats and the order of their values *)

Lemma Some_inj {A : Type} (a b : A) : Some a = Some b -> a = b.
Proof. congruence. Qed.

Lemma bounded_value (m : positive) (e : Z) :
  bounded prec emax m e = true ->
  (0 < Zpos m * 2 ^ (e + 1074))%Z
  /\ (Zpos m < 2 ^ 53)%Z
  /\ ((-1074 < e)%Z -> (2 ^ 52 <= Zpos m)%Z).
Proof.
  intros B. destruct (bounded_spec _ _ B) as [C [D E]].
  pose proof (digits2_pos_bounds m) as [Lo Hi].
  repeat apply conj.
  - apply Z.mul_pos_pos; [lia | apply Z.pow_pos_nonneg; lia].
  - eapply Z.lt_le_trans; [exact Hi | apply Z.pow_le_mono_r; lia].
  - intros He.
    assert (Zpos (digits2_pos m) = 53%Z)
      by (unfold fexp, SpecFloat.emin, prec, emax in C; lia).
    replace 52%Z with (Zpos (digits2_pos m) - 1)%Z by lia. exact Lo.
Qed.

(** Valid positive floats compare as their values do. *)
Lemma canonical_compare (m1 m2 : positive) (e1 e2 : Z) :
  bounded prec emax m1 e1 = true -> bounded prec emax m2 e2 = true ->
  match (e1 ?= e2)%Z with
  | Lt => Lt
  | Gt => Gt
  | Eq => Pos.compare_cont Eq m1 m2
  end = (Zpos m1 * 2 ^ (e1 + 1074) ?= Zpos m2 * 2 ^ (e2 + 1074))%Z.
Proof.
  intros B1 B2.
  destruct (bounded_spec _ _ B1) as [_ [_ E1]].
  destruct (bounded_spec _ _ B2) as [_ [_ E2]].
  destruct (bounded_value _ _ B1) as [_ [U1 L1]].
  destruct (bounded_value _ _ B2) as [_ [U2 L2]].
  change (2 ^ 53)%Z with 9007199254740992%Z in *.
  change (2 ^ 52)%Z with 4503599627370496%Z in *.
  assert (Hstep : forall (ma mb : positive) (ea eb : Z),
            (-1074 <= ea < eb)%Z -> (Zpos ma < 9007199254740992)%Z ->
            (4503599627370496 <= Zpos mb)%Z ->
            (Zpos ma * 2 ^ (ea + 1074) < Zpos mb * 2 ^ (eb + 1074))%Z).
  { intros ma mb ea eb He Ua Lb.
    replace (eb + 1074)%Z with ((eb - ea - 1) + 1 + (ea + 1074))%Z by lia.
    rewrite (Z.pow_add_r 2 (eb - ea - 1 + 1) (ea + 1074)) by lia.
    rewrite (Z.pow_add_r 2 (eb - ea - 1) 1) by lia. change (2 ^ 1)%Z with 2%Z.
    set (A := (2 ^ (eb - ea - 1))%Z). set (B := (2 ^ (ea + 1074))%Z).
    assert (0 < A)%Z by (apply Z.pow_pos_nonneg; lia).
    assert (0 < B)%Z by (apply Z.pow_pos_nonneg; lia).
    assert (H3 : (Zpos ma * B < 9007199254740992 * B)%Z)
      by (apply Z.mul_lt_mono_pos_r; lia).
    assert (H4 : (9007199254740992 * B <= Zpos mb * 2 * B)%Z)
      by (apply Z.mul_le_mono_nonneg_r; lia).
    assert (H5 : (Zpos mb * 2 * B * 1 <= Zpos mb * 2 * B * A)%Z)
      by (apply Z.mul_le_mono_nonneg_l; [|lia];
          apply Z.mul_nonneg_nonneg; lia).
    replace (Zpos mb * (A * 2 * B))%Z with (Zpos mb * 2 * B * A)%Z by ring.
    lia. }
  destruct (e1 ?= e2)%Z eqn:Ec.
  - apply Z.compare_eq in Ec. subst e2.
    change (Pos.compare_cont Eq m1 m2) with (Zpos m1 ?= Zpos m2)%Z.
    assert (0 < 2 ^ (e1 + 1074))%Z by (apply Z.pow_pos_nonneg; lia).
    rewrite <- Zmult_compare_compat_r by lia. reflexivity.
  - rewrite Z.compare_lt_iff in Ec. symmetry. apply Z.compare_lt_iff.
    apply Hstep; lia.
  - rewrite Z.compare_gt_iff in Ec. symmetry. apply Z.compare_gt_iff.
    apply Hstep; lia.
Qed.

Lemma SFcompare_scaled (a b : spec_float) (va vb : Z) :
  valid_binary a = true -> valid_binary b = true ->
  scaled a = Some va -> scaled b = Some vb ->
  SFcompare a b = Some (va ?= vb)%Z.
Proof.
  intros Va Vb Ha Hb.
  destruct a as [sa|sa| |sa ma ea], b as [sb|sb| |sb mb eb];
    try discriminate; unfold scaled in Ha, Hb; unfold valid_binary in Va, Vb;
    apply Some_inj in Ha, Hb; subst va vb.
  - reflexivity.
  - destruct (bounded_value _ _ Vb) as [P _].
    destruct sb; unfold SFcompare, cond_Zopp; f_equal; symmetry.
    + apply Z.compare_gt_iff. lia.
    + apply Z.compare_lt_iff. lia.
  - destruct (bounded_value _ _ Va) as [P _].
    destruct sa; unfold SFcompare, cond_Zopp; f_equal; symmetry.
    + apply Z.compare_lt_iff. lia.
    + apply Z.compare_gt_iff. lia.
  - destruct (bounded_value _ _ Va) as [Pa _].
    destruct (bounded_value _ _ Vb) as [Pb _].
    destruct sa, sb; unfold SFcompare, cond_Zopp; f_equal.
    + rewrite Z.compare_opp.
      rewrite (Z.compare_antisym (Zpos ma * 2 ^ (ea + 1074))
                 (Zpos mb * 2 ^ (eb + 1074))).
      rewrite <- (canonical_compare _ _ _ _ Va Vb).
      destruct (ea ?= eb)%Z; reflexivity.
    + symmetry. apply Z.compare_lt_iff. lia.
    + symmetry. apply Z.compare_gt_iff. lia.
    + apply (canonical_compare _ _ _ _ Va Vb).
Qed.

(** ** Rounding, in general *)

Lemma shr_shifted (z e f : Z) :
  (0 <= z)%Z -> (e <= f)%Z ->
  exists mrs,
    shr (Build_shr_record z false false) e (f - e) = (mrs, f)
    /\ shifted z (f - e) mrs.
Proof.
  intros Hz Hef. unfold shr.
  destruct (f - e)%Z as [|n|n] eqn:En; try lia.
  - exists (Build_shr_record z false false). split; [f_equal; lia|].
    split; cbn [shr_m shr_r shr_s]; [rewrite Z.div_1_r; reflexivity | auto].
  - exists (Pos.iter shr_1 (Build_shr_record z false false) n).
    rewrite iter_pos_iter. split; [f_equal; lia|].
    apply iter_shr_1_shifted. exact Hz.
Qed.

(** What [binary_round_aux] returns for a positive number [S * 2^E] whose
    exponent is not above the canonical one, [f]: with [q'] the quotient of
    [S] by [2^(f-E)], rounded, it is zero if [q'] is, and else the float or
    the infinity of [q' * 2^f]. *)
Lemma binary_round_aux_spec (S : positive) (E : Z) :
  let f := fexp prec emax (Zpos (digits2_pos S) + E) in
  (E <= f)%Z ->
  exists q',
    (Zpos S / 2 ^ (f - E) <= q' <= Zpos S / 2 ^ (f - E) + 1)%Z
    /\ ((Zpos S mod 2 ^ (f - E) = 0)%Z -> q' = (Zpos S / 2 ^ (f - E))%Z)
    /\ ((-1074 < f)%Z -> (2 ^ 52 <= q')%Z)
    /\ ((q' = 0%Z
         /\ binary_round_aux prec emax false (Zpos S) E loc_Exact
            = S754_zero false)
        \/ (exists p g,
              (f <= g)%Z /\ (Zpos p * 2 ^ (g - f))%Z = q'
              /\ canonical_mantissa prec emax p g = true
              /\ binary_round_aux prec emax false (Zpos S) E loc_Exact
                 = sf_false_finite_or_inf p g)).
Proof.
  intros f Hn.
  pose proof (digits2_pos_bounds S) as [LS US].
  set (d := Zpos (digits2_pos S)) in *.
  assert (Hf : (-1074 <= f)%Z /\ (d + E - 53 <= f)%Z
               /\ ((-1074 < f)%Z -> f = (d + E - 53)%Z)).
  { unfold f, fexp, SpecFloat.emin, prec, emax. lia. }
  destruct Hf as [Hf0 [Hf1 Hf2]].
  assert (Hpn : (0 < 2 ^ (f - E))%Z) by (apply Z.pow_pos_nonneg; lia).
  destruct (shr_shifted (Zpos S) E f ltac:(lia) Hn) as [mrs [Hshr [Hq Hex]]].
  pose proof (round_nearest_even_le mrs) as [Hrne Hrex].
  unfold binary_round_aux, shr_fexp. cbn [Zdigits2 shr_record_of_loc].
  fold d. fold f. rewrite Hshr.
  set (q' := round_nearest_even (shr_m mrs) (loc_of_shr_record mrs)) in *.
  rewrite Hq in Hrne.
  assert (Hqhi : (Zpos S / 2 ^ (f - E) < 2 ^ 53)%Z).
  { apply Z.div_lt_upper_bound; [lia|].
    rewrite <- Z.pow_add_r by lia.
    eapply Z.lt_le_trans; [exact US|]. apply Z.pow_le_mono_r; lia. }
  assert (Hqlo : (-1074 < f)%Z -> (2 ^ 52 <= Zpos S / 2 ^ (f - E))%Z).
  { intros H. apply Z.div_le_lower_bound; [lia|].
    rewrite <- Z.pow_add_r by lia.
    replace (f - E + 52)%Z with (d - 1)%Z by (rewrite (Hf2 H); lia).
    exact LS. }
  exists q'. split; [exact Hrne|]. split.
  { intros H0. destruct (Hex H0) as [Hr Hs]. rewrite <- Hq.
    exact (Hrex Hr Hs). }
  split; [intros H; specialize (Hqlo H); lia|].
  destruct q' as [|p|p] eqn:Eq'.
  - left. split; [reflexivity|].
    cbn [Zdigits2]. unfold shr.
    assert (Hle : (fexp prec emax (0 + f) - f <= 0)%Z)
      by (unfold fexp, SpecFloat.emin, prec, emax; lia).
    destruct (fexp prec emax (0 + f) - f)%Z; try lia; reflexivity.
  - right. cbn [Zdigits2].
    destruct (Z_lt_le_dec (Zpos p) (2 ^ 53)) as [Hp|Hp].
    + assert (Hdp : (Zpos (digits2_pos p) <= 53)%Z)
        by (apply digits2_pos_le; exact Hp).
      assert (Hc : fexp prec emax (Zpos (digits2_pos p) + f) = f).
      { destruct (Z_le_gt_dec f (-1074)) as [Hlow|Hhigh].
        - unfold fexp, SpecFloat.emin, prec, emax; lia.
        - assert (Zpos (digits2_pos p) = 53%Z).
          { apply digits2_pos_eq. change (53 - 1)%Z with 52%Z.
            specialize (Hqlo ltac:(lia)). lia. }
          unfold fexp, SpecFloat.emin, prec, emax; lia. }
      exists p, f. rewrite Hc, Z.sub_diag. cbn [shr shr_m].
      repeat apply conj; try lia.
      * unfold canonical_mantissa. apply Z.eqb_eq. exact Hc.
      * reflexivity.
    + assert (Ep : Zpos p = (2 ^ 53)%Z) by lia.
      assert (Hp' : p = 9007199254740992%positive) by (apply Pos2Z.inj; exact Ep).
      subst p.
      change (Zpos (digits2_pos 9007199254740992)) with 54%Z.
      assert (Hf3 : fexp prec emax (54 + f) = (f + 1)%Z)
        by (unfold fexp, SpecFloat.emin, prec, emax; lia).
      rewrite Hf3. replace (f + 1 - f)%Z with 1%Z by lia.
      cbn [shr shr_m iter_pos shr_1].
      exists 4503599627370496%positive, (f + 1)%Z.
      repeat apply conj; try lia.
      * replace (f + 1 - f)%Z with 1%Z by lia. reflexivity.
      * unfold canonical_mantissa.
        change (Zpos (digits2_pos 4503599627370496)) with 53%Z.
        apply Z.eqb_eq. unfold fexp, SpecFloat.emin, prec, emax; lia.
      * reflexivity.
  - exfalso. assert (0 <= Zpos S / 2 ^ (f - E))%Z by (apply Z.div_pos; lia). lia.
Qed.

Lemma pow2_split (a b : Z) :
  (0 <= a)%Z -> (0 <= b)%Z -> (2 ^ (a + b) = 2 ^ a * 2 ^ b)%Z.
Proof. intros. apply Z.pow_add_r; assumption. Qed.

Lemma pow2_pos (a : Z) : (0 <= a)%Z -> (0 < 2 ^ a)%Z.
Proof. intros. apply Z.pow_pos_nonneg; lia. Qed.

Lemma canonical_bounded (p : positive) (g : Z) :
  canonical_mantissa prec emax p g = true -> (g <= 971)%Z ->
  bounded prec emax p g = true.
Proof.
  intros Hc Hg. unfold bounded. rewrite Hc. apply Z.leb_le.
  unfold emax, prec. lia.
Qed.

Lemma canonical_value (p : positive) (g : Z) :
  canonical_mantissa prec emax p g = true ->
  (-1074 <= g)%Z /\ (Zpos p < 2 ^ 53)%Z /\ ((-1074 < g)%Z -> (2 ^ 52 <= Zpos p)%Z).
Proof.
  unfold canonical_mantissa. intros Hc. apply Z.eqb_eq in Hc.
  pose proof (digits2_pos_bounds p) as [Lo Hi].
  assert (Hd : (Zpos (digits2_pos p) <= 53)%Z /\ (-1074 <= g)%Z
               /\ ((-1074 < g)%Z -> Zpos (digits2_pos p) = 53%Z))
    by (unfold fexp, SpecFloat.emin, prec, emax in Hc; lia).
  destruct Hd as [Hd [Hg Hn]]. repeat apply conj; [exact Hg | |].
  - eapply Z.lt_le_trans; [exact Hi | apply Z.pow_le_mono_r; lia].
  - intros H. specialize (Hn H).
    replace 52%Z with (Zpos (digits2_pos p) - 1)%Z by lia. exact Lo.
Qed.

(** A rounded value that is not above a float does not compare above it. *)
Lemma rounded_not_above (p : positive) (g : Z) (my : positive) (ey : Z) :
  canonical_mantissa prec emax p g = true ->
  bounded prec emax my ey = true ->
  (Zpos p * 2 ^ (g + 1074) <= Zpos my * 2 ^ (ey + 1074))%Z ->
  SFltb (S754_finite false my ey) (sf_false_finite_or_inf p g) = false.
Proof.
  intros Hc B Hv.
  destruct (canonical_value _ _ Hc) as [Hg [Hp Hn]].
  destruct (bounded_value _ _ B) as [_ [Hmy _]].
  destruct (bounded_spec _ _ B) as [_ [_ Hey]].
  assert (Hge : (g <= ey)%Z).
  { destruct (Z_le_gt_dec g ey) as [|Hgt]; [assumption|exfalso].
    specialize (Hn ltac:(lia)).
    replace (g + 1074)%Z with ((g - ey - 1) + ((ey + 1074) + 1))%Z in Hv by lia.
    rewrite (pow2_split (g - ey - 1)), (pow2_split (ey + 1074) 1) in Hv by lia.
    change (2 ^ 1)%Z with 2%Z in Hv.
    pose proof (pow2_pos (g - ey - 1) ltac:(lia)).
    pose proof (pow2_pos (ey + 1074) ltac:(lia)).
    change (2 ^ 53)%Z with 9007199254740992%Z in *.
    change (2 ^ 52)%Z with 4503599627370496%Z in *.
    set (A := (2 ^ (g - ey - 1))%Z) in *. set (C := (2 ^ (ey + 1074))%Z) in *.
    assert (H1 : (Zpos my * C < 9007199254740992 * C)%Z)
      by (apply Z.mul_lt_mono_pos_r; lia).
    assert (H2 : (4503599627370496 * (C * 2) <= Zpos p * (C * 2))%Z)
      by (apply Z.mul_le_mono_nonneg_r; lia).
    assert (H3 : (Zpos p * (C * 2) * 1 <= Zpos p * (C * 2) * A)%Z)
      by (apply Z.mul_le_mono_nonneg_l; lia).
    replace (Zpos p * (A * (C * 2)))%Z with (Zpos p * (C * 2) * A)%Z in Hv by ring.
    lia. }
  unfold sf_false_finite_or_inf.
  replace (g <=? 971)%Z with true by (symmetry; apply Z.leb_le; lia).
  apply finite_le_not_ltb; [apply canonical_bounded; [assumption|lia] | exact B | exact Hv].
Qed.

(** A rounded value that is not below a float does not compare below it. *)
Lemma rounded_not_below (p : positive) (g : Z) (my : positive) (ey : Z) :
  canonical_mantissa prec emax p g = true ->
  bounded prec emax my ey = true ->
  (Zpos my * 2 ^ (ey + 1074) <= Zpos p * 2 ^ (g + 1074))%Z ->
  SFltb (sf_false_finite_or_inf p g) (S754_finite false my ey) = false.
Proof.
  intros Hc B Hv. unfold sf_false_finite_or_inf.
  destruct (g <=? 971)%Z eqn:Eg; [|reflexivity].
  apply Z.leb_le in Eg.
  apply finite_le_not_ltb; [exact B | apply canonical_bounded; assumption | exact Hv].
Qed.

(** Rounding a positive number that is not above a float [y] gives nothing
    above [y]. *)
Lemma binary_round_aux_le (S : positive) (E : Z) (my : positive) (ey K : Z) :
  bounded prec emax my ey = true ->
  (1074 <= K)%Z -> (0 <= E + K)%Z ->
  (E <= fexp prec emax (Zpos (digits2_pos S) + E))%Z ->
  (Zpos S * 2 ^ (E + K) <= Zpos my * 2 ^ (ey + K))%Z ->
  SFltb (S754_finite false my ey)
        (binary_round_aux prec emax false (Zpos S) E loc_Exact) = false.
Proof.
  intros B HK HEK Hn Hv.
  destruct (binary_round_aux_spec S E Hn) as [q' [Hq [Hex [Hlo Hres]]]].
  set (f := fexp prec emax (Zpos (digits2_pos S) + E)) in *.
  pose proof (digits2_pos_bounds S) as [LS US].
  set (d := Zpos (digits2_pos S)) in *.
  destruct (bounded_value _ _ B) as [_ [Hmy _]].
  destruct (bounded_spec _ _ B) as [_ [_ Hey]].
  assert (Hf : (-1074 <= f)%Z /\ ((-1074 < f)%Z -> f = (d + E - 53)%Z))
    by (unfold f, fexp, SpecFloat.emin, prec, emax; lia).
  destruct Hf as [Hf0 Hf2].
  pose proof (pow2_pos (E + K) HEK) as HpEK.
  pose proof (pow2_pos (ey + K) ltac:(lia)) as HpeyK.
  assert (Hfey : (f <= ey)%Z).
  { destruct (Z_le_gt_dec f ey) as [|Hgt]; [assumption|exfalso].
    specialize (Hf2 ltac:(lia)).
    assert (H1 : (2 ^ (d - 1) * 2 ^ (E + K) <= Zpos S * 2 ^ (E + K))%Z)
      by (apply Z.mul_le_mono_nonneg_r; lia).
    rewrite <- pow2_split in H1 by lia.
    assert (H2 : (2 ^ (53 + (ey + K)) <= 2 ^ (d - 1 + (E + K)))%Z)
      by (apply Z.pow_le_mono_r; lia).
    rewrite (pow2_split 53) in H2 by lia.
    assert (H3 : (Zpos my * 2 ^ (ey + K) < 2 ^ 53 * 2 ^ (ey + K))%Z)
      by (apply Z.mul_lt_mono_pos_r; lia).
    lia. }
  pose proof (pow2_pos (f - E) ltac:(lia)) as Hpn.
  pose proof (pow2_pos (ey - f) ltac:(lia)) as Hpk.
  set (k := (Zpos my * 2 ^ (ey - f))%Z).
  assert (Hk : (Zpos S <= k * 2 ^ (f - E))%Z).
  { apply (Z.mul_le_mono_pos_r _ _ (2 ^ (E + K))); [exact HpEK|].
    unfold k. rewrite <- !Z.mul_assoc, <- !pow2_split by lia.
    replace (ey - f + (f - E + (E + K)))%Z with (ey + K)%Z by lia. exact Hv. }
  assert (Hq'k : (q' <= k)%Z).
  { assert (Hqk : (Zpos S / 2 ^ (f - E) <= k)%Z).
    { apply Z.div_le_upper_bound; [lia|]. rewrite Z.mul_comm. exact Hk. }
    destruct (Z.eq_dec (Zpos S / 2 ^ (f - E)) k) as [Heq|Hne]; [|lia].
    assert (Hmod : (Zpos S mod 2 ^ (f - E) = 0)%Z).
    { pose proof (Z.div_mod (Zpos S) (2 ^ (f - E)) ltac:(lia)) as Hdm.
      pose proof (Z.mod_pos_bound (Zpos S) (2 ^ (f - E)) Hpn) as Hmb.
      rewrite Heq in Hdm. lia. }
    rewrite (Hex Hmod). lia. }
  destruct Hres as [[_ ->]|[p [g [Hfg [Hpq [Hc ->]]]]]]; [reflexivity|].
  apply rounded_not_above; [exact Hc | exact B |].
  replace (g + 1074)%Z with ((g - f) + (f + 1074))%Z by lia.
  rewrite (pow2_split (g - f)), Z.mul_assoc, Hpq by lia.
  replace (ey + 1074)%Z with ((ey - f) + (f + 1074))%Z by lia.
  rewrite (pow2_split (ey - f)), Z.mul_assoc by lia. fold k.
  apply Z.mul_le_mono_nonneg_r; [|exact Hq'k].
  pose proof (pow2_pos (f + 1074) ltac:(lia)). lia.
Qed.

(** Rounding a positive number that is not below a float [y] gives nothing
    below [y]. *)
Lemma binary_round_aux_ge (S : positive) (E : Z) (my : positive) (ey K : Z) :
  bounded prec emax my ey = true ->
  (1074 <= K)%Z -> (0 <= E + K)%Z ->
  (E <= fexp prec emax (Zpos (digits2_pos S) + E))%Z ->
  (Zpos my * 2 ^ (ey + K) <= Zpos S * 2 ^ (E + K))%Z ->
  SFltb (binary_round_aux prec emax false (Zpos S) E loc_Exact)
        (S754_finite false my ey) = false.
Proof.
  intros B HK HEK Hn Hv.
  destruct (binary_round_aux_spec S E Hn) as [q' [Hq [Hex [Hlo Hres]]]].
  set (f := fexp prec emax (Zpos (digits2_pos S) + E)) in *.
  destruct (bounded_value _ _ B) as [Hpos [Hmy _]].
  destruct (bounded_spec _ _ B) as [_ [_ Hey]].
  assert (Hf0 : (-1074 <= f)%Z)
    by (unfold f, fexp, SpecFloat.emin, prec, emax; lia).
  pose proof (pow2_pos (E + K) HEK) as HpEK.
  pose proof (pow2_pos (f - E) ltac:(lia)) as Hpn.
  pose proof (pow2_pos (f + 1074) ltac:(lia)) as Hpf.
  pose proof (pow2_pos (ey + 1074) ltac:(lia)) as Hpey.
  assert (Hkey : (Zpos my * 2 ^ (ey + 1074) <= q' * 2 ^ (f + 1074))%Z).
  { destruct (Z_le_gt_dec f ey) as [Hfey|Hgt].
    - pose proof (pow2_pos (ey - f) ltac:(lia)) as Hpk.
      set (k := (Zpos my * 2 ^ (ey - f))%Z).
      assert (Hk : (k * 2 ^ (f - E) <= Zpos S)%Z).
      { apply (Z.mul_le_mono_pos_r _ _ (2 ^ (E + K))); [exact HpEK|].
        unfold k. rewrite <- !Z.mul_assoc, <- !pow2_split by lia.
        replace (ey - f + (f - E + (E + K)))%Z with (ey + K)%Z by lia.
        exact Hv. }
      assert (Hqk : (k <= Zpos S / 2 ^ (f - E))%Z)
        by (apply Z.div_le_lower_bound; [lia | rewrite Z.mul_comm; exact Hk]).
      replace (ey + 1074)%Z with ((ey - f) + (f + 1074))%Z by lia.
      rewrite (pow2_split (ey - f)), Z.mul_assoc by lia. fold k.
      apply Z.mul_le_mono_nonneg_r; lia.
    - specialize (Hlo ltac:(lia)).
      replace (f + 1074)%Z with ((f - ey - 1) + ((ey + 1074) + 1))%Z by lia.
      rewrite (pow2_split (f - ey - 1)), (pow2_split (ey + 1074) 1) by lia.
      change (2 ^ 1)%Z with 2%Z.
      pose proof (pow2_pos (f - ey - 1) ltac:(lia)).
      change (2 ^ 53)%Z with 9007199254740992%Z in *.
      change (2 ^ 52)%Z with 4503599627370496%Z in *.
      set (A := (2 ^ (f - ey - 1))%Z) in *. set (C := (2 ^ (ey + 1074))%Z) in *.
      assert (H1 : (Zpos my * C < 9007199254740992 * C)%Z)
        by (apply Z.mul_lt_mono_pos_r; lia).
      assert (H2 : (4503599627370496 * (C * 2) <= q' * (C * 2))%Z)
        by (apply Z.mul_le_mono_nonneg_r; lia).
      assert (H3 : (q' * (C * 2) * 1 <= q' * (C * 2) * A)%Z)
        by (apply Z.mul_le_mono_nonneg_l; lia).
      replace (q' * (A * (C * 2)))%Z with (q' * (C * 2) * A)%Z by ring.
      lia. }
  destruct Hres as [[Hz _]|[p [g [Hfg [Hpq [Hc ->]]]]]].
  - exfalso. subst q'. lia.
  - apply rounded_not_below; [exact Hc | exact B |].
    replace (g + 1074)%Z with ((g - f) + (f + 1074))%Z by lia.
    rewrite (pow2_split (g - f)), Z.mul_assoc, Hpq by lia. exact Hkey.
Qed.

(** ** Signs *)

Lemma binary_round_aux_opp (m e : Z) (l : location) :
  binary_round_aux prec emax true m e l
  = SFopp (binary_round_aux prec emax false m e l).
Proof.
  unfold binary_round_aux.
  destruct (shr_fexp prec emax m e l) as [mrs e'].
  destruct (shr_fexp prec emax _ e' loc_Exact) as [mrs' e''].
  destruct (shr_m mrs'); try reflexivity.
  destruct (e'' <=? emax - prec)%Z; reflexivity.
Qed.

Lemma SFcompare_opp (a b : spec_float) :
  SFcompare (SFopp a) (SFopp b) = SFcompare b a.
Proof.
  destruct a as [[|]|[|]| |[|] ma ea], b as [[|]|[|]| |[|] mb eb];
    try reflexivity; cbn [SFopp SFcompare negb]; f_equal;
    rewrite (Z.compare_antisym ea eb);
    destruct (ea ?= eb)%Z; cbn [CompOpp]; try reflexivity.
  - rewrite Pos.compare_cont_antisym. reflexivity.
  - apply (Pos.compare_cont_antisym ma mb Eq).
Qed.

Lemma SFltb_opp (a b : spec_float) :
  SFltb (SFopp a) (SFopp b) = SFltb b a.
Proof. unfold SFltb. rewrite SFcompare_opp. reflexivity. Qed.

(** The values that have a scaled value. *)
Lemma scaled_cases (c : spec_float) (vc : Z) :
  valid_binary c = true -> scaled c = Some vc ->
  (vc = 0%Z /\ exists s, c = S754_zero s)
  \/ (exists m e, c = S754_finite false m e /\ bounded prec emax m e = true
                  /\ vc = (Zpos m * 2 ^ (e + 1074))%Z /\ (0 < vc)%Z)
  \/ (exists m e, c = S754_finite true m e /\ bounded prec emax m e = true
                  /\ vc = (- (Zpos m * 2 ^ (e + 1074)))%Z /\ (vc < 0)%Z).
Proof.
  intros V H. destruct c as [s|s| |[|] m e]; try discriminate;
    unfold scaled in H; apply Some_inj in H; subst vc.
  - left. eauto.
  - right. right. exists m, e. destruct (bounded_value _ _ V) as [P _].
    unfold cond_Zopp. repeat split; auto; lia.
  - right. left. exists m, e. destruct (bounded_value _ _ V) as [P _].
    unfold cond_Zopp. repeat split; auto.
Qed.

Lemma binary_round_aux_shape (S : positive) (E : Z) :
  (E <= fexp prec emax (Zpos (digits2_pos S) + E))%Z ->
  let R := binary_round_aux prec emax false (Zpos S) E loc_Exact in
  R = S754_zero false \/ R = S754_infinity false
  \/ exists p g, R = S754_finite false p g.
Proof.
  intros Hn R.
  destruct (binary_round_aux_spec S E Hn) as [q' [_ [_ [_ Hres]]]].
  destruct Hres as [[_ H]|[p [g [_ [_ [_ H]]]]]]; [left; exact H|].
  right. unfold R. rewrite H. unfold sf_false_finite_or_inf.
  destruct (g <=? 971)%Z; eauto.
Qed.

(** Rounding a number of either sign that is not above [c] gives nothing
    above [c]; [K] is the scale in which the inequality is stated. *)
Lemma signed_round_le (s : bool) (S : positive) (E K : Z) (c : spec_float)
    (vc : Z) :
  valid_binary c = true -> scaled c = Some vc ->
  (1074 <= K)%Z -> (0 <= E + K)%Z ->
  (E <= fexp prec emax (Zpos (digits2_pos S) + E))%Z ->
  (cond_Zopp s (Zpos S * 2 ^ (E + K)) <= vc * 2 ^ (K - 1074))%Z ->
  SFltb c (binary_round_aux prec emax s (Zpos S) E loc_Exact) = false.
Proof.
  intros V Hc HK HEK Hn Hv.
  pose proof (pow2_pos (E + K) HEK) as HpEK.
  pose proof (pow2_pos (K - 1074) ltac:(lia)) as HpK.
  assert (HS : (0 < Zpos S * 2 ^ (E + K))%Z) by (apply Z.mul_pos_pos; lia).
  assert (Hscale : forall m e, (-1074 <= e)%Z ->
            (Zpos m * 2 ^ (e + 1074) * 2 ^ (K - 1074) = Zpos m * 2 ^ (e + K))%Z).
  { intros m e He. rewrite <- Z.mul_assoc, <- pow2_split by lia.
    f_equal. f_equal. lia. }
  destruct (scaled_cases c vc V Hc)
    as [[Hz [sc ->]]|[[m [e [-> [B [Hm Hp]]]]]|[m [e [-> [B [Hm Hp]]]]]]].
  - destruct s; unfold cond_Zopp in Hv.
    + rewrite binary_round_aux_opp.
      destruct (binary_round_aux_shape S E Hn) as [->|[->|[p [g ->]]]];
        reflexivity.
    + exfalso. subst vc. lia.
  - destruct (bounded_spec _ _ B) as [_ [_ He]].
    destruct s; unfold cond_Zopp in Hv.
    + rewrite binary_round_aux_opp.
      destruct (binary_round_aux_shape S E Hn) as [->|[->|[p [g ->]]]];
        reflexivity.
    + apply (binary_round_aux_le S E m e K); auto.
      rewrite <- (Hscale m e), <- Hm by lia. exact Hv.
  - destruct (bounded_spec _ _ B) as [_ [_ He]].
    destruct s; unfold cond_Zopp in Hv.
    + rewrite binary_round_aux_opp.
      change (S754_finite true m e) with (SFopp (S754_finite false m e)).
      rewrite SFltb_opp.
      apply (binary_round_aux_ge S E m e K); auto.
      rewrite <- (Hscale m e) by lia.
      assert (vc * 2 ^ (K - 1074) = - (Zpos m * 2 ^ (e + 1074) * 2 ^ (K - 1074)))%Z
        by (rewrite Hm; ring).
      lia.
    + exfalso.
      assert (vc * 2 ^ (K - 1074) < 0)%Z by (apply Z.mul_neg_pos; lia). lia.
Qed.

(** Rounding a number of either sign that is not below [c] gives nothing
    below [c]. *)
Lemma signed_round_ge (s : bool) (S : positive) (E K : Z) (c : spec_float)
    (vc : Z) :
  valid_binary c = true -> scaled c = Some vc ->
  (1074 <= K)%Z -> (0 <= E + K)%Z ->
  (E <= fexp prec emax (Zpos (digits2_pos S) + E))%Z ->
  (vc * 2 ^ (K - 1074) <= cond_Zopp s (Zpos S * 2 ^ (E + K)))%Z ->
  SFltb (binary_round_aux prec emax s (Zpos S) E loc_Exact) c = false.
Proof.
  intros V Hc HK HEK Hn Hv.
  pose proof (pow2_pos (E + K) HEK) as HpEK.
  pose proof (pow2_pos (K - 1074) ltac:(lia)) as HpK.
  assert (HS : (0 < Zpos S * 2 ^ (E + K))%Z) by (apply Z.mul_pos_pos; lia).
  assert (Hscale : forall m e, (-1074 <= e)%Z ->
            (Zpos m * 2 ^ (e + 1074) * 2 ^ (K - 1074) = Zpos m * 2 ^ (e + K))%Z).
  { intros m e He. rewrite <- Z.mul_assoc, <- pow2_split by lia.
    f_equal. f_equal. lia. }
  destruct (scaled_cases c vc V Hc)
    as [[Hz [sc ->]]|[[m [e [-> [B [Hm Hp]]]]]|[m [e [-> [B [Hm Hp]]]]]]].
  - destruct s; unfold cond_Zopp in Hv.
    + exfalso. subst vc. lia.
    + destruct (binary_round_aux_shape S E Hn) as [->|[->|[p [g ->]]]];
        reflexivity.
  - destruct (bounded_spec _ _ B) as [_ [_ He]].
    destruct s; unfold cond_Zopp in Hv.
    + exfalso.
      assert (0 < vc * 2 ^ (K - 1074))%Z by (apply Z.mul_pos_pos; lia). lia.
    + apply (binary_round_aux_ge S E m e K); auto.
      rewrite <- (Hscale m e), <- Hm by lia. exact Hv.
  - destruct (bounded_spec _ _ B) as [_ [_ He]].
    destruct s; unfold cond_Zopp in Hv.
    + rewrite binary_round_aux_opp.
      change (S754_finite true m e) with (SFopp (S754_finite false m e)).
      rewrite SFltb_opp.
      apply (binary_round_aux_le S E m e K); auto.
      rewrite <- (Hscale m e) by lia.
      assert (vc * 2 ^ (K - 1074) = - (Zpos m * 2 ^ (e + 1074) * 2 ^ (K - 1074)))%Z
        by (rewrite Hm; ring).
      lia.
    + destruct (binary_round_aux_shape S E Hn) as [->|[->|[p [g ->]]]];
        reflexivity.
Qed.

(** ** Sums, differences and products *)

Lemma SFltb_scaled (a b : spec_float) (va vb : Z) :
  valid_binary a = true -> valid_binary b = true ->
  scaled a = Some va -> scaled b = Some vb ->
  SFltb a b = (va <? vb)%Z.
Proof.
  intros Va Vb Ha Hb. unfold SFltb.
  rewrite (SFcompare_scaled a b va vb Va Vb Ha Hb).
  unfold Z.ltb. destruct (va ?= vb)%Z; reflexivity.
Qed.

Lemma binary_round_as_aux (s : bool) (m : positive) (e : Z) :
  exists mz ez,
    binary_round prec emax s m e
    = binary_round_aux prec emax s (Zpos mz) ez loc_Exact
    /\ (ez <= fexp prec emax (Zpos (digits2_pos mz) + ez))%Z
    /\ (ez <= e)%Z /\ (Z.min e (-1074) <= ez)%Z
    /\ Zpos mz = (Zpos m * 2 ^ (e - ez))%Z.
Proof.
  unfold binary_round, shl_align.
  set (f := fexp prec emax (Zpos (digits2_pos m) + e)).
  assert (Hf0 : (-1074 <= f)%Z)
    by (unfold f, fexp, SpecFloat.emin, prec, emax; lia).
  destruct (f - e)%Z as [|d|d] eqn:Ed.
  - exists m, e. fold f. rewrite Z.sub_diag. repeat apply conj; try lia.
    reflexivity.
  - exists m, e. fold f. rewrite Z.sub_diag. repeat apply conj; try lia.
    reflexivity.
  - exists (Pos.iter xO m d), f.
    assert (Hdig : (Zpos (digits2_pos (Pos.iter xO m d)) + f
                    = Zpos (digits2_pos m) + e)%Z)
      by (rewrite iter_xO_digits; lia).
    rewrite Hdig. fold f. repeat apply conj; try lia; [reflexivity|].
    rewrite iter_xO_value. f_equal. f_equal. lia.
Qed.

Lemma binary_normalize_le (z e : Z) (c : spec_float) (vc : Z) :
  valid_binary c = true -> scaled c = Some vc -> (-1074 <= e)%Z ->
  (z * 2 ^ (e + 1074) <= vc)%Z ->
  SFltb c (binary_normalize prec emax z e false) = false.
Proof.
  intros V Hc He Hv. destruct z as [|p|p]; cbn [binary_normalize].
  - rewrite (SFltb_scaled c (S754_zero false) vc 0 V eq_refl Hc eq_refl).
    apply Z.ltb_ge. lia.
  - destruct (binary_round_as_aux false p e) as [mz [ez [-> [Hn [H1 [H2 Hm]]]]]].
    apply (signed_round_le false mz ez 1074 c vc); auto; try lia.
    rewrite Z.sub_diag, Z.mul_1_r, Hm. unfold cond_Zopp.
    rewrite <- Z.mul_assoc, <- pow2_split by lia.
    replace (e - ez + (ez + 1074))%Z with (e + 1074)%Z by lia. exact Hv.
  - destruct (binary_round_as_aux true p e) as [mz [ez [-> [Hn [H1 [H2 Hm]]]]]].
    apply (signed_round_le true mz ez 1074 c vc); auto; try lia.
    rewrite Z.sub_diag, Z.mul_1_r, Hm. unfold cond_Zopp.
    rewrite <- Z.mul_assoc, <- pow2_split by lia.
    replace (e - ez + (ez + 1074))%Z with (e + 1074)%Z by lia.
    rewrite <- Z.mul_opp_l. exact Hv.
Qed.

Lemma binary_normalize_ge (z e : Z) (c : spec_float) (vc : Z) :
  valid_binary c = true -> scaled c = Some vc -> (-1074 <= e)%Z ->
  (vc <= z * 2 ^ (e + 1074))%Z ->
  SFltb (binary_normalize prec emax z e false) c = false.
Proof.
  intros V Hc He Hv. destruct z as [|p|p]; cbn [binary_normalize].
  - rewrite (SFltb_scaled (S754_zero false) c 0 vc eq_refl V eq_refl Hc).
    apply Z.ltb_ge. lia.
  - destruct (binary_round_as_aux false p e) as [mz [ez [-> [Hn [H1 [H2 Hm]]]]]].
    apply (signed_round_ge false mz ez 1074 c vc); auto; try lia.
    rewrite Z.sub_diag, Z.mul_1_r, Hm. unfold cond_Zopp.
    rewrite <- Z.mul_assoc, <- pow2_split by lia.
    replace (e - ez + (ez + 1074))%Z with (e + 1074)%Z by lia. exact Hv.
  - destruct (binary_round_as_aux true p e) as [mz [ez [-> [Hn [H1 [H2 Hm]]]]]].
    apply (signed_round_ge true mz ez 1074 c vc); auto; try lia.
    rewrite Z.sub_diag, Z.mul_1_r, Hm. unfold cond_Zopp.
    rewrite <- Z.mul_assoc, <- pow2_split by lia.
    replace (e - ez + (ez + 1074))%Z with (e + 1074)%Z by lia.
    rewrite <- Z.mul_opp_l. exact Hv.
Qed.

Lemma aligned_value (s : bool) (m : positive) (e ez : Z) :
  (-1074 <= ez <= e)%Z ->
  (cond_Zopp s (Zpos (fst (shl_align m e ez))) * 2 ^ (ez + 1074))%Z
  = cond_Zopp s (Zpos m * 2 ^ (e + 1074)).
Proof.
  intros H. rewrite shl_align_value by lia.
  replace (e + 1074)%Z with ((e - ez) + (ez + 1074))%Z by lia.
  rewrite (pow2_split (e - ez)) by lia.
  destruct s; unfold cond_Zopp; ring.
Qed.

(** The value of a sum or of a difference of two finite floats, before it
    is rounded. *)
Lemma aligned_sum (sa sb : bool) (ma mb : positive) (ea eb : Z) :
  bounded prec emax ma ea = true -> bounded prec emax mb eb = true ->
  let ez := Z.min ea eb in
  let x := cond_Zopp sa (Zpos (fst (shl_align ma ea ez))) in
  let y := cond_Zopp sb (Zpos (fst (shl_align mb eb ez))) in
  (-1074 <= ez)%Z
  /\ ((x + y) * 2 ^ (ez + 1074)
      = cond_Zopp sa (Zpos ma * 2 ^ (ea + 1074))
        + cond_Zopp sb (Zpos mb * 2 ^ (eb + 1074)))%Z
  /\ ((x - y) * 2 ^ (ez + 1074)
      = cond_Zopp sa (Zpos ma * 2 ^ (ea + 1074))
        - cond_Zopp sb (Zpos mb * 2 ^ (eb + 1074)))%Z.
Proof.
  intros Ba Bb ez x y.
  destruct (bounded_spec _ _ Ba) as [_ [_ Ha]].
  destruct (bounded_spec _ _ Bb) as [_ [_ Hb]].
  assert (Hez : (-1074 <= ez <= ea)%Z /\ (ez <= eb)%Z) by (unfold ez; lia).
  split; [lia|].
  rewrite Z.mul_add_distr_r, Z.mul_sub_distr_r.
  unfold x, y. rewrite !aligned_value by lia. split; reflexivity.
Qed.

Lemma SFadd_le (a b c : spec_float) (va vb vc : Z) :
  valid_binary a = true -> valid_binary b = true -> valid_binary c = true ->
  scaled a = Some va -> scaled b = Some vb -> scaled c = Some vc ->
  (va + vb <= vc)%Z -> SFltb c (SFadd prec emax a b) = false.
Proof.
  intros Va Vb Vc Ha Hb Hc Hv.
  destruct a as [sa|sa| |sa ma ea], b as [sb|sb| |sb mb eb]; try discriminate.
  - apply Some_inj in Ha, Hb. subst va vb.
    assert (E : exists s, SFadd prec emax (S754_zero sa) (S754_zero sb)
                          = S754_zero s) by (destruct sa, sb; eexists; reflexivity).
    destruct E as [s ->].
    rewrite (SFltb_scaled c (S754_zero s) vc 0 Vc eq_refl Hc eq_refl).
    apply Z.ltb_ge. lia.
  - apply Some_inj in Ha. subst va. cbn [SFadd].
    rewrite (SFltb_scaled c _ vc vb Vc Vb Hc Hb). apply Z.ltb_ge. lia.
  - apply Some_inj in Hb. subst vb. cbn [SFadd].
    rewrite (SFltb_scaled c _ vc va Vc Va Hc Ha). apply Z.ltb_ge. lia.
  - unfold scaled in Ha, Hb. apply Some_inj in Ha, Hb. cbn [SFadd].
    destruct (aligned_sum sa sb ma mb ea eb Va Vb) as [Hez [Hs _]].
    apply (binary_normalize_le _ _ c vc Vc Hc Hez).
    rewrite Hs, Ha, Hb. exact Hv.
Qed.

Lemma SFadd_ge (a b c : spec_float) (va vb vc : Z) :
  valid_binary a = true -> valid_binary b = true -> valid_binary c = true ->
  scaled a = Some va -> scaled b = Some vb -> scaled c = Some vc ->
  (vc <= va + vb)%Z -> SFltb (SFadd prec emax a b) c = false.
Proof.
  intros Va Vb Vc Ha Hb Hc Hv.
  destruct a as [sa|sa| |sa ma ea], b as [sb|sb| |sb mb eb]; try discriminate.
  - apply Some_inj in Ha, Hb. subst va vb.
    assert (E : exists s, SFadd prec emax (S754_zero sa) (S754_zero sb)
                          = S754_zero s) by (destruct sa, sb; eexists; reflexivity).
    destruct E as [s ->].
    rewrite (SFltb_scaled (S754_zero s) c 0 vc eq_refl Vc eq_refl Hc).
    apply Z.ltb_ge. lia.
  - apply Some_inj in Ha. subst va. cbn [SFadd].
    rewrite (SFltb_scaled _ c vb vc Vb Vc Hb Hc). apply Z.ltb_ge. lia.
  - apply Some_inj in Hb. subst vb. cbn [SFadd].
    rewrite (SFltb_scaled _ c va vc Va Vc Ha Hc). apply Z.ltb_ge. lia.
  - unfold scaled in Ha, Hb. apply Some_inj in Ha, Hb. cbn [SFadd].
    destruct (aligned_sum sa sb ma mb ea eb Va Vb) as [Hez [Hs _]].
    apply (binary_normalize_ge _ _ c vc Vc Hc Hez).
    rewrite Hs, Ha, Hb. exact Hv.
Qed.

Lemma scaled_opp (s : bool) (m : positive) (e : Z) :
  scaled (S754_finite (negb s) m e)
  = Some (- cond_Zopp s (Zpos m * 2 ^ (e + 1074)))%Z.
Proof. destruct s; unfold scaled, cond_Zopp, negb; f_equal; lia. Qed.

Lemma SFsub_le (a b c : spec_float) (va vb vc : Z) :
  valid_binary a = true -> valid_binary b = true -> valid_binary c = true ->
  scaled a = Some va -> scaled b = Some vb -> scaled c = Some vc ->
  (va - vb <= vc)%Z -> SFltb c (SFsub prec emax a b) = false.
Proof.
  intros Va Vb Vc Ha Hb Hc Hv.
  destruct a as [sa|sa| |sa ma ea], b as [sb|sb| |sb mb eb]; try discriminate.
  - apply Some_inj in Ha, Hb. subst va vb.
    assert (E : exists s, SFsub prec emax (S754_zero sa) (S754_zero sb)
                          = S754_zero s) by (destruct sa, sb; eexists; reflexivity).
    destruct E as [s ->].
    rewrite (SFltb_scaled c (S754_zero s) vc 0 Vc eq_refl Hc eq_refl).
    apply Z.ltb_ge. lia.
  - apply Some_inj in Ha. subst va. cbn [SFsub].
    unfold scaled in Hb. apply Some_inj in Hb.
    rewrite (SFltb_scaled c (S754_finite (negb sb) mb eb) vc _ Vc Vb Hc
               (scaled_opp sb mb eb)).
    apply Z.ltb_ge. lia.
  - apply Some_inj in Hb. subst vb. cbn [SFsub].
    rewrite (SFltb_scaled c _ vc va Vc Va Hc Ha). apply Z.ltb_ge. lia.
  - unfold scaled in Ha, Hb. apply Some_inj in Ha, Hb. cbn [SFsub].
    destruct (aligned_sum sa sb ma mb ea eb Va Vb) as [Hez [_ Hs]].
    apply (binary_normalize_le _ _ c vc Vc Hc Hez).
    rewrite Hs, Ha, Hb. exact Hv.
Qed.

Lemma SFsub_ge (a b c : spec_float) (va vb vc : Z) :
  valid_binary a = true -> valid_binary b = true -> valid_binary c = true ->
  scaled a = Some va -> scaled b = Some vb -> scaled c = Some vc ->
  (vc <= va - vb)%Z -> SFltb (SFsub prec emax a b) c = false.
Proof.
  intros Va Vb Vc Ha Hb Hc Hv.
  destruct a as [sa|sa| |sa ma ea], b as [sb|sb| |sb mb eb]; try discriminate.
  - apply Some_inj in Ha, Hb. subst va vb.
    assert (E : exists s, SFsub prec emax (S754_zero sa) (S754_zero sb)
                          = S754_zero s) by (destruct sa, sb; eexists; reflexivity).
    destruct E as [s ->].
    rewrite (SFltb_scaled (S754_zero s) c 0 vc eq_refl Vc eq_refl Hc).
    apply Z.ltb_ge. lia.
  - apply Some_inj in Ha. subst va. cbn [SFsub].
    unfold scaled in Hb. apply Some_inj in Hb.
    rewrite (SFltb_scaled (S754_finite (negb sb) mb eb) c _ vc Vb Vc
               (scaled_opp sb mb eb) Hc).
    apply Z.ltb_ge. lia.
  - apply Some_inj in Hb. subst vb. cbn [SFsub].
    rewrite (SFltb_scaled _ c va vc Va Vc Ha Hc). apply Z.ltb_ge. lia.
  - unfold scaled in Ha, Hb. apply Some_inj in Ha, Hb. cbn [SFsub].
    destruct (aligned_sum sa sb ma mb ea eb Va Vb) as [Hez [_ Hs]].
    apply (binary_normalize_ge _ _ c vc Vc Hc Hez).
    rewrite Hs, Ha, Hb. exact Hv.
Qed.

Lemma mul_exponent (mx my : positive) (ex ey : Z) :
  bounded prec emax mx ex = true -> bounded prec emax my ey = true ->
  (ex + ey <= fexp prec emax (Zpos (digits2_pos (mx * my)) + (ex + ey)))%Z.
Proof.
  intros Bx By.
  destruct (bounded_spec _ _ Bx) as [Cx [Dx Ex]].
  destruct (bounded_spec _ _ By) as [Cy [Dy Ey]].
  pose proof (digits2_pos_bounds mx) as [Lx _].
  pose proof (digits2_pos_bounds my) as [Ly _].
  pose proof (digits2_pos_bounds (mx * my)) as [_ U].
  set (dx := Zpos (digits2_pos mx)) in *. set (dy := Zpos (digits2_pos my)) in *.
  set (d := Zpos (digits2_pos (mx * my))) in *.
  assert (Hdx : (1 <= dx)%Z) by (unfold dx; lia).
  assert (Hdy : (1 <= dy)%Z) by (unfold dy; lia).
  assert (Hd : (dx + dy - 1 <= d)%Z).
  { assert (H : (2 ^ (dx - 1 + (dy - 1)) < 2 ^ d)%Z).
    { rewrite pow2_split by lia. rewrite Pos2Z.inj_mul in U.
      pose proof (pow2_pos (dx - 1) ltac:(lia)).
      pose proof (pow2_pos (dy - 1) ltac:(lia)).
      assert (2 ^ (dx - 1) * 2 ^ (dy - 1) <= Zpos mx * Zpos my)%Z
        by (apply Z.mul_le_mono_nonneg; lia).
      lia. }
    apply Z.pow_lt_mono_r_iff in H; lia. }
  unfold fexp, SpecFloat.emin, prec, emax in *. lia.
Qed.

Lemma product_value (sa sb : bool) (ma mb : positive) (ea eb : Z) :
  (-1074 <= ea)%Z -> (-1074 <= eb)%Z ->
  cond_Zopp (xorb sa sb) (Zpos (ma * mb) * 2 ^ (ea + eb + 2148))
  = (cond_Zopp sa (Zpos ma * 2 ^ (ea + 1074))
     * cond_Zopp sb (Zpos mb * 2 ^ (eb + 1074)))%Z.
Proof.
  intros Ha Hb.
  replace (ea + eb + 2148)%Z with ((ea + 1074) + (eb + 1074))%Z by lia.
  rewrite pow2_split, Pos2Z.inj_mul by lia.
  destruct sa, sb; unfold cond_Zopp, xorb; ring.
Qed.

Lemma SFmul_zero_cases (a b : spec_float) (va vb : Z) :
  scaled a = Some va -> scaled b = Some vb ->
  (exists s, SFmul prec emax a b = S754_zero s /\ (va * vb = 0)%Z)
  \/ (exists sa ma ea sb mb eb,
        a = S754_finite sa ma ea /\ b = S754_finite sb mb eb).
Proof.
  intros Ha Hb.
  destruct a as [sa|sa| |sa ma ea], b as [sb|sb| |sb mb eb]; try discriminate.
  - left. apply Some_inj in Ha. subst va. eexists. split; [reflexivity|lia].
  - left. apply Some_inj in Ha. subst va. eexists. split; [reflexivity|lia].
  - left. apply Some_inj in Hb. subst vb. eexists. split; [reflexivity|lia].
  - right. repeat eexists.
Qed.

Lemma SFmul_le (a b c : spec_float) (va vb vc : Z) :
  valid_binary a = true -> valid_binary b = true -> valid_binary c = true ->
  scaled a = Some va -> scaled b = Some vb -> scaled c = Some vc ->
  (va * vb <= vc * 2 ^ 1074)%Z -> SFltb c (SFmul prec emax a b) = false.
Proof.
  intros Va Vb Vc Ha Hb Hc Hv.
  destruct (SFmul_zero_cases a b va vb Ha Hb)
    as [[s [-> Hz]]|[sa [ma [ea [sb [mb [eb [-> ->]]]]]]]].
  - rewrite (SFltb_scaled c (S754_zero s) vc 0 Vc eq_refl Hc eq_refl).
    apply Z.ltb_ge. pose proof (pow2_pos 1074 ltac:(lia)). nia.
  - unfold scaled in Ha, Hb. apply Some_inj in Ha, Hb. cbn [SFmul].
    destruct (bounded_spec _ _ Va) as [_ [_ Ea]].
    destruct (bounded_spec _ _ Vb) as [_ [_ Eb]].
    apply (signed_round_le _ _ _ 2148 c vc Vc Hc); try lia.
    + apply mul_exponent; assumption.
    + rewrite product_value by lia. rewrite Ha, Hb. exact Hv.
Qed.

Lemma SFmul_ge (a b c : spec_float) (va vb vc : Z) :
  valid_binary a = true -> valid_binary b = true -> valid_binary c = true ->
  scaled a = Some va -> scaled b = Some vb -> scaled c = Some vc ->
  (vc * 2 ^ 1074 <= va * vb)%Z -> SFltb (SFmul prec emax a b) c = false.
Proof.
  intros Va Vb Vc Ha Hb Hc Hv.
  destruct (SFmul_zero_cases a b va vb Ha Hb)
    as [[s [-> Hz]]|[sa [ma [ea [sb [mb [eb [-> ->]]]]]]]].
  - rewrite (SFltb_scaled (S754_zero s) c 0 vc eq_refl Vc eq_refl Hc).
    apply Z.ltb_ge. pose proof (pow2_pos 1074 ltac:(lia)). nia.
  - unfold scaled in Ha, Hb. apply Some_inj in Ha, Hb. cbn [SFmul].
    destruct (bounded_spec _ _ Va) as [_ [_ Ea]].
    destruct (bounded_spec _ _ Vb) as [_ [_ Eb]].
    apply (signed_round_ge _ _ _ 2148 c vc Vc Hc); try lia.
    + apply mul_exponent; assumption.
    + rewrite product_value by lia. rewrite Ha, Hb. exact Hv.
Qed.

(** ** Bounds of sums, differences and products of floats *)

Lemma values3_spec (rel : Z -> Z -> Z -> bool) (a b c : float) :
  values3 rel a b c = true ->
  exists va vb vc,
    scaled (Prim2SF a) = Some va /\ scaled (Prim2SF b) = Some vb
    /\ scaled (Prim2SF c) = Some vc /\ rel va vb vc = true.
Proof.
  unfold values3, value.
  destruct (scaled (Prim2SF a)) as [va|]; [|discriminate].
  destruct (scaled (Prim2SF b)) as [vb|]; [|discriminate].
  destruct (scaled (Prim2SF c)) as [vc|]; [|discriminate].
  intros H. exists va, vb, vc. auto.
Qed.

(** Comparisons with the special values. *)
Lemma SFltb_special (c : spec_float) (v : Z) :
  scaled c = Some v ->
  SFltb c S754_nan = false /\ SFltb S754_nan c = false
  /\ SFltb c (S754_infinity true) = false
  /\ SFltb (S754_infinity false) c = false
  /\ SFltb c (S754_infinity false) = true
  /\ SFltb (S754_infinity true) c = true.
Proof.
  destruct c as [s|s| |[|] m e]; try discriminate; intros _;
    repeat split; try reflexivity; destruct s; reflexivity.
Qed.

Lemma SFops_special (a : spec_float) (v : Z) :
  scaled a = Some v ->
  SFadd prec emax S754_nan a = S754_nan
  /\ SFsub prec emax S754_nan a = S754_nan
  /\ SFsub prec emax a S754_nan = S754_nan
  /\ SFmul prec emax S754_nan a = S754_nan
  /\ (forall s, SFadd prec emax (S754_infinity s) a = S754_infinity s)
  /\ (forall s, SFsub prec emax (S754_infinity s) a = S754_infinity s)
  /\ (forall s, SFsub prec emax a (S754_infinity s) = S754_infinity (negb s)).
Proof.
  destruct a as [s|s| |[|] m e]; try discriminate; intros _;
    repeat split; try reflexivity; intros [|]; reflexivity.
Qed.

(** From a comparison to the values. *)
Lemma not_ltb_value (a b : spec_float) (va vb : Z) :
  valid_binary a = true -> valid_binary b = true ->
  scaled a = Some va -> scaled b = Some vb ->
  SFltb a b = false -> (vb <= va)%Z.
Proof.
  intros Va Vb Ha Hb H. rewrite (SFltb_scaled a b va vb Va Vb Ha Hb) in H.
  apply Z.ltb_ge in H. exact H.
Qed.

Lemma scaled_or_special (s : spec_float) :
  (exists v, scaled s = Some v) \/ s = S754_nan
  \/ s = S754_infinity false \/ s = S754_infinity true.
Proof.
  destruct s as [sg|[|]| |sg m e]; cbn [scaled]; eauto.
Qed.

Section Bounds.
Variables x a b c : float.

(** [x <= b] and [b + a <= c] give [x + a <= c]. *)
Lemma add_at_most :
  sum_le b a c = true -> (b <? x) = false -> (c <? x + a) = false.
Proof.
  intros Hc Hx. destruct (values3_spec _ _ _ _ Hc) as [vb [va [vc [Hb [Ha [Hc' R]]]]]].
  apply Z.leb_le in R. rewrite ltb_spec in *. rewrite add_spec.
  pose proof (Prim2SF_valid x) as Vx. pose proof (Prim2SF_valid a) as Va.
  pose proof (Prim2SF_valid b) as Vb. pose proof (Prim2SF_valid c) as Vc.
  destruct (SFltb_special _ _ Hb) as [_ [_ [_ [_ [B1 _]]]]].
  destruct (SFltb_special _ _ Hc') as [C1 [_ [C2 _]]].
  destruct (SFops_special _ _ Ha) as [A1 [_ [_ [_ [A2 _]]]]].
  destruct (scaled_or_special (Prim2SF x)) as [[vx Hvx]|[E|[E|E]]].
  - pose proof (not_ltb_value _ _ _ _ Vb Vx Hb Hvx Hx).
    apply (SFadd_le _ _ _ vx va vc); auto. lia.
  - rewrite E. unfold SF64add. rewrite A1. exact C1.
  - rewrite E in Hx. congruence.
  - rewrite E. unfold SF64add. rewrite A2. exact C2.
Qed.

(** [b <= x] and [c <= b + a] give [c <= x + a]. *)
Lemma add_at_least :
  sum_ge b a c = true -> (x <? b) = false -> (x + a <? c) = false.
Proof.
  intros Hc Hx. destruct (values3_spec _ _ _ _ Hc) as [vb [va [vc [Hb [Ha [Hc' R]]]]]].
  apply Z.leb_le in R. rewrite ltb_spec in *. rewrite add_spec.
  pose proof (Prim2SF_valid x) as Vx. pose proof (Prim2SF_valid a) as Va.
  pose proof (Prim2SF_valid b) as Vb. pose proof (Prim2SF_valid c) as Vc.
  destruct (SFltb_special _ _ Hb) as [_ [_ [_ [_ [_ B1]]]]].
  destruct (SFltb_special _ _ Hc') as [_ [C1 [_ [C2 _]]]].
  destruct (SFops_special _ _ Ha) as [A1 [_ [_ [_ [A2 _]]]]].
  destruct (scaled_or_special (Prim2SF x)) as [[vx Hvx]|[E|[E|E]]].
  - pose proof (not_ltb_value _ _ _ _ Vx Vb Hvx Hb Hx).
    apply (SFadd_ge _ _ _ vx va vc); auto. lia.
  - rewrite E. unfold SF64add. rewrite A1. exact C1.
  - rewrite E. unfold SF64add. rewrite A2. exact C2.
  - rewrite E in Hx. congruence.
Qed.

(** [x <= b] and [b - a <= c] give [x - a <= c]. *)
Lemma sub_at_most :
  difference_le b a c = true -> (b <? x) = false -> (c <? x - a) = false.
Proof.
  intros Hc Hx. destruct (values3_spec _ _ _ _ Hc) as [vb [va [vc [Hb [Ha [Hc' R]]]]]].
  apply Z.leb_le in R. rewrite ltb_spec in *. rewrite sub_spec.
  pose proof (Prim2SF_valid x) as Vx. pose proof (Prim2SF_valid a) as Va.
  pose proof (Prim2SF_valid b) as Vb. pose proof (Prim2SF_valid c) as Vc.
  destruct (SFltb_special _ _ Hb) as [_ [_ [_ [_ [B1 _]]]]].
  destruct (SFltb_special _ _ Hc') as [C1 [_ [C2 _]]].
  destruct (SFops_special _ _ Ha) as [_ [A1 [_ [_ [_ [A2 _]]]]]].
  destruct (scaled_or_special (Prim2SF x)) as [[vx Hvx]|[E|[E|E]]].
  - pose proof (not_ltb_value _ _ _ _ Vb Vx Hb Hvx Hx).
    apply (SFsub_le _ _ _ vx va vc); auto. lia.
  - rewrite E. unfold SF64sub. rewrite A1. exact C1.
  - rewrite E in Hx. congruence.
  - rewrite E. unfold SF64sub. rewrite A2. exact C2.
Qed.

(** [b <= x] and [c <= b - a] give [c <= x - a]. *)
Lemma sub_at_least :
  difference_ge b a c = true -> (x <? b) = false -> (x - a <? c) = false.
Proof.
  intros Hc Hx. destruct (values3_spec _ _ _ _ Hc) as [vb [va [vc [Hb [Ha [Hc' R]]]]]].
  apply Z.leb_le in R. rewrite ltb_spec in *. rewrite sub_spec.
  pose proof (Prim2SF_valid x) as Vx. pose proof (Prim2SF_valid a) as Va.
  pose proof (Prim2SF_valid b) as Vb. pose proof (Prim2SF_valid c) as Vc.
  destruct (SFltb_special _ _ Hb) as [_ [_ [_ [_ [_ B1]]]]].
  destruct (SFltb_special _ _ Hc') as [_ [C1 [_ [C2 _]]]].
  destruct (SFops_special _ _ Ha) as [_ [A1 [_ [_ [_ [A2 _]]]]]].
  destruct (scaled_or_special (Prim2SF x)) as [[vx Hvx]|[E|[E|E]]].
  - pose proof (not_ltb_value _ _ _ _ Vx Vb Hvx Hb Hx).
    apply (SFsub_ge _ _ _ vx va vc); auto. lia.
  - rewrite E. unfold SF64sub. rewrite A1. exact C1.
  - rewrite E. unfold SF64sub. rewrite A2. exact C2.
  - rewrite E in Hx. congruence.
Qed.

(** [b <= x] and [a - b <= c] give [a - x <= c]. *)
Lemma sub_from_at_most :
  difference_le a b c = true -> (x <? b) = false -> (c <? a - x) = false.
Proof.
  intros Hc Hx. destruct (values3_spec _ _ _ _ Hc) as [va [vb [vc [Ha [Hb [Hc' R]]]]]].
  apply Z.leb_le in R. rewrite ltb_spec in *. rewrite sub_spec.
  pose proof (Prim2SF_valid x) as Vx. pose proof (Prim2SF_valid a) as Va.
  pose proof (Prim2SF_valid b) as Vb. pose proof (Prim2SF_valid c) as Vc.
  destruct (SFltb_special _ _ Hb) as [_ [_ [_ [_ [_ B1]]]]].
  destruct (SFltb_special _ _ Hc') as [C1 [_ [C2 _]]].
  destruct (SFops_special _ _ Ha) as [_ [_ [A1 [_ [_ [_ A2]]]]]].
  destruct (scaled_or_special (Prim2SF x)) as [[vx Hvx]|[E|[E|E]]].
  - pose proof (not_ltb_value _ _ _ _ Vx Vb Hvx Hb Hx).
    apply (SFsub_le _ _ _ va vx vc); auto. lia.
  - rewrite E. unfold SF64sub. rewrite A1. exact C1.
  - rewrite E. unfold SF64sub. rewrite A2. exact C2.
  - rewrite E in Hx. congruence.
Qed.

(** [x <= b] and [c <= a - b] give [c <= a - x]. *)
Lemma sub_from_at_least :
  difference_ge a b c = true -> (b <? x) = false -> (a - x <? c) = false.
Proof.
  intros Hc Hx. destruct (values3_spec _ _ _ _ Hc) as [va [vb [vc [Ha [Hb [Hc' R]]]]]].
  apply Z.leb_le in R. rewrite ltb_spec in *. rewrite sub_spec.
  pose proof (Prim2SF_valid x) as Vx. pose proof (Prim2SF_valid a) as Va.
  pose proof (Prim2SF_valid b) as Vb. pose proof (Prim2SF_valid c) as Vc.
  destruct (SFltb_special _ _ Hb) as [_ [_ [_ [_ [B1 _]]]]].
  destruct (SFltb_special _ _ Hc') as [_ [C1 [_ [C2 _]]]].
  destruct (SFops_special _ _ Ha) as [_ [_ [A1 [_ [_ [_ A2]]]]]].
  destruct (scaled_or_special (Prim2SF x)) as [[vx Hvx]|[E|[E|E]]].
  - pose proof (not_ltb_value _ _ _ _ Vb Vx Hb Hvx Hx).
    apply (SFsub_ge _ _ _ va vx vc); auto. lia.
  - rewrite E. unfold SF64sub. rewrite A1. exact C1.
  - rewrite E in Hx. congruence.
  - rewrite E. unfold SF64sub. rewrite A2. exact C2.
Qed.

(** [0 <= x <= b], [0 <= a] and [b * a <= c] give [x * a <= c]. *)
Lemma mul_at_most :
  product_le b a c = true -> (x <? 0) = false -> (b <? x) = false ->
  (c <? x * a) = false.
Proof.
  intros Hc H0 Hx.
  destruct (values3_spec _ _ _ _ Hc) as [vb [va [vc [Hb [Ha [Hc' R]]]]]].
  apply andb_true_iff in R. destruct R as [R R3].
  apply andb_true_iff in R. destruct R as [R1 R2].
  apply Z.leb_le in R1, R2, R3. rewrite ltb_spec in *. rewrite mul_spec.
  pose proof (Prim2SF_valid x) as Vx. pose proof (Prim2SF_valid a) as Va.
  pose proof (Prim2SF_valid b) as Vb. pose proof (Prim2SF_valid c) as Vc.
  destruct (SFltb_special _ _ Hb) as [_ [_ [_ [_ [B1 _]]]]].
  destruct (SFltb_special _ _ Hc') as [C1 [_ [C2 _]]].
  destruct (SFops_special _ _ Ha) as [_ [_ [_ [A1 _]]]].
  destruct (scaled_or_special (Prim2SF x)) as [[vx Hvx]|[E|[E|E]]].
  - pose proof (not_ltb_value _ _ _ _ Vb Vx Hb Hvx Hx).
    pose proof (not_ltb_value (Prim2SF x) (Prim2SF 0) vx 0 Vx (Prim2SF_valid 0)
                  Hvx eq_refl H0).
    apply (SFmul_le _ _ _ vx va vc); auto.
    assert (vx * va <= vb * va)%Z by (apply Z.mul_le_mono_nonneg_r; lia).
    lia.
  - rewrite E. unfold SF64mul. rewrite A1. exact C1.
  - rewrite E in Hx. congruence.
  - rewrite E in H0. discriminate.
Qed.

End Bounds.

Lemma at_most_weaken (x b c : float) :
  value_le b c = true -> (b <? x) = false -> (c <? x) = false.
Proof.
  unfold value_le, value. intros Hc Hx.
  destruct (scaled (Prim2SF b)) as [vb|] eqn:Hb; [|discriminate].
  destruct (scaled (Prim2SF c)) as [vc|] eqn:Hc'; [|discriminate].
  apply Z.leb_le in Hc. rewrite ltb_spec in *.
  pose proof (Prim2SF_valid x) as Vx.
  pose proof (Prim2SF_valid b) as Vb. pose proof (Prim2SF_valid c) as Vc.
  destruct (SFltb_special _ _ Hb) as [_ [_ [_ [_ [B1 _]]]]].
  destruct (SFltb_special _ _ Hc') as [C1 [_ [C2 _]]].
  destruct (scaled_or_special (Prim2SF x)) as [[vx Hvx]|[E|[E|E]]].
  - pose proof (not_ltb_value _ _ _ _ Vb Vx Hb Hvx Hx).
    rewrite (SFltb_scaled _ _ vc vx Vc Vx Hc' Hvx). apply Z.ltb_ge. lia.
  - rewrite E. exact C1.
  - rewrite E in Hx. congruence.
  - rewrite E. exact C2.
Qed.


Lemma day_fraction_hours (x v : float) :
  py_mod x 1 = Ok v -> (v * 24 <? 0) = false /\ (24 <? v * 24) = false.
Proof.
  intros H. destruct (py_mod_range x 1 v eq_refl H) as [H0 H1]. split.
  - apply mul_not_negative; [exact H0 | reflexivity].
  - apply (mul_at_most v 24 1 24); [vm_compute; reflexivity | exact H0 | exact H1].
Qed.

Section SunTimes.
Context {L : Libm}.

Lemma spa_sun_times_range (s : sun_day) (latitude longitude dt : float)
    (T R S' : float) (notes : string) :
  spa_sun_times s latitude longitude dt = Ok (T, R, S', notes) ->
  ((T <? 0) = false /\ (24 <? T) = false)
  /\ ((R <? 0) = false /\ (24 <? R) = false)
  /\ ((S' <? 0) = false /\ (24 <? S') = false).
Proof.
  intros H. unfold spa_sun_times in H.
  peel H hr Hhr. destruct hr as [H_0 nt].
  peel_all H. apply Ok_inj in H. injection H as <- <- <- _.
  repeat match goal with
  | E : py_mod _ 1 = Ok ?v |- _ =>
      pose proof (day_fraction_hours _ _ E); clear E
  end.
  repeat apply conj; tauto.
Qed.

End SunTimes.

(** X3: the sun transit, sunrise and sunset hours that [spa] returns, each
    [(x % 1) * 24], are never negative and never above 24. *)
Theorem spa_sun_times_within_0_and_24
    (L : Libm) (year month : Z)
    (day hour minute second microsecond
     latitude longitude elevation pressure temperature omega gamma dt : float)
    (r : spa_result) :
  spa year month day hour minute second microsecond
      latitude longitude elevation pressure temperature omega gamma dt = Ok r ->
  ((sr_T r <? 0) = false /\ (24 <? sr_T r) = false)
  /\ ((sr_R r <? 0) = false /\ (24 <? sr_R r) = false)
  /\ ((sr_S r <? 0) = false /\ (24 <? sr_S r) = false).
Proof.
  intros H. unfold spa in H.
  peel H p Hp. peel H raw Hraw. peel H s Hs.
  peel H times Ht. destruct times as [[[T R] S'] notes].
  peel H date Hd. destruct date as [[y m] d].
  apply Ok_inj in H. subst r. cbn [sr_T sr_R sr_S].
  exact (spa_sun_times_range _ _ _ _ _ _ _ _ Ht).
Qed.

Lemma spa_sun_times_within_0_and_24_witness :
  exists r,
    spa 100 1 5 7 0 0 0 30 90 (-1000) 30 (-20) 359 1 DT = Ok r
    /\ ((sr_T r <? 0) = false /\ (24 <? sr_T r) = false)
    /\ ((sr_R r <? 0) = false /\ (24 <? sr_R r) = false)
    /\ ((sr_S r <? 0) = false /\ (24 <? sr_S r) = false).
Proof.
  assert (H : exists r, spa 100 1 5 7 0 0 0 30 90 (-1000) 30 (-20) 359 1 DT = Ok r)
    by (eexists; vm_compute; reflexivity).
  destruct H as [r Hr]. exists r. split; [exact Hr|].
  exact (spa_sun_times_within_0_and_24 libm_model 100%Z 1%Z 5 7 0 0 0 30 90
           (-1000) 30 (-20) 359 1 DT r Hr).
Defined.

(** X16: what [solpos] returns is clamped: the elevation [elevetr], 90
    minus a zenith angle cut at 99, and the refracted elevation [elevref],
    cut at -9, are never below -9, and the refracted zenith angle
    [zenref = 90 - elevref] is never above 99. *)
Theorem solpos_elevation_and_zenith_bounds
    (L : Libm) (fuel : nat) (year month day : Z)
    (hour minute second timezone latitude longitude pressure temperature
     aspect tilt sb_width sb_radius sb_sky interval : float)
    (r : solpos_result) :
  solpos fuel year month day hour minute second timezone latitude longitude
    pressure temperature aspect tilt sb_width sb_radius sb_sky interval = Ok r ->
  (so_elevetr r <? -9) = false
  /\ (so_elevref r <? -9) = false
  /\ (99 <? so_zenref r) = false
  /\ so_zenref r = 90 - so_elevref r.
Proof.
  intros H. unfold solpos in H. peel H s Hs.
  repeat (peel_all H;
          match type of H with
          | (let '(_, _) := ?c in _) = _ => destruct c
          end).
  peel_all H. apply Ok_inj in H. subst r.
  cbn [so_elevetr so_elevref so_zenref].
  match goal with
  | |- (90 - ?z <? _) = false /\ (?e <? _) = false /\ _ =>
      assert (Hz : (99 <? z) = false);
      [|assert (He : (e <? -9) = false)]
  end.
  - match goal with
    | |- (_ <? (if ?t then _ else _)) = false => destruct t eqn:Hclamp
    end; [reflexivity | exact Hclamp].
  - match goal with
    | |- ((if ?t then _ else _) <? _) = false => destruct t eqn:Hclamp
    end; [reflexivity | exact Hclamp].
  - repeat apply conj.
    + apply (sub_from_at_least _ 90 99 (-9)); [vm_compute; reflexivity | exact Hz].
    + exact He.
    + apply (sub_from_at_most _ 90 (-9) 99); [vm_compute; reflexivity | exact He].
    + reflexivity.
Qed.

Lemma solpos_elevation_and_zenith_bounds_witness :
  exists r,
    solpos 100 1990 3 14 12 3 4 0 20 3 1000 15 180 0 7.6 31.7 0.04 0 = Ok r
    /\ (so_elevetr r <? -9) = false
    /\ (so_elevref r <? -9) = false
    /\ (99 <? so_zenref r) = false
    /\ so_zenref r = 90 - so_elevref r.
Proof.
  assert (H : exists r, solpos 100 1990 3 14 12 3 4 0 20 3 1000 15 180 0 7.6
                          31.7 0.04 0 = Ok r)
    by (eexists; vm_compute; reflexivity).
  destruct H as [r Hr]. exists r. split; [exact Hr|].
  exact (solpos_elevation_and_zenith_bounds libm_model 100 1990 3 14 12 3 4
           0 20 3 1000 15 180 0 7.6 31.7 0.04 0 r Hr).
Defined.




(** ** Floats between two finite bounds *)

Lemma SFleb_scaled (a b : spec_float) (va vb : Z) :
  valid_binary a = true -> valid_binary b = true ->
  scaled a = Some va -> scaled b = Some vb ->
  SFleb a b = (va <=? vb)%Z.
Proof.
  intros Va Vb Ha Hb. unfold SFleb.
  rewrite (SFcompare_scaled a b va vb Va Vb Ha Hb).
  unfold Z.leb. destruct (va ?= vb)%Z; reflexivity.
Qed.

Lemma SFeqb_scaled (a b : spec_float) (va vb : Z) :
  valid_binary a = true -> valid_binary b = true ->
  scaled a = Some va -> scaled b = Some vb ->
  SFeqb a b = (va =? vb)%Z.
Proof.
  intros Va Vb Ha Hb. unfold SFeqb.
  rewrite (SFcompare_scaled a b va vb Va Vb Ha Hb).
  unfold Z.eqb. destruct (va ?= vb)%Z eqn:E.
  - apply Z.compare_eq in E. subst vb. destruct va; try reflexivity;
      rewrite Pos.eqb_refl; reflexivity.
  - destruct va, vb; try reflexivity; try discriminate;
      simpl in E; symmetry; apply Pos.eqb_neq; intros ->;
      rewrite ?Pos.compare_refl in E; simpl in E;
      rewrite ?Pos.compare_refl in E; discriminate.
  - destruct va, vb; try reflexivity; try discriminate;
      simpl in E; symmetry; apply Pos.eqb_neq; intros ->;
      rewrite ?Pos.compare_refl in E; simpl in E;
      rewrite ?Pos.compare_refl in E; discriminate.
Qed.

(** A float that is no NaN and lies between two finite floats is finite,
    and so is its value. *)
Lemma value_within (s lo hi : spec_float) (vlo vhi : Z) :
  valid_binary s = true -> valid_binary lo = true -> valid_binary hi = true ->
  scaled lo = Some vlo -> scaled hi = Some vhi ->
  s <> S754_nan -> SFltb hi s = false -> SFltb s lo = false ->
  exists v, scaled s = Some v /\ (vlo <= v <= vhi)%Z.
Proof.
  intros Vs Vlo Vhi Hlo Hhi Hn H1 H2.
  destruct (SFltb_special _ _ Hlo) as [_ [_ [_ [_ [_ L2]]]]].
  destruct (SFltb_special _ _ Hhi) as [_ [_ [_ [_ [U1 _]]]]].
  destruct (scaled_or_special s) as [[v Hv]|[E|[E|E]]]; try congruence.
  exists v. split; [exact Hv|].
  pose proof (not_ltb_value _ _ _ _ Vhi Vs Hhi Hv H1).
  pose proof (not_ltb_value _ _ _ _ Vs Vlo Hv Hlo H2). lia.
Qed.

Lemma leb_value (x lo hi : float) (vlo vhi : Z) :
  value lo = Some vlo -> value hi = Some vhi ->
  (lo <=? x) = true -> (x <=? hi) = true ->
  exists v, value x = Some v /\ (vlo <= v <= vhi)%Z.
Proof.
  unfold value. intros Hlo Hhi H1 H2.
  pose proof (leb_ltb_false _ _ H1) as N1.
  pose proof (leb_ltb_false _ _ H2) as N2.
  rewrite FloatAxioms.ltb_spec in N1, N2.
  apply (value_within _ (Prim2SF lo) (Prim2SF hi));
    auto using FloatAxioms.Prim2SF_valid.
  intros E. rewrite FloatAxioms.leb_spec, E in H1. unfold SFleb in H1.
  rewrite SFcompare_nan_r in H1. discriminate.
Qed.

Lemma binary_round_aux_not_nan (s : bool) (S : positive) (E : Z) :
  (E <= fexp prec emax (Zpos (digits2_pos S) + E))%Z ->
  binary_round_aux prec emax s (Zpos S) E loc_Exact <> S754_nan.
Proof.
  intros Hn. destruct s.
  - rewrite binary_round_aux_opp.
    destruct (binary_round_aux_shape S E Hn) as [->|[->|[p [g ->]]]];
      discriminate.
  - destruct (binary_round_aux_shape S E Hn) as [->|[->|[p [g ->]]]];
      discriminate.
Qed.

Lemma binary_normalize_not_nan (z e : Z) :
  binary_normalize prec emax z e false <> S754_nan.
Proof.
  destruct z as [|p|p]; cbn [binary_normalize]; [discriminate| |].
  - destruct (binary_round_as_aux false p e) as [mz [ez [-> [Hn _]]]].
    apply binary_round_aux_not_nan. exact Hn.
  - destruct (binary_round_as_aux true p e) as [mz [ez [-> [Hn _]]]].
    apply binary_round_aux_not_nan. exact Hn.
Qed.

Lemma SFadd_not_nan (a b : spec_float) (va vb : Z) :
  scaled a = Some va -> scaled b = Some vb ->
  SFadd prec emax a b <> S754_nan.
Proof.
  intros Ha Hb.
  destruct a as [sa|sa| |sa ma ea], b as [sb|sb| |sb mb eb]; try discriminate.
  - destruct sa, sb; discriminate.
  - cbn [SFadd]. apply binary_normalize_not_nan.
Qed.

Lemma SFsub_not_nan (a b : spec_float) (va vb : Z) :
  scaled a = Some va -> scaled b = Some vb ->
  SFsub prec emax a b <> S754_nan.
Proof.
  intros Ha Hb.
  destruct a as [sa|sa| |sa ma ea], b as [sb|sb| |sb mb eb]; try discriminate.
  - destruct sa, sb; discriminate.
  - cbn [SFsub]. apply binary_normalize_not_nan.
Qed.

Lemma SFmul_not_nan (a b : spec_float) (va vb : Z) :
  valid_binary a = true -> valid_binary b = true ->
  scaled a = Some va -> scaled b = Some vb ->
  SFmul prec emax a b <> S754_nan.
Proof.
  intros Va Vb Ha Hb.
  destruct (SFmul_zero_cases a b va vb Ha Hb)
    as [[s [-> _]]|[sa [ma [ea [sb [mb [eb [-> ->]]]]]]]]; [discriminate|].
  cbn [SFmul]. apply binary_round_aux_not_nan. apply mul_exponent; assumption.
Qed.

(** The value of a sum, of a difference and of a product of finite floats
    whose exact result lies between two floats. *)
Lemma add_value (x y lo hi : float) (vx vy vlo vhi : Z) :
  value x = Some vx -> value y = Some vy ->
  value lo = Some vlo -> value hi = Some vhi ->
  (vlo <= vx + vy <= vhi)%Z ->
  exists v, value (x + y) = Some v /\ (vlo <= v <= vhi)%Z.
Proof.
  unfold value. intros Hx Hy Hlo Hhi Hv.
  pose proof (FloatAxioms.Prim2SF_valid (x + y)) as V.
  rewrite FloatAxioms.add_spec in *. unfold SF64add in *.
  apply (value_within _ (Prim2SF lo) (Prim2SF hi));
    auto using FloatAxioms.Prim2SF_valid.
  - apply (SFadd_not_nan _ _ vx vy); assumption.
  - apply (SFadd_le _ _ _ vx vy vhi); auto using FloatAxioms.Prim2SF_valid; lia.
  - apply (SFadd_ge _ _ _ vx vy vlo); auto using FloatAxioms.Prim2SF_valid; lia.
Qed.

Lemma sub_value (x y lo hi : float) (vx vy vlo vhi : Z) :
  value x = Some vx -> value y = Some vy ->
  value lo = Some vlo -> value hi = Some vhi ->
  (vlo <= vx - vy <= vhi)%Z ->
  exists v, value (x - y) = Some v /\ (vlo <= v <= vhi)%Z.
Proof.
  unfold value. intros Hx Hy Hlo Hhi Hv.
  pose proof (FloatAxioms.Prim2SF_valid (x - y)) as V.
  rewrite FloatAxioms.sub_spec in *. unfold SF64sub in *.
  apply (value_within _ (Prim2SF lo) (Prim2SF hi));
    auto using FloatAxioms.Prim2SF_valid.
  - apply (SFsub_not_nan _ _ vx vy); assumption.
  - apply (SFsub_le _ _ _ vx vy vhi); auto using FloatAxioms.Prim2SF_valid; lia.
  - apply (SFsub_ge _ _ _ vx vy vlo); auto using FloatAxioms.Prim2SF_valid; lia.
Qed.

Lemma mul_value (x y lo hi : float) (vx vy vlo vhi : Z) :
  value x = Some vx -> value y = Some vy ->
  value lo = Some vlo -> value hi = Some vhi ->
  (vlo * 2 ^ 1074 <= vx * vy <= vhi * 2 ^ 1074)%Z ->
  exists v, value (x * y) = Some v /\ (vlo <= v <= vhi)%Z.
Proof.
  unfold value. intros Hx Hy Hlo Hhi Hv.
  pose proof (FloatAxioms.Prim2SF_valid (x * y)) as V.
  rewrite FloatAxioms.mul_spec in *. unfold SF64mul in *.
  apply (value_within _ (Prim2SF lo) (Prim2SF hi));
    auto using FloatAxioms.Prim2SF_valid.
  - apply (SFmul_not_nan _ _ vx vy); auto using FloatAxioms.Prim2SF_valid.
  - apply (SFmul_le _ _ _ vx vy vhi); auto using FloatAxioms.Prim2SF_valid; lia.
  - apply (SFmul_ge _ _ _ vx vy vlo); auto using FloatAxioms.Prim2SF_valid; lia.
Qed.

(** What the value of a finite float says of its comparisons. *)
Lemma value_facts (x : float) (v : Z) :
  value x = Some v ->
  is_nan x = false /\ is_infinity x = false
  /\ (forall y w, value y = Some w ->
        (x <? y) = (v <? w)%Z /\ (y <? x) = (w <? v)%Z
        /\ (x =? y) = (v =? w)%Z).
Proof.
  unfold value. intros H. repeat apply conj.
  - apply is_nan_false. intros E. rewrite E in H. discriminate.
  - unfold is_infinity. rewrite FloatAxioms.eqb_spec, FloatAxioms.abs_spec.
    change (Prim2SF infinity) with (S754_infinity false).
    destruct (Prim2SF x) as [[|]|[|]| |[|] m e]; try discriminate; reflexivity.
  - intros y w Hy. rewrite !FloatAxioms.ltb_spec, FloatAxioms.eqb_spec.
    repeat apply conj.
    + apply SFltb_scaled; auto using FloatAxioms.Prim2SF_valid.
    + apply SFltb_scaled; auto using FloatAxioms.Prim2SF_valid.
    + apply SFeqb_scaled; auto using FloatAxioms.Prim2SF_valid.
Qed.

(** The same for floats between bounds, the bounds' arithmetic being
    checked on their exact values. *)
Lemma value_le_spec (a b : float) :
  value_le a b = true ->
  exists va vb, value a = Some va /\ value b = Some vb /\ (va <= vb)%Z.
Proof.
  unfold value_le. destruct (value a) as [va|]; [|discriminate].
  destruct (value b) as [vb|]; [|discriminate].
  intros H. apply Z.leb_le in H. eauto.
Qed.

Lemma value_leb (x y : float) (vx vy : Z) :
  value x = Some vx -> value y = Some vy -> (vx <= vy)%Z -> (x <=? y) = true.
Proof.
  unfold value. intros Hx Hy H. rewrite FloatAxioms.leb_spec.
  rewrite (SFleb_scaled _ _ vx vy) by auto using FloatAxioms.Prim2SF_valid.
  apply Z.leb_le. exact H.
Qed.


Section Between.
Variables x y lx hx ly hy lo hi : float.
Hypothesis Hlx : (lx <=? x) = true.
Hypothesis Hhx : (x <=? hx) = true.
Hypothesis Hly : (ly <=? y) = true.
Hypothesis Hhy : (y <=? hy) = true.

Lemma add_between :
  sum_ge lx ly lo = true -> sum_le hx hy hi = true ->
  (lo <=? x + y) = true /\ (x + y <=? hi) = true.
Proof.
  intros Hl Hh.
  destruct (values3_spec _ _ _ _ Hl) as [vlx [vly [vlo [A1 [A2 [A3 R1]]]]]].
  destruct (values3_spec _ _ _ _ Hh) as [vhx [vhy [vhi [B1 [B2 [B3 R2]]]]]].
  apply Z.leb_le in R1, R2.
  destruct (leb_value x lx hx _ _ A1 B1 Hlx Hhx) as [vx [Vx Bx]].
  destruct (leb_value y ly hy _ _ A2 B2 Hly Hhy) as [vy [Vy By]].
  destruct (add_value x y lo hi vx vy vlo vhi Vx Vy A3 B3 ltac:(lia))
    as [v [Hv Bv]].
  split; [apply (value_leb _ _ vlo v) | apply (value_leb _ _ v vhi)];
    auto; lia.
Qed.

Lemma sub_between :
  difference_ge lx hy lo = true -> difference_le hx ly hi = true ->
  (lo <=? x - y) = true /\ (x - y <=? hi) = true.
Proof.
  intros Hl Hh.
  destruct (values3_spec _ _ _ _ Hl) as [vlx [vhy [vlo [A1 [A2 [A3 R1]]]]]].
  destruct (values3_spec _ _ _ _ Hh) as [vhx [vly [vhi [B1 [B2 [B3 R2]]]]]].
  apply Z.leb_le in R1, R2.
  destruct (leb_value x lx hx _ _ A1 B1 Hlx Hhx) as [vx [Vx Bx]].
  destruct (leb_value y ly hy _ _ B2 A2 Hly Hhy) as [vy [Vy By]].
  destruct (sub_value x y lo hi vx vy vlo vhi Vx Vy A3 B3 ltac:(lia))
    as [v [Hv Bv]].
  split; [apply (value_leb _ _ vlo v) | apply (value_leb _ _ v vhi)];
    auto; lia.
Qed.

(** For factors that are not negative. *)
Lemma mul_between :
  value_le 0 lx = true -> value_le 0 ly = true ->
  product_le hx hy hi = true ->
  (0 <=? x * y) = true /\ (x * y <=? hi) = true.
Proof.
  intros Zx Zy Hh.
  destruct (value_le_spec _ _ Zx) as [z [vlx [Z1 [A1 P1]]]].
  destruct (value_le_spec _ _ Zy) as [z' [vly [Z2 [A2 P2]]]].
  rewrite Z1 in Z2. apply Some_inj in Z2. subst z'.
  assert (z = 0%Z) by (apply Some_inj in Z1; symmetry; exact Z1). subst z.
  destruct (values3_spec _ _ _ _ Hh) as [vhx [vhy [vhi [B1 [B2 [B3 R2]]]]]].
  apply andb_true_iff in R2. destruct R2 as [R2 R3].
  apply Z.leb_le in R3.
  destruct (leb_value x lx hx _ _ A1 B1 Hlx Hhx) as [vx [Vx Bx]].
  destruct (leb_value y ly hy _ _ A2 B2 Hly Hhy) as [vy [Vy By]].
  assert (Hp : (0 <= vx * vy <= vhx * vhy)%Z).
  { split; [apply Z.mul_nonneg_nonneg; lia|].
    apply Z.mul_le_mono_nonneg; lia. }
  destruct (mul_value x y 0 hi vx vy 0 vhi Vx Vy Z1 B3 ltac:(lia))
    as [v [Hv Bv]].
  split; [apply (value_leb _ _ 0 v) | apply (value_leb _ _ v vhi)];
    auto; lia.
Qed.



End Between.

(** ** [x % y] below [y] *)

(** [x % y] of an [x] that is not negative stays below [y]: no [y] is added
    to the remainder, which is smaller than [y]. *)
Lemma py_mod_below (x y r : float) :
  (0 <? y) = true -> (x <? 0) = false -> py_mod x y = Ok r ->
  (y <=? r) = false.
Proof.
  intros Hy Hx. unfold py_mod.
  destruct (y =? 0); [discriminate|].
  rewrite (ltb_antisym _ _ Hy). cbn [xorb].
  destruct (fmod x y =? 0) eqn:Ez.
  { intros H. apply Ok_inj in H. subst r. exact (ltb_leb_false _ _ Hy). }
  destruct (is_nan (fmod x y)) eqn:En.
  { intros H. apply Ok_inj in H. subst r.
    rewrite FloatAxioms.leb_spec. unfold SFleb.
    destruct (Prim2SF (fmod x y)) eqn:E;
      try (rewrite is_nan_false in En by (rewrite E; discriminate);
           discriminate).
    rewrite SFcompare_nan_r. reflexivity. }
  pose proof (FloatAxioms.Prim2SF_valid y) as Vy.
  pose proof (FloatAxioms.Prim2SF_valid (fmod x y)) as Vm.
  rewrite FloatAxioms.ltb_spec in Hy, Hx.
  change (Prim2SF 0) with (S754_zero false) in Hy, Hx.
  assert (Hcase : (fmod x y <? 0) = false /\ (y <=? fmod x y) = false).
  { rewrite FloatAxioms.ltb_spec, FloatAxioms.leb_spec.
    change (Prim2SF 0) with (S754_zero false).
    destruct (Prim2SF y) as [sy|sy| |sy my ey] eqn:Py;
      try (destruct sy; discriminate); try discriminate.
    - (* y is infinite *)
      destruct sy; [discriminate|].
      destruct (Prim2SF x) as [sx|sx| |sx mx ex] eqn:Px.
      + assert (E : fmod x y = x) by (unfold fmod; rewrite Px, Py; reflexivity).
        rewrite E, FloatAxioms.eqb_spec, Px in Ez. destruct sx; discriminate.
      + assert (E : fmod x y = nan) by (unfold fmod; rewrite Px, Py; reflexivity).
        rewrite E in En. discriminate.
      + assert (E : fmod x y = nan) by (unfold fmod; rewrite Px; reflexivity).
        rewrite E in En. discriminate.
      + assert (E : fmod x y = x) by (unfold fmod; rewrite Px, Py; reflexivity).
        rewrite E, Px. destruct sx; [discriminate|]. split; reflexivity.
    - destruct sy; [discriminate|].
      destruct (Prim2SF x) as [sx|sx| |sx mx ex] eqn:Px.
      + assert (E : fmod x y = x) by (unfold fmod; rewrite Px, Py; reflexivity).
        rewrite E, FloatAxioms.eqb_spec, Px in Ez. destruct sx; discriminate.
      + assert (E : fmod x y = nan) by (unfold fmod; rewrite Px, Py; reflexivity).
        rewrite E in En. discriminate.
      + assert (E : fmod x y = nan) by (unfold fmod; rewrite Px; reflexivity).
        rewrite E in En. discriminate.
      + destruct sx; [discriminate|].
        destruct (fmod_finite x y false false mx my ex ey Px Py)
          as [[_ E0]|[m' [e' [Pm [He' [Hm' Hr]]]]]].
        * rewrite E0 in Ez. discriminate.
        * rewrite Pm. split; [reflexivity|].
          rewrite Pm in Vm.
          rewrite (SFleb_scaled _ _ _ _ Vy Vm eq_refl eq_refl).
          apply Z.leb_gt. cbn [cond_Zopp].
          cbn [valid_binary] in Vm, Vy.
          destruct (bounded_spec _ _ Vm) as [_ [_ Ee']].
          destruct (bounded_spec _ _ Vy) as [_ [_ Eey]].
          set (e := Z.min ex ey) in *.
          assert (Hee : (e <= ey)%Z) by (unfold e; lia).
          rewrite Hm'.
          replace (ey + 1074)%Z with ((ey - e) + (e - e') + (e' + 1074))%Z by lia.
          rewrite (Z.pow_add_r 2 ((ey - e) + (e - e')) (e' + 1074)) by lia.
          rewrite (Z.pow_add_r 2 (ey - e) (e - e')) by lia.
          assert (0 < 2 ^ (e - e'))%Z by (apply Z.pow_pos_nonneg; lia).
          assert (0 < 2 ^ (e' + 1074))%Z by (apply Z.pow_pos_nonneg; lia).
          rewrite !Z.mul_assoc.
          apply Z.mul_lt_mono_pos_r; [assumption|].
          apply Z.mul_lt_mono_pos_r; [assumption|]. lia. }
  destruct Hcase as [Hneg Hlt]. rewrite Hneg.
  intros H. apply Ok_inj in H. subst r. exact Hlt.
Qed.

(** ** Differences of reduced angles *)

Lemma is_nan_spec (x : float) : is_nan x = false -> Prim2SF x <> S754_nan.
Proof.
  unfold is_nan. rewrite FloatAxioms.eqb_spec. intros H E. rewrite E in H.
  discriminate.
Qed.

Lemma SFcompare_none (a b : spec_float) :
  SFcompare a b = None -> a = S754_nan \/ b = S754_nan.
Proof.
  destruct a as [sa|sa| |sa ma ea], b as [sb|sb| |sb mb eb]; simpl; auto;
    try (destruct sa; discriminate); try (destruct sb; discriminate);
    try (destruct sa, sb; discriminate).
Qed.

(** Of two floats that are no NaN, one is below the other or at least the
    other. *)
Lemma not_ltb_leb (x y : float) :
  is_nan x = false -> is_nan y = false -> (x <? y) = false -> (y <=? x) = true.
Proof.
  intros Nx Ny. apply is_nan_spec in Nx, Ny.
  rewrite FloatAxioms.ltb_spec, FloatAxioms.leb_spec.
  unfold SFltb, SFleb.
  rewrite (SFcompare_antisym (Prim2SF x) (Prim2SF y)).
  destruct (SFcompare (Prim2SF x) (Prim2SF y)) as [[| |]|] eqn:E; intros H;
    try discriminate; try reflexivity.
  destruct (SFcompare_none _ _ E); contradiction.
Qed.

Lemma sub_nan (x y : float) :
  is_nan x = true \/ is_nan y = true -> is_nan (x - y) = true.
Proof.
  assert (Hn : forall z, is_nan z = true -> Prim2SF z = S754_nan).
  { intros z Hz. destruct (Prim2SF z) eqn:E; try reflexivity;
      rewrite is_nan_false in Hz by (rewrite E; discriminate); discriminate. }
  intros H.
  assert (E : Prim2SF (x - y) = S754_nan).
  { rewrite FloatAxioms.sub_spec. unfold SF64sub.
    destruct H as [H|H]; apply Hn in H; rewrite H.
    - reflexivity.
    - destruct (Prim2SF x) as [[|]|[|]| |[|] m e]; reflexivity. }
  unfold is_nan. rewrite FloatAxioms.eqb_spec, E. reflexivity.
Qed.

Lemma leb_nan (x y : float) : is_nan y = true -> (x <=? y) = false.
Proof.
  intros H. rewrite FloatAxioms.leb_spec. unfold SFleb.
  destruct (Prim2SF y) eqn:E;
    try (rewrite is_nan_false in H by (rewrite E; discriminate); discriminate).
  rewrite SFcompare_nan_r. reflexivity.
Qed.

Lemma ltb_nan_r (x y : float) : is_nan y = true -> (x <? y) = false.
Proof.
  intros H. rewrite FloatAxioms.ltb_spec. unfold SFltb.
  destruct (Prim2SF y) eqn:E;
    try (rewrite is_nan_false in H by (rewrite E; discriminate); discriminate).
  rewrite SFcompare_nan_r. reflexivity.
Qed.

(** The difference of two floats that are NaN or within bounds is NaN or
    within the bounds' differences. *)
Lemma sub_within (x y lx hx ly hy lo hi : float) :
  (x <? lx) = false -> (hx <? x) = false ->
  (y <? ly) = false -> (hy <? y) = false ->
  difference_ge lx hy lo = true -> difference_le hx ly hi = true ->
  (x - y <? lo) = false /\ (hi <? x - y) = false.
Proof.
  intros X1 X2 Y1 Y2 Hl Hh.
  destruct (is_nan x) eqn:Nx.
  { pose proof (sub_nan x y (or_introl Nx)) as N.
    split; [apply ltb_nan | apply ltb_nan_r]; exact N. }
  destruct (is_nan y) eqn:Ny.
  { pose proof (sub_nan x y (or_intror Ny)) as N.
    split; [apply ltb_nan | apply ltb_nan_r]; exact N. }
  destruct (values3_spec _ _ _ _ Hl) as [vlx [vhy [vlo [A1 [A2 [A3 _]]]]]].
  destruct (values3_spec _ _ _ _ Hh) as [vhx [vly [vhi [B1 [B2 [B3 _]]]]]].
  assert (Nv : forall z v, value z = Some v -> is_nan z = false).
  { intros z v Hz. exact (proj1 (value_facts z v Hz)). }
  destruct (sub_between x y lx hx ly hy lo hi) as [R1 R2];
    eauto using not_ltb_leb.
  split; apply leb_ltb_false; assumption.
Qed.

(** The hour angle of [solpos] after its wraparound. *)
Lemma hrang_wrap_range (hrang : float) :
  (hrang <? -360) = false -> (360 <? hrang) = false ->
  (hrang_wrap hrang <? -180) = false /\ (180 <? hrang_wrap hrang) = false.
Proof.
  intros Hlo Hhi. unfold hrang_wrap.
  destruct (hrang <? -180) eqn:E1; [|destruct (180 <? hrang) eqn:E2].
  - split.
    + apply (add_at_least hrang 360 (-360) (-180));
        [vm_compute; reflexivity | exact Hlo].
    + apply (add_at_most hrang 360 (-180) 180); [vm_compute; reflexivity|].
      exact (ltb_antisym _ _ E1).
  - split.
    + apply (sub_at_least hrang 360 180 (-180)); [vm_compute; reflexivity|].
      exact (ltb_antisym _ _ E2).
    + apply (sub_at_most hrang 360 360 180); [vm_compute; reflexivity | exact Hhi].
  - split; assumption.
Qed.

Section SolposAngles.
Context {L : Libm}.

(** The azimuth of [solpos]: 180 when [cos(elevetr) * cos(latitude)] is
    below 0.001 in magnitude; otherwise within 0 and 360 when the arc cosine
    lies within 0 and pi, as the exact one does. *)
Lemma solpos_azim_range (elevetr tdat_cl tdat_sl tdat_sd hrang azim : float) :
  solpos_azim elevetr tdat_cl tdat_sl tdat_sd hrang = Ok azim ->
  let ce := c_cos (radians elevetr) in
  let se := c_sin (radians elevetr) in
  ((0.001 <=? abs (ce * tdat_cl)) = false -> azim = 180)
  /\ ((0.001 <=? abs (ce * tdat_cl)) = true ->
      exists a,
        solpos_azim_acos se (ce * tdat_cl) tdat_sl tdat_sd = Ok a
        /\ azim = (if 0 <? hrang then 360 - (180 - degrees a)
                   else 180 - degrees a)
        /\ ((0 <=? a) = true -> (a <=? pi) = true ->
            (0 <=? azim) = true /\ (azim <=? 360) = true)).
Proof.
  intros H ce se. unfold solpos_azim in H.
  peel H ce' Hce. peel H se' Hse.
  assert (ce' = ce).
  { unfold cosd, math_cos in Hce.
    destruct (is_infinity (radians elevetr)); [discriminate|].
    apply Ok_inj in Hce. auto. }
  assert (se' = se).
  { unfold sind, math_sin in Hse.
    destruct (is_infinity (radians elevetr)); [discriminate|].
    apply Ok_inj in Hse. auto. }
  subst ce' se'. cbv zeta in H.
  destruct (0.001 <=? abs (ce * tdat_cl)).
  - split; [discriminate|]. intros _.
    peel H a Ha. apply Ok_inj in H. exists a.
    split; [exact Ha|]. split; [auto|].
    intros A0 A1.
    destruct (mul_between a (180 / pi) 0 pi (180 / pi) (180 / pi) 180
                A0 A1 eq_refl eq_refl eq_refl eq_refl eq_refl) as [D0 D1].
    fold (degrees a) in D0, D1.
    destruct (sub_between 180 (degrees a) 180 180 0 180 0 180
                eq_refl eq_refl D0 D1 eq_refl eq_refl) as [Z0 Z1].
    subst azim. destruct (0 <? hrang).
    + destruct (sub_between 360 (180 - degrees a) 360 360 0 180 180 360
                  eq_refl eq_refl Z0 Z1 eq_refl eq_refl) as [W0 W1].
      split; [|exact W1].
      destruct (sub_between 360 (180 - degrees a) 360 360 0 180 0 360
                  eq_refl eq_refl Z0 Z1 eq_refl eq_refl) as [W0' _].
      exact W0'.
    + split; [exact Z0|].
      destruct (sub_between 180 (degrees a) 180 180 0 180 0 360
                  eq_refl eq_refl D0 D1 eq_refl eq_refl) as [_ Z1'].
      exact Z1'.
  - split; [|discriminate]. intros _. apply Ok_inj in H. auto.
Qed.

End SolposAngles.

(** ** The equation of time and its wraparound *)

(** A float at least [lo] is above every finite float below [lo]. *)
Lemma ltb_leb_trans (c lo x : float) :
  value_le c lo = true -> (c <? lo) = true -> (lo <=? x) = true ->
  (c <? x) = true.
Proof.
  intros H Hlt Hle. destruct (value_le_spec _ _ H) as [vc [vl [A [B _]]]].
  destruct (value_facts c vc A) as [_ [_ F]].
  destruct (F lo vl B) as [F1 _]. rewrite Hlt in F1. symmetry in F1.
  apply Z.ltb_lt in F1.
  pose proof (leb_ltb_false _ _ Hle) as N.
  rewrite FloatAxioms.ltb_spec in N |- *. rewrite FloatAxioms.leb_spec in Hle.
  unfold value in A, B.
  destruct (scaled_or_special (Prim2SF x)) as [[v Hv]|[E|[E|E]]].
  - rewrite (SFltb_scaled _ _ vc v) by auto using FloatAxioms.Prim2SF_valid.
    pose proof (not_ltb_value _ _ _ _ (FloatAxioms.Prim2SF_valid x)
                  (FloatAxioms.Prim2SF_valid lo) Hv B N).
    apply Z.ltb_lt. lia.
  - rewrite E in Hle. unfold SFleb in Hle. rewrite SFcompare_nan_r in Hle.
    discriminate.
  - rewrite E. destruct (SFltb_special _ _ A) as [_ [_ [_ [_ [R _]]]]]. exact R.
  - rewrite E in Hle. unfold SFleb in Hle.
    destruct (Prim2SF lo) as [[|]|[|]| |[|] m e]; discriminate.
Qed.

Lemma leb_ltb_trans (x hi c : float) :
  value_le hi c = true -> (hi <? c) = true -> (x <=? hi) = true ->
  (x <? c) = true.
Proof.
  intros H Hlt Hle. destruct (value_le_spec _ _ H) as [vh [vc [A [B _]]]].
  destruct (value_facts hi vh A) as [_ [_ F]].
  destruct (F c vc B) as [F1 _]. rewrite Hlt in F1. symmetry in F1.
  apply Z.ltb_lt in F1.
  pose proof (leb_ltb_false _ _ Hle) as N.
  rewrite FloatAxioms.ltb_spec in N |- *. rewrite FloatAxioms.leb_spec in Hle.
  unfold value in A, B.
  destruct (scaled_or_special (Prim2SF x)) as [[v Hv]|[E|[E|E]]].
  - rewrite (SFltb_scaled _ _ v vc) by auto using FloatAxioms.Prim2SF_valid.
    pose proof (not_ltb_value _ _ _ _ (FloatAxioms.Prim2SF_valid hi)
                  (FloatAxioms.Prim2SF_valid x) A Hv N).
    apply Z.ltb_lt. lia.
  - rewrite E in Hle. discriminate.
  - rewrite E in Hle. unfold SFleb in Hle.
    destruct (Prim2SF hi) as [[|]|[|]| |[|] m e]; discriminate.
  - rewrite E. destruct (SFltb_special _ _ B) as [_ [_ [_ [_ [_ R]]]]]. exact R.
Qed.

(** The wraparound of the equation of time brings a raw value within 20
    minutes of 1440 or of -1440 to within 20 minutes of 0. *)
Lemma eot_wrap_range (raw : float) :
  ((1420 <=? raw) = true -> (raw <=? 1460) = true ->
   eot_wrap raw = raw - 1440
   /\ (-20 <=? eot_wrap raw) = true /\ (eot_wrap raw <=? 20) = true)
  /\ ((-1460 <=? raw) = true -> (raw <=? -1420) = true ->
      eot_wrap raw = raw + 1440
      /\ (-20 <=? eot_wrap raw) = true /\ (eot_wrap raw <=? 20) = true).
Proof.
  split; intros Hlo Hhi; unfold eot_wrap.
  - rewrite (ltb_leb_trans 20 1420 raw eq_refl eq_refl Hlo).
    split; [reflexivity|].
    apply (sub_between raw 1440 1420 1460 1440 1440 (-20) 20); auto.
  - assert (H20 : (20 <? raw) = false).
    { apply (at_most_weaken raw (-1420) 20); [vm_compute; reflexivity|].
      exact (leb_ltb_false _ _ Hhi). }
    rewrite H20, (leb_ltb_trans raw (-1420) (-20) eq_refl eq_refl Hhi).
    split; [reflexivity|].
    apply (add_between raw 1440 (-1460) (-1420) 1440 1440 (-20) 20); auto.
Qed.

(** X18: the equation of time that [spa] returns is the raw value
    [4 * (m - 0.0057183 - a2 + dy * cos(e_2))] wrapped at most once: the raw
    value less 1440 when it is above 20, plus 1440 when it is below -20, and
    the raw value itself otherwise.  It lies within -20 and 20 whenever the
    raw value lies within 20 minutes of -1440, of 0 or of 1440. *)
Theorem equation_of_time_wrapped_once
    (L : Libm) (year month : Z)
    (day hour minute second microsecond
     latitude longitude elevation pressure temperature omega gamma dt : float)
    (r : spa_result) :
  spa year month day hour minute second microsecond
      latitude longitude elevation pressure temperature omega gamma dt = Ok r ->
  exists p raw,
    spa_position year month day hour minute second microsecond
      latitude longitude elevation pressure temperature omega gamma dt = Ok p
    /\ eot_raw p = Ok raw
    /\ sr_eot_minutes r = eot_wrap raw
    /\ ((20 <? raw) = true -> sr_eot_minutes r = raw - 1440)
    /\ ((raw <? -20) = true -> sr_eot_minutes r = raw + 1440)
    /\ ((20 <? raw) = false -> (raw <? -20) = false -> sr_eot_minutes r = raw)
    /\ ((-20 <=? raw) = true -> (raw <=? 20) = true ->
        sr_eot_minutes r = raw)
    /\ ((1420 <=? raw) = true -> (raw <=? 1460) = true ->
        (-20 <=? sr_eot_minutes r) = true /\ (sr_eot_minutes r <=? 20) = true)
    /\ ((-1460 <=? raw) = true -> (raw <=? -1420) = true ->
        (-20 <=? sr_eot_minutes r) = true /\ (sr_eot_minutes r <=? 20) = true).
Proof.
  intros H. unfold spa in H.
  peel H p Hp. peel H raw Hraw. peel H s Hs.
  peel H times Ht. destruct times as [[[T R] S'] notes].
  peel H date Hd. destruct date as [[y m] d].
  apply Ok_inj in H. subst r. cbn [sr_eot_minutes].
  destruct (eot_wrap_range raw) as [Hup Hdown].
  exists p, raw. repeat apply conj; auto using eot_wrap_fixed.
  - intros E. unfold eot_wrap. rewrite E. reflexivity.
  - intros E. unfold eot_wrap.
    assert (H20 : (20 <? raw) = false).
    { apply (at_most_weaken raw (-20) 20); [vm_compute; reflexivity|].
      exact (ltb_antisym _ _ E). }
    rewrite H20, E. reflexivity.
  - intros E1 E2. unfold eot_wrap. rewrite E1, E2. reflexivity.
  - intros A B. exact (proj2 (Hup A B)).
  - intros A B. exact (proj2 (Hdown A B)).
Qed.

Lemma equation_of_time_wrapped_once_witness :
  exists r p raw,
    spa 100 1 5 7 0 0 0 30 90 (-1000) 30 (-20) 359 1 DT = Ok r
    /\ spa_position 100 1 5 7 0 0 0 30 90 (-1000) 30 (-20) 359 1 DT = Ok p
    /\ eot_raw p = Ok raw
    /\ sr_eot_minutes r = eot_wrap raw
    /\ sr_eot_minutes r = raw.
Proof.
  assert (H : exists r, spa 100 1 5 7 0 0 0 30 90 (-1000) 30 (-20) 359 1 DT = Ok r)
    by (eexists; vm_compute; reflexivity).
  destruct H as [r Hr].
  destruct (equation_of_time_wrapped_once libm_model 100 1 5 7 0 0 0 30 90
              (-1000) 30 (-20) 359 1 DT r Hr)
    as [p [raw [Hp [Hraw [Hw [_ [_ [_ [Hin _]]]]]]]]].
  exists r, p, raw. repeat apply conj; auto.
  apply Hin.
  - clear -Hp Hraw. vm_compute in Hp. apply Ok_inj in Hp. subst p.
    vm_compute in Hraw. apply Ok_inj in Hraw. subst raw. reflexivity.
  - clear -Hp Hraw. vm_compute in Hp. apply Ok_inj in Hp. subst p.
    vm_compute in Hraw. apply Ok_inj in Hraw. subst raw. reflexivity.
Defined.

(** ** The domain of [bird] (C7) *)

Section BirdDomain.
Context {L : Libm}.





End BirdDomain.




(** ** [sampa] without an eclipse (C10) *)

(** With [dni_mod = 1] the attenuated direct normal irradiance of [bird] is
    the unattenuated one. *)
Lemma bird_dni_mod_1 (L : Libm)
    (r zenith pressure ozone water aerosol albedo dni_mod ba k1 : float)
    (b : bird_result) :
  dni_mod = 1 ->
  bird r zenith pressure ozone water aerosol albedo dni_mod ba k1 = Ok b ->
  br_direct_normal_mod b = br_direct_normal b.
Proof.
  intros ->. unfold bird. destruct (bird_domain r zenith).
  - intros H. peel H t Ht. peel H cz Hcz.
    change (0 <=? 1) with true in H. cbv iota in H.
    peel H cz' Hcz'. peel H it_mod Himod. apply Ok_inj in H. subst b.
    cbn [br_direct_normal br_direct_normal_mod]. apply mul_one_r.
  - intros H. apply Ok_inj in H. subst b. reflexivity.
Qed.

(** C10 (counterexample): with 1000 cm of ozone the beam term is negative;
    'No Eclipse' and a percentage of exactly 100 notwithstanding, the global
    horizontal irradiance is -1370.665 and its attenuated counterpart
    -490.995.  With the default ozone, at noon of the 12th of March 2019, the
    percentage is not 100 and the attenuated direct normal irradiance lies
    above the unattenuated one. *)
Lemma no_eclipse_attenuated_differs :
  match sampa 2019 1 2 3 5 55 0 (-23.923) (-130.741) (-100) 2000 (-10)
              1000 1.5 0.04 0.2 0.85 0.1 DT with
  | Ok r => sa_solar_eclipse r = NoEclipse
            /\ (sa_a_sul_percent r =? 100) = true
            /\ round3 (sa_it r) = Some (-1370665)%Z
            /\ round3 (sa_it_mod r) = Some (-490995)%Z
            /\ (sa_it r =? sa_it_mod r) = false
  | Raise _ => False
  end
  /\
  match sampa 2019 3 12 12 0 0 0 30 0 0 1010 10
              0.3 1.5 0.04 0.2 0.85 0.1 69.3 with
  | Ok r => sa_solar_eclipse r = NoEclipse
            /\ (sa_a_sul_percent r =? 100) = false
            /\ (sa_direct_normal r <? sa_direct_normal_mod r) = true
  | Raise _ => False
  end.
Proof. split; vm_compute; repeat split; reflexivity. Qed.

(** C10 (amended): when [sampa] classifies 'No Eclipse' the area of the
    unshaded lune is [pi * r_s ** 2] (as long as the C library's squares are
    not negative; clamped at 0 otherwise) and the percentage is that area
    times 100 over [pi * r_s ** 2] as binary64 computes it.  The six
    irradiances are those of [bird] at the sun's distance, the sun's zenith
    and that percentage over 100 as [dni_mod].  When the percentage is 100
    the attenuated direct normal irradiance is the unattenuated one.  Outside
    Bird's domain all six are 0.  Inside it, with [dni_mod >= 0], the
    attenuated direct normal irradiance is the unattenuated one times
    [dni_mod], the attenuated global irradiance is built from the attenuated,
    clamped beam where the unattenuated one is built from the unclamped beam
    term [id2], and each diffuse irradiance is its global one less its
    horizontal beam. *)
Theorem sampa_no_eclipse
    (L : Libm) (year month : Z)
    (day hour minute second microsecond
     latitude longitude elevation pressure temperature
     ozone water aerosol albedo ba k1 dt : float)
    (r : sampa_result) :
  sampa year month day hour minute second microsecond
        latitude longitude elevation pressure temperature
        ozone water aerosol albedo ba k1 dt = Ok r ->
  sa_solar_eclipse r = NoEclipse ->
  exists rs2 r_capital_s b,
    py_pow (sa_r_s r) 2 = Ok rs2
    /\ sa_a_sul r = (if pi * rs2 <? 0 then 0 else pi * rs2)
    /\ ((forall z, (c_pow z 2 <? 0) = false) -> sa_a_sul r = pi * rs2)
    /\ sa_a_sul_percent r = sa_a_sul r * 100 / (pi * rs2)
    /\ _sun_distance year month day hour minute second microsecond dt
       = Ok r_capital_s
    /\ bird r_capital_s (sa_theta_s r) pressure ozone water aerosol albedo
            (sa_a_sul_percent r / 100) ba k1 = Ok b
    /\ sa_direct_normal r = br_direct_normal b
    /\ sa_direct_normal_mod r = br_direct_normal_mod b
    /\ sa_it r = br_it b
    /\ sa_it_mod r = br_it_mod b
    /\ sa_diffuse_horizontal r = br_diffuse_horizontal b
    /\ sa_diffuse_horizontal_mod r = br_diffuse_horizontal_mod b
    /\ (sa_a_sul_percent r = 100 ->
        sa_direct_normal_mod r = sa_direct_normal r)
    /\ (bird_domain r_capital_s (sa_theta_s r) = false -> b = bird_zero)
    /\ (bird_domain r_capital_s (sa_theta_s r) = true ->
        (0 <=? sa_a_sul_percent r / 100) = true ->
        exists t cz,
          bird_unattenuated r_capital_s (sa_theta_s r) pressure ozone water
            aerosol albedo ba k1 = Ok t
          /\ cosd (sa_theta_s r) = Ok cz
          /\ sa_direct_normal r = (if bt_raw_direct_normal t <? 0 then 0
                                   else bt_raw_direct_normal t)
          /\ sa_direct_normal_mod r
             = sa_direct_normal r * (sa_a_sul_percent r / 100)
          /\ sa_it r = (bt_id2 t + bt_ias t) / (1 - albedo * bt_rs t)
          /\ sa_it_mod r = (sa_direct_normal_mod r * cz + bt_ias t)
                           / (1 - albedo * bt_rs t)
          /\ sa_diffuse_horizontal r = sa_it r - sa_direct_normal r * cz
          /\ sa_diffuse_horizontal_mod r
             = sa_it_mod r - sa_direct_normal_mod r * cz).
Proof.
  intros H Hno.
  destruct (sampa_eclipse_stages _ _ _ _ _ _ _ _ _ _ _ _ _ _ _ _ _ _ _ _ _ H)
    as [ems [rcs [ec [b [_ [Hrcs [_ [He [Hb [Hn [Hs [Hp
         [H1 [H2 [H3 [H4 [H5 H6]]]]]]]]]]]]]]]]].
  destruct (sampa_eclipse_cases _ _ _ _ He)
    as [_ [_ [_ [_ [_ [Hai [rs2 [Hrs2 [Hsul [_ [Hpct Hsign]]]]]]]]]]].
  rewrite Hn in Hno. rewrite (Hai Hno), sub_zero_r in Hsul.
  exists rs2, rcs, b. repeat apply conj; auto.
  - rewrite Hs. exact Hsul.
  - intros Hsq. rewrite Hs, Hsul.
    destruct (Hsign Hsq) as [-> _]. reflexivity.
  - rewrite Hp, Hs. exact Hpct.
  - intros E. rewrite H1, H2.
    apply (bird_dni_mod_1 _ _ _ _ _ _ _ _ _ _ _ _ (f_equal (fun x => x / 100) E) Hb).
  - intros Hd. unfold bird in Hb. rewrite Hd in Hb. apply Ok_inj in Hb. auto.
  - intros Hd Hm.
    destruct (bird_attenuated _ _ _ _ _ _ _ _ _ _ _ Hb Hd Hm)
      as [t [cz [Ht [Hcz [B1 [B2 [B3 [B4 [B5 B6]]]]]]]]].
    exists t, cz. rewrite H1, H2, H3, H4, H5, H6. repeat apply conj; auto.
Qed.

Lemma sampa_no_eclipse_witness :
  exists r rs2 r_capital_s b,
    sampa 2019 1 2 3 5 55 0 (-23.923) (-130.741) (-100) 2000 (-10)
          0.3 1.5 0.04 0.2 0.85 0.1 DT = Ok r
    /\ py_pow (sa_r_s r) 2 = Ok rs2
    /\ sa_a_sul r = pi * rs2
    /\ sa_a_sul_percent r = sa_a_sul r * 100 / (pi * rs2)
    /\ _sun_distance 2019 1 2 3 5 55 0 DT = Ok r_capital_s
    /\ bird r_capital_s (sa_theta_s r) 2000 0.3 1.5 0.04 0.2
            (sa_a_sul_percent r / 100) 0.85 0.1 = Ok b
    /\ sa_it_mod r = br_it_mod b.
Proof.
  assert (H : exists r, sampa 2019 1 2 3 5 55 0 (-23.923) (-130.741) (-100) 2000
                          (-10) 0.3 1.5 0.04 0.2 0.85 0.1 DT = Ok r
                        /\ sa_solar_eclipse r = NoEclipse)
    by (eexists; vm_compute; split; reflexivity).
  destruct H as [r [Hr Hno]].
  destruct (sampa_no_eclipse libm_model 2019 1 2 3 5 55 0 (-23.923) (-130.741)
              (-100) 2000 (-10) 0.3 1.5 0.04 0.2 0.85 0.1 DT r Hr Hno)
    as [rs2 [R [b Hall]]].
  pose proof libm_model_square_not_negative as Hsq.
  exists r, rs2, R, b. tauto.
Defined.

(** ** Angles and their ranges (C8) *)

(** C8 (amended): in [spa] the geocentric right ascension and the observer
    hour angle come out of [% 360] and lie in [0, 360]; the topocentric right
    ascension and the topocentric hour angle are these plus and minus the
    parallax [da] and are not reduced again; the astronomers' azimuth
    [gamma2] lies in [0, 360] and the azimuth [f = (gamma2 + 180) % 360] in
    [0, 360).  In [solpos] the right ascension and the local mean sidereal
    time lie in [0, 360], the hour angle is their difference wrapped once and
    lies in [-180, 180], and the azimuth is 180 when
    [|cos(elevetr) * cos(latitude)| < 0.001] and otherwise
    [180 - degrees(acos(ca))], taken from 360 when the hour angle is
    positive, which lies in [0, 360] when the arc cosine lies in [0, pi]. *)
Theorem angles_reduced_before_parallax :
  (forall (L : Libm) (year month : Z)
      (day hour minute second microsecond
       latitude longitude elevation pressure temperature omega gamma dt : float)
      (r : spa_result),
    spa year month day hour minute second microsecond
        latitude longitude elevation pressure temperature omega gamma dt = Ok r ->
    exists p,
      spa_position year month day hour minute second microsecond
        latitude longitude elevation pressure temperature omega gamma dt = Ok p
      /\ (gc_a2 (ps_geo p) <? 0) = false /\ (360 <? gc_a2 (ps_geo p)) = false
      /\ (ps_h p <? 0) = false /\ (360 <? ps_h p) = false
      /\ sr_a_prime r = gc_a2 (ps_geo p) + tp_da (ps_top p)
      /\ sr_h_prime r = ps_h p - tp_da (ps_top p)
      /\ (tp_gamma2 (ps_top p) <? 0) = false
      /\ (360 <? tp_gamma2 (ps_top p)) = false
      /\ py_mod (tp_gamma2 (ps_top p) + 180) 360 = Ok (sr_f r)
      /\ (sr_f r <? 0) = false /\ (360 <=? sr_f r) = false)
  /\
  (forall (L : Libm) (fuel : nat) (year month day : Z)
      (hour minute second timezone latitude longitude pressure temperature
       aspect tilt sb_width sb_radius sb_sky interval : float)
      (r : solpos_result),
    solpos fuel year month day hour minute second timezone latitude longitude
           pressure temperature aspect tilt sb_width sb_radius sb_sky interval
    = Ok r ->
    exists s,
      solpos_sun_position fuel year month day hour minute second timezone
        longitude interval = Ok s
      /\ so_rascen r = sp_rascen s
      /\ (so_rascen r <? 0) = false /\ (360 <? so_rascen r) = false
      /\ (sp_lmst s <? 0) = false /\ (360 <? sp_lmst s) = false
      /\ sp_hrang s = hrang_wrap (sp_lmst s - sp_rascen s)
      /\ (sp_hrang s <? -180) = false /\ (180 <? sp_hrang s) = false
      /\ (let cl := c_cos (radians latitude) in
          let sl := c_sin (radians latitude) in
          let sd := c_sin (radians (so_declin r)) in
          let ce := c_cos (radians (so_elevetr r)) in
          let se := c_sin (radians (so_elevetr r)) in
          solpos_azim (so_elevetr r) cl sl sd (sp_hrang s) = Ok (so_azim r)
          /\ ((0.001 <=? abs (ce * cl)) = false -> so_azim r = 180)
          /\ ((0.001 <=? abs (ce * cl)) = true ->
              exists a,
                solpos_azim_acos se (ce * cl) sl sd = Ok a
                /\ so_azim r = (if 0 <? sp_hrang s then 360 - (180 - degrees a)
                                else 180 - degrees a)
                /\ ((0 <=? a) = true -> (a <=? pi) = true ->
                    (0 <=? so_azim r) = true /\ (so_azim r <=? 360) = true)))).
Proof.
  split.
  - intros L year month day hour minute second microsecond latitude longitude
      elevation pressure temperature omega gamma dt r H.
    unfold spa in H.
    peel H p Hp. peel H raw Hraw. peel H s Hs.
    peel H times Ht. destruct times as [[[T R] S'] notes].
    peel H date Hd. destruct date as [[y m] d].
    apply Ok_inj in H. subst r. cbn [sr_a_prime sr_h_prime sr_f].
    destruct (spa_position_angles _ _ _ _ _ _ _ _ _ _ _ _ _ _ _ _ Hp)
      as [[xa Ha2] [[xh Hh] [Ha [Hh' Hf]]]].
    assert (Hg2 : exists x, py_mod x 360 = Ok (tp_gamma2 (ps_top p))).
    { pose proof Hp as Hp'. unfold spa_position in Hp'.
      peel Hp' j Hj. peel Hp' g Hg. peel Hp' n0 Hn0. peel Hp' ce Hce.
      peel Hp' h Hh0. peel Hp' xi Hxi. peel Hp' t Htt. peel_all Hp'.
      apply Ok_inj in Hp'. subst p. cbn [ps_top].
      destruct (to_topocentric_angles _ _ _ _ _ _ _ _ _ Htt) as [_ [_ [_ Hg2]]].
      exact Hg2. }
    destruct Hg2 as [xg Hg2].
    destruct (py_mod_range xa 360 _ eq_refl Ha2) as [A0 A1].
    destruct (py_mod_range xh 360 _ eq_refl Hh) as [B0 B1].
    destruct (py_mod_range xg 360 _ eq_refl Hg2) as [G0 G1].
    exists p. repeat apply conj; auto.
    + exact (py_mod_not_negative (tp_gamma2 (ps_top p) + 180) 360 _ eq_refl Hf).
    + apply (py_mod_below (tp_gamma2 (ps_top p) + 180) 360 _ eq_refl); [|exact Hf].
      apply (add_at_least _ 180 0 0); [vm_compute; reflexivity | exact G0].
  - intros L fuel year month day hour minute second timezone latitude longitude
      pressure temperature aspect tilt sb_width sb_radius sb_sky interval r H.
    unfold solpos in H.
    peel H s Hs.
    destruct (solpos_angles _ _ _ _ _ _ _ _ _ _ _ Hs) as [[xr Hr] [[xl Hl] Hh]].
    destruct (py_mod_range xr 360 _ eq_refl Hr) as [R0 R1].
    destruct (py_mod_range xl 360 _ eq_refl Hl) as [L0 L1].
    destruct (sub_within (sp_lmst s) (sp_rascen s) 0 360 0 360 (-360) 360
                L0 L1 R0 R1 eq_refl eq_refl) as [D0 D1].
    destruct (hrang_wrap_range _ D0 D1) as [W0 W1]. rewrite <- Hh in W0, W1.
    peel H cd Hcd. peel H ch Hch. peel H cl Hcl. peel H sd Hsd. peel H sl Hsl.
    peel H zenetr Hzen. peel H ssha Hssha. peel H cd3 Hcd3. peel H q Hq.
    peel H ss Hss. peel H q1 Hq1. peel H tst Htst. peel H tst' Htst'.
    match type of H with
    | (let '(_, _) := ?c in _) = _ => destruct c as [sretr ssetr]
    end.
    peel H azim Haz.
    repeat (peel_all H;
            match type of H with
            | (let '(_, _) := ?c in _) = _ => destruct c
            end).
    peel_all H. apply Ok_inj in H. subst r.
    cbn [so_rascen so_azim so_elevetr so_declin].
    assert (Ecl : cl = c_cos (radians latitude)).
    { unfold cosd, math_cos in Hcl.
      destruct (is_infinity (radians latitude)); [discriminate|].
      apply Ok_inj in Hcl. auto. }
    assert (Esl : sl = c_sin (radians latitude)).
    { unfold sind, math_sin in Hsl.
      destruct (is_infinity (radians latitude)); [discriminate|].
      apply Ok_inj in Hsl. auto. }
    assert (Esd : sd = c_sin (radians (sp_declin s))).
    { unfold sind, math_sin in Hsd.
      destruct (is_infinity (radians (sp_declin s))); [discriminate|].
      apply Ok_inj in Hsd. auto. }
    subst cl sl sd.
    destruct (solpos_azim_range _ _ _ _ _ _ Haz) as [Z1 Z2].
    exists s. repeat apply conj; auto.
Qed.

Lemma angles_reduced_before_parallax_witness :
  (exists r p,
     spa 2020 3 20 3 48 0 0 0 30 0 1010 10 0 0 DT = Ok r
     /\ spa_position 2020 3 20 3 48 0 0 0 30 0 1010 10 0 0 DT = Ok p
     /\ sr_a_prime r = gc_a2 (ps_geo p) + tp_da (ps_top p)
     /\ (360 <? gc_a2 (ps_geo p)) = false
     /\ (360 <=? sr_f r) = false)
  /\ (exists r s a,
        solpos 20 1999 7 22 9 45 37 (-5) 33.65 (-84.43) 1006 27
               135 33.65 7.6 31.7 0.04 0 = Ok r
        /\ solpos_sun_position 20 1999 7 22 9 45 37 (-5) (-84.43) 0 = Ok s
        /\ (sp_hrang s <? -180) = false /\ (180 <? sp_hrang s) = false
        /\ solpos_azim_acos (c_sin (radians (so_elevetr r)))
             (c_cos (radians (so_elevetr r)) * c_cos (radians 33.65))
             (c_sin (radians 33.65)) (c_sin (radians (so_declin r))) = Ok a
        /\ (0 <=? so_azim r) = true /\ (so_azim r <=? 360) = true).
Proof.
  split.
  - assert (H : exists r, spa 2020 3 20 3 48 0 0 0 30 0 1010 10 0 0 DT = Ok r)
      by (eexists; vm_compute; reflexivity).
    destruct H as [r Hr].
    destruct (proj1 angles_reduced_before_parallax libm_model 2020%Z 3%Z 20 3 48
                0 0 0 30 0 1010 10 0 0 DT r Hr) as [p Hall].
    exists r, p. split; [exact Hr|]. tauto.
  - assert (H : exists r,
        solpos 20 1999 7 22 9 45 37 (-5) 33.65 (-84.43) 1006 27
               135 33.65 7.6 31.7 0.04 0 = Ok r
        /\ (0.001 <=? abs (c_cos (radians (so_elevetr r))
                           * c_cos (radians 33.65))) = true)
      by (eexists; vm_compute; split; reflexivity).
    destruct H as [r [Hr Hc]].
    destruct (proj2 angles_reduced_before_parallax libm_model 20%nat 1999%Z 7%Z
                22%Z 9 45 37 (-5) 33.65 (-84.43) 1006 27 135 33.65 7.6 31.7
                0.04 0 r Hr)
      as [s [Hs [_ [_ [_ [_ [_ [_ [W0 [W1 [_ [_ Hin]]]]]]]]]]]].
    destruct (Hin Hc) as [a [Ha [_ Hb]]].
    assert (Hrange : (0 <=? a) = true /\ (a <=? pi) = true).
    { revert Ha. generalize a. clear -Hr.
      vm_compute in Hr. apply Ok_inj in Hr. subst r.
      intros a Ha. vm_compute in Ha. apply Ok_inj in Ha. subst a.
      split; vm_compute; reflexivity. }
    destruct Hrange as [A0 A1]. destruct (Hb A0 A1) as [B0 B1].
    exists r, s, a. repeat apply conj; auto.
Defined.
